(** * highdicom: structured-report templates and value representations

    A shallow embedding of [highdicom/valuerep.py] and of the query and
    construction logic of [highdicom/sr/templates.py], together with the
    properties of the specification that concern them.

    Conventions of the embedding.
    - A Python function that may raise is a function into [result A]:
      [inl e] is the exception [e] raised, [inr a] the value returned.
    - The parameters of the template constructors and getters range
      over their annotated Python types; an [isinstance] guard against
      the annotated type of a parameter therefore always passes and is
      recorded in a comment at the place where the source performs it.
      [check_person_name], whose purpose is that guard, takes an
      arbitrary object.
    - A content item is a node of the document tree; its
      [ContentSequence] attribute is optional, exactly as on the
      underlying dataset. *)

From Stdlib Require Import List String Ascii ZArith Bool Lia.
From stdpp Require Import base option gmap strings.
Import ListNotations.

Local Open Scope string_scope.
#[local] Set Warnings "-register-all".

(** ** Exceptions and results *)

Inductive exn : Type :=
| TypeError (msg : string)
| ValueError (msg : string)
| RuntimeError (msg : string)
| IndexError
| KeyError
| AttributeError (attr : string).

Definition result (A : Type) : Type := (exn + A)%type.

(** The double-quote character, for the text of messages. *)
Definition dq : string := String (ascii_of_nat 34) EmptyString.

Definition ret {A : Type} (a : A) : result A := inr a.
Definition raise {A : Type} (e : exn) : result A := inl e.

Definition bind {A B : Type} (m : result A) (k : A -> result B) : result B :=
  match m with
  | inl e => inl e
  | inr a => k a
  end.

Notation "'do' x <- m ; k" := (bind m (fun x => k))
  (at level 10, x pattern, m at level 100, k at level 200).

Definition is_ValueError {A : Type} (r : result A) : Prop :=
  exists msg, r = inl (ValueError msg).
Definition is_TypeError {A : Type} (r : result A) : Prop :=
  exists msg, r = inl (TypeError msg).
Definition is_RuntimeError {A : Type} (r : result A) : Prop :=
  exists msg, r = inl (RuntimeError msg).
Definition raises {A : Type} (r : result A) : Prop :=
  exists e, r = inl e.
Definition returns {A : Type} (r : result A) : Prop :=
  exists a, r = inr a.

(** ** valuerep.py *)

Module valuerep.

(** The objects [check_person_name] can be handed at run time.  A
    [pydicom.valuerep.PersonName] compares and searches through its
    string form, which is what [PyPersonName] carries. *)
Inductive PyObject : Type :=
| PyStr (s : string)
| PyPersonName (s : string)
| PyNone
| PyInt (z : Z)
| PyBool (b : bool)
| PyBytes (b : list ascii).

(** [isinstance(person_name, (str, PersonName))] *)
Definition isinstance_str_or_PersonName (o : PyObject) : option string :=
  match o with
  | PyStr s | PyPersonName s => Some s
  | _ => None
  end.

(** [sub in s] on Python strings: substring search. *)
Fixpoint str_contains (sub s : string) : bool :=
  String.prefix sub s ||
  match s with
  | EmptyString => false
  | String _ s' => str_contains sub s'
  end.

Definition name_url : string :=
  "http://dicom.nema.org/dicom/2013/output/chtml/part05/" ++
  "sect_6.2.html#sect_6.2.1.2".

Definition single_component_msg (person_name : string) : string :=
  "The string " ++ dq ++ person_name ++ dq ++
  " is unlikely to represent the " ++
  "intended person name since it contains only a single component. " ++
  "Construct a person name according to the format in described " ++
  "in " ++ name_url ++ ", or, in pydicom 2.2.0 or later, use the " ++
  "pydicom.valuerep.PersonName.from_named_components() method " ++
  "to construct the person name correctly. If a single-component " ++
  "name is really intended, add a trailing caret character to " ++
  "disambiguate the name.".

Definition check_person_name (person_name : PyObject) : result unit :=
  match isinstance_str_or_PersonName person_name with
  | None => raise (TypeError "Invalid type for a person name.")
  | Some s =>
      if negb (str_contains "^" s) && negb (String.eqb s EmptyString)
      then raise (ValueError (single_component_msg s))
      else ret tt
  end.

End valuerep.

(** ** The content tree (highdicom.sr) *)

Local Open Scope list_scope.
Local Open Scope nat_scope.

Module sr.

(** Modelled from the spec: the value-type discriminant of a content
    item; [highdicom.sr.enum.ValueTypeValues] is missing from the
    sources, the variants are those the specification lists. *)
Inductive ValueTypeValues : Type :=
| CODE | TEXT | NUM | UIDREF | PNAME | IMAGE | COMPOSITE | CONTAINER
| SCOORD | SCOORD3D | DATETIME.

(** Modelled from the spec: the relationship of a child item to its
    parent; [highdicom.sr.enum.RelationshipTypeValues] is missing from
    the sources. *)
Inductive RelationshipTypeValues : Type :=
| CONTAINS | HAS_PROPERTIES | HAS_OBS_CONTEXT | HAS_ACQ_CONTEXT
| HAS_CONCEPT_MOD | SELECTED_FROM | INFERRED_FROM.

(** Modelled from the spec: the graphic types of SCOORD and SCOORD3D
    items; [highdicom.sr.enum.GraphicTypeValues] and
    [GraphicTypeValues3D] are missing from the sources, the members are
    those that the guards of the measurement-group getters name and the
    remaining ones of the standard. *)
Inductive GraphicTypeValues : Type :=
| GT_CIRCLE | GT_ELLIPSE | GT_MULTIPOINT | GT_POINT | GT_POLYLINE.

Inductive GraphicTypeValues3D : Type :=
| GT3D_ELLIPSE | GT3D_ELLIPSOID | GT3D_MULTIPOINT | GT3D_POINT
| GT3D_POLYLINE | GT3D_POLYGON.

(** [str(graphic_type)] for a member of the enumeration
    [GraphicTypeValues3D], as an f-string renders it. *)
Definition str_GraphicTypeValues3D (g : GraphicTypeValues3D) : string :=
  ("GraphicTypeValues3D." ++
   match g with
   | GT3D_ELLIPSE => "ELLIPSE" | GT3D_ELLIPSOID => "ELLIPSOID"
   | GT3D_MULTIPOINT => "MULTIPOINT" | GT3D_POINT => "POINT"
   | GT3D_POLYLINE => "POLYLINE" | GT3D_POLYGON => "POLYGON"
   end)%string.

#[export] Instance ValueTypeValues_eq_dec : EqDecision ValueTypeValues.
Proof. solve_decision. Defined.
#[export] Instance RelationshipTypeValues_eq_dec :
  EqDecision RelationshipTypeValues.
Proof. solve_decision. Defined.
#[export] Instance GraphicTypeValues_eq_dec : EqDecision GraphicTypeValues.
Proof. solve_decision. Defined.
#[export] Instance GraphicTypeValues3D_eq_dec :
  EqDecision GraphicTypeValues3D.
Proof. solve_decision. Defined.

(** Modelled from the spec: a coded concept is the triple (code value,
    coding scheme designator, meaning); [highdicom.sr.coding] is
    missing from the sources. *)
Record CodedConcept : Type := mkCode {
  code_value : string;
  scheme_designator : string;
  meaning : string
}.

(** Modelled from the spec: equality of coded concepts is by (scheme,
    value) only; the meaning is descriptive. *)
Definition code_eqb (a b : CodedConcept) : bool :=
  String.eqb (code_value a) (code_value b) &&
  String.eqb (scheme_designator a) (scheme_designator b).

(** [c in cs] for a tuple, list or set of coded concepts. *)
Definition code_in (c : CodedConcept) (cs : list CodedConcept) : bool :=
  existsb (code_eqb c) cs.

(** Modelled from the spec: the type-specific payload of a content
    item, one constructor per variant ([highdicom.sr.value_types] is
    missing from the sources).  Numbers and coordinates are kept in
    their decimal-string rendering. *)
Inductive Payload : Type :=
| PCode (v : CodedConcept)
| PText (v : string)
| PNum (v : string) (unit : CodedConcept) (qualifier : option CodedConcept)
| PUidRef (uid : string)
| PPname (v : string)
| PImage (referenced_sop_class_uid referenced_sop_instance_uid : string)
         (frame_numbers segment_numbers : list Z)
| PComposite (referenced_sop_class_uid referenced_sop_instance_uid : string)
| PContainer (template_id : option string)
| PScoord (graphic_type : GraphicTypeValues) (graphic_data : list string)
| PScoord3D (graphic_type : GraphicTypeValues3D) (graphic_data : list string)
            (frame_of_reference_uid : string)
| PDateTime (v : string).

(** Modelled from the spec: a content item carries a concept name, an
    optional relationship type to its parent, the payload of its
    variant and, optionally, an ordered sequence of child items
    ([highdicom.sr.value_types] is missing from the sources). *)
Inductive ContentItem : Type :=
| mkItem (name : CodedConcept)
         (relationship_type : option RelationshipTypeValues)
         (payload : Payload)
         (ContentSequence : option (list ContentItem)).

Definition name (i : ContentItem) : CodedConcept :=
  match i with mkItem n _ _ _ => n end.
Definition relationship_type (i : ContentItem)
  : option RelationshipTypeValues :=
  match i with mkItem _ r _ _ => r end.
Definition payload (i : ContentItem) : Payload :=
  match i with mkItem _ _ p _ => p end.
Definition ContentSequence (i : ContentItem) : option (list ContentItem) :=
  match i with mkItem _ _ _ cs => cs end.

Definition value_type (i : ContentItem) : ValueTypeValues :=
  match payload i with
  | PCode _ => CODE
  | PText _ => TEXT
  | PNum _ _ _ => NUM
  | PUidRef _ => UIDREF
  | PPname _ => PNAME
  | PImage _ _ _ _ => IMAGE
  | PComposite _ _ => COMPOSITE
  | PContainer _ => CONTAINER
  | PScoord _ _ => SCOORD
  | PScoord3D _ _ _ => SCOORD3D
  | PDateTime _ => DATETIME
  end.

(** Modelled from the spec: the property
    [ContainerContentItem.template_id] (missing from the sources) is
    the identifier carried by the template-identifier tag, [None] when
    the tag is absent. *)
Definition template_id (i : ContentItem) : option string :=
  match payload i with
  | PContainer t => t
  | _ => None
  end.

(** [item.ContentSequence], raising when the attribute is absent. *)
Definition get_ContentSequence (i : ContentItem) : result (list ContentItem) :=
  match ContentSequence i with
  | Some cs => ret cs
  | None => raise (AttributeError "ContentSequence")
  end.

(** [hasattr(item, 'ContentSequence')] *)
Definition has_ContentSequence (i : ContentItem) : bool :=
  match ContentSequence i with Some _ => true | None => false end.

Definition vt_eqb (a b : ValueTypeValues) : bool := bool_decide (a = b).
Definition vt_in (a : ValueTypeValues) (l : list ValueTypeValues) : bool :=
  existsb (vt_eqb a) l.
Definition rel_eqb (a b : option RelationshipTypeValues) : bool :=
  bool_decide (a = b).

(** A content sequence is an ordered list of content items; a template
    is a content sequence built by its constructor. *)
Definition ContentSeq : Type := list ContentItem.

(** [self[0]] *)
Definition item0 (self : ContentSeq) : result ContentItem :=
  match self with
  | i :: _ => ret i
  | [] => raise IndexError
  end.

(** Modelled from the spec: the filters of [find_content_items], which
    belongs to [highdicom.sr.utils] and is missing from the sources:
    coded-concept equality on the name, the discriminant for the value
    type, tag equality for the relationship type; a filter that is not
    supplied matches. *)
Definition item_matches (name_f : option CodedConcept)
    (value_type_f : option ValueTypeValues)
    (relationship_type_f : option RelationshipTypeValues)
    (item : ContentItem) : bool :=
  match name_f with Some n => code_eqb (name item) n | None => true end &&
  match value_type_f with
  | Some v => vt_eqb (value_type item) v | None => true end &&
  match relationship_type_f with
  | Some r => rel_eqb (relationship_type item) (Some r) | None => true end.

(** Modelled from the spec: the traversal of [find_content_items]
    (missing from the sources), in document order, over the direct
    children only unless [recursive].  It iterates over
    [node.ContentSequence], an attribute that an item without child
    content does not have: the search raises [AttributeError] on such
    an item, which is why the accessors of [Measurement] in the
    sources test [hasattr(self[0], 'ContentSequence')] before they
    search.  The descent into a child is guarded by the same test. *)
Fixpoint search_tree (name_f : option CodedConcept)
    (value_type_f : option ValueTypeValues)
    (relationship_type_f : option RelationshipTypeValues)
    (recursive : bool) (node : ContentItem) {struct node}
  : result (list ContentItem) :=
  match node with
  | mkItem _ _ _ ocs =>
    match ocs with
    | None => raise (AttributeError "ContentSequence")
    | Some cs =>
      (fix go (l : list ContentItem) : result (list ContentItem) :=
         match l with
         | [] => ret []
         | c :: l' =>
             let matched :=
               if item_matches name_f value_type_f relationship_type_f c
               then [c] else [] in
             do below <-
               (if has_ContentSequence c && recursive
                then search_tree name_f value_type_f relationship_type_f
                       recursive c
                else ret []);
             do rest <- go l';
             ret (matched ++ below ++ rest)
         end) cs
    end
  end.

(** Modelled from the spec: [find_content_items] of
    [highdicom.sr.utils] (missing from the sources) returns, in document
    order, the descendants of [dataset] (direct children only unless
    [recursive]) that match every supplied filter; no match yields the
    empty list.  On a [dataset] without [ContentSequence] it raises
    [AttributeError]. *)
Definition find_content_items (dataset : ContentItem)
    (name_f : option CodedConcept)
    (value_type_f : option ValueTypeValues)
    (relationship_type_f : option RelationshipTypeValues)
    (recursive : bool) : result (list ContentItem) :=
  search_tree name_f value_type_f relationship_type_f recursive dataset.

End sr.

(** ** Coded concepts used by the templates

    The constants of [pydicom.sr.codedict.codes] that the templates
    module names, with the code values of the DICOM (DCM) and SNOMED CT
    (SCT) dictionaries; the concepts that the module spells out itself
    (Tracking Identifier, Measurement Group, Finding, ...) carry the
    values written there. *)

Module codes.
Import sr.

Definition DCM (v m : string) : CodedConcept := mkCode v "DCM" m.
Definition SCT (v m : string) : CodedConcept := mkCode v "SCT" m.

Definition ImageRegion := DCM "111030" "Image Region".
Definition VolumeSurface := DCM "121231" "Volume Surface".
Definition ReferencedSegment := DCM "121191" "Referenced Segment".
Definition ReferencedSegmentationFrame :=
  DCM "121214" "Referenced Segmentation Frame".
Definition _REGION_IN_SPACE := DCM "130488" "Region in Space".
Definition MeasurementGroup := DCM "125007" "Measurement Group".
Definition ImagingMeasurements := DCM "126010" "Imaging Measurements".
Definition Finding := DCM "121071" "Finding".
Definition FindingSite := SCT "363698007" "Finding Site".
Definition FindingCategory := SCT "276214006" "Finding category".
Definition MeasurementMethod := SCT "370129005" "Measurement Method".
Definition Derivation := DCM "121401" "Derivation".
Definition TrackingIdentifier := DCM "112039" "Tracking Identifier".
Definition TrackingUniqueIdentifier :=
  DCM "112040" "Tracking Unique Identifier".
Definition ActivitySession := mkCode "C67447" "NCIt" "Activity Session".
Definition GeometricPurposeOfRegion :=
  DCM "130400" "Geometric purpose of region".
Definition SourceOfMeasurement := DCM "121112" "Source of Measurement".
Definition SourceImageForSegmentation :=
  DCM "121233" "Source Image for Segmentation".
Definition _SOURCE := SCT "260753009" "Source".
Definition ObserverType := DCM "121005" "Observer Type".
Definition Person := DCM "121006" "Person".
Definition Device := DCM "121007" "Device".
Definition PersonObserverName := DCM "121008" "Person Observer Name".
Definition PersonObserverLoginName :=
  DCM "128774" "Person Observer's Login Name".
Definition PersonObserverOrganizationName :=
  DCM "121009" "Person Observer's Organization Name".
Definition PersonObserverRoleInTheOrganization :=
  DCM "121010" "Person Observer's Role in the Organization".
Definition PersonObserverRoleInThisProcedure :=
  DCM "121011" "Person Observer's Role in this Procedure".
Definition DeviceObserverUID := DCM "121012" "Device Observer UID".
Definition DeviceObserverName := DCM "121013" "Device Observer Name".
Definition DeviceObserverManufacturer :=
  DCM "121014" "Device Observer Manufacturer".
Definition DeviceObserverModelName :=
  DCM "121015" "Device Observer Model Name".
Definition DeviceObserverSerialNumber :=
  DCM "121016" "Device Observer Serial Number".
Definition DeviceObserverPhysicalLocationDuringObservation :=
  DCM "121017" "Device Observer Physical Location During Observation".
Definition DeviceRoleInProcedure := DCM "113876" "Device Role in Procedure".
Definition SubjectClass := DCM "121024" "Subject Class".
Definition Fetus := DCM "121026" "Fetus".
Definition Specimen := DCM "121027" "Specimen".
Definition SubjectID := DCM "121030" "Subject ID".
Definition SpecimenUID := DCM "121039" "Specimen UID".
Definition SpecimenIdentifier := DCM "121041" "Specimen Identifier".
Definition SpecimenContainerIdentifier :=
  DCM "111700" "Specimen Container Identifier".
Definition SpecimenType := SCT "371439000" "Specimen Type".
Definition DeviceSubjectName := DCM "121193" "Device Subject Name".
Definition DeviceSubjectManufacturer :=
  DCM "121194" "Device Subject Manufacturer".
Definition DeviceSubjectModelName := DCM "121195" "Device Subject Model Name".
Definition DeviceSubjectSerialNumber :=
  DCM "121196" "Device Subject Serial Number".
Definition DeviceSubjectPhysicalLocationDuringObservation :=
  DCM "121197" "Device Subject Physical Location During Observation".
Definition DeviceSubjectUID := DCM "121198" "Device Subject UID".
Definition ProcedureReported := DCM "121058" "Procedure reported".
Definition ImagingMeasurementReport :=
  DCM "126000" "Imaging Measurement Report".

End codes.

(** ** templates.py: classification of measurement groups *)

Module templates.
Import sr.

(** The six counters of [_count_roi_items], in the order returned. *)
Definition roi_counts : Type := (nat * nat * nat * nat * nat * nat)%type.

(** One pass of the loop body of [_count_roi_items]. *)
Definition count_roi_step (acc : roi_counts) (item : ContentItem)
  : roi_counts :=
  let '(n_image_region_items, n_image_region_3d_items,
        n_volume_surface_items, n_referenced_segment_items,
        n_referenced_segmentation_frame_items,
        n_region_in_space_items) := acc in
  let '(n_image_region_items, n_image_region_3d_items) :=
    if code_eqb (name item) codes.ImageRegion then
      (if vt_eqb (value_type item) SCOORD
       then S n_image_region_items else n_image_region_items,
       if vt_eqb (value_type item) SCOORD3D
       then S n_image_region_3d_items else n_image_region_3d_items)
    else (n_image_region_items, n_image_region_3d_items) in
  let n_volume_surface_items :=
    if code_eqb (name item) codes.VolumeSurface &&
       vt_eqb (value_type item) SCOORD3D
    then S n_volume_surface_items else n_volume_surface_items in
  let n_referenced_segment_items :=
    if code_eqb (name item) codes.ReferencedSegment &&
       vt_eqb (value_type item) IMAGE
    then S n_referenced_segment_items else n_referenced_segment_items in
  let n_referenced_segmentation_frame_items :=
    if code_eqb (name item) codes.ReferencedSegmentationFrame &&
       vt_eqb (value_type item) IMAGE
    then S n_referenced_segmentation_frame_items
    else n_referenced_segmentation_frame_items in
  let n_region_in_space_items :=
    if code_eqb (name item) codes._REGION_IN_SPACE &&
       vt_eqb (value_type item) COMPOSITE
    then S n_region_in_space_items else n_region_in_space_items in
  (n_image_region_items, n_image_region_3d_items, n_volume_surface_items,
   n_referenced_segment_items, n_referenced_segmentation_frame_items,
   n_region_in_space_items).

Definition _count_roi_items (group_item : ContentItem) : result roi_counts :=
  if negb (vt_eqb (value_type group_item) CONTAINER) then
    raise (ValueError
      ("SR Content Item does not represent a measurement group " ++
       "because it does not have value type CONTAINER.")%string)
  else if negb (code_eqb (name group_item) codes.MeasurementGroup) then
    raise (ValueError
      ("SR Content Item does not represent a measurement group " ++
       "because it does not have name " ++ dq ++ "Measurement Group" ++
       dq ++ ".")%string)
  else
    do cs <- get_ContentSequence group_item;
    ret (fold_left count_roi_step cs (0, 0, 0, 0, 0, 0)).

Definition _contains_planar_rois (group_item : ContentItem) : result bool :=
  do (n_image_region_items, n_image_region_3d_items,
       n_volume_surface_items, n_referenced_segment_items,
       n_referenced_segmentation_frame_items,
       n_region_in_space_items) <- _count_roi_items group_item;
  if ((n_image_region_items + n_image_region_3d_items =? 1) ||
      (0 <? n_referenced_segmentation_frame_items) ||
      (n_region_in_space_items =? 1)) &&
     ((n_volume_surface_items =? 0) &&
      (n_referenced_segment_items =? 0))
  then ret true
  else ret false.

Definition _contains_volumetric_rois (group_item : ContentItem)
  : result bool :=
  do (n_image_region_items, n_image_region_3d_items,
       n_volume_surface_items, n_referenced_segment_items,
       n_referenced_segmentation_frame_items,
       n_region_in_space_items) <- _count_roi_items group_item;
  if ((1 <? n_image_region_items) ||
      (0 <? n_referenced_segment_items) ||
      (0 <? n_volume_surface_items) ||
      (0 <? n_region_in_space_items)) &&
     ((n_referenced_segmentation_frame_items =? 0) &&
      (n_image_region_3d_items =? 0))
  then ret true
  else ret false.

(** ** templates.py: the ROI reference of a measurement group *)

(** The dictionary [ref_type_value_type_map] of
    [_get_roi_reference_items], in insertion order. *)
Definition ref_type_value_type_map
  : list (CodedConcept * list ValueTypeValues) :=
  [ (codes.ImageRegion, [SCOORD; SCOORD3D]);
    (codes.VolumeSurface, [SCOORD3D]);
    (codes.ReferencedSegment, [IMAGE]);
    (codes.ReferencedSegmentationFrame, [IMAGE]);
    (codes._REGION_IN_SPACE, [COMPOSITE]) ].

(** [d[key]] on a dictionary keyed by coded concepts. *)
Fixpoint dict_get {V : Type} (d : list (CodedConcept * V))
    (key : CodedConcept) : result V :=
  match d with
  | [] => raise KeyError
  | (k, v) :: d' => if code_eqb key k then ret v else dict_get d' key
  end.

Definition msg_different_reference_types : string :=
  "Multiple different reference types were found.".
Definition msg_multiple_reference_items (reference_type : CodedConcept)
  : string :=
  ("Multiple different reference items of type " ++ dq ++
   meaning reference_type ++ dq ++ " are not permitted.")%string.
Definition msg_no_reference_item : string :=
  "No content item representing a valid ROI reference was found.".

(** The loop of [_get_roi_reference_items] over the remaining children,
    threading [reference_type] and [returned_items]. *)
Fixpoint roi_reference_loop (allowed_reference_types : list CodedConcept)
    (items : list ContentItem) (reference_type : option CodedConcept)
    (returned_items : list ContentItem)
  : result (option CodedConcept * list ContentItem) :=
  match items with
  | [] => ret (reference_type, returned_items)
  | item :: rest =>
      if negb (rel_eqb (relationship_type item) (Some CONTAINS)) then
        roi_reference_loop allowed_reference_types rest
          reference_type returned_items
      else if code_in (name item) allowed_reference_types then
        do expected_value_types <-
          dict_get ref_type_value_type_map (name item);
        if vt_in (value_type item) expected_value_types then
          match reference_type with
          | None =>
              roi_reference_loop allowed_reference_types rest
                (Some (name item)) (returned_items ++ [item])
          | Some rt =>
              if negb (code_eqb (name item) rt) then
                raise (RuntimeError msg_different_reference_types)
              else if negb (code_in rt
                              [codes.ImageRegion; codes.VolumeSurface]) then
                raise (RuntimeError (msg_multiple_reference_items rt))
              else
                roi_reference_loop allowed_reference_types rest
                  (Some rt) (returned_items ++ [item])
          end
        else
          roi_reference_loop allowed_reference_types rest
            reference_type returned_items
      else
        roi_reference_loop allowed_reference_types rest
          reference_type returned_items
  end.

Definition _get_roi_reference_items (group_item : ContentItem)
    (allowed_reference_types : list CodedConcept)
  : result (option CodedConcept * list ContentItem) :=
  do cs <- get_ContentSequence group_item;
  do (reference_type, returned_items) <-
    roi_reference_loop allowed_reference_types cs None [];
  if length returned_items =? 0 then
    raise (RuntimeError msg_no_reference_item)
  else ret (reference_type, returned_items).

(** The class attributes [_allowed_roi_reference_types]. *)
Definition Planar_allowed_roi_reference_types : list CodedConcept :=
  [codes.ImageRegion; codes.ReferencedSegmentationFrame;
   codes._REGION_IN_SPACE].
Definition Volumetric_allowed_roi_reference_types : list CodedConcept :=
  [codes.ImageRegion; codes.ReferencedSegment; codes.VolumeSurface;
   codes._REGION_IN_SPACE].

Definition _get_planar_roi_reference_item (group_item : ContentItem)
  : result (option CodedConcept * ContentItem) :=
  do (reference_type, items) <-
    _get_roi_reference_items group_item Planar_allowed_roi_reference_types;
  if 1 <? length items then
    raise (RuntimeError
      ("Multiple reference items were found in the planar ROI " ++
       "measurements group.")%string)
  else
    do item <- item0 items;
    ret (reference_type, item).

Definition _get_volumetric_roi_reference_items (group_item : ContentItem)
  : result (option CodedConcept * list ContentItem) :=
  _get_roi_reference_items group_item Volumetric_allowed_roi_reference_types.

(** ** templates.py: tests on the children of an item *)

(** The loop shared by the [_contains_..._items] helpers: [true] at the
    first matched item that passes [test], [false] when none does. *)
Fixpoint any_item (test : ContentItem -> bool)
    (matched_items : list ContentItem) : bool :=
  match matched_items with
  | [] => false
  | item :: rest => if test item then true else any_item test rest
  end.

Definition _contains_code_items (parent_item : ContentItem)
    (name_f : CodedConcept) (value : option CodedConcept)
    (relationship_type_f : option RelationshipTypeValues)
  : result bool :=
  do matched_items <-
    find_content_items parent_item (Some name_f) (Some CODE)
      relationship_type_f false;
  ret (any_item
    (fun item =>
       match value with
       | Some value =>
           match payload item with
           | PCode v => code_eqb v value
           | _ => false
           end
       | None => true
       end)
    matched_items).

Definition _contains_text_items (parent_item : ContentItem)
    (name_f : CodedConcept) (value : option string)
    (relationship_type_f : option RelationshipTypeValues)
  : result bool :=
  do matched_items <-
    find_content_items parent_item (Some name_f) (Some TEXT)
      relationship_type_f false;
  ret (any_item
    (fun item =>
       match value with
       | Some value =>
           match payload item with
           | PText v => String.eqb v value
           | _ => false
           end
       | None => true
       end)
    matched_items).

Definition _contains_uidref_items (parent_item : ContentItem)
    (name_f : CodedConcept) (value : option string)
    (relationship_type_f : option RelationshipTypeValues)
  : result bool :=
  do matched_items <-
    find_content_items parent_item (Some name_f) (Some UIDREF)
      relationship_type_f false;
  ret (any_item
    (fun item =>
       match value with
       | Some value =>
           match payload item with
           | PUidRef v => String.eqb v value
           | _ => false
           end
       | None => true
       end)
    matched_items).

(** One pass of the loop of [_contains_image_items]: [false] stands for
    [continue], [true] for reaching [return True]. *)
Definition image_item_passes (referenced_sop_class_uid : option string)
    (referenced_sop_instance_uid : option string) (item : ContentItem)
  : bool :=
  match payload item with
  | PImage class_uid instance_uid _ _ =>
      match referenced_sop_class_uid with
      | Some c => String.eqb class_uid c
      | None => true
      end &&
      match referenced_sop_instance_uid with
      | Some i => String.eqb instance_uid i
      | None => true
      end
  | _ => false
  end.

Definition _contains_image_items (parent_item : ContentItem)
    (name_f : option CodedConcept)
    (referenced_sop_class_uid : option string)
    (referenced_sop_instance_uid : option string)
    (relationship_type_f : option RelationshipTypeValues)
  : result bool :=
  do matched_items <-
    find_content_items parent_item name_f (Some IMAGE)
      relationship_type_f false;
  ret (any_item
    (image_item_passes referenced_sop_class_uid referenced_sop_instance_uid)
    matched_items).

(** ** Content item constructors *)

(** Modelled from the spec: the constructors of the content item
    variants belong to [highdicom.sr.value_types], which is missing from
    the sources; each builds an item of its variant with the given
    name, relationship type and payload, and no child content. *)
Definition TextContentItem (n : CodedConcept) (v : string)
    (r : RelationshipTypeValues) : ContentItem :=
  mkItem n (Some r) (PText v) None.
(** Modelled from the spec: as [TextContentItem], for the variant of
    the name. *)
Definition UIDRefContentItem (n : CodedConcept) (v : string)
    (r : RelationshipTypeValues) : ContentItem :=
  mkItem n (Some r) (PUidRef v) None.
(** Modelled from the spec: as [TextContentItem], for the variant of
    the name. *)
Definition CodeContentItem (n : CodedConcept) (v : CodedConcept)
    (r : RelationshipTypeValues) : ContentItem :=
  mkItem n (Some r) (PCode v) None.
(** Modelled from the spec: as [TextContentItem], for the variant of
    the name. *)
Definition PnameContentItem (n : CodedConcept) (v : string)
    (r : RelationshipTypeValues) : ContentItem :=
  mkItem n (Some r) (PPname v) None.
(** Modelled from the spec: as [TextContentItem], for the variant of
    the name. *)
Definition ContainerContentItem (n : CodedConcept)
    (r : option RelationshipTypeValues) (tid : option string)
  : ContentItem :=
  mkItem n r (PContainer tid) None.
(** Modelled from the spec: as [TextContentItem], for the NUM variant:
    the numeric value in its decimal rendering, the unit and the
    optional qualifier. *)
Definition NumContentItem (n : CodedConcept) (v : string)
    (unit : CodedConcept) (qualifier : option CodedConcept)
    (r : RelationshipTypeValues) : ContentItem :=
  mkItem n (Some r) (PNum v unit qualifier) None.

(** [item.ContentSequence = content] *)
Definition set_ContentSequence (i : ContentItem) (content : ContentSeq)
  : ContentItem :=
  mkItem (name i) (relationship_type i) (payload i) (Some content).

(** [item.ContentTemplateSequence[0].TemplateIdentifier = tid] *)
Definition set_template_id (i : ContentItem) (tid : string)
  : result ContentItem :=
  match payload i with
  | PContainer (Some _) =>
      ret (mkItem (name i) (relationship_type i) (PContainer (Some tid))
             (ContentSequence i))
  | _ => raise (AttributeError "ContentTemplateSequence")
  end.

(** [item.ContentSequence.extend(items)] (and [append] for one item),
    on the item held by the enclosing sequence. *)
Definition extend_ContentSequence (i : ContentItem) (items : ContentSeq)
  : result ContentItem :=
  do cs <- get_ContentSequence i;
  ret (set_ContentSequence i (cs ++ items)).

(** Modelled from the spec: the [value] property of CODE, TEXT and
    UIDREF items ([highdicom.sr.value_types] is missing from the
    sources) reads the payload of the variant. *)
Definition code_item_value (i : ContentItem) : result CodedConcept :=
  match payload i with
  | PCode v => ret v
  | _ => raise (AttributeError "value")
  end.
Definition text_item_value (i : ContentItem) : result string :=
  match payload i with
  | PText v => ret v
  | _ => raise (AttributeError "value")
  end.
Definition uidref_item_value (i : ContentItem) : result string :=
  match payload i with
  | PUidRef v => ret v
  | _ => raise (AttributeError "value")
  end.

(** ** TID 4108 Tracking Identifier *)

(** [TrackingIdentifier.__init__].  [fresh_uid] is the identifier that
    [UID()] generates when no [uid] is passed. *)
Definition TrackingIdentifier (fresh_uid : string)
    (uid identifier : option string) : ContentSeq :=
  let self : ContentSeq := [] in
  let uid := match uid with None => fresh_uid | Some u => u end in
  let self :=
    match identifier with
    | Some identifier =>
        let tracking_identifier_item :=
          TextContentItem
            (mkCode "112039" "DCM" "Tracking Identifier")
            identifier HAS_OBS_CONTEXT in
        self ++ [tracking_identifier_item]
    | None => self
    end in
  let tracking_uid_item :=
    UIDRefContentItem
      (mkCode "112040" "DCM" "Tracking Unique Identifier")
      uid HAS_OBS_CONTEXT in
  self ++ [tracking_uid_item].

(** ** TID 300 Measurement: accessors *)

Module Measurement.

(** [matches[0].value] when there is a match, [None] otherwise. *)
Definition first_code_value (matches : list ContentItem)
  : result (option CodedConcept) :=
  if 0 <? length matches then
    do m <- item0 matches;
    do v <- code_item_value m;
    ret (Some v)
  else ret None.

Definition derivation (self : ContentSeq) : result (option CodedConcept) :=
  do i0 <- item0 self;
  if negb (has_ContentSequence i0) then ret None
  else
    do matches <-
      find_content_items i0 (Some codes.Derivation) (Some CODE) None false;
    first_code_value matches.

Definition method (self : ContentSeq) : result (option CodedConcept) :=
  do i0 <- item0 self;
  if negb (has_ContentSequence i0) then ret None
  else
    do matches <-
      find_content_items i0 (Some codes.MeasurementMethod) (Some CODE)
        None false;
    first_code_value matches.

(** The typed views [SourceImageForMeasurement.from_dataset],
    [CoordinatesForMeasurement.from_dataset] and
    [FindingSite.from_dataset] ([highdicom.sr.content] is missing from
    the sources) reinterpret the matched item; the item itself stands
    for the view. *)
Definition referenced_images (self : ContentSeq) : result (list ContentItem) :=
  do i0 <- item0 self;
  if negb (has_ContentSequence i0) then ret []
  else
    find_content_items i0 (Some codes.SourceOfMeasurement) (Some IMAGE)
      None false.

Definition referenced_coordinates (self : ContentSeq)
  : result (list ContentItem) :=
  do i0 <- item0 self;
  if negb (has_ContentSequence i0) then ret []
  else
    do scoord_matches <-
      find_content_items i0 None (Some SCOORD) None false;
    let coord := scoord_matches in
    do scoord3d_matches <-
      find_content_items i0 None (Some SCOORD3D) None false;
    ret (coord ++ scoord3d_matches).

Definition finding_sites (self : ContentSeq) : result (list ContentItem) :=
  do i0 <- item0 self;
  if negb (has_ContentSequence i0) then ret []
  else
    do matches <-
      find_content_items i0 (Some codes.FindingSite) (Some CODE) None false;
    if 0 <? length matches then ret matches else ret [].

(** The parameters of [__init__].  The numeric [value] is kept in its
    decimal rendering; a [TrackingIdentifier],
    [AlgorithmIdentification] or [MeasurementProperties] is the content
    sequence its constructor built; a [FindingSite], a source image, a
    coordinates item or a [RealWorldValueMap] is a content item. *)
Module kw.
Record args : Type := mk_args {
  name : CodedConcept;
  value : string;
  unit : CodedConcept;
  qualifier : option CodedConcept;
  tracking_identifier : option ContentSeq;
  algorithm_id : option ContentSeq;
  derivation : option CodedConcept;
  finding_sites : option (list ContentItem);
  method : option CodedConcept;
  properties : option ContentSeq;
  referenced_images : option (list ContentItem);
  referenced_coordinates : option (list ContentItem);
  referenced_real_world_value_map : option ContentItem
}.
End kw.

(** [__init__]: one NUM item, whose children are the optional
    arguments in the order in which the constructor appends them.  The
    [isinstance] guards on the arguments pass by typing. *)
Definition init (a : kw.args) : ContentSeq :=
  let self : ContentSeq := [] in
  let value_item :=
    NumContentItem (kw.name a) (kw.value a) (kw.unit a) (kw.qualifier a)
      CONTAINS in
  let content : ContentSeq := [] in
  let content :=
    match kw.tracking_identifier a with
    | Some tracking_identifier => content ++ tracking_identifier
    | None => content
    end in
  let content :=
    match kw.method a with
    | Some method =>
        content ++ [CodeContentItem
                      (mkCode "370129005" "SCT" "Measurement Method")
                      method HAS_CONCEPT_MOD]
    | None => content
    end in
  let content :=
    match kw.derivation a with
    | Some derivation =>
        content ++ [CodeContentItem (mkCode "121401" "DCM" "Derivation")
                      derivation HAS_CONCEPT_MOD]
    | None => content
    end in
  let content :=
    match kw.finding_sites a with
    | Some finding_sites => content ++ finding_sites
    | None => content
    end in
  let content :=
    match kw.properties a with
    | Some properties => content ++ properties
    | None => content
    end in
  let content :=
    match kw.referenced_images a with
    | Some referenced_images => content ++ referenced_images
    | None => content
    end in
  let content :=
    match kw.referenced_coordinates a with
    | Some referenced_coordinates => content ++ referenced_coordinates
    | None => content
    end in
  let content :=
    match kw.referenced_real_world_value_map a with
    | Some m => content ++ [m]
    | None => content
    end in
  let content :=
    match kw.algorithm_id a with
    | Some algorithm_id => content ++ algorithm_id
    | None => content
    end in
  let value_item :=
    if 0 <? length content then set_ContentSequence value_item content
    else value_item in
  self ++ [value_item].

(** The arguments of the call [cls(name=..., value=..., unit=...,
    qualifier=...)], the others at their default. *)
Definition value_arguments (n : CodedConcept) (v : string)
    (u : CodedConcept) (q : option CodedConcept) : kw.args :=
  kw.mk_args n v u q None None None None None None None None None.

(** [from_sequence]: the measurement rebuilt from the one NUM item of
    the sequence, with the children of that item.
    [ContentSequence.from_sequence] (missing from the sources)
    reproduces the items it is given. *)
Definition from_sequence (sequence : list ContentItem) : result ContentSeq :=
  if 1 <? length sequence then
    raise (ValueError "Measurement shall contain only one content item.")
  else
    do item <- item0 sequence;
    match payload item with
    | PNum v u q =>
        let measurement := init (value_arguments (sr.name item) v u q) in
        if has_ContentSequence item then
          do content <- get_ContentSequence item;
          do measurement0 <- item0 measurement;
          ret [set_ContentSequence measurement0 content]
        else ret measurement
    | _ => raise (TypeError "Measurement shall contain a NUM content item.")
    end.

(** The fields of the NUM item: [self[0].name], [self[0].value],
    [self[0].unit] and [self[0].qualifier]. *)
Definition name (self : ContentSeq) : result CodedConcept :=
  do i0 <- item0 self;
  ret (sr.name i0).

Definition value (self : ContentSeq) : result string :=
  do i0 <- item0 self;
  match payload i0 with
  | PNum v _ _ => ret v
  | _ => raise (AttributeError "value")
  end.

Definition unit (self : ContentSeq) : result CodedConcept :=
  do i0 <- item0 self;
  match payload i0 with
  | PNum _ u _ => ret u
  | _ => raise (AttributeError "unit")
  end.

Definition qualifier (self : ContentSeq) : result (option CodedConcept) :=
  do i0 <- item0 self;
  match payload i0 with
  | PNum _ _ q => ret q
  | _ => raise (AttributeError "qualifier")
  end.

End Measurement.

(** ** Qualitative evaluations *)

Module QualitativeEvaluation.

Definition init (name value : CodedConcept) : ContentSeq :=
  let item := CodeContentItem name value CONTAINS in
  [item].

(** Modelled from the spec: [CodeContentItem.from_dataset] belongs to
    [highdicom.sr.value_types], which is missing from the sources; it
    parses a dataset of value type CODE into the item of that variant
    and refuses a dataset of another value type. *)
Definition CodeContentItem_from_dataset (dataset : ContentItem)
  : result ContentItem :=
  if vt_eqb (value_type dataset) CODE then ret dataset
  else raise (ValueError
         "Dataset is not an SR Content Item with value type CODE.").

Definition from_sequence (sequence : list ContentItem) : result ContentSeq :=
  if 1 <? length sequence then
    raise (ValueError
      "Qualitative Evaluation shall contain only one content item.")
  else
    do dataset <- item0 sequence;
    do item <- CodeContentItem_from_dataset dataset;
    do v <- code_item_value item;
    ret (init (sr.name item) v).

Definition name (self : ContentSeq) : result CodedConcept :=
  do i0 <- item0 self;
  ret (sr.name i0).

Definition value (self : ContentSeq) : result CodedConcept :=
  do i0 <- item0 self;
  code_item_value i0.

End QualitativeEvaluation.

(** [[f(item) for item in items]], for a call [f] that may raise. *)
Fixpoint comprehension {A B : Type} (f : A -> result B) (items : list A)
  : result (list B) :=
  match items with
  | [] => ret []
  | item :: rest =>
      do y <- f item;
      do ys <- comprehension f rest;
      ret (y :: ys)
  end.

(** ** TID 1501 measurement groups: the shared base class *)

Module _MeasurementsAndQualitativeEvaluations.

(** The parameters of [__init__].  A [TrackingIdentifier],
    [AlgorithmIdentification], [TimePointContext], [Measurement] or
    [QualitativeEvaluation] is the content sequence its constructor
    built; a [FindingSite] or [RealWorldValueMap] is a content item. *)
Module kw.
Record args : Type := mk_args {
  tracking_identifier : ContentSeq;
  referenced_real_world_value_map : option ContentItem;
  time_point_context : option ContentSeq;
  finding_type : option CodedConcept;
  method : option CodedConcept;
  algorithm_id : option ContentSeq;
  finding_sites : option (list ContentItem);
  session : option string;
  measurements : option (list ContentSeq);
  qualitative_evaluations : option (list ContentSeq);
  finding_category : option CodedConcept
}.
End kw.

Definition msg_tracking_identifier : string :=
  ("Argument " ++ dq ++ "tracking_identifier" ++ dq ++ " must include a " ++
   "human readable tracking identifier and a tracking unique " ++
   "identifier.")%string.

Definition init (a : kw.args) : result ContentSeq :=
  let self : ContentSeq := [] in
  let group_item :=
    ContainerContentItem (mkCode "125007" "DCM" "Measurement Group")
      (Some CONTAINS) (Some "1501") in
  let content : ContentSeq := [] in
  (* isinstance(tracking_identifier, TrackingIdentifier): by typing *)
  if length (kw.tracking_identifier a) =? 1 then
    raise (ValueError msg_tracking_identifier)
  else
  let content := content ++ kw.tracking_identifier a in
  let content :=
    match kw.session a with
    | Some session =>
        content ++ [TextContentItem
                      (mkCode "C67447" "NCIt" "Activity Session")
                      session HAS_OBS_CONTEXT]
    | None => content
    end in
  let content :=
    match kw.finding_category a with
    | Some finding_category =>
        content ++ [CodeContentItem
                      (mkCode "276214006" "SCT" "Finding category")
                      finding_category CONTAINS]
    | None => content
    end in
  let content :=
    match kw.finding_type a with
    | Some finding_type =>
        content ++ [CodeContentItem (mkCode "121071" "DCM" "Finding")
                      finding_type CONTAINS]
    | None => content
    end in
  let content :=
    match kw.method a with
    | Some method =>
        content ++ [CodeContentItem
                      (mkCode "370129005" "SCT" "Measurement Method")
                      method CONTAINS]
    | None => content
    end in
  (* finding_sites is a list of FindingSite: by typing *)
  let content :=
    match kw.finding_sites a with
    | Some finding_sites => content ++ finding_sites
    | None => content
    end in
  let content :=
    match kw.algorithm_id a with
    | Some algorithm_id => content ++ algorithm_id
    | None => content
    end in
  let content :=
    match kw.time_point_context a with
    | Some time_point_context => content ++ time_point_context
    | None => content
    end in
  let content :=
    match kw.referenced_real_world_value_map a with
    | Some m => content ++ [m]
    | None => content
    end in
  let content :=
    match kw.measurements a with
    | Some measurements => content ++ concat measurements
    | None => content
    end in
  let content :=
    match kw.qualitative_evaluations a with
    | Some evaluations => content ++ concat evaluations
    | None => content
    end in
  let group_item :=
    if 0 <? length content then set_ContentSequence group_item content
    else group_item in
  ret (self ++ [group_item]).

(** The value read by an accessor together with the warnings it logs. *)
Definition logged (A : Type) : Type := (A * list string)%type.

Definition msg_more_than_one (what : string) : string :=
  ("found more than one " ++ dq ++ what ++ dq ++ " content item in " ++
   dq ++ "Measurements and Qualitative Evaluations" ++ dq ++
   " template")%string.

(** [if len(matches) > 1: logger.warning(...)] *)
Definition warn_if_many (matches : list ContentItem) (what : string)
  : list string :=
  if 1 <? length matches then [msg_more_than_one what] else [].

Definition method (self : ContentSeq)
  : result (logged (option CodedConcept)) :=
  do root_item <- item0 self;
  do matches <-
    find_content_items root_item (Some codes.MeasurementMethod) (Some CODE)
      None false;
  let log := warn_if_many matches
    "Measurement Method" in
  if 0 <? length matches then
    do m <- item0 matches; do v <- code_item_value m; ret (Some v, log)
  else ret (None, log).

Definition tracking_identifier (self : ContentSeq)
  : result (logged (option string)) :=
  do root_item <- item0 self;
  do matches <-
    find_content_items root_item (Some codes.TrackingIdentifier) (Some TEXT)
      None false;
  let log := warn_if_many matches
    "Tracking Identifier" in
  if 0 <? length matches then
    do m <- item0 matches; do v <- text_item_value m; ret (Some v, log)
  else ret (None, log).

Definition tracking_uid (self : ContentSeq)
  : result (logged (option string)) :=
  do root_item <- item0 self;
  do matches <-
    find_content_items root_item (Some codes.TrackingUniqueIdentifier)
      (Some UIDREF) None false;
  let log := warn_if_many matches
    "Tracking Unique Identifier" in
  if 0 <? length matches then
    do m <- item0 matches; do v <- uidref_item_value m; ret (Some v, log)
  else ret (None, log).

Definition finding_category (self : ContentSeq)
  : result (logged (option CodedConcept)) :=
  do root_item <- item0 self;
  do matches <-
    find_content_items root_item
      (Some (mkCode "276214006" "SCT" "Finding category")) (Some CODE)
      None false;
  let log := warn_if_many matches
    "Finding category" in
  if 0 <? length matches then
    do m <- item0 matches; do v <- code_item_value m; ret (Some v, log)
  else ret (None, log).

Definition finding_type (self : ContentSeq)
  : result (logged (option CodedConcept)) :=
  do root_item <- item0 self;
  do matches <-
    find_content_items root_item (Some codes.Finding) (Some CODE)
      None false;
  let log := warn_if_many matches
    "Finding" in
  if 0 <? length matches then
    do m <- item0 matches; do v <- code_item_value m; ret (Some v, log)
  else ret (None, log).

Definition finding_sites (self : ContentSeq)
  : result (list ContentItem) :=
  do root_item <- item0 self;
  do matches <-
    find_content_items root_item (Some codes.FindingSite) (Some CODE)
      None false;
  if 0 <? length matches then ret matches else ret [].

(** [from_sequence]: the typed view of a sequence holding one
    "Measurement Group" container.  [ContentSequence.from_sequence]
    (missing from the sources) reproduces the items it is given. *)
Definition from_sequence (sequence : list ContentItem) : result ContentSeq :=
  if 1 <? length sequence then
    raise (ValueError "Sequence contains more than one SR Content Item.")
  else
    do dataset <- item0 sequence;
    if negb (vt_eqb (value_type dataset) CONTAINER) then
      raise (ValueError
        ("Item #1 of sequence is not an appropriate SR Content Item " ++
         "because it does not have Value Type CONTAINER.")%string)
    else if negb (code_eqb (name dataset) codes.MeasurementGroup) then
      raise (ValueError
        ("Item #1 of sequence is not an appropriate SR Content Item " ++
         "because it does not have name " ++ dq ++ "Measurement Group" ++
         dq ++ ".")%string)
    else ret sequence.

Definition get_measurements (self : ContentSeq)
    (name_f : option CodedConcept) : result (list ContentSeq) :=
  do root_item <- item0 self;
  do matches <-
    match name_f with
    | None => find_content_items root_item None (Some NUM) None false
    | Some n => find_content_items root_item (Some n) (Some NUM) None false
    end;
  comprehension (fun item => Measurement.from_sequence [item]) matches.

Definition get_qualitative_evaluations (self : ContentSeq)
    (name_f : option CodedConcept) : result (list ContentSeq) :=
  do root_item <- item0 self;
  do matches <-
    match name_f with
    | None => find_content_items root_item None (Some CODE) None false
    | Some n => find_content_items root_item (Some n) (Some CODE) None false
    end;
  comprehension (fun item => QualitativeEvaluation.from_sequence [item])
    (List.filter
       (fun item =>
          negb (code_in (name item)
                  [codes.Finding; codes.FindingSite;
                   codes.MeasurementMethod]))
       matches).

End _MeasurementsAndQualitativeEvaluations.

Module MeasurementsAndQualitativeEvaluations.

Definition init (a : _MeasurementsAndQualitativeEvaluations.kw.args)
    (source_images : option (list ContentItem)) : result ContentSeq :=
  do self <- _MeasurementsAndQualitativeEvaluations.init a;
  do group_item <- item0 self;
  match source_images with
  | Some source_images =>
      (* each of them is a SourceImageForMeasurementGroup: by typing *)
      do group_item <- extend_ContentSequence group_item source_images;
      ret [group_item]
  | None => ret [group_item]
  end.

Definition source_images (self : ContentSeq) : result (list ContentItem) :=
  do root_item <- item0 self;
  do matches <-
    find_content_items root_item (Some codes._SOURCE) (Some IMAGE)
      (Some CONTAINS) false;
  if 0 <? length matches then ret matches else ret [].

End MeasurementsAndQualitativeEvaluations.

(** ** TID 1410 / TID 1411 ROI measurement groups *)

(** [sum(flags)] for a list of booleans. *)
Definition sum_bools (flags : list bool) : nat :=
  fold_left (fun acc (b : bool) => acc + (if b then 1 else 0)) flags 0.

(** [x is not None] *)
Definition is_not_None {A : Type} (x : option A) : bool :=
  match x with Some _ => true | None => false end.

(** An argument of type [Sequence[ImageRegion] | Sequence[ImageRegion3D]]. *)
Inductive Regions : Type :=
| ImageRegions (regions : list ContentItem)
| ImageRegions3D (regions : list ContentItem).

Definition regions_items (r : Regions) : list ContentItem :=
  match r with ImageRegions l | ImageRegions3D l => l end.

Module _ROIMeasurementsAndQualitativeEvaluations.

Module kw.
Record args : Type := mk_args {
  base : _MeasurementsAndQualitativeEvaluations.kw.args;
  referenced_regions : option Regions;
  referenced_segment : option ContentSeq;
  referenced_volume_surface : option ContentSeq;
  geometric_purpose : option CodedConcept
}.
End kw.

Definition msg_no_reference : string :=
  ("One of the following arguments must be provided: " ++
   dq ++ "referenced_regions" ++ dq ++ ", " ++
   dq ++ "referenced_volume_surface" ++ dq ++ ", or " ++
   dq ++ "referenced_segment" ++ dq ++ ".")%string.
Definition msg_many_references : string :=
  ("Only one of the following arguments should be provided: " ++
   dq ++ "referenced_regions" ++ dq ++ ", " ++
   dq ++ "referenced_volume_surface" ++ dq ++ ", or " ++
   dq ++ "referenced_segment" ++ dq ++ ".")%string.
Definition msg_empty_regions : string :=
  ("Argument " ++ dq ++ "referenced_region" ++ dq ++
   " must have non-zero length.")%string.
Definition msg_referenced_coordinates (class_name : string) : string :=
  ("Referenced coordinates in measurements are not " ++
   "allowed in " ++ class_name ++ ".")%string.

(** The closing loop: no measurement may carry referenced coordinates. *)
Fixpoint check_measurements (class_name : string)
    (measurements : list ContentSeq) : result unit :=
  match measurements with
  | [] => ret tt
  | measurement :: rest =>
      do coordinates <- Measurement.referenced_coordinates measurement;
      if 0 <? length coordinates then
        raise (ValueError (msg_referenced_coordinates class_name))
      else check_measurements class_name rest
  end.

(** [__init__]; [class_name] is [self.__class__.__name__]. *)
Definition init (class_name : string) (a : kw.args) : result ContentSeq :=
  do self <- _MeasurementsAndQualitativeEvaluations.init (kw.base a);
  do group_item <- item0 self;
  let were_references_provided :=
    [ is_not_None (kw.referenced_regions a);
      is_not_None (kw.referenced_volume_surface a);
      is_not_None (kw.referenced_segment a) ] in
  if sum_bools were_references_provided =? 0 then
    raise (ValueError msg_no_reference)
  else if 1 <? sum_bools were_references_provided then
    raise (ValueError msg_many_references)
  else
  do group_item <-
    match kw.geometric_purpose a with
    | Some geometric_purpose =>
        extend_ContentSequence group_item
          [CodeContentItem
             (mkCode "130400" "DCM" "Geometric purpose of region")
             geometric_purpose CONTAINS]
    | None => ret group_item
    end;
  do group_item <-
    match kw.referenced_regions a with
    | Some referenced_regions =>
        if length (regions_items referenced_regions) =? 0 then
          raise (ValueError msg_empty_regions)
        else
          (* each region is an ImageRegion or ImageRegion3D: by typing *)
          extend_ContentSequence group_item (regions_items referenced_regions)
    | None =>
        match kw.referenced_volume_surface a with
        | Some referenced_volume_surface =>
            extend_ContentSequence group_item referenced_volume_surface
        | None =>
            match kw.referenced_segment a with
            | Some referenced_segment =>
                extend_ContentSequence group_item referenced_segment
            | None => ret group_item
            end
        end
    end;
  do _ <-
    match _MeasurementsAndQualitativeEvaluations.kw.measurements
            (kw.base a) with
    | Some measurements => check_measurements class_name measurements
    | None => ret tt
    end;
  ret [group_item].

End _ROIMeasurementsAndQualitativeEvaluations.

(** The loops of the [reference_type] properties.  The inner loop runs
    over the allowed concepts (a set, taken here in the order in which
    the class writes it), the outer one over the children of the group;
    the [else] of the outer loop is reached when no child is named by
    an allowed concept. *)
Fixpoint reference_type_inner (allowed : list CodedConcept)
    (item : ContentItem) : option CodedConcept :=
  match allowed with
  | [] => None
  | concept_name :: rest =>
      if code_eqb (name item) concept_name then Some concept_name
      else reference_type_inner rest item
  end.

Fixpoint reference_type_loop (allowed : list CodedConcept)
    (items : list ContentItem) : result CodedConcept :=
  match items with
  | [] => raise (RuntimeError "Could not find any allowed ROI reference type.")
  | item :: rest =>
      match reference_type_inner allowed item with
      | Some concept_name => ret concept_name
      | None => reference_type_loop allowed rest
      end
  end.

Module PlanarROIMeasurementsAndQualitativeEvaluations.

Module kw.
(** [referenced_region] is an [ImageRegion] ([inl]) or an
    [ImageRegion3D] ([inr]); [referenced_segment] is a
    [ReferencedSegmentationFrame]. *)
Record args : Type := mk_args {
  base : _MeasurementsAndQualitativeEvaluations.kw.args;
  referenced_region : option (ContentItem + ContentItem);
  referenced_segment : option ContentSeq;
  geometric_purpose : option CodedConcept
}.
End kw.

Definition msg_no_reference : string :=
  ("One of the following arguments must be provided: " ++
   dq ++ "referenced_region" ++ dq ++ ", " ++
   dq ++ "referenced_segment" ++ dq ++ ".")%string.
Definition msg_many_references : string :=
  ("Only one of the following arguments should be provided: " ++
   dq ++ "referenced_region" ++ dq ++ ", " ++
   dq ++ "referenced_segment" ++ dq ++ ".")%string.

Definition init (a : kw.args) : result ContentSeq :=
  let were_references_provided :=
    [ is_not_None (kw.referenced_region a);
      is_not_None (kw.referenced_segment a) ] in
  if sum_bools were_references_provided =? 0 then
    raise (ValueError msg_no_reference)
  else if 1 <? sum_bools were_references_provided then
    raise (ValueError msg_many_references)
  else
  let referenced_regions : option Regions :=
    match kw.referenced_region a with
    | Some (inl referenced_region) => Some (ImageRegions [referenced_region])
    | Some (inr referenced_region) =>
        Some (ImageRegions3D [referenced_region])
    | None => None
    end in
  (* referenced_segment is a ReferencedSegmentationFrame: by typing *)
  do self <-
    _ROIMeasurementsAndQualitativeEvaluations.init
      "PlanarROIMeasurementsAndQualitativeEvaluations"
      {| _ROIMeasurementsAndQualitativeEvaluations.kw.base := kw.base a;
         _ROIMeasurementsAndQualitativeEvaluations.kw.referenced_regions :=
           referenced_regions;
         _ROIMeasurementsAndQualitativeEvaluations.kw.referenced_segment :=
           kw.referenced_segment a;
         _ROIMeasurementsAndQualitativeEvaluations.kw.referenced_volume_surface
           := None;
         _ROIMeasurementsAndQualitativeEvaluations.kw.geometric_purpose :=
           kw.geometric_purpose a |};
  do group_item <- item0 self;
  do group_item <- set_template_id group_item "1410";
  ret [group_item].

(** [from_sequence] defers to the base class. *)
Definition from_sequence (sequence : list ContentItem) : result ContentSeq :=
  _MeasurementsAndQualitativeEvaluations.from_sequence sequence.

Definition reference_type (self : ContentSeq) : result CodedConcept :=
  do i0 <- item0 self;
  do content <- get_ContentSequence i0;
  reference_type_loop Planar_allowed_roi_reference_types content.

End PlanarROIMeasurementsAndQualitativeEvaluations.

Module VolumetricROIMeasurementsAndQualitativeEvaluations.

Module kw.
(** [referenced_regions] is a sequence of [ImageRegion];
    [referenced_segment] is a [ReferencedSegment]. *)
Record args : Type := mk_args {
  base : _MeasurementsAndQualitativeEvaluations.kw.args;
  referenced_regions : option (list ContentItem);
  referenced_volume_surface : option ContentSeq;
  referenced_segment : option ContentSeq;
  geometric_purpose : option CodedConcept
}.
End kw.

Definition init (a : kw.args) : result ContentSeq :=
  (* no item of referenced_regions is an ImageRegion3D, and
     referenced_segment is a ReferencedSegment: by typing *)
  do self <-
    _ROIMeasurementsAndQualitativeEvaluations.init
      "VolumetricROIMeasurementsAndQualitativeEvaluations"
      {| _ROIMeasurementsAndQualitativeEvaluations.kw.base := kw.base a;
         _ROIMeasurementsAndQualitativeEvaluations.kw.referenced_regions :=
           match kw.referenced_regions a with
           | Some regions => Some (ImageRegions regions)
           | None => None
           end;
         _ROIMeasurementsAndQualitativeEvaluations.kw.referenced_segment :=
           kw.referenced_segment a;
         _ROIMeasurementsAndQualitativeEvaluations.kw.referenced_volume_surface
           := kw.referenced_volume_surface a;
         _ROIMeasurementsAndQualitativeEvaluations.kw.geometric_purpose :=
           kw.geometric_purpose a |};
  do group_item <- item0 self;
  do group_item <- set_template_id group_item "1411";
  ret [group_item].

Definition from_sequence (sequence : list ContentItem) : result ContentSeq :=
  _MeasurementsAndQualitativeEvaluations.from_sequence sequence.

Definition reference_type (self : ContentSeq) : result CodedConcept :=
  do i0 <- item0 self;
  do content <- get_ContentSequence i0;
  reference_type_loop Volumetric_allowed_roi_reference_types content.

End VolumetricROIMeasurementsAndQualitativeEvaluations.

(** ** Observer and subject contexts read back from a sequence *)

(** Modelled from the spec: the [value] property of a content item
    ([highdicom.sr.value_types] is missing from the sources), for the
    variants whose payload is a single value: a coded concept or a
    string. *)
Inductive ItemValue : Type :=
| IVCode (c : CodedConcept)
| IVStr (s : string).

Definition item_value (i : ContentItem) : result ItemValue :=
  match payload i with
  | PCode c => ret (IVCode c)
  | PText s | PUidRef s | PPname s | PDateTime s => ret (IVStr s)
  | PNum v _ _ => ret (IVStr v)
  | _ => raise (AttributeError "value")
  end.

(** [value == code] *)
Definition value_eq_code (v : ItemValue) (c : CodedConcept) : bool :=
  match v with
  | IVCode c' => code_eqb c' c
  | IVStr _ => false
  end.

(** The keyword arguments gathered by a [from_sequence]. *)
Abbreviation kwargs := (gmap string ItemValue).

(** The inner loop [for param, name in attr_codes] for one item. *)
Fixpoint collect_item (attr_codes : list (string * CodedConcept))
    (content_item : ContentItem) (kw : kwargs) : result kwargs :=
  match attr_codes with
  | [] => ret kw
  | (param, n) :: rest =>
      if code_eqb (name content_item) n then
        do v <- item_value content_item;
        collect_item rest content_item (<[param := v]> kw)
      else collect_item rest content_item kw
  end.

(** The outer loop [for dataset in sequence]. *)
Fixpoint collect_kwargs (attr_codes : list (string * CodedConcept))
    (sequence : list ContentItem) (kw : kwargs) : result kwargs :=
  match sequence with
  | [] => ret kw
  | dataset :: rest =>
      do kw <- collect_item attr_codes dataset kw;
      collect_kwargs attr_codes rest kw
  end.

(** The call of [cls] on the unpacked [kwargs], as far as the binding
    of the arguments goes: for a constructor whose parameters without default are
    [required], the call raises [TypeError] when one of them is not
    supplied.  The template that the constructor then assembles is
    represented by the arguments it is assembled from.  What the
    constructor and the content-item classes it calls (they belong to
    [highdicom.sr.value_types], missing from the sources) check of the
    values is not part of this function: it returns on values that
    they may reject. *)
Fixpoint call_with_kwargs (class_name : string) (required : list string)
    (kw : kwargs) : result kwargs :=
  match required with
  | [] => ret kw
  | param :: rest =>
      match kw !! param with
      | Some _ => call_with_kwargs class_name rest kw
      | None =>
          raise (TypeError
            (class_name ++
             ".__init__() missing 1 required positional argument: '" ++
             param ++ "'")%string)
      end
  end.

(** The text of the warning of an accessor that finds more than one
    item. *)
Definition msg_found_more_than_one (what template : string) : string :=
  ("found more than one " ++ dq ++ what ++ dq ++ " content item in " ++
   dq ++ template ++ dq ++ " template")%string.

(** The accessors of the optional attributes of the context templates:
    the items of the template named [n], the warning logged for more
    than one of them, and [matches[0].value], or [None] without a
    match. *)
Definition read_attribute (self : ContentSeq) (n : CodedConcept)
    (warning : string)
  : result (_MeasurementsAndQualitativeEvaluations.logged (option ItemValue))
  :=
  let matches := List.filter (fun item => code_eqb (name item) n) self in
  let log := if 1 <? length matches then [warning] else [] in
  if 0 <? length matches then
    do m <- item0 matches; do v <- item_value m; ret (Some v, log)
  else ret (None, log).

(** [self[0].value] *)
Definition read_item0 (self : ContentSeq) : result ItemValue :=
  do i0 <- item0 self;
  item_value i0.

Module PersonObserverIdentifyingAttributes.
Definition attr_codes : list (string * CodedConcept) :=
  [ ("name", codes.PersonObserverName);
    ("login_name", codes.PersonObserverLoginName);
    ("organization_name", codes.PersonObserverOrganizationName);
    ("role_in_organization", codes.PersonObserverRoleInTheOrganization);
    ("role_in_procedure", codes.PersonObserverRoleInThisProcedure) ].
Definition from_sequence (sequence : list ContentItem) : result kwargs :=
  do kw <- collect_kwargs attr_codes sequence ∅;
  call_with_kwargs "PersonObserverIdentifyingAttributes" ["name"] kw.

Definition init (name : string) (login_name organization_name : option string)
    (role_in_organization role_in_procedure : option CodedConcept)
  : ContentSeq :=
  let self : ContentSeq := [] in
  let name_item :=
    PnameContentItem (mkCode "121008" "DCM" "Person Observer Name")
      name HAS_OBS_CONTEXT in
  let self := self ++ [name_item] in
  let self :=
    match login_name with
    | Some login_name =>
        self ++ [TextContentItem
                   (mkCode "128774" "DCM" "Person Observer's Login Name")
                   login_name HAS_OBS_CONTEXT]
    | None => self
    end in
  let self :=
    match organization_name with
    | Some organization_name =>
        self ++ [TextContentItem
                   (mkCode "121009" "DCM"
                      "Person Observer's Organization Name")
                   organization_name HAS_OBS_CONTEXT]
    | None => self
    end in
  let self :=
    match role_in_organization with
    | Some role_in_organization =>
        self ++ [CodeContentItem
                   (mkCode "121010" "DCM"
                      "Person Observer's Role in the Organization")
                   role_in_organization HAS_OBS_CONTEXT]
    | None => self
    end in
  let self :=
    match role_in_procedure with
    | Some role_in_procedure =>
        self ++ [CodeContentItem
                   (mkCode "121011" "DCM"
                      "Person Observer's Role in this Procedure")
                   role_in_procedure HAS_OBS_CONTEXT]
    | None => self
    end in
  self.

Definition template : string := "Person Observer Identifying Attributes".

Definition login_name (self : ContentSeq) :=
  read_attribute self codes.PersonObserverLoginName
    (msg_found_more_than_one "Login Name" template).
Definition organization_name (self : ContentSeq) :=
  read_attribute self codes.PersonObserverOrganizationName
    (msg_found_more_than_one "Organization Name" template).
Definition role_in_organization (self : ContentSeq) :=
  read_attribute self codes.PersonObserverRoleInTheOrganization
    (msg_found_more_than_one "Role in Organization" template).
Definition role_in_procedure (self : ContentSeq) :=
  read_attribute self codes.PersonObserverRoleInThisProcedure
    (msg_found_more_than_one "Role in Procedure" template).
Definition name (self : ContentSeq) : result ItemValue := read_item0 self.
End PersonObserverIdentifyingAttributes.

Module DeviceObserverIdentifyingAttributes.
Definition attr_codes : list (string * CodedConcept) :=
  [ ("name", codes.DeviceObserverName);
    ("uid", codes.DeviceObserverUID);
    ("manufacturer_name", codes.DeviceObserverManufacturer);
    ("model_name", codes.DeviceObserverModelName);
    ("serial_number", codes.DeviceObserverSerialNumber);
    ("physical_location",
     codes.DeviceObserverPhysicalLocationDuringObservation) ].
Definition from_sequence (sequence : list ContentItem) : result kwargs :=
  do kw <- collect_kwargs attr_codes sequence ∅;
  call_with_kwargs "DeviceObserverIdentifyingAttributes" ["uid"] kw.

Definition init (uid : string)
    (name manufacturer_name model_name serial_number physical_location
       : option string)
    (role_in_procedure : option CodedConcept) : ContentSeq :=
  let self : ContentSeq := [] in
  let device_observer_item :=
    UIDRefContentItem (mkCode "121012" "DCM" "Device Observer UID")
      uid HAS_OBS_CONTEXT in
  let self := self ++ [device_observer_item] in
  let self :=
    match name with
    | Some name =>
        self ++ [TextContentItem
                   (mkCode "121013" "DCM" "Device Observer Name")
                   name HAS_OBS_CONTEXT]
    | None => self
    end in
  let self :=
    match manufacturer_name with
    | Some manufacturer_name =>
        self ++ [TextContentItem
                   (mkCode "121014" "DCM" "Device Observer Manufacturer")
                   manufacturer_name HAS_OBS_CONTEXT]
    | None => self
    end in
  let self :=
    match model_name with
    | Some model_name =>
        self ++ [TextContentItem
                   (mkCode "121015" "DCM" "Device Observer Model Name")
                   model_name HAS_OBS_CONTEXT]
    | None => self
    end in
  let self :=
    match serial_number with
    | Some serial_number =>
        self ++ [TextContentItem
                   (mkCode "121016" "DCM" "Device Observer Serial Number")
                   serial_number HAS_OBS_CONTEXT]
    | None => self
    end in
  let self :=
    match physical_location with
    | Some physical_location =>
        self ++ [TextContentItem
                   codes.DeviceObserverPhysicalLocationDuringObservation
                   physical_location HAS_OBS_CONTEXT]
    | None => self
    end in
  let self :=
    match role_in_procedure with
    | Some role_in_procedure =>
        self ++ [CodeContentItem codes.DeviceRoleInProcedure
                   role_in_procedure HAS_OBS_CONTEXT]
    | None => self
    end in
  self.

Definition template : string := "Device Observer Identifying Attributes".

Definition manufacturer_name (self : ContentSeq) :=
  read_attribute self codes.DeviceObserverManufacturer
    ("found more than one " ++ dq ++ "Device Observer Manufacturer" ++ dq ++
     " content name in " ++ dq ++ template ++ dq ++ " template")%string.
Definition model_name (self : ContentSeq) :=
  read_attribute self codes.DeviceObserverModelName
    (msg_found_more_than_one "Device Observer Model Name" template).
Definition serial_number (self : ContentSeq) :=
  read_attribute self codes.DeviceObserverSerialNumber
    (msg_found_more_than_one "Device Observer Serial Number" template).
Definition physical_location (self : ContentSeq) :=
  read_attribute self codes.DeviceObserverPhysicalLocationDuringObservation
    (msg_found_more_than_one
       "Device Observer Physical Location During Observation" template).
Definition name (self : ContentSeq) :=
  read_attribute self codes.DeviceObserverName
    (msg_found_more_than_one "Device Observer Name" template).
End DeviceObserverIdentifyingAttributes.

Module SubjectContextFetus.
Definition attr_codes : list (string * CodedConcept) :=
  [ ("subject_id", codes.SubjectID) ].
Definition from_sequence (sequence : list ContentItem) : result kwargs :=
  do kw <- collect_kwargs attr_codes sequence ∅;
  call_with_kwargs "SubjectContextFetus" ["subject_id"] kw.

Definition init (subject_id : string) : ContentSeq :=
  let self : ContentSeq := [] in
  let subject_id_item :=
    TextContentItem (mkCode "121030" "DCM" "Subject ID")
      subject_id HAS_OBS_CONTEXT in
  self ++ [subject_id_item].

Definition subject_id (self : ContentSeq) : result ItemValue :=
  read_item0 self.
End SubjectContextFetus.

Module SubjectContextSpecimen.
Definition attr_codes : list (string * CodedConcept) :=
  [ ("uid", codes.SpecimenUID);
    ("identifier", codes.SpecimenIdentifier);
    ("container_identifier", codes.SpecimenContainerIdentifier);
    ("specimen_type", codes.SpecimenType) ].
Definition from_sequence (sequence : list ContentItem) : result kwargs :=
  do kw <- collect_kwargs attr_codes sequence ∅;
  call_with_kwargs "SubjectContextSpecimen" ["uid"] kw.

Definition init (uid : string) (identifier container_identifier : option string)
    (specimen_type : option CodedConcept) : ContentSeq :=
  let self : ContentSeq := [] in
  let specimen_uid_item :=
    UIDRefContentItem (mkCode "121039" "DCM" "Specimen UID")
      uid HAS_OBS_CONTEXT in
  let self := self ++ [specimen_uid_item] in
  let self :=
    match identifier with
    | Some identifier =>
        self ++ [TextContentItem
                   (mkCode "121041" "DCM" "Specimen Identifier")
                   identifier HAS_OBS_CONTEXT]
    | None => self
    end in
  let self :=
    match specimen_type with
    | Some specimen_type =>
        self ++ [CodeContentItem (mkCode "371439000" "SCT" "Specimen Type")
                   specimen_type HAS_OBS_CONTEXT]
    | None => self
    end in
  let self :=
    match container_identifier with
    | Some container_identifier =>
        self ++ [TextContentItem
                   (mkCode "111700" "DCM" "Specimen Container Identifier")
                   container_identifier HAS_OBS_CONTEXT]
    | None => self
    end in
  self.

Definition template : string := "Subject Context Specimen".

Definition specimen_uid (self : ContentSeq) : result ItemValue :=
  read_item0 self.
Definition specimen_identifier (self : ContentSeq) :=
  read_attribute self codes.SpecimenIdentifier
    (msg_found_more_than_one "Specimen Identifier" template).
Definition container_identifier (self : ContentSeq) :=
  read_attribute self codes.SpecimenContainerIdentifier
    (msg_found_more_than_one "Specimen Container Identifier" template).
Definition specimen_type (self : ContentSeq) :=
  read_attribute self codes.SpecimenType
    (msg_found_more_than_one "Specimen Type" template).
End SubjectContextSpecimen.

Module SubjectContextDevice.
Definition attr_codes : list (string * CodedConcept) :=
  [ ("name", codes.DeviceSubjectName);
    ("uid", codes.DeviceSubjectUID);
    ("manufacturer_name", codes.DeviceSubjectManufacturer);
    ("model_name", codes.DeviceSubjectModelName);
    ("serial_number", codes.DeviceSubjectSerialNumber);
    ("physical_location",
     codes.DeviceSubjectPhysicalLocationDuringObservation) ].
Definition from_sequence (sequence : list ContentItem) : result kwargs :=
  do kw <- collect_kwargs attr_codes sequence ∅;
  call_with_kwargs "SubjectContextDevice" ["name"] kw.

Definition init (name : string)
    (uid manufacturer_name model_name serial_number physical_location
       : option string) : ContentSeq :=
  let self : ContentSeq := [] in
  let device_name_item :=
    TextContentItem codes.DeviceSubjectName name HAS_OBS_CONTEXT in
  let self := self ++ [device_name_item] in
  let self :=
    match uid with
    | Some uid =>
        self ++ [UIDRefContentItem codes.DeviceSubjectUID uid HAS_OBS_CONTEXT]
    | None => self
    end in
  let self :=
    match manufacturer_name with
    | Some manufacturer_name =>
        self ++ [TextContentItem
                   (mkCode "121194" "DCM" "Device Subject Manufacturer")
                   manufacturer_name HAS_OBS_CONTEXT]
    | None => self
    end in
  let self :=
    match model_name with
    | Some model_name =>
        self ++ [TextContentItem
                   (mkCode "121195" "DCM" "Device Subject Model Name")
                   model_name HAS_OBS_CONTEXT]
    | None => self
    end in
  let self :=
    match serial_number with
    | Some serial_number =>
        self ++ [TextContentItem
                   (mkCode "121196" "DCM" "Device Subject Serial Number")
                   serial_number HAS_OBS_CONTEXT]
    | None => self
    end in
  let self :=
    match physical_location with
    | Some physical_location =>
        self ++ [TextContentItem
                   codes.DeviceSubjectPhysicalLocationDuringObservation
                   physical_location HAS_OBS_CONTEXT]
    | None => self
    end in
  self.

Definition template : string := "Subject Context Device".

Definition device_name (self : ContentSeq) : result ItemValue :=
  read_item0 self.
Definition device_uid (self : ContentSeq) :=
  read_attribute self codes.DeviceSubjectUID
    (msg_found_more_than_one "Device Subject UID" template).
Definition device_manufacturer_name (self : ContentSeq) :=
  read_attribute self codes.DeviceSubjectManufacturer
    (msg_found_more_than_one "Device Subject Manufacturer" template).
Definition device_model_name (self : ContentSeq) :=
  read_attribute self codes.DeviceSubjectModelName
    (msg_found_more_than_one "Device Subject Model Name" template).
Definition device_serial_number (self : ContentSeq) :=
  read_attribute self codes.DeviceSubjectSerialNumber
    (msg_found_more_than_one "Device Subject Serial Number" template).
Definition device_physical_location (self : ContentSeq) :=
  read_attribute self codes.DeviceSubjectPhysicalLocationDuringObservation
    (msg_found_more_than_one
       "Device Subject Physical Location During Observation" template).
End SubjectContextDevice.

(** An [ObserverContext] or [SubjectContext]: the type (or class) code
    and the attributes it was assembled from. *)
Inductive ContextKind : Type :=
| PersonObserver | DeviceObserver
| SpecimenSubject | FetusSubject | DeviceSubject.

Record Context : Type := mkContext {
  context_type : ItemValue;
  context_kind : ContextKind;
  context_attributes : kwargs
}.

(** ** TID 1002 Observer Context *)

(** An argument of type [PersonObserverIdentifyingAttributes |
    DeviceObserverIdentifyingAttributes]: the content sequence that
    the constructor of the one or of the other class built. *)
Inductive ObserverAttributes : Type :=
| PersonAttributes (items : ContentSeq)
| DeviceAttributes (items : ContentSeq).

Definition observer_attributes_items (a : ObserverAttributes) : ContentSeq :=
  match a with PersonAttributes l | DeviceAttributes l => l end.

Module ObserverContext.

Definition msg_attributes_type (class_name : string)
    (observer_type : CodedConcept) : string :=
  ("Observer identifying attributes must have " ++
   "type " ++ class_name ++ " " ++
   "for observer type " ++ dq ++ meaning observer_type ++ dq ++ ".")%string.

Definition msg_observer_type : string :=
  ("Argument " ++ dq ++ "oberver_type" ++ dq ++ " must be either " ++
   dq ++ "Person" ++ dq ++ " or " ++ dq ++ "Device" ++ dq ++ ".")%string.

Definition init (observer_type : CodedConcept)
    (observer_identifying_attributes : ObserverAttributes)
  : result ContentSeq :=
  let self : ContentSeq := [] in
  let observer_type_item :=
    CodeContentItem (mkCode "121005" "DCM" "Observer Type")
      observer_type HAS_OBS_CONTEXT in
  let self := self ++ [observer_type_item] in
  do _ <-
    (if code_eqb observer_type codes.Person then
       match observer_identifying_attributes with
       | PersonAttributes _ => ret tt
       | DeviceAttributes _ =>
           raise (TypeError
             (msg_attributes_type "PersonObserverIdentifyingAttributes"
                observer_type))
       end
     else if code_eqb observer_type codes.Device then
       match observer_identifying_attributes with
       | DeviceAttributes _ => ret tt
       | PersonAttributes _ =>
           raise (TypeError
             (msg_attributes_type "DeviceObserverIdentifyingAttributes"
                observer_type))
       end
     else raise (ValueError msg_observer_type));
  ret (self ++ observer_attributes_items observer_identifying_attributes).

Definition observer_type (self : ContentSeq) : result ItemValue :=
  read_item0 self.

(** [observer_identifying_attributes]: the whole of [self] is handed to
    the [from_sequence] of the class that the observer type names. *)
Definition observer_identifying_attributes (self : ContentSeq)
  : result Context :=
  do t <- observer_type self;
  if value_eq_code t codes.Device then
    do attributes <- DeviceObserverIdentifyingAttributes.from_sequence self;
    ret (mkContext t DeviceObserver attributes)
  else if value_eq_code t codes.Person then
    do attributes <- PersonObserverIdentifyingAttributes.from_sequence self;
    ret (mkContext t PersonObserver attributes)
  else
    match t with
    | IVCode c =>
        raise (ValueError
          ("Unexpected observer type " ++ dq ++ meaning c ++ dq)%string)
    | IVStr _ => raise (AttributeError "meaning")
    end.

End ObserverContext.

(** ** TID 1006 Subject Context *)

(** An argument of type [SubjectContextFetus | SubjectContextSpecimen |
    SubjectContextDevice]. *)
Inductive SubjectSpecificContext : Type :=
| SpecimenContext (items : ContentSeq)
| FetusContext (items : ContentSeq)
| DeviceContext (items : ContentSeq).

Definition subject_specific_context_items (c : SubjectSpecificContext)
  : ContentSeq :=
  match c with SpecimenContext l | FetusContext l | DeviceContext l => l end.

Module SubjectContext.

Definition msg_mismatch (subject_class_name : string) : string :=
  ("Subject class specific context doesn't match " ++
   "subject class " ++ dq ++ subject_class_name ++ dq ++ ".")%string.

Definition init (subject_class : CodedConcept)
    (subject_class_specific_context : SubjectSpecificContext)
  : result ContentSeq :=
  let self : ContentSeq := [] in
  let subject_class_item :=
    CodeContentItem (mkCode "121024" "DCM" "Subject Class")
      subject_class HAS_OBS_CONTEXT in
  let self := self ++ [subject_class_item] in
  do _ <-
    match subject_class_specific_context with
    | SpecimenContext _ =>
        if negb (code_eqb subject_class codes.Specimen) then
          raise (TypeError (msg_mismatch "Specimen"))
        else ret tt
    | FetusContext _ =>
        if negb (code_eqb subject_class codes.Fetus) then
          raise (TypeError (msg_mismatch "Fetus"))
        else ret tt
    | DeviceContext _ =>
        if negb (code_eqb subject_class codes.Device) then
          raise (TypeError (msg_mismatch "Device"))
        else ret tt
    end;
  ret (self ++ subject_specific_context_items subject_class_specific_context).

Definition subject_class (self : ContentSeq) : result ItemValue :=
  read_item0 self.

Definition subject_class_specific_context (self : ContentSeq)
  : result Context :=
  do t <- subject_class self;
  if value_eq_code t codes.Specimen then
    do attributes <- SubjectContextSpecimen.from_sequence self;
    ret (mkContext t SpecimenSubject attributes)
  else if value_eq_code t codes.Fetus then
    do attributes <- SubjectContextFetus.from_sequence self;
    ret (mkContext t FetusSubject attributes)
  else if value_eq_code t codes.Device then
    do attributes <- SubjectContextDevice.from_sequence self;
    ret (mkContext t DeviceSubject attributes)
  else raise (ValueError
         ("Unexpected subject class " ++ dq ++ "{item.meaning}" ++ dq ++
          ".")%string).

End SubjectContext.

(** ** TID 1001 Observation Context and TID 1204 Language *)

Module ObservationContext.

(** [__init__]; an [ObserverContext] or [SubjectContext] is the content
    sequence its constructor built. *)
Definition init (observer_person_context observer_device_context
                   subject_context : option ContentSeq) : ContentSeq :=
  let self : ContentSeq := [] in
  let self :=
    match observer_person_context with
    | Some observer_person_context => self ++ observer_person_context
    | None => self
    end in
  let self :=
    match observer_device_context with
    | Some observer_device_context => self ++ observer_device_context
    | None => self
    end in
  let self :=
    match subject_context with
    | Some subject_context => self ++ subject_context
    | None => self
    end in
  self.

End ObservationContext.

Definition DEFAULT_LANGUAGE : CodedConcept :=
  mkCode "en-US" "RFC5646" "English (United States)".

Module LanguageOfContentItemAndDescendants.

Definition init (language : CodedConcept) : ContentSeq :=
  let self : ContentSeq := [] in
  let language_item :=
    CodeContentItem
      (mkCode "121049" "DCM" "Language of Content Item and Descendants")
      language HAS_CONCEPT_MOD in
  self ++ [language_item].

End LanguageOfContentItemAndDescendants.

(** [seq[start:stop]] on a Python sequence: a negative bound counts
    from the end, and both bounds are clipped to the sequence. *)
Definition slice_bound (len : nat) (i : Z) : nat :=
  if (i <? 0)%Z then Z.to_nat (Z.max 0 (i + Z.of_nat len))
  else Nat.min (Z.to_nat i) len.

Definition py_slice {A : Type} (l : list A) (start stop : Z) : list A :=
  let a := slice_bound (length l) start in
  let b := slice_bound (length l) stop in
  firstn (b - a) (skipn a l).

(** [enumerate(l, start)] *)
Fixpoint enumerate {A : Type} (start : Z) (l : list A) : list (Z * A) :=
  match l with
  | [] => []
  | x :: l' => (start, x) :: enumerate (start + 1)%Z l'
  end.

(** ** TID 1500 Measurement Report: queries *)

Module MeasurementReport.

(** The comprehension
    [[(i, item) for i, item in enumerate(seq, 1) if item.name == marker]]:
    the one-based positions of the type-marker items. *)
Definition marker_matches (marker : CodedConcept) (seq : list ContentItem)
  : list (Z * ContentItem) :=
  List.filter (fun m => code_eqb (name (snd m)) marker) (enumerate 1 seq).

(** [matches[i + 1][0]], or [-1] on [IndexError]; [rest] is what
    follows the current match in [matches]. *)
Definition next_index_of (rest : list (Z * ContentItem)) : Z :=
  match rest with
  | (next_index, _) :: _ => next_index
  | [] => (-1)%Z
  end.

(** The slice of the root content handed to [from_sequence] for the
    match at one-based position [index]. *)
Definition context_slice (seq : list ContentItem) (index : Z)
    (rest : list (Z * ContentItem)) : list ContentItem :=
  py_slice seq index (next_index_of rest).

(** The loop of [get_observer_contexts] over the remaining matches. *)
Fixpoint observer_loop (seq : list ContentItem)
    (observer_type : option CodedConcept)
    (matches : list (Z * ContentItem)) : result (list Context) :=
  match matches with
  | [] => ret []
  | (index, item) :: rest =>
      do v <- item_value item;
      if match observer_type with
         | Some t => negb (value_eq_code v t)
         | None => false
         end
      then observer_loop seq observer_type rest
      else
        do context <-
          (if value_eq_code v codes.Device then
             do attributes <-
               DeviceObserverIdentifyingAttributes.from_sequence
                 (context_slice seq index rest);
             ret (mkContext v DeviceObserver attributes)
           else if value_eq_code v codes.Person then
             do attributes <-
               PersonObserverIdentifyingAttributes.from_sequence
                 (context_slice seq index rest);
             ret (mkContext v PersonObserver attributes)
           else raise (ValueError
                  ("Unexpected observer type " ++ dq ++ "{item.meaning}" ++
                   dq ++ ".")%string));
        do observer_contexts <- observer_loop seq observer_type rest;
        ret (context :: observer_contexts)
  end.

Definition get_observer_contexts (self : ContentSeq)
    (observer_type : option CodedConcept) : result (list Context) :=
  do root_item <- item0 self;
  do seq <- get_ContentSequence root_item;
  let matches := marker_matches codes.ObserverType seq in
  observer_loop seq observer_type matches.

(** The loop of [get_subject_contexts] over the remaining matches. *)
Fixpoint subject_loop (seq : list ContentItem)
    (subject_class : option CodedConcept)
    (matches : list (Z * ContentItem)) : result (list Context) :=
  match matches with
  | [] => ret []
  | (index, item) :: rest =>
      do v <- item_value item;
      if match subject_class with
         | Some t => negb (value_eq_code v t)
         | None => false
         end
      then subject_loop seq subject_class rest
      else
        do context <-
          (if value_eq_code v codes.Specimen then
             do attributes <-
               SubjectContextSpecimen.from_sequence
                 (context_slice seq index rest);
             ret (mkContext v SpecimenSubject attributes)
           else if value_eq_code v codes.Fetus then
             do attributes <-
               SubjectContextFetus.from_sequence
                 (context_slice seq index rest);
             ret (mkContext v FetusSubject attributes)
           else if value_eq_code v codes.Device then
             do attributes <-
               SubjectContextDevice.from_sequence
                 (context_slice seq index rest);
             ret (mkContext v DeviceSubject attributes)
           else raise (ValueError
                  ("Unexpected subject class " ++ dq ++ "{item.meaning}" ++
                   dq ++ ".")%string));
        do subject_contexts <- subject_loop seq subject_class rest;
        ret (context :: subject_contexts)
  end.

Definition get_subject_contexts (self : ContentSeq)
    (subject_class : option CodedConcept) : result (list Context) :=
  do root_item <- item0 self;
  do seq <- get_ContentSequence root_item;
  let matches := marker_matches codes.SubjectClass seq in
  subject_loop seq subject_class matches.

Definition _find_measurement_groups (self : ContentSeq)
  : result (list ContentItem) :=
  do root_item <- item0 self;
  do imaging_measurement_items <-
    find_content_items root_item (Some codes.ImagingMeasurements)
      (Some CONTAINER) None false;
  if length imaging_measurement_items =? 0 then ret []
  else
    do imaging_measurements <- item0 imaging_measurement_items;
    find_content_items imaging_measurements
      (Some codes.MeasurementGroup) (Some CONTAINER) None false.

(** The optional filters of [get_planar_roi_measurement_groups]; a
    [graphic_type] is a [GraphicTypeValues] ([inl]) or a
    [GraphicTypeValues3D] ([inr]). *)
Module planar_kw.
Record args : Type := mk_args {
  tracking_uid : option string;
  finding_type : option CodedConcept;
  finding_site : option CodedConcept;
  reference_type : option CodedConcept;
  graphic_type : option (GraphicTypeValues + GraphicTypeValues3D);
  referenced_sop_instance_uid : option string;
  referenced_sop_class_uid : option string
}.
End planar_kw.

(** The argument guards that open [get_planar_roi_measurement_groups].
    The message for a reference type that is not allowed interpolates
    the rendering of the concept, which depends on the class of the
    argument ([Code] or [CodedConcept]) and is left out here. *)
Definition planar_check_arguments (f : planar_kw.args) : result unit :=
  do _ <-
    match planar_kw.graphic_type f with
    | Some (inl graphic_type) =>
        if bool_decide (graphic_type = GT_MULTIPOINT) then
          raise (ValueError
            ("Graphic type " ++ dq ++ "MULTIPOINT" ++ dq ++
             " is not valid for image " ++
             "regions within a planar ROI measurements group.")%string)
        else ret tt
    | Some (inr graphic_type) =>
        if bool_decide (graphic_type = GT3D_MULTIPOINT) ||
           bool_decide (graphic_type = GT3D_POLYLINE) ||
           bool_decide (graphic_type = GT3D_ELLIPSOID) then
          raise (ValueError
            ("Graphic type 3D value " ++ dq ++
             str_GraphicTypeValues3D graphic_type ++ dq ++
             " is not valid " ++
             "for image regions within a planar ROI measurements " ++
             "group.")%string)
        else if is_not_None (planar_kw.referenced_sop_class_uid f) ||
                is_not_None (planar_kw.referenced_sop_instance_uid f) then
          raise (TypeError
            ("Supplying a referenced_sop_class_uid or " ++
             "referenced_sop_instance_uidis not valid" ++
             "when graphic_type is an instance of " ++
             "GraphicTypeValues3D, since SCOORD3D content items do " ++
             "not contain references to specific source image " ++
             "instances.")%string)
        else ret tt
    | None => ret tt
    end;
  match planar_kw.reference_type f with
  | Some reference_type =>
      if negb (code_in reference_type Planar_allowed_roi_reference_types)
      then
        raise (ValueError
          ("Concept is not valid as a reference " ++
           "type in Planar ROI Measurements and Qualitative " ++
           "Evaluations.")%string)
      else if is_not_None (planar_kw.graphic_type f) &&
              negb (code_eqb reference_type codes.ImageRegion) then
        raise (ValueError
          ("Specifying a graphic type is invalid when using " ++
           "reference type " ++ dq ++ meaning reference_type ++ dq)%string)
      else ret tt
  | None => ret tt
  end.

(** [ref_item.ReferencedSOPSequence[0]]: the referenced SOP class and
    instance UIDs of an IMAGE or COMPOSITE item. *)
Definition ReferencedSOPSequence0 (i : ContentItem)
  : result (string * string) :=
  match payload i with
  | PImage c u _ _ | PComposite c u => ret (c, u)
  | _ => raise (AttributeError "ReferencedSOPSequence")
  end.

(** [x is None or y == x] *)
Definition is_None_or_eq (x : option string) (y : string) : bool :=
  match x with
  | None => true
  | Some x => String.eqb y x
  end.

(** [found_ref_type == code] *)
Definition found_eq_code (found : option CodedConcept) (c : CodedConcept)
  : bool :=
  match found with
  | Some r => code_eqb r c
  | None => false
  end.

(** The list [matches] that the body of the loop of
    [get_planar_roi_measurement_groups] builds for one group. *)
Definition planar_group_matches (f : planar_kw.args)
    (group_item : ContentItem) : result (list bool) :=
  let matches : list bool := [] in
  do matches <-
    match planar_kw.finding_type f with
    | Some finding_type =>
        do matches_finding <-
          _contains_code_items group_item codes.Finding
            (Some finding_type) (Some CONTAINS);
        ret (matches ++ [matches_finding])
    | None => ret matches
    end;
  do matches <-
    match planar_kw.finding_site f with
    | Some finding_site =>
        do matches_finding_sites <-
          _contains_code_items group_item codes.FindingSite
            (Some finding_site) (Some HAS_CONCEPT_MOD);
        ret (matches ++ [matches_finding_sites])
    | None => ret matches
    end;
  do matches <-
    match planar_kw.tracking_uid f with
    | Some tracking_uid =>
        do matches_tracking_uid <-
          _contains_uidref_items group_item
            codes.TrackingUniqueIdentifier (Some tracking_uid)
            (Some HAS_OBS_CONTEXT);
        ret (matches ++ [matches_tracking_uid])
    | None => ret matches
    end;
  if is_not_None (planar_kw.reference_type f) ||
     is_not_None (planar_kw.graphic_type f) ||
     is_not_None (planar_kw.referenced_sop_class_uid f) ||
     is_not_None (planar_kw.referenced_sop_instance_uid f)
  then
    do (found_ref_type, ref_item) <-
      _get_planar_roi_reference_item group_item;
    let ref_value_type := value_type ref_item in
    let matches :=
      match planar_kw.reference_type f with
      | Some reference_type =>
          matches ++ [found_eq_code found_ref_type reference_type]
      | None => matches
      end in
    let matches :=
      match planar_kw.graphic_type f with
      | Some (inl graphic_type) =>
          match payload ref_item with
          | PScoord found_gt _ =>
              matches ++ [bool_decide (found_gt = graphic_type)]
          | _ => matches ++ [false]
          end
      | Some (inr graphic_type) =>
          match payload ref_item with
          | PScoord3D found_gt _ _ =>
              matches ++ [bool_decide (found_gt = graphic_type)]
          | _ => matches ++ [false]
          end
      | None => matches
      end in
    if is_not_None (planar_kw.referenced_sop_instance_uid f) ||
       is_not_None (planar_kw.referenced_sop_class_uid f)
    then
      let matches_uids := false in
      do matches_uids <-
        (if found_eq_code found_ref_type codes.ReferencedSegmentationFrame ||
            found_eq_code found_ref_type codes._REGION_IN_SPACE
         then
           do sop_seq <- ReferencedSOPSequence0 ref_item;
           let matches_instance_uid :=
             is_None_or_eq (planar_kw.referenced_sop_instance_uid f)
               (snd sop_seq) in
           let matches_class_uid :=
             is_None_or_eq (planar_kw.referenced_sop_class_uid f)
               (fst sop_seq) in
           if matches_class_uid && matches_instance_uid then ret true
           else ret matches_uids
         else ret matches_uids);
      do matches_uids <-
        (if found_eq_code found_ref_type codes.ImageRegion then
           if vt_eqb (value_type ref_item) SCOORD then
             do contains <-
               _contains_image_items ref_item None
                 (planar_kw.referenced_sop_class_uid f)
                 (planar_kw.referenced_sop_instance_uid f)
                 (Some SELECTED_FROM);
             if contains then ret true else ret matches_uids
           else ret matches_uids
         else ret matches_uids);
      do matches_uids <-
        (if found_eq_code found_ref_type codes.ReferencedSegmentationFrame
         then
           do contains <-
             _contains_image_items group_item
               (Some codes.SourceImageForSegmentation)
               (planar_kw.referenced_sop_class_uid f)
               (planar_kw.referenced_sop_instance_uid f)
               (Some CONTAINS);
           if contains then ret true else ret matches_uids
         else ret matches_uids);
      ret (matches ++ [matches_uids])
    else ret matches
  else ret matches.

(** [all(matches)] *)
Definition all (matches : list bool) : bool := forallb (fun b => b) matches.

(** Whether the loop keeps a group for the planar getter: the
    template-identifier tag when present, the classification otherwise. *)
Definition planar_candidate (group_item : ContentItem) : result bool :=
  match template_id group_item with
  | Some tid => ret (String.eqb tid "1410")
  | None => _contains_planar_rois group_item
  end.

Fixpoint planar_loop (f : planar_kw.args)
    (measurement_group_items : list ContentItem)
  : result (list ContentSeq) :=
  match measurement_group_items with
  | [] => ret []
  | group_item :: rest =>
      do candidate <- planar_candidate group_item;
      if negb candidate then planar_loop f rest
      else
        do matches <- planar_group_matches f group_item;
        if (length matches =? 0) || all matches then
          do seq <-
            PlanarROIMeasurementsAndQualitativeEvaluations.from_sequence
              [group_item];
          do sequences <- planar_loop f rest;
          ret (seq :: sequences)
        else planar_loop f rest
  end.

Definition get_planar_roi_measurement_groups (self : ContentSeq)
    (f : planar_kw.args) : result (list ContentSeq) :=
  do _ <- planar_check_arguments f;
  do measurement_group_items <- _find_measurement_groups self;
  planar_loop f measurement_group_items.

(** The optional filters of [get_image_measurement_groups]. *)
Module image_kw.
Record args : Type := mk_args {
  tracking_uid : option string;
  finding_type : option CodedConcept;
  finding_site : option CodedConcept;
  referenced_sop_instance_uid : option string;
  referenced_sop_class_uid : option string
}.
End image_kw.

Definition image_group_matches (f : image_kw.args)
    (group_item : ContentItem) : result (list bool) :=
  let matches : list bool := [] in
  do matches <-
    match image_kw.finding_type f with
    | Some finding_type =>
        do matches_finding <-
          _contains_code_items group_item codes.Finding
            (Some finding_type) (Some CONTAINS);
        ret (matches ++ [matches_finding])
    | None => ret matches
    end;
  do matches <-
    match image_kw.finding_site f with
    | Some finding_site =>
        do matches_finding_sites <-
          _contains_code_items group_item codes.FindingSite
            (Some finding_site) (Some HAS_CONCEPT_MOD);
        ret (matches ++ [matches_finding_sites])
    | None => ret matches
    end;
  do matches <-
    match image_kw.tracking_uid f with
    | Some tracking_uid =>
        do matches_tracking_uid <-
          _contains_uidref_items group_item
            codes.TrackingUniqueIdentifier (Some tracking_uid)
            (Some HAS_OBS_CONTEXT);
        ret (matches ++ [matches_tracking_uid])
    | None => ret matches
    end;
  if is_not_None (image_kw.referenced_sop_instance_uid f) ||
     is_not_None (image_kw.referenced_sop_class_uid f)
  then
    do matches_uids <-
      _contains_image_items group_item (Some codes._SOURCE)
        (image_kw.referenced_sop_class_uid f)
        (image_kw.referenced_sop_instance_uid f)
        (Some CONTAINS);
    ret (matches ++ [matches_uids])
  else ret matches.

Definition image_candidate (group_item : ContentItem) : result bool :=
  match template_id group_item with
  | Some tid => ret (String.eqb tid "1501")
  | None =>
      do contains_rois <- _contains_planar_rois group_item;
      do volumetric <- _contains_volumetric_rois group_item;
      let contains_rois := contains_rois || volumetric in
      ret (negb contains_rois)
  end.

Fixpoint image_loop (f : image_kw.args)
    (measurement_group_items : list ContentItem)
  : result (list ContentSeq) :=
  match measurement_group_items with
  | [] => ret []
  | group_item :: rest =>
      do candidate <- image_candidate group_item;
      if negb candidate then image_loop f rest
      else
        do matches <- image_group_matches f group_item;
        do seq <-
          _MeasurementsAndQualitativeEvaluations.from_sequence [group_item];
        if length matches =? 0 then
          do sequences <- image_loop f rest;
          ret (seq :: sequences)
        else if all matches then
          do sequences <- image_loop f rest;
          ret (seq :: sequences)
        else image_loop f rest
  end.

Definition get_image_measurement_groups (self : ContentSeq)
    (f : image_kw.args) : result (list ContentSeq) :=
  do measurement_group_items <- _find_measurement_groups self;
  image_loop f measurement_group_items.

(** The optional filters of [get_volumetric_roi_measurement_groups];
    the guards take a [graphic_type] of either enumeration. *)
Module volumetric_kw.
Record args : Type := mk_args {
  tracking_uid : option string;
  finding_type : option CodedConcept;
  finding_site : option CodedConcept;
  reference_type : option CodedConcept;
  graphic_type : option (GraphicTypeValues + GraphicTypeValues3D);
  referenced_sop_instance_uid : option string;
  referenced_sop_class_uid : option string
}.
End volumetric_kw.

(** The argument guards that open
    [get_volumetric_roi_measurement_groups]. *)
Definition volumetric_check_arguments (f : volumetric_kw.args)
  : result unit :=
  do _ <-
    match volumetric_kw.graphic_type f with
    | Some (inl graphic_type) =>
        if bool_decide (graphic_type = GT_MULTIPOINT) then
          raise (ValueError
            ("Graphic type " ++ dq ++ "MULTIPOINT" ++ dq ++
             " is not valid for image " ++
             "regions within a volumetric ROI measurements group.")%string)
        else ret tt
    | Some (inr graphic_type) =>
        if bool_decide (graphic_type = GT3D_MULTIPOINT) ||
           bool_decide (graphic_type = GT3D_POLYLINE) then
          raise (ValueError
            ("Graphic type 3D value " ++ dq ++
             str_GraphicTypeValues3D graphic_type ++ dq ++
             " is not valid " ++
             "for image regions within a planar ROI measurements " ++
             "group.")%string)
        else if is_not_None (volumetric_kw.referenced_sop_class_uid f) ||
                is_not_None (volumetric_kw.referenced_sop_instance_uid f) then
          raise (TypeError
            ("Supplying a referenced_sop_class_uid or " ++
             "referenced_sop_instance_uidis not valid" ++
             "when graphic_type is an instance of " ++
             "GraphicTypeValues3D, since SCOORD3D content items do " ++
             "not contain references to specific source image " ++
             "instances.")%string)
        else ret tt
    | None => ret tt
    end;
  match volumetric_kw.reference_type f with
  | Some reference_type =>
      if negb (code_in reference_type Volumetric_allowed_roi_reference_types)
      then
        raise (ValueError
          ("Concept is not valid as a reference " ++
           "type in Volumetric ROI Measurements and Qualitative " ++
           "Evaluations.")%string)
      else
        match volumetric_kw.graphic_type f with
        | Some graphic_type =>
            let ref_types_with_graphics :=
              [codes.ImageRegion; codes.VolumeSurface] in
            if negb (code_in reference_type ref_types_with_graphics) then
              raise (ValueError
                ("Specifying a graphic type is invalid when using " ++
                 "a reference type " ++ dq ++ meaning reference_type ++
                 dq)%string)
            else if code_eqb reference_type codes.ImageRegion then
              match graphic_type with
              | inr _ =>
                  raise (TypeError
                    ("When specifying a reference type of " ++
                     dq ++ "Image Region" ++ dq ++ ", the " ++ dq ++
                     "graphic_type" ++ dq ++ " argument must " ++
                     "be of type GraphicTypeValues.")%string)
              | inl _ => ret tt
              end
            else if code_eqb reference_type codes.VolumeSurface then
              match graphic_type with
              | inl _ =>
                  raise (TypeError
                    ("When specifying a reference type of " ++
                     dq ++ "Volume Surface" ++ dq ++ ", the " ++ dq ++
                     "graphic_type" ++ dq ++ " argument " ++
                     "must be of type GraphicTypeValues3D.")%string)
              | inr _ => ret tt
              end
            else ret tt
        | None => ret tt
        end
  | None => ret tt
  end.

(** The list [matches] that the body of the loop of
    [get_volumetric_roi_measurement_groups] builds for one group. *)
(** The loop over the reference items of a volumetric group whose
    reference type is Image Region: [matches_uids] becomes [True] at
    each SCOORD item that contains a matching source image. *)
Fixpoint image_regions_loop
    (referenced_sop_class_uid referenced_sop_instance_uid : option string)
    (ref_items : list ContentItem) (matches_uids : bool) : result bool :=
  match ref_items with
  | [] => ret matches_uids
  | ref_item :: rest =>
      if vt_eqb (value_type ref_item) SCOORD then
        do contains <-
          _contains_image_items ref_item None referenced_sop_class_uid
            referenced_sop_instance_uid (Some SELECTED_FROM);
        image_regions_loop referenced_sop_class_uid
          referenced_sop_instance_uid rest
          (if contains then true else matches_uids)
      else
        image_regions_loop referenced_sop_class_uid
          referenced_sop_instance_uid rest matches_uids
  end.

Definition volumetric_group_matches (f : volumetric_kw.args)
    (group_item : ContentItem) : result (list bool) :=
  let matches : list bool := [] in
  do matches <-
    match volumetric_kw.finding_type f with
    | Some finding_type =>
        do matches_finding <-
          _contains_code_items group_item codes.Finding
            (Some finding_type) (Some CONTAINS);
        ret (matches ++ [matches_finding])
    | None => ret matches
    end;
  do matches <-
    match volumetric_kw.finding_site f with
    | Some finding_site =>
        do matches_finding_sites <-
          _contains_code_items group_item codes.FindingSite
            (Some finding_site) (Some HAS_CONCEPT_MOD);
        ret (matches ++ [matches_finding_sites])
    | None => ret matches
    end;
  do matches <-
    match volumetric_kw.tracking_uid f with
    | Some tracking_uid =>
        do matches_tracking_uid <-
          _contains_uidref_items group_item
            codes.TrackingUniqueIdentifier (Some tracking_uid)
            (Some HAS_OBS_CONTEXT);
        ret (matches ++ [matches_tracking_uid])
    | None => ret matches
    end;
  if is_not_None (volumetric_kw.reference_type f) ||
     is_not_None (volumetric_kw.graphic_type f) ||
     is_not_None (volumetric_kw.referenced_sop_class_uid f) ||
     is_not_None (volumetric_kw.referenced_sop_instance_uid f)
  then
    do (found_ref_type, ref_items) <-
      _get_volumetric_roi_reference_items group_item;
    do ref_item0 <- item0 ref_items;
    let ref_value_type := value_type ref_item0 in
    let matches :=
      match volumetric_kw.reference_type f with
      | Some reference_type =>
          matches ++ [found_eq_code found_ref_type reference_type]
      | None => matches
      end in
    let matches :=
      match volumetric_kw.graphic_type f with
      | Some (inl graphic_type) =>
          match payload ref_item0 with
          | PScoord found_gt _ =>
              matches ++ [bool_decide (found_gt = graphic_type)]
          | _ => matches ++ [false]
          end
      | Some (inr graphic_type) =>
          match payload ref_item0 with
          | PScoord3D found_gt _ _ =>
              matches ++ [bool_decide (found_gt = graphic_type)]
          | _ => matches ++ [false]
          end
      | None => matches
      end in
    if is_not_None (volumetric_kw.referenced_sop_instance_uid f) ||
       is_not_None (volumetric_kw.referenced_sop_class_uid f)
    then
      let matches_uids := false in
      do matches_uids <-
        (if found_eq_code found_ref_type codes.ReferencedSegment ||
            found_eq_code found_ref_type codes._REGION_IN_SPACE
         then
           do sop_seq <- ReferencedSOPSequence0 ref_item0;
           let matches_instance_uid :=
             is_None_or_eq (volumetric_kw.referenced_sop_instance_uid f)
               (snd sop_seq) in
           let matches_class_uid :=
             is_None_or_eq (volumetric_kw.referenced_sop_class_uid f)
               (fst sop_seq) in
           if matches_class_uid && matches_instance_uid then ret true
           else ret matches_uids
         else ret matches_uids);
      do matches_uids <-
        (if found_eq_code found_ref_type codes.ImageRegion then
           image_regions_loop
             (volumetric_kw.referenced_sop_class_uid f)
             (volumetric_kw.referenced_sop_instance_uid f)
             ref_items matches_uids
         else ret matches_uids);
      do matches_uids <-
        (if found_eq_code found_ref_type codes.ReferencedSegment then
           do contains <-
             _contains_image_items group_item
               (Some codes.SourceImageForSegmentation)
               (volumetric_kw.referenced_sop_class_uid f)
               (volumetric_kw.referenced_sop_instance_uid f)
               (Some CONTAINS);
           if contains then ret true else ret matches_uids
         else ret matches_uids);
      ret (matches ++ [matches_uids])
    else ret matches
  else ret matches.

(** Whether the loop keeps a group for the volumetric getter. *)
Definition volumetric_candidate (group_item : ContentItem) : result bool :=
  match template_id group_item with
  | Some tid => ret (String.eqb tid "1411")
  | None => _contains_volumetric_rois group_item
  end.

Fixpoint volumetric_loop (f : volumetric_kw.args)
    (measurement_group_items : list ContentItem)
  : result (list ContentSeq) :=
  match measurement_group_items with
  | [] => ret []
  | group_item :: rest =>
      do candidate <- volumetric_candidate group_item;
      if negb candidate then volumetric_loop f rest
      else
        do matches <- volumetric_group_matches f group_item;
        if (length matches =? 0) || all matches then
          do seq <-
            VolumetricROIMeasurementsAndQualitativeEvaluations.from_sequence
              [group_item];
          do sequences <- volumetric_loop f rest;
          ret (seq :: sequences)
        else volumetric_loop f rest
  end.

Definition get_volumetric_roi_measurement_groups (self : ContentSeq)
    (f : volumetric_kw.args) : result (list ContentSeq) :=
  do _ <- volumetric_check_arguments f;
  do measurement_group_items <- _find_measurement_groups self;
  volumetric_loop f measurement_group_items.

(** [from_sequence]: the typed view of a sequence holding the root
    container of a report.  [ContentSequence.from_sequence] (missing
    from the sources) reproduces the items it is given. *)
Definition from_sequence (sequence : list ContentItem) : result ContentSeq :=
  if length sequence =? 0 then
    raise (ValueError "Sequence contains no SR Content Items.")
  else if 1 <? length sequence then
    raise (ValueError "Sequence contains more than one SR Content Item.")
  else
    do dataset <- item0 sequence;
    if negb (vt_eqb (value_type dataset) CONTAINER) then
      raise (ValueError
        ("Item #1 of sequence is not an appropriate SR Content Item " ++
         "because it does not have Value Type CONTAINER.")%string)
    else
      match template_id dataset with
      | None => raise (AttributeError "ContentTemplateSequence")
      | Some tid =>
          if negb (String.eqb tid "1500") then
            raise (ValueError
              ("Item #1 of sequence is not an appropriate SR Content " ++
               "Item " ++
               "because it does not have Template Identifier " ++
               dq ++ "1500" ++ dq ++ ".")%string)
          else ret sequence
      end.

(** [__init__].  The image library of the referenced images is built
    by [ImageLibrary], from the metadata of the images; it is a
    parameter of the constructor here, together with the type of the
    image datasets. *)
Section init.

Variable Image : Type.
Variable ImageLibrary : list Image -> result ContentSeq.

Definition init (observation_context : ContentSeq)
    (procedure_reported : CodedConcept + list CodedConcept)
    (imaging_measurements : option (list ContentSeq))
    (title : option CodedConcept)
    (language_of_content_item_and_descendants : option ContentSeq)
    (referenced_images : option (list Image)) : result ContentSeq :=
  let title :=
    match title with
    | None => codes.ImagingMeasurementReport
    | Some title => title
    end in
  (* isinstance(title, (CodedConcept, Code)): by typing *)
  let item := ContainerContentItem title None (Some "1500") in
  let content : ContentSeq := [] in
  let language_of_content_item_and_descendants :=
    match language_of_content_item_and_descendants with
    | None => LanguageOfContentItemAndDescendants.init DEFAULT_LANGUAGE
    | Some language => language
    end in
  let content := content ++ language_of_content_item_and_descendants in
  let content := content ++ observation_context in
  let procedure_reported :=
    match procedure_reported with
    | inl procedure => [procedure]
    | inr procedures => procedures
    end in
  let content :=
    fold_left
      (fun content procedure =>
         content ++ [CodeContentItem codes.ProcedureReported procedure
                       HAS_CONCEPT_MOD])
      procedure_reported content in
  do content <-
    match referenced_images with
    | Some (image :: images) =>
        do image_library <- ImageLibrary (image :: images);
        ret (content ++ image_library)
    | _ => ret content
    end;
  match imaging_measurements with
  | None => raise (TypeError "Argument 'imaging_measurements' is required.")
  | Some imaging_measurements =>
      if length imaging_measurements =? 0 then
        raise (ValueError
          ("Argument 'imaging_measurements' must contain at least " ++
           "one item.")%string)
      else
        let container_item :=
          ContainerContentItem codes.ImagingMeasurements (Some CONTAINS)
            None in
        (* each of them is a measurement group of one of the three
           classes: by typing *)
        let container_content :=
          fold_left (fun container_content measurements =>
                       container_content ++ measurements)
            imaging_measurements [] in
        let container_item :=
          set_ContentSequence container_item container_content in
        let content := content ++ [container_item] in
        let item := set_ContentSequence item content in
        ret [item]
  end.

End init.

End MeasurementReport.

End templates.

(** ** The generic dataset format *)

Module wire.
Import sr.

(** Modelled from the spec: the dataset representation of content
    items; the dataset library and [highdicom.sr.value_types], which
    read and write it, are missing from the sources.  The specification
    fixes that the representation carries attribute-style fields
    ([ValueType], [ConceptNameCodeSequence], [ContentSequence],
    [ContentTemplateSequence[0].TemplateIdentifier], ...).  A dataset is
    an ordered list of (keyword, element) pairs; an element is a
    string, a list of strings or integers, or a sequence of datasets. *)
Inductive Dataset : Type :=
| mkDataset (elements : list (string * Element))
with Element : Type :=
| Str (s : string)
| Strs (l : list string)
| Ints (l : list Z)
| Seq (items : list Dataset).

Definition elements (d : Dataset) : list (string * Element) :=
  match d with mkDataset l => l end.

Definition ValueType_string (v : ValueTypeValues) : string :=
  match v with
  | CODE => "CODE" | TEXT => "TEXT" | NUM => "NUM" | UIDREF => "UIDREF"
  | PNAME => "PNAME" | IMAGE => "IMAGE" | COMPOSITE => "COMPOSITE"
  | CONTAINER => "CONTAINER" | SCOORD => "SCOORD" | SCOORD3D => "SCOORD3D"
  | DATETIME => "DATETIME"
  end.

Definition RelationshipType_string (r : RelationshipTypeValues) : string :=
  match r with
  | CONTAINS => "CONTAINS"
  | HAS_PROPERTIES => "HAS PROPERTIES"
  | HAS_OBS_CONTEXT => "HAS OBS CONTEXT"
  | HAS_ACQ_CONTEXT => "HAS ACQ CONTEXT"
  | HAS_CONCEPT_MOD => "HAS CONCEPT MOD"
  | SELECTED_FROM => "SELECTED FROM"
  | INFERRED_FROM => "INFERRED FROM"
  end.

Definition GraphicType_string (g : GraphicTypeValues) : string :=
  match g with
  | GT_CIRCLE => "CIRCLE" | GT_ELLIPSE => "ELLIPSE"
  | GT_MULTIPOINT => "MULTIPOINT" | GT_POINT => "POINT"
  | GT_POLYLINE => "POLYLINE"
  end.

Definition GraphicType3D_string (g : GraphicTypeValues3D) : string :=
  match g with
  | GT3D_ELLIPSE => "ELLIPSE" | GT3D_ELLIPSOID => "ELLIPSOID"
  | GT3D_MULTIPOINT => "MULTIPOINT" | GT3D_POINT => "POINT"
  | GT3D_POLYLINE => "POLYLINE" | GT3D_POLYGON => "POLYGON"
  end.

(** The inverse tables, by search through the enumeration. *)
Definition parse_enum {A : Type} (to_string : A -> string) (all : list A)
    (s : string) : result A :=
  match find (fun a => String.eqb (to_string a) s) all with
  | Some a => ret a
  | None => raise (ValueError s)
  end.

Definition all_value_types : list ValueTypeValues :=
  [CODE; TEXT; NUM; UIDREF; PNAME; IMAGE; COMPOSITE; CONTAINER; SCOORD;
   SCOORD3D; DATETIME].
Definition all_relationship_types : list RelationshipTypeValues :=
  [CONTAINS; HAS_PROPERTIES; HAS_OBS_CONTEXT; HAS_ACQ_CONTEXT;
   HAS_CONCEPT_MOD; SELECTED_FROM; INFERRED_FROM].
Definition all_graphic_types : list GraphicTypeValues :=
  [GT_CIRCLE; GT_ELLIPSE; GT_MULTIPOINT; GT_POINT; GT_POLYLINE].
Definition all_graphic_types_3d : list GraphicTypeValues3D :=
  [GT3D_ELLIPSE; GT3D_ELLIPSOID; GT3D_MULTIPOINT; GT3D_POINT;
   GT3D_POLYLINE; GT3D_POLYGON].

Definition code_to_dataset (c : CodedConcept) : Dataset :=
  mkDataset [ ("CodeValue", Str (code_value c));
              ("CodingSchemeDesignator", Str (scheme_designator c));
              ("CodeMeaning", Str (meaning c)) ].

Definition payload_elements (p : Payload) : list (string * Element) :=
  match p with
  | PCode v => [("ConceptCodeSequence", Seq [code_to_dataset v])]
  | PText v => [("TextValue", Str v)]
  | PNum v unit qualifier =>
      [("MeasuredValueSequence",
        Seq [mkDataset
               [("NumericValue", Str v);
                ("MeasurementUnitsCodeSequence",
                 Seq [code_to_dataset unit])]])] ++
      match qualifier with
      | Some q =>
          [("NumericValueQualifierCodeSequence", Seq [code_to_dataset q])]
      | None => []
      end
  | PUidRef v => [("UID", Str v)]
  | PPname v => [("PersonName", Str v)]
  | PImage c u frames segments =>
      [("ReferencedSOPSequence",
        Seq [mkDataset
               [("ReferencedSOPClassUID", Str c);
                ("ReferencedSOPInstanceUID", Str u);
                ("ReferencedFrameNumber", Ints frames);
                ("ReferencedSegmentNumber", Ints segments)]])]
  | PComposite c u =>
      [("ReferencedSOPSequence",
        Seq [mkDataset
               [("ReferencedSOPClassUID", Str c);
                ("ReferencedSOPInstanceUID", Str u)]])]
  | PContainer tid =>
      match tid with
      | Some t =>
          [("ContentTemplateSequence",
            Seq [mkDataset [("TemplateIdentifier", Str t)]])]
      | None => []
      end
  | PScoord g data =>
      [("GraphicType", Str (GraphicType_string g)); ("GraphicData", Strs data)]
  | PScoord3D g data u =>
      [("GraphicType", Str (GraphicType3D_string g));
       ("GraphicData", Strs data);
       ("ReferencedFrameOfReferenceUID", Str u)]
  | PDateTime v => [("DateTime", Str v)]
  end.

(** Modelled from the spec: serialization of a content item and of
    its subtree to the dataset format (the writer is missing from the
    sources), one attribute per field of the item. *)
Fixpoint to_dataset (i : ContentItem) : Dataset :=
  match i with
  | mkItem n r p ocs =>
      mkDataset
        ([("ValueType", Str (ValueType_string (value_type i)));
          ("ConceptNameCodeSequence", Seq [code_to_dataset n])] ++
         match r with
         | Some r => [("RelationshipType", Str (RelationshipType_string r))]
         | None => []
         end ++
         payload_elements p ++
         match ocs with
         | Some cs =>
             [("ContentSequence",
               Seq ((fix go (l : list ContentItem) : list Dataset :=
                       match l with
                       | [] => []
                       | c :: l' => to_dataset c :: go l'
                       end) cs))]
         | None => []
         end)
  end.

Definition to_sequence (s : list ContentItem) : list Dataset :=
  map to_dataset s.

(** Attribute access on a dataset. *)
Fixpoint lookup (key : string) (l : list (string * Element))
  : option Element :=
  match l with
  | [] => None
  | (k, e) :: l' => if String.eqb k key then Some e else lookup key l'
  end.

Definition get_attr (key : string) (d : Dataset) : result Element :=
  match lookup key (elements d) with
  | Some e => ret e
  | None => raise (AttributeError key)
  end.

Definition get_str (key : string) (d : Dataset) : result string :=
  do e <- get_attr key d;
  match e with Str s => ret s | _ => raise (TypeError key) end.
Definition get_strs (key : string) (d : Dataset) : result (list string) :=
  do e <- get_attr key d;
  match e with Strs s => ret s | _ => raise (TypeError key) end.
Definition get_ints (key : string) (d : Dataset) : result (list Z) :=
  do e <- get_attr key d;
  match e with Ints s => ret s | _ => raise (TypeError key) end.

(** [d.<key>[0]] for a sequence attribute. *)
Definition get_seq0 (key : string) (d : Dataset) : result Dataset :=
  do e <- get_attr key d;
  match e with
  | Seq (d0 :: _) => ret d0
  | Seq [] => raise IndexError
  | _ => raise (TypeError key)
  end.

Definition code_from_dataset (d : Dataset) : result CodedConcept :=
  do v <- get_str "CodeValue" d;
  do s <- get_str "CodingSchemeDesignator" d;
  do m <- get_str "CodeMeaning" d;
  ret (mkCode v s m).

Definition get_code (key : string) (d : Dataset) : result CodedConcept :=
  do c <- get_seq0 key d;
  code_from_dataset c.

Definition payload_from_dataset (v : ValueTypeValues) (d : Dataset)
  : result Payload :=
  match v with
  | CODE => do c <- get_code "ConceptCodeSequence" d; ret (PCode c)
  | TEXT => do s <- get_str "TextValue" d; ret (PText s)
  | NUM =>
      do m <- get_seq0 "MeasuredValueSequence" d;
      do n <- get_str "NumericValue" m;
      do u <- get_code "MeasurementUnitsCodeSequence" m;
      match lookup "NumericValueQualifierCodeSequence" (elements d) with
      | Some _ =>
          do q <- get_code "NumericValueQualifierCodeSequence" d;
          ret (PNum n u (Some q))
      | None => ret (PNum n u None)
      end
  | UIDREF => do s <- get_str "UID" d; ret (PUidRef s)
  | PNAME => do s <- get_str "PersonName" d; ret (PPname s)
  | IMAGE =>
      do r <- get_seq0 "ReferencedSOPSequence" d;
      do c <- get_str "ReferencedSOPClassUID" r;
      do u <- get_str "ReferencedSOPInstanceUID" r;
      do frames <- get_ints "ReferencedFrameNumber" r;
      do segments <- get_ints "ReferencedSegmentNumber" r;
      ret (PImage c u frames segments)
  | COMPOSITE =>
      do r <- get_seq0 "ReferencedSOPSequence" d;
      do c <- get_str "ReferencedSOPClassUID" r;
      do u <- get_str "ReferencedSOPInstanceUID" r;
      ret (PComposite c u)
  | CONTAINER =>
      match lookup "ContentTemplateSequence" (elements d) with
      | Some _ =>
          do t <- get_seq0 "ContentTemplateSequence" d;
          do tid <- get_str "TemplateIdentifier" t;
          ret (PContainer (Some tid))
      | None => ret (PContainer None)
      end
  | SCOORD =>
      do g <- get_str "GraphicType" d;
      do g <- parse_enum GraphicType_string all_graphic_types g;
      do data <- get_strs "GraphicData" d;
      ret (PScoord g data)
  | SCOORD3D =>
      do g <- get_str "GraphicType" d;
      do g <- parse_enum GraphicType3D_string all_graphic_types_3d g;
      do data <- get_strs "GraphicData" d;
      do u <- get_str "ReferencedFrameOfReferenceUID" d;
      ret (PScoord3D g data u)
  | DATETIME => do s <- get_str "DateTime" d; ret (PDateTime s)
  end.

(** Modelled from the spec: [from_dataset] of
    [highdicom.sr.value_types] (missing from the sources) parses a
    dataset, and the datasets nested in its [ContentSequence], into the
    content item of the variant its [ValueType] names; a missing or
    ill-formed attribute raises. *)
Fixpoint from_dataset (d : Dataset) : result ContentItem :=
  match d with
  | mkDataset attrs =>
      do vt <- get_str "ValueType" d;
      do vt <- parse_enum ValueType_string all_value_types vt;
      do n <- get_code "ConceptNameCodeSequence" d;
      do r <-
        match lookup "RelationshipType" attrs with
        | Some _ =>
            do r <- get_str "RelationshipType" d;
            do r <- parse_enum RelationshipType_string
                      all_relationship_types r;
            ret (Some r)
        | None => ret None
        end;
      do p <- payload_from_dataset vt d;
      do ocs <-
        (fix children (l : list (string * Element))
           : result (option (list ContentItem)) :=
           match l with
           | [] => ret None
           | (k, e) :: l' =>
               if String.eqb k "ContentSequence" then
                 match e with
                 | Seq items =>
                     do cs <-
                       (fix go (ds : list Dataset)
                          : result (list ContentItem) :=
                          match ds with
                          | [] => ret []
                          | d' :: ds' =>
                              do c <- from_dataset d';
                              do cs <- go ds';
                              ret (c :: cs)
                          end) items;
                     ret (Some cs)
                 | _ => raise (TypeError "ContentSequence")
                 end
               else children l'
           end) attrs;
      ret (mkItem n r p ocs)
  end.

(** Modelled from the spec: [ContentSequence.from_sequence] (missing
    from the sources) parses every dataset of the sequence, in order. *)
Fixpoint from_sequence (sequence : list Dataset) : result (list ContentItem) :=
  match sequence with
  | [] => ret []
  | d :: rest =>
      do c <- from_dataset d;
      do cs <- from_sequence rest;
      ret (c :: cs)
  end.

End wire.

(** * Vocabulary of the specification *)

Module spec.
Import sr templates.

(** The caret that separates the components of a person name. *)
Definition caret : ascii := "^"%char.

(** The child content items of an item: none when it has no
    [ContentSequence]. *)
Definition children (i : ContentItem) : list ContentItem :=
  match ContentSequence i with
  | Some cs => cs
  | None => []
  end.

(** A "Measurement Group" container. *)
Definition is_measurement_group (g : ContentItem) : Prop :=
  value_type g = CONTAINER /\ code_eqb (name g) codes.MeasurementGroup = true.

(** The number of items of [cs] that satisfy [p]. *)
Definition count_items (p : ContentItem -> bool) (cs : list ContentItem)
  : nat :=
  length (List.filter p cs).

(** [1] for [true], [0] for [false]. *)
Definition b2n (b : bool) : nat := if b then 1 else 0.

(** The kinds of ROI reference item, by concept name and value type. *)
Definition named (c : CodedConcept) (v : ValueTypeValues)
    (item : ContentItem) : bool :=
  code_eqb (name item) c && vt_eqb (value_type item) v.

Definition is_image_region : ContentItem -> bool :=
  named codes.ImageRegion SCOORD.
Definition is_image_region_3d : ContentItem -> bool :=
  named codes.ImageRegion SCOORD3D.
Definition is_volume_surface : ContentItem -> bool :=
  named codes.VolumeSurface SCOORD3D.
Definition is_referenced_segment : ContentItem -> bool :=
  named codes.ReferencedSegment IMAGE.
Definition is_referenced_segmentation_frame : ContentItem -> bool :=
  named codes.ReferencedSegmentationFrame IMAGE.
Definition is_region_in_space : ContentItem -> bool :=
  named codes._REGION_IN_SPACE COMPOSITE.

(** A concept that [_get_roi_reference_items] knows the expected value
    types of. *)
Definition is_reference_type (c : CodedConcept) : Prop :=
  exists value_types, dict_get ref_type_value_type_map c = inr value_types.

(** The value types expected for a reference-type concept name. *)
Definition expected_value_types (c : CodedConcept) : list ValueTypeValues :=
  match dict_get ref_type_value_type_map c with
  | inr value_types => value_types
  | inl _ => []
  end.

(** A child that counts as an ROI reference: related by CONTAINS, named
    by an allowed reference-type concept, of a value type expected for
    that concept. *)
Definition roi_reference_match (allowed : list CodedConcept)
    (item : ContentItem) : bool :=
  rel_eqb (relationship_type item) (Some CONTAINS) &&
  code_in (name item) allowed &&
  vt_in (value_type item) (expected_value_types (name item)).

(** Whether the reference items that follow a first one of type [rt]
    are acceptable: all of type [rt], and none at all unless [rt]
    admits multiplicity. *)
Definition rest_ok (rt : CodedConcept) (rest : list ContentItem) : bool :=
  forallb (fun a => code_eqb (name a) rt) rest &&
  match rest with
  | [] => true
  | _ :: _ => code_in rt [codes.ImageRegion; codes.VolumeSurface]
  end.

(** The values carried by the payload of CODE, TEXT and UIDREF items. *)
Definition code_of (p : Payload) : option CodedConcept :=
  match p with PCode v => Some v | _ => None end.
Definition text_of (p : Payload) : option string :=
  match p with PText v => Some v | _ => None end.
Definition uid_of (p : Payload) : option string :=
  match p with PUidRef v => Some v | _ => None end.

(** The value an accessor reads, apart from the warnings it logs. *)
Definition value_read {A : Type}
    (r : result (_MeasurementsAndQualitativeEvaluations.logged A))
  : result A :=
  do x <- r; ret (fst x).

(** What an accessor of a singular field, looking for the child items
    named [n] of value type [vt], reads at the item 0 [root]: [None]
    when no child matches, and the value of the first matching child,
    in document order, when one or more match. *)
Definition reads_first_at {V : Type}
    (accessor : ContentSeq -> result (option V))
    (n : CodedConcept) (vt : ValueTypeValues)
    (value_of : Payload -> option V) (root : ContentItem) : Prop :=
  ((forall c, In c (children root) -> named n vt c = false) ->
   accessor [root] = inr None) /\
  (forall pre c post,
     children root = pre ++ c :: post ->
     (forall x, In x pre -> named n vt x = false) ->
     named n vt c = true ->
     exists v, value_of (payload c) = Some v /\
               accessor [root] = inr (Some v)).

(** An accessor of a measurement reads in this way at every item 0,
    with or without child content. *)
Definition reads_first {V : Type}
    (accessor : ContentSeq -> result (option V))
    (n : CodedConcept) (vt : ValueTypeValues)
    (value_of : Payload -> option V) : Prop :=
  forall root : ContentItem, reads_first_at accessor n vt value_of root.

(** An accessor of a measurement group reads in this way at every
    item 0 that has child content, and raises [AttributeError] at
    every item 0 that has none. *)
Definition reads_first_of_content {V : Type}
    (accessor : ContentSeq -> result (option V))
    (n : CodedConcept) (vt : ValueTypeValues)
    (value_of : Payload -> option V) : Prop :=
  forall root : ContentItem,
    (has_ContentSequence root = true ->
     reads_first_at accessor n vt value_of root) /\
    (has_ContentSequence root = false ->
     accessor [root] = inl (AttributeError "ContentSequence")).

(** A list-valued accessor of a measurement returns the empty list
    when no child matches. *)
Definition reads_all (accessor : ContentSeq -> result (list ContentItem))
    (n : CodedConcept) (vt : ValueTypeValues) : Prop :=
  forall root : ContentItem,
    (forall c, In c (children root) -> named n vt c = false) ->
    accessor [root] = inr [].

(** A list-valued accessor of a measurement group does so at every
    item 0 that has child content, and raises [AttributeError] at
    every item 0 that has none. *)
Definition reads_all_of_content
    (accessor : ContentSeq -> result (list ContentItem))
    (n : CodedConcept) (vt : ValueTypeValues) : Prop :=
  forall root : ContentItem,
    (has_ContentSequence root = true ->
     (forall c, In c (children root) -> named n vt c = false) ->
     accessor [root] = inr []) /\
    (has_ContentSequence root = false ->
     accessor [root] = inl (AttributeError "ContentSequence")).

(** The arguments [a] of a measurement group with the tracking
    identifier replaced by [ti]. *)
Definition with_tracking_identifier
    (a : _MeasurementsAndQualitativeEvaluations.kw.args) (ti : ContentSeq)
  : _MeasurementsAndQualitativeEvaluations.kw.args :=
  let m := _MeasurementsAndQualitativeEvaluations.kw.mk_args in
  m ti
    (_MeasurementsAndQualitativeEvaluations.kw.referenced_real_world_value_map
       a)
    (_MeasurementsAndQualitativeEvaluations.kw.time_point_context a)
    (_MeasurementsAndQualitativeEvaluations.kw.finding_type a)
    (_MeasurementsAndQualitativeEvaluations.kw.method a)
    (_MeasurementsAndQualitativeEvaluations.kw.algorithm_id a)
    (_MeasurementsAndQualitativeEvaluations.kw.finding_sites a)
    (_MeasurementsAndQualitativeEvaluations.kw.session a)
    (_MeasurementsAndQualitativeEvaluations.kw.measurements a)
    (_MeasurementsAndQualitativeEvaluations.kw.qualitative_evaluations a)
    (_MeasurementsAndQualitativeEvaluations.kw.finding_category a).

(** How many arguments of a list of optional arguments are supplied. *)
Definition supplied {A : Type} (x : option A) : nat :=
  match x with Some _ => 1 | None => 0 end.

Definition roi_references_supplied
    (a : _ROIMeasurementsAndQualitativeEvaluations.kw.args) : nat :=
  supplied (_ROIMeasurementsAndQualitativeEvaluations.kw.referenced_regions a)
  + supplied
      (_ROIMeasurementsAndQualitativeEvaluations.kw.referenced_volume_surface
         a)
  + supplied
      (_ROIMeasurementsAndQualitativeEvaluations.kw.referenced_segment a).

Definition planar_references_supplied
    (a : PlanarROIMeasurementsAndQualitativeEvaluations.kw.args) : nat :=
  supplied (PlanarROIMeasurementsAndQualitativeEvaluations.kw.referenced_region
              a)
  + supplied
      (PlanarROIMeasurementsAndQualitativeEvaluations.kw.referenced_segment a).

Definition volumetric_references_supplied
    (a : VolumetricROIMeasurementsAndQualitativeEvaluations.kw.args) : nat :=
  supplied
    (VolumetricROIMeasurementsAndQualitativeEvaluations.kw.referenced_regions
       a)
  + supplied
      (VolumetricROIMeasurementsAndQualitativeEvaluations.kw.referenced_volume_surface
         a)
  + supplied
      (VolumetricROIMeasurementsAndQualitativeEvaluations.kw.referenced_segment
         a).

(** The errors by which the constructors reject a wrong number of
    reference arguments. *)
Definition is_exclusivity_error {A : Type} (r : result A) : Prop :=
  r = inl (ValueError _ROIMeasurementsAndQualitativeEvaluations.msg_no_reference)
  \/ r = inl (ValueError
               _ROIMeasurementsAndQualitativeEvaluations.msg_many_references)
  \/ r = inl (ValueError
               PlanarROIMeasurementsAndQualitativeEvaluations.msg_no_reference)
  \/ r = inl (ValueError
               PlanarROIMeasurementsAndQualitativeEvaluations.msg_many_references).

(** The error by which the shared constructor rejects a tracking
    identifier of length 1. *)
Definition is_tracking_identifier_error {A : Type} (r : result A) : Prop :=
  r = inl (ValueError
             _MeasurementsAndQualitativeEvaluations.msg_tracking_identifier).

(** The exceptions that the ROI constructor can raise once the shared
    constructor has returned and exactly one reference is supplied. *)
Inductive late_roi_error (class_name : string) : exn -> Prop :=
| late_empty_regions :
    late_roi_error class_name
      (ValueError _ROIMeasurementsAndQualitativeEvaluations.msg_empty_regions)
| late_coordinates :
    late_roi_error class_name
      (ValueError
         (_ROIMeasurementsAndQualitativeEvaluations.msg_referenced_coordinates
            class_name))
| late_index : late_roi_error class_name IndexError
| late_attribute :
    late_roi_error class_name (AttributeError "ContentSequence").

(** The arguments of the ROI constructors with the shared arguments
    replaced by [b]. *)
Definition roi_with_base
    (a : _ROIMeasurementsAndQualitativeEvaluations.kw.args)
    (b : _MeasurementsAndQualitativeEvaluations.kw.args)
  : _ROIMeasurementsAndQualitativeEvaluations.kw.args :=
  _ROIMeasurementsAndQualitativeEvaluations.kw.mk_args b
    (_ROIMeasurementsAndQualitativeEvaluations.kw.referenced_regions a)
    (_ROIMeasurementsAndQualitativeEvaluations.kw.referenced_segment a)
    (_ROIMeasurementsAndQualitativeEvaluations.kw.referenced_volume_surface a)
    (_ROIMeasurementsAndQualitativeEvaluations.kw.geometric_purpose a).

Definition planar_with_base
    (a : PlanarROIMeasurementsAndQualitativeEvaluations.kw.args)
    (b : _MeasurementsAndQualitativeEvaluations.kw.args)
  : PlanarROIMeasurementsAndQualitativeEvaluations.kw.args :=
  PlanarROIMeasurementsAndQualitativeEvaluations.kw.mk_args b
    (PlanarROIMeasurementsAndQualitativeEvaluations.kw.referenced_region a)
    (PlanarROIMeasurementsAndQualitativeEvaluations.kw.referenced_segment a)
    (PlanarROIMeasurementsAndQualitativeEvaluations.kw.geometric_purpose a).

Definition volumetric_with_base
    (a : VolumetricROIMeasurementsAndQualitativeEvaluations.kw.args)
    (b : _MeasurementsAndQualitativeEvaluations.kw.args)
  : VolumetricROIMeasurementsAndQualitativeEvaluations.kw.args :=
  VolumetricROIMeasurementsAndQualitativeEvaluations.kw.mk_args b
    (VolumetricROIMeasurementsAndQualitativeEvaluations.kw.referenced_regions
       a)
    (VolumetricROIMeasurementsAndQualitativeEvaluations.kw.referenced_volume_surface
       a)
    (VolumetricROIMeasurementsAndQualitativeEvaluations.kw.referenced_segment
       a)
    (VolumetricROIMeasurementsAndQualitativeEvaluations.kw.geometric_purpose
       a).

(** The arguments that the ROI constructor of a planar or volumetric
    group hands to the shared ROI constructor. *)
Definition planar_to_roi
    (a : PlanarROIMeasurementsAndQualitativeEvaluations.kw.args)
  : _ROIMeasurementsAndQualitativeEvaluations.kw.args :=
  _ROIMeasurementsAndQualitativeEvaluations.kw.mk_args
    (PlanarROIMeasurementsAndQualitativeEvaluations.kw.base a)
    match PlanarROIMeasurementsAndQualitativeEvaluations.kw.referenced_region
            a with
    | Some (inl r) => Some (ImageRegions [r])
    | Some (inr r) => Some (ImageRegions3D [r])
    | None => None
    end
    (PlanarROIMeasurementsAndQualitativeEvaluations.kw.referenced_segment a)
    None
    (PlanarROIMeasurementsAndQualitativeEvaluations.kw.geometric_purpose a).

Definition volumetric_to_roi
    (a : VolumetricROIMeasurementsAndQualitativeEvaluations.kw.args)
  : _ROIMeasurementsAndQualitativeEvaluations.kw.args :=
  _ROIMeasurementsAndQualitativeEvaluations.kw.mk_args
    (VolumetricROIMeasurementsAndQualitativeEvaluations.kw.base a)
    match
      VolumetricROIMeasurementsAndQualitativeEvaluations.kw.referenced_regions
        a with
    | Some regions => Some (ImageRegions regions)
    | None => None
    end
    (VolumetricROIMeasurementsAndQualitativeEvaluations.kw.referenced_segment
       a)
    (VolumetricROIMeasurementsAndQualitativeEvaluations.kw.referenced_volume_surface
       a)
    (VolumetricROIMeasurementsAndQualitativeEvaluations.kw.geometric_purpose
       a).

(** Arguments on which nothing but the number of references can make
    the ROI constructor fail: a tracking identifier with both items, no
    measurements, and no empty list of regions. *)
Definition plain_roi_arguments
    (a : _ROIMeasurementsAndQualitativeEvaluations.kw.args) : Prop :=
  2 <= length (_MeasurementsAndQualitativeEvaluations.kw.tracking_identifier
                 (_ROIMeasurementsAndQualitativeEvaluations.kw.base a)) /\
  _MeasurementsAndQualitativeEvaluations.kw.measurements
    (_ROIMeasurementsAndQualitativeEvaluations.kw.base a) = None /\
  (forall r,
     _ROIMeasurementsAndQualitativeEvaluations.kw.referenced_regions a
     = Some r -> regions_items r <> []).

(** What follows the call of the shared ROI constructor in the planar
    and volumetric constructors. *)
Definition retag (tid : string) (r : result ContentSeq) : result ContentSeq :=
  do self <- r;
  do group_item <- item0 self;
  do group_item <- set_template_id group_item tid;
  ret [group_item].

(** *** Filters of the measurement-group getters *)

(** A filter that is not supplied is passed by every group. *)
Definition opt_passes {A : Type} (filter_value : option A)
    (passes : A -> bool) : bool :=
  match filter_value with
  | Some x => passes x
  | None => true
  end.

(** The outcome of a test that may raise, as a boolean: a test that
    raises does not hold. *)
Definition holds (r : result bool) : bool :=
  match r with
  | inr b => b
  | inl _ => false
  end.

(** The filter predicates on a group item, one per filter. *)
Definition passes_finding_type (g : ContentItem) (finding_type : CodedConcept)
  : bool :=
  holds
    (_contains_code_items g codes.Finding (Some finding_type)
       (Some CONTAINS)).

Definition passes_finding_site (g : ContentItem) (finding_site : CodedConcept)
  : bool :=
  holds
    (_contains_code_items g codes.FindingSite (Some finding_site)
       (Some HAS_CONCEPT_MOD)).

Definition passes_tracking_uid (g : ContentItem) (tracking_uid : string)
  : bool :=
  holds
    (_contains_uidref_items g codes.TrackingUniqueIdentifier
       (Some tracking_uid) (Some HAS_OBS_CONTEXT)).

(** The filters on the ROI reference of a planar group look at the
    single reference item of the group; a group whose reference item
    cannot be determined passes none of them. *)
Definition on_planar_reference (g : ContentItem)
    (test : option CodedConcept -> ContentItem -> bool) : bool :=
  match _get_planar_roi_reference_item g with
  | inr (found_ref_type, ref_item) => test found_ref_type ref_item
  | inl _ => false
  end.

Definition passes_reference_type (g : ContentItem)
    (reference_type : CodedConcept) : bool :=
  on_planar_reference g
    (fun found_ref_type _ => MeasurementReport.found_eq_code found_ref_type reference_type).

Definition passes_graphic_type (g : ContentItem)
    (graphic_type : GraphicTypeValues + GraphicTypeValues3D) : bool :=
  on_planar_reference g
    (fun _ ref_item =>
       match graphic_type, payload ref_item with
       | inl gt, PScoord found_gt _ => bool_decide (found_gt = gt)
       | inr gt, PScoord3D found_gt _ _ => bool_decide (found_gt = gt)
       | _, _ => false
       end).

(** The referenced SOP UIDs, as one filter on the pair (instance UID,
    class UID): some reference of the group carries every supplied
    UID. *)
Definition passes_referenced_sop_uids (g : ContentItem)
    (instance_uid class_uid : option string) : bool :=
  on_planar_reference g
    (fun found_ref_type ref_item =>
       ((MeasurementReport.found_eq_code found_ref_type codes.ReferencedSegmentationFrame ||
         MeasurementReport.found_eq_code found_ref_type codes._REGION_IN_SPACE) &&
        match MeasurementReport.ReferencedSOPSequence0 ref_item with
        | inr (c, u) =>
            MeasurementReport.is_None_or_eq class_uid c &&
            MeasurementReport.is_None_or_eq instance_uid u
        | inl _ => false
        end) ||
       (MeasurementReport.found_eq_code found_ref_type codes.ImageRegion &&
        vt_eqb (value_type ref_item) SCOORD &&
        holds
          (_contains_image_items ref_item None class_uid instance_uid
             (Some SELECTED_FROM))) ||
       (MeasurementReport.found_eq_code found_ref_type codes.ReferencedSegmentationFrame &&
        holds
          (_contains_image_items g (Some codes.SourceImageForSegmentation)
             class_uid instance_uid (Some CONTAINS)))).

(** Whether a SOP UID filter is supplied. *)
Definition sop_uids_supplied (instance_uid class_uid : option string) : bool :=
  is_not_None instance_uid || is_not_None class_uid.

(** A group passes the filters of the planar getter when it passes
    every supplied one. *)
Definition planar_passes (f : MeasurementReport.planar_kw.args)
    (g : ContentItem) : bool :=
  opt_passes (MeasurementReport.planar_kw.finding_type f)
    (passes_finding_type g) &&
  opt_passes (MeasurementReport.planar_kw.finding_site f)
    (passes_finding_site g) &&
  opt_passes (MeasurementReport.planar_kw.tracking_uid f)
    (passes_tracking_uid g) &&
  opt_passes (MeasurementReport.planar_kw.reference_type f)
    (passes_reference_type g) &&
  opt_passes (MeasurementReport.planar_kw.graphic_type f)
    (passes_graphic_type g) &&
  (if sop_uids_supplied
        (MeasurementReport.planar_kw.referenced_sop_instance_uid f)
        (MeasurementReport.planar_kw.referenced_sop_class_uid f)
   then passes_referenced_sop_uids g
          (MeasurementReport.planar_kw.referenced_sop_instance_uid f)
          (MeasurementReport.planar_kw.referenced_sop_class_uid f)
   else true).

(** Whether one of the filters on the ROI reference is supplied. *)
Definition reference_filters_supplied
    (f : MeasurementReport.planar_kw.args) : bool :=
  is_not_None (MeasurementReport.planar_kw.reference_type f) ||
  is_not_None (MeasurementReport.planar_kw.graphic_type f) ||
  is_not_None (MeasurementReport.planar_kw.referenced_sop_class_uid f) ||
  is_not_None (MeasurementReport.planar_kw.referenced_sop_instance_uid f).

Definition image_passes (f : MeasurementReport.image_kw.args)
    (g : ContentItem) : bool :=
  opt_passes (MeasurementReport.image_kw.finding_type f)
    (passes_finding_type g) &&
  opt_passes (MeasurementReport.image_kw.finding_site f)
    (passes_finding_site g) &&
  opt_passes (MeasurementReport.image_kw.tracking_uid f)
    (passes_tracking_uid g) &&
  (if sop_uids_supplied
        (MeasurementReport.image_kw.referenced_sop_instance_uid f)
        (MeasurementReport.image_kw.referenced_sop_class_uid f)
   then holds
          (_contains_image_items g (Some codes._SOURCE)
             (MeasurementReport.image_kw.referenced_sop_class_uid f)
             (MeasurementReport.image_kw.referenced_sop_instance_uid f)
             (Some CONTAINS))
   else true).

(** The groups of the requested kind: by the template-identifier tag
    when the group has one, by the classification otherwise. *)
Definition is_planar_group (g : ContentItem) : bool :=
  match MeasurementReport.planar_candidate g with
  | inr b => b
  | inl _ => false
  end.

Definition is_image_group (g : ContentItem) : bool :=
  match MeasurementReport.image_candidate g with
  | inr b => b
  | inl _ => false
  end.

(** The measurement groups of a report, in document order. *)
Definition measurement_groups (self : ContentSeq) : list ContentItem :=
  match MeasurementReport._find_measurement_groups self with
  | inr groups => groups
  | inl _ => []
  end.

(** The typed view of a group: the sequence holding it. *)
Definition view (g : ContentItem) : ContentSeq := [g].

Definition no_planar_filters : MeasurementReport.planar_kw.args :=
  MeasurementReport.planar_kw.mk_args None None None None None None None.
Definition no_image_filters : MeasurementReport.image_kw.args :=
  MeasurementReport.image_kw.mk_args None None None None None.

(** The claim that the planar getter returns a group of the requested
    kind if and only if it passes every supplied filter, at one report
    and one combination of filters. *)
Definition planar_getter_returns_exactly (self : ContentSeq)
    (f : MeasurementReport.planar_kw.args) : Prop :=
  forall g, In g (measurement_groups self) -> is_planar_group g = true ->
    ((exists sequences,
        MeasurementReport.get_planar_roi_measurement_groups self f =
        inr sequences /\ In (view g) sequences) <->
     planar_passes f g = true).

(** Induction on a content item with the hypothesis for every child. *)
Fixpoint ContentItem_children_ind (P : ContentItem -> Prop)
    (H : forall n r p ocs,
        match ocs with
        | Some cs => Forall P cs
        | None => True
        end -> P (mkItem n r p ocs))
    (i : ContentItem) {struct i} : P i :=
  match i with
  | mkItem n r p ocs =>
      H n r p ocs
        match ocs with
        | Some cs =>
            (fix children (l : list ContentItem) : Forall P l :=
               match l with
               | [] => @List.Forall_nil _ P
               | c :: l' =>
                   @List.Forall_cons _ P c l'
                     (ContentItem_children_ind P H c) (children l')
               end) cs
        | None => I
        end
  end.

(** Items used in examples. *)
Module examples.

Definition source_image : ContentItem :=
  mkItem (mkCode "111040" "DCM" "Original Source") (Some SELECTED_FROM)
    (PImage "1.2.840.10008.5.1.4.1.1.2" "1.2.3.4" [] []) None.

Definition region (g : GraphicTypeValues) : ContentItem :=
  mkItem codes.ImageRegion (Some CONTAINS)
    (PScoord g ["1.0"; "1.0"; "5.0"; "5.0"]) (Some [source_image]).

Definition tracking : ContentSeq :=
  TrackingIdentifier "2.25.1" (Some "1.2.3") (Some "lesion-1").

Definition finding : ContentItem :=
  CodeContentItem codes.Finding (mkCode "108369006" "SCT" "Neoplasm")
    CONTAINS.

Definition segment : ContentItem :=
  mkItem codes.ReferencedSegment (Some CONTAINS)
    (PImage "1.2.840.10008.5.1.4.1.1.66.4" "1.2.3.5" [] [1%Z]) None.

Definition group (tid : option string) (cs : list ContentItem)
  : ContentItem :=
  mkItem codes.MeasurementGroup (Some CONTAINS) (PContainer tid) (Some cs).

(** A group with one 2D image region among other items. *)
Definition planar_group : ContentItem :=
  group None (tracking ++ [finding; region GT_POLYLINE]).

(** A group with two 2D image regions. *)
Definition volumetric_group : ContentItem :=
  group None (tracking ++ [region GT_POLYLINE; region GT_CIRCLE]).

(** A report: the root container holds the "Imaging Measurements"
    container, which holds the measurement groups. *)
Definition report (groups : list ContentItem) : ContentSeq :=
  [ mkItem (mkCode "126000" "DCM" "Imaging Measurement Report") None
      (PContainer (Some "1500"))
      (Some [ mkItem codes.ImagingMeasurements (Some CONTAINS)
                (PContainer None) (Some groups) ]) ].

Definition neoplasm : CodedConcept := mkCode "108369006" "SCT" "Neoplasm".
Definition nodule : CodedConcept := mkCode "27925004" "SCT" "Nodule".

Definition tracking_uid_item (uid : string) : ContentItem :=
  UIDRefContentItem codes.TrackingUniqueIdentifier uid HAS_OBS_CONTEXT.

(** Three planar groups: a neoplasm tracked as 1.2.3, a nodule tracked
    as 1.2.3, a neoplasm tracked as 1.2.4. *)
Definition planar_1 : ContentItem :=
  group (Some "1410")
    [tracking_uid_item "1.2.3"; CodeContentItem codes.Finding neoplasm CONTAINS;
     region GT_POLYLINE].
Definition planar_2 : ContentItem :=
  group (Some "1410")
    [tracking_uid_item "1.2.3"; CodeContentItem codes.Finding nodule CONTAINS;
     region GT_CIRCLE].
Definition planar_3 : ContentItem :=
  group (Some "1410")
    [tracking_uid_item "1.2.4"; CodeContentItem codes.Finding neoplasm CONTAINS;
     region GT_POLYLINE].

Definition planar_report : ContentSeq :=
  report [planar_1; planar_2; planar_3].

Definition finding_and_uid : MeasurementReport.planar_kw.args :=
  MeasurementReport.planar_kw.mk_args (Some "1.2.3") (Some neoplasm) None
    None None None None.

(** A group tagged as planar that holds no ROI reference item, as a
    parsed document may contain, after a well-formed planar group; and
    the filter on the reference type Image Region. *)
Definition unreferenced_group : ContentItem :=
  group (Some "1410")
    [tracking_uid_item "1.2.5"; CodeContentItem codes.Finding nodule CONTAINS].

Definition unreferenced_report : ContentSeq :=
  report [planar_1; unreferenced_group].

Definition image_region_filter : MeasurementReport.planar_kw.args :=
  MeasurementReport.planar_kw.mk_args None None None
    (Some codes.ImageRegion) None None None.

(** A planar group whose image region has graphic type MULTIPOINT, as
    a parsed document may contain, and the filter on that graphic
    type. *)
Definition multipoint_group : ContentItem :=
  group (Some "1410") [tracking_uid_item "1.2.3"; region GT_MULTIPOINT].

Definition multipoint_report : ContentSeq := report [multipoint_group].

Definition multipoint_filter : MeasurementReport.planar_kw.args :=
  MeasurementReport.planar_kw.mk_args None None None None
    (Some (inl GT_MULTIPOINT)) None None.

(** A report whose root content ends with the items of a subject
    context. *)
Definition subject_class_fetus : ContentItem :=
  CodeContentItem codes.SubjectClass codes.Fetus HAS_OBS_CONTEXT.
Definition fetus_subject_id : ContentItem :=
  TextContentItem codes.SubjectID "fetus-1" HAS_OBS_CONTEXT.

Definition subject_report : ContentSeq :=
  [ mkItem (mkCode "126000" "DCM" "Imaging Measurement Report") None
      (PContainer (Some "1500"))
      (Some [subject_class_fetus; fetus_subject_id]) ].

(** A "Measurement Group" container without child content, as a
    parsed document may hold, and a measurement without child
    content. *)
Definition childless_group : ContentItem :=
  mkItem codes.MeasurementGroup (Some CONTAINS) (PContainer (Some "1501"))
    None.

Definition childless_measurement : ContentItem :=
  NumContentItem (mkCode "410668003" "SCT" "Length") "12.5"
    (mkCode "mm" "UCUM" "millimeter") None CONTAINS.

(** A measurement group with two findings. *)
Definition two_findings : ContentItem :=
  group (Some "1501")
    [tracking_uid_item "1.2.3"; CodeContentItem codes.Finding nodule CONTAINS;
     CodeContentItem codes.Finding neoplasm CONTAINS].

(** A report whose root content ends with the items of an observer
    context. *)
Definition observer_type_person : ContentItem :=
  CodeContentItem codes.ObserverType codes.Person HAS_OBS_CONTEXT.
Definition person_observer_name : ContentItem :=
  PnameContentItem codes.PersonObserverName "Doe^John" HAS_OBS_CONTEXT.

Definition observer_report : ContentSeq :=
  [ mkItem (mkCode "126000" "DCM" "Imaging Measurement Report") None
      (PContainer (Some "1500"))
      (Some [observer_type_person; person_observer_name]) ].

(** Arguments of the constructors. *)
Definition base_args : _MeasurementsAndQualitativeEvaluations.kw.args :=
  _MeasurementsAndQualitativeEvaluations.kw.mk_args tracking None None
    (Some (mkCode "108369006" "SCT" "Neoplasm")) None None None None None
    None None.

Definition roi_args : _ROIMeasurementsAndQualitativeEvaluations.kw.args :=
  _ROIMeasurementsAndQualitativeEvaluations.kw.mk_args base_args
    (Some (ImageRegions [region GT_POLYLINE])) None None None.

Definition planar_args
  : PlanarROIMeasurementsAndQualitativeEvaluations.kw.args :=
  PlanarROIMeasurementsAndQualitativeEvaluations.kw.mk_args base_args
    (Some (inl (region GT_POLYLINE))) None None.

Definition volumetric_args
  : VolumetricROIMeasurementsAndQualitativeEvaluations.kw.args :=
  VolumetricROIMeasurementsAndQualitativeEvaluations.kw.mk_args base_args
    None None (Some [segment]) None.

End examples.

End spec.

(** ** Vocabulary of the further properties *)

Module vocabulary.
Import sr templates spec.

(** A measurement group whose only ROI reference is one Region in
    Space item. *)
Definition region_in_space_group : ContentItem :=
  examples.group None
    (examples.tracking ++
     [mkItem codes._REGION_IN_SPACE (Some CONTAINS)
        (PComposite "1.2.840.10008.5.1.4.1.1.481.3" "1.2.3.6") None]).

(** A child of [parent] that [find_content_items] selects for the
    optional relationship type [r]. *)
Definition related (r : option RelationshipTypeValues) (c : ContentItem)
  : Prop :=
  forall x, r = Some x -> relationship_type c = Some x.

(** A supplied value [o] agrees with [v] under the comparison [eq]. *)
Definition agrees {A : Type} (eq : A -> A -> bool) (o : option A) (v : A)
  : Prop :=
  forall x, o = Some x -> eq v x = true.

(** A group whose first child is a TEXT item that bears the name of a
    reference type, followed by a 2D image region. *)
Definition misnamed_group : ContentItem :=
  examples.group (Some "1410")
    [TextContentItem codes.ReferencedSegmentationFrame "frame 1" CONTAINS;
     examples.region GT_POLYLINE].

(** *** Keyword arguments of the context templates *)

(** An optional string or coded argument as the value of an item. *)
Definition str_arg (o : option string) : option ItemValue :=
  match o with Some s => Some (IVStr s) | None => None end.
Definition code_arg (o : option CodedConcept) : option ItemValue :=
  match o with Some c => Some (IVCode c) | None => None end.

(** The keyword arguments [kw] with [param] bound when the argument is
    supplied. *)
Definition with_arg (param : string) (v : option ItemValue) (kw : kwargs)
  : kwargs :=
  match v with
  | Some v => <[param := v]> kw
  | None => kw
  end.

(** The keyword arguments that stand for the call of a constructor with
    the given arguments: a binding for each required and each supplied
    optional argument. *)
Definition person_kwargs (name : string)
    (login_name organization_name : option string)
    (role_in_organization role_in_procedure : option CodedConcept) : kwargs :=
  with_arg "role_in_procedure" (code_arg role_in_procedure)
    (with_arg "role_in_organization" (code_arg role_in_organization)
       (with_arg "organization_name" (str_arg organization_name)
          (with_arg "login_name" (str_arg login_name)
             (<["name" := IVStr name]> ∅)))).

Definition device_observer_kwargs (uid : string)
    (name manufacturer_name model_name serial_number physical_location
       : option string) : kwargs :=
  with_arg "physical_location" (str_arg physical_location)
    (with_arg "serial_number" (str_arg serial_number)
       (with_arg "model_name" (str_arg model_name)
          (with_arg "manufacturer_name" (str_arg manufacturer_name)
             (with_arg "name" (str_arg name)
                (<["uid" := IVStr uid]> ∅))))).

Definition fetus_kwargs (subject_id : string) : kwargs :=
  <["subject_id" := IVStr subject_id]> ∅.

Definition specimen_kwargs (uid : string)
    (identifier container_identifier : option string)
    (specimen_type : option CodedConcept) : kwargs :=
  with_arg "container_identifier" (str_arg container_identifier)
    (with_arg "specimen_type" (code_arg specimen_type)
       (with_arg "identifier" (str_arg identifier)
          (<["uid" := IVStr uid]> ∅))).

Definition device_subject_kwargs (name : string)
    (uid manufacturer_name model_name serial_number physical_location
       : option string) : kwargs :=
  with_arg "physical_location" (str_arg physical_location)
    (with_arg "serial_number" (str_arg serial_number)
       (with_arg "model_name" (str_arg model_name)
          (with_arg "manufacturer_name" (str_arg manufacturer_name)
             (with_arg "uid" (str_arg uid)
                (<["name" := IVStr name]> ∅))))).

(** A [from_sequence] that gathers the keyword arguments listed in
    [attr_codes] keeps, for each of them, the value of the last item of
    the sequence that bears its concept name, and leaves the argument
    out when no item bears it. *)
Definition keeps_last (from_sequence : list ContentItem -> result kwargs)
    (attr_codes : list (string * CodedConcept)) : Prop :=
  forall seq kw,
    from_sequence seq = inr kw ->
    forall param n,
      In (param, n) attr_codes ->
      ((forall x, In x seq -> code_eqb (name x) n = false) ->
       kw !! param = None) /\
      (forall pre item post,
         seq = pre ++ item :: post ->
         code_eqb (name item) n = true ->
         (forall x, In x post -> code_eqb (name x) n = false) ->
         exists v, item_value item = inr v /\ kw !! param = Some v).

(** A [from_sequence] whose constructor requires the argument carried
    by the items named [required]: it returns only on a sequence that
    holds such an item, and on a sequence without one, whose items
    with a name of [attr_codes] have a value, it raises [TypeError]. *)
Definition requires (from_sequence : list ContentItem -> result kwargs)
    (attr_codes : list (string * CodedConcept)) (required : CodedConcept)
  : Prop :=
  forall seq,
    (returns (from_sequence seq) ->
     exists x, In x seq /\ code_eqb (name x) required = true) /\
    ((forall x, In x seq -> code_in (name x) (map snd attr_codes) = true ->
        returns (item_value x)) ->
     (forall x, In x seq -> code_eqb (name x) required = false) ->
     is_TypeError (from_sequence seq)).

(** An accessor of an optional attribute reads the first item of the
    template that bears the concept name [n]: [None] without one, the
    value of the first one otherwise; it logs a warning exactly when
    there is more than one. *)
Definition reads_first_named
    (accessor : ContentSeq ->
                result (_MeasurementsAndQualitativeEvaluations.logged
                          (option ItemValue)))
    (n : CodedConcept) : Prop :=
  forall self : ContentSeq,
    ((forall x, In x self -> code_eqb (name x) n = false) ->
     accessor self = inr (None, [])) /\
    (forall pre item post v,
       self = pre ++ item :: post ->
       (forall x, In x pre -> code_eqb (name x) n = false) ->
       code_eqb (name item) n = true ->
       item_value item = inr v ->
       exists log,
         accessor self = inr (Some v, log) /\
         (log = [] <-> forall x, In x post -> code_eqb (name x) n = false)).

(** Whether the inner loop of a [from_sequence] binds [param] at
    [item]. *)
Definition binds (attr_codes : list (string * CodedConcept))
    (param : string) (item : ContentItem) : bool :=
  existsb (fun pn => String.eqb (fst pn) param &&
                     code_eqb (name item) (snd pn)) attr_codes.

(** *** Observer and subject contexts *)

(** The identifying attributes are those of the class that the
    observer type names. *)
Definition observer_kind_matches (observer_type : CodedConcept)
    (a : ObserverAttributes) : Prop :=
  match a with
  | PersonAttributes _ => code_eqb observer_type codes.Person = true
  | DeviceAttributes _ => code_eqb observer_type codes.Device = true
  end.

(** The subject class is that of the class-specific context. *)
Definition subject_kind_matches (subject_class : CodedConcept)
    (c : SubjectSpecificContext) : Prop :=
  match c with
  | SpecimenContext _ => code_eqb subject_class codes.Specimen = true
  | FetusContext _ => code_eqb subject_class codes.Fetus = true
  | DeviceContext _ => code_eqb subject_class codes.Device = true
  end.

(** The contexts of [contexts] whose type (or class) is [t]. *)
Definition of_type (t : CodedConcept) (contexts : list Context)
  : list Context :=
  List.filter (fun c => value_eq_code (context_type c) t) contexts.

(** *** Measurements *)

(** A content sequence built by the constructor of
    [TrackingIdentifier]. *)
Definition is_tracking_identifier (s : ContentSeq) : Prop :=
  exists fresh_uid uid identifier,
    s = TrackingIdentifier fresh_uid uid identifier.

(** An optional tracking identifier, when supplied, was built by the
    constructor. *)
Definition tracked (o : option ContentSeq) : Prop :=
  forall s, o = Some s -> is_tracking_identifier s.

(** The one item of a measurement read back by [from_sequence]: the
    name, the numeric payload and the children of [item], related to
    its parent by CONTAINS. *)
Definition as_measurement (item : ContentItem) : ContentItem :=
  mkItem (name item) (Some CONTAINS) (payload item) (ContentSequence item).

(** An SCOORD or SCOORD3D item. *)
Definition is_coordinates (c : ContentItem) : Prop :=
  value_type c = SCOORD \/ value_type c = SCOORD3D.

(** A measurement of a length, with and without a method. *)
Definition length_measurement (method : option CodedConcept) : ContentSeq :=
  Measurement.init
    (Measurement.kw.mk_args (mkCode "410668003" "SCT" "Length") "12.5"
       (mkCode "mm" "UCUM" "millimeter") None (Some examples.tracking) None
       None None method None None None None).

(** A measurement that carries the coordinates it was taken at. *)
Definition located_measurement : ContentSeq :=
  Measurement.init
    (Measurement.kw.mk_args (mkCode "410668003" "SCT" "Length") "12.5"
       (mkCode "mm" "UCUM" "millimeter") None None None None None None None
       None
       (Some [mkItem (mkCode "121112" "DCM" "Source of Measurement")
                (Some INFERRED_FROM)
                (PScoord GT_POLYLINE ["1.0"; "1.0"; "5.0"; "5.0"])
                (Some [examples.source_image])])
       None).

(** *** Measurement groups *)

(** The items that an optional argument contributes. *)
Definition opt_items {A : Type} (o : option A) (f : A -> list ContentItem)
  : list ContentItem :=
  match o with
  | Some x => f x
  | None => []
  end.

(** The first children of a group built by the shared constructor: the
    tracking identifier, then the items of the session, of the finding
    category, of the finding type and of the method that were
    supplied. *)
Definition group_head (a : _MeasurementsAndQualitativeEvaluations.kw.args)
  : list ContentItem :=
  _MeasurementsAndQualitativeEvaluations.kw.tracking_identifier a ++
  opt_items (_MeasurementsAndQualitativeEvaluations.kw.session a)
    (fun session =>
       [TextContentItem codes.ActivitySession session HAS_OBS_CONTEXT]) ++
  opt_items (_MeasurementsAndQualitativeEvaluations.kw.finding_category a)
    (fun finding_category =>
       [CodeContentItem codes.FindingCategory finding_category CONTAINS]) ++
  opt_items (_MeasurementsAndQualitativeEvaluations.kw.finding_type a)
    (fun finding_type =>
       [CodeContentItem codes.Finding finding_type CONTAINS]) ++
  opt_items (_MeasurementsAndQualitativeEvaluations.kw.method a)
    (fun method =>
       [CodeContentItem codes.MeasurementMethod method CONTAINS]).

(** The children that follow: finding sites, algorithm identification,
    time point context and real world value map, then the
    measurements, then the qualitative evaluations. *)
Definition group_context (a : _MeasurementsAndQualitativeEvaluations.kw.args)
  : list ContentItem :=
  opt_items (_MeasurementsAndQualitativeEvaluations.kw.finding_sites a)
    (fun sites => sites) ++
  opt_items (_MeasurementsAndQualitativeEvaluations.kw.algorithm_id a)
    (fun items => items) ++
  opt_items (_MeasurementsAndQualitativeEvaluations.kw.time_point_context a)
    (fun items => items) ++
  opt_items
    (_MeasurementsAndQualitativeEvaluations.kw.referenced_real_world_value_map
       a)
    (fun item => [item]).

Definition group_measurements
    (a : _MeasurementsAndQualitativeEvaluations.kw.args)
  : list ContentItem :=
  opt_items (_MeasurementsAndQualitativeEvaluations.kw.measurements a)
    (fun measurements => concat measurements).

Definition group_evaluations
    (a : _MeasurementsAndQualitativeEvaluations.kw.args)
  : list ContentItem :=
  opt_items
    (_MeasurementsAndQualitativeEvaluations.kw.qualitative_evaluations a)
    (fun evaluations => concat evaluations).

(** What the accessors of a group return on a group built from the
    arguments [a] whose tracking identifier holds the identifier
    [identifier] and the UID [uid]: the identifier, the UID, and each
    of the finding category, finding type and method that was
    supplied. *)
Definition group_reads_back (self : ContentSeq)
    (a : _MeasurementsAndQualitativeEvaluations.kw.args)
    (uid identifier : string) : Prop :=
  value_read (_MeasurementsAndQualitativeEvaluations.tracking_identifier self)
  = inr (Some identifier) /\
  value_read (_MeasurementsAndQualitativeEvaluations.tracking_uid self)
  = inr (Some uid) /\
  (forall c,
     _MeasurementsAndQualitativeEvaluations.kw.finding_category a = Some c ->
     value_read (_MeasurementsAndQualitativeEvaluations.finding_category self)
     = inr (Some c)) /\
  (forall t,
     _MeasurementsAndQualitativeEvaluations.kw.finding_type a = Some t ->
     value_read (_MeasurementsAndQualitativeEvaluations.finding_type self)
     = inr (Some t)) /\
  (forall m,
     _MeasurementsAndQualitativeEvaluations.kw.method a = Some m ->
     value_read (_MeasurementsAndQualitativeEvaluations.method self)
     = inr (Some m)).

(** A measurement some child of whose item is an SCOORD or SCOORD3D
    item. *)
Definition carries_coordinates (measurement : ContentSeq) : Prop :=
  exists i0 rest c,
    measurement = i0 :: rest /\ In c (children i0) /\ is_coordinates c.

(** Arguments of a group among whose measurements, none of them an
    empty sequence, one carries coordinates. *)
Definition has_located_measurement
    (a : _MeasurementsAndQualitativeEvaluations.kw.args) : Prop :=
  exists measurements measurement,
    _MeasurementsAndQualitativeEvaluations.kw.measurements a
    = Some measurements /\
    Forall (fun m => m <> []) measurements /\
    In measurement measurements /\
    carries_coordinates measurement.

(** The qualitative evaluation that [get_qualitative_evaluations]
    makes of a CODE item. *)
Definition as_evaluation (c : ContentItem) : ContentSeq :=
  match payload c with
  | PCode v => QualitativeEvaluation.init (name c) v
  | _ => []
  end.

(** The CODE children that [get_qualitative_evaluations] takes for
    evaluations: those named neither Finding, nor Finding Site, nor
    Measurement Method. *)
Definition is_evaluation (name_f : option CodedConcept) (c : ContentItem)
  : bool :=
  item_matches name_f (Some CODE) None c &&
  negb (code_in (name c)
          [codes.Finding; codes.FindingSite; codes.MeasurementMethod]).

(** Arguments of a group with a located measurement. *)
Definition located_args : _MeasurementsAndQualitativeEvaluations.kw.args :=
  _MeasurementsAndQualitativeEvaluations.kw.mk_args examples.tracking None
    None None None None None None (Some [located_measurement]) None None.

(** Arguments of a group with a finding category, a finding type, a
    method, a measurement and an evaluation. *)
Definition full_args : _MeasurementsAndQualitativeEvaluations.kw.args :=
  _MeasurementsAndQualitativeEvaluations.kw.mk_args examples.tracking None
    None (Some examples.neoplasm)
    (Some (mkCode "733985002" "SCT" "Reported")) None None None
    (Some [length_measurement None])
    (Some [QualitativeEvaluation.init
             (mkCode "246112005" "SCT" "Severity")
             (mkCode "255604002" "SCT" "Mild")])
    (Some (mkCode "49755003" "SCT" "Morphologically abnormal structure")).

(** What a constructor returned, the empty sequence standing for an
    exception. *)
Definition returned (r : result ContentSeq) : ContentSeq :=
  match r with
  | inr self => self
  | inl _ => []
  end.

(** *** Filters of the volumetric getter *)

(** The filters on the ROI reference of a volumetric group look at the
    reference items of the group, and at the first of them for the
    graphic type and the direct reference; a group whose reference
    items cannot be determined passes none of them. *)
Definition on_volumetric_reference (g : ContentItem)
    (test : option CodedConcept -> ContentItem -> list ContentItem -> bool)
  : bool :=
  match _get_volumetric_roi_reference_items g with
  | inr (found_ref_type, ref_item0 :: rest) =>
      test found_ref_type ref_item0 (ref_item0 :: rest)
  | _ => false
  end.

Definition volumetric_passes_reference_type (g : ContentItem)
    (reference_type : CodedConcept) : bool :=
  on_volumetric_reference g
    (fun found_ref_type _ _ =>
       MeasurementReport.found_eq_code found_ref_type reference_type).

Definition volumetric_passes_graphic_type (g : ContentItem)
    (graphic_type : GraphicTypeValues + GraphicTypeValues3D) : bool :=
  on_volumetric_reference g
    (fun _ ref_item0 _ =>
       match graphic_type, payload ref_item0 with
       | inl gt, PScoord found_gt _ => bool_decide (found_gt = gt)
       | inr gt, PScoord3D found_gt _ _ => bool_decide (found_gt = gt)
       | _, _ => false
       end).

Definition volumetric_passes_referenced_sop_uids (g : ContentItem)
    (instance_uid class_uid : option string) : bool :=
  on_volumetric_reference g
    (fun found_ref_type ref_item0 ref_items =>
       ((MeasurementReport.found_eq_code found_ref_type
           codes.ReferencedSegment ||
         MeasurementReport.found_eq_code found_ref_type
           codes._REGION_IN_SPACE) &&
        match MeasurementReport.ReferencedSOPSequence0 ref_item0 with
        | inr (c, u) =>
            MeasurementReport.is_None_or_eq class_uid c &&
            MeasurementReport.is_None_or_eq instance_uid u
        | inl _ => false
        end) ||
       (MeasurementReport.found_eq_code found_ref_type codes.ImageRegion &&
        existsb
          (fun ref_item =>
             vt_eqb (value_type ref_item) SCOORD &&
             holds
               (_contains_image_items ref_item None class_uid instance_uid
                  (Some SELECTED_FROM)))
          ref_items) ||
       (MeasurementReport.found_eq_code found_ref_type
          codes.ReferencedSegment &&
        holds
          (_contains_image_items g (Some codes.SourceImageForSegmentation)
             class_uid instance_uid (Some CONTAINS)))).

(** A group passes the filters of the volumetric getter when it passes
    every supplied one. *)
Definition volumetric_passes (f : MeasurementReport.volumetric_kw.args)
    (g : ContentItem) : bool :=
  opt_passes (MeasurementReport.volumetric_kw.finding_type f)
    (passes_finding_type g) &&
  opt_passes (MeasurementReport.volumetric_kw.finding_site f)
    (passes_finding_site g) &&
  opt_passes (MeasurementReport.volumetric_kw.tracking_uid f)
    (passes_tracking_uid g) &&
  opt_passes (MeasurementReport.volumetric_kw.reference_type f)
    (volumetric_passes_reference_type g) &&
  opt_passes (MeasurementReport.volumetric_kw.graphic_type f)
    (volumetric_passes_graphic_type g) &&
  (if sop_uids_supplied
        (MeasurementReport.volumetric_kw.referenced_sop_instance_uid f)
        (MeasurementReport.volumetric_kw.referenced_sop_class_uid f)
   then volumetric_passes_referenced_sop_uids g
          (MeasurementReport.volumetric_kw.referenced_sop_instance_uid f)
          (MeasurementReport.volumetric_kw.referenced_sop_class_uid f)
   else true).

(** Whether one of the filters on the ROI reference is supplied. *)
Definition volumetric_reference_filters_supplied
    (f : MeasurementReport.volumetric_kw.args) : bool :=
  is_not_None (MeasurementReport.volumetric_kw.reference_type f) ||
  is_not_None (MeasurementReport.volumetric_kw.graphic_type f) ||
  is_not_None (MeasurementReport.volumetric_kw.referenced_sop_class_uid f) ||
  is_not_None (MeasurementReport.volumetric_kw.referenced_sop_instance_uid f).

(** The groups of the volumetric kind: by the template-identifier tag
    when the group has one, by the classification otherwise. *)
Definition is_volumetric_group (g : ContentItem) : bool :=
  match MeasurementReport.volumetric_candidate g with
  | inr b => b
  | inl _ => false
  end.

Definition no_volumetric_filters : MeasurementReport.volumetric_kw.args :=
  MeasurementReport.volumetric_kw.mk_args None None None None None None None.

(** Two volumetric groups and a planar one. *)
Definition volumetric_1 : ContentItem :=
  examples.group (Some "1411")
    [examples.tracking_uid_item "1.2.7";
     CodeContentItem codes.Finding examples.neoplasm CONTAINS;
     examples.region GT_POLYLINE; examples.region GT_CIRCLE].
Definition volumetric_2 : ContentItem :=
  examples.group None
    [examples.tracking_uid_item "1.2.8";
     CodeContentItem codes.Finding examples.nodule CONTAINS;
     examples.segment].

Definition mixed_report : ContentSeq :=
  examples.report [volumetric_1; examples.planar_1; volumetric_2].

Definition neoplasm_filter : MeasurementReport.volumetric_kw.args :=
  MeasurementReport.volumetric_kw.mk_args None (Some examples.neoplasm) None
    None None None None.

(** *** Reports built by the constructor *)

(** The language items of a report: those supplied, or the item of the
    default language. *)
Definition language_items (language : option ContentSeq) : ContentSeq :=
  match language with
  | Some language => language
  | None => LanguageOfContentItemAndDescendants.init DEFAULT_LANGUAGE
  end.

(** The items of the image library of a report: none unless referenced
    images are supplied. *)
Definition library_items {Image : Type}
    (ImageLibrary : list Image -> result ContentSeq)
    (referenced_images : option (list Image)) : result ContentSeq :=
  match referenced_images with
  | Some (image :: images) => ImageLibrary (image :: images)
  | _ => ret []
  end.

(** An "Imaging Measurements" container. *)
Definition is_imaging_measurements (i : ContentItem) : bool :=
  named codes.ImagingMeasurements CONTAINER i.

(** An item that the [from_sequence] gathering [attr_codes] between
    the markers named [marker] passes over: it is no marker and bears
    none of the concept names of [attr_codes]. *)
Definition passed_over (attr_codes : list (string * CodedConcept))
    (marker : CodedConcept) (i : ContentItem) : bool :=
  negb (code_eqb (name i) marker) &&
  negb (code_in (name i) (map snd attr_codes)).

Definition passed_over_by_observer (i : ContentItem) : bool :=
  passed_over PersonObserverIdentifyingAttributes.attr_codes
    codes.ObserverType i.

Definition chest_ct : CodedConcept := mkCode "241540006" "SCT" "CT of chest".

Definition fetus_context : ContentSeq :=
  [examples.subject_class_fetus; examples.fetus_subject_id].

(** The items of the procedures reported. *)
Definition procedure_items
    (procedure_reported : CodedConcept + list CodedConcept)
  : list ContentItem :=
  map (fun procedure =>
         CodeContentItem codes.ProcedureReported procedure HAS_CONCEPT_MOD)
    match procedure_reported with
    | inl procedure => [procedure]
    | inr procedures => procedures
    end.

(** The "Imaging Measurements" container of the groups [gs], and the
    root container of a report with the given content. *)
Definition imaging_measurements_container (gs : list ContentItem)
  : ContentItem :=
  set_ContentSequence
    (ContainerContentItem codes.ImagingMeasurements (Some CONTAINS) None) gs.

Definition report_root (title : option CodedConcept)
    (content : list ContentItem) : ContentItem :=
  set_ContentSequence
    (ContainerContentItem
       match title with
       | Some title => title
       | None => codes.ImagingMeasurementReport
       end None (Some "1500"))
    content.

(** A report as the constructor builds it, observed by a person: the
    root content ends with the "Imaging Measurements" container. *)
Definition observed_report : ContentSeq :=
  [ report_root None
      [ examples.observer_type_person; examples.person_observer_name;
        imaging_measurements_container [examples.planar_1] ] ].

(** The items of a person observer with two login names. *)
Definition login_item (login_name : string) : ContentItem :=
  TextContentItem codes.PersonObserverLoginName login_name HAS_OBS_CONTEXT.

Definition two_logins : ContentSeq :=
  [examples.person_observer_name; login_item "jdoe"; login_item "john"].

(** No image is referenced: the type of images is then immaterial. *)
Definition no_library (referenced_images : list unit) : result ContentSeq :=
  ret [].

End vocabulary.

(** * Properties *)

(** ** Results *)

Lemma bind_inr {A B : Type} (m : result A) (k : A -> result B) (b : B) :
  bind m k = inr b -> exists a, m = inr a /\ k a = inr b.
Proof.
  destruct m as [e | a]; simpl; intros H; [discriminate | eauto].
Qed.

(** ** valuerep.py: person names *)

Section PersonNames.
Import valuerep spec.

Lemma prefix_caret (s : string) :
  String.prefix "^" s = true <->
  exists s', s = String caret s'.
Proof.
  destruct s as [| c s'].
  - split; [discriminate | intros [? ?]; discriminate].
  - change (String.prefix "^" (String c s'))
      with (match ascii_dec caret c with
            | left _ => String.prefix EmptyString s'
            | right _ => false
            end).
    destruct (ascii_dec caret c) as [<- | Hne].
    + split; [eauto | intros _; now destruct s'].
    + split; [discriminate |].
      intros [x Hx]. injection Hx as Hc _. now elim Hne.
Qed.

Lemma str_contains_caret (s : string) :
  str_contains "^" s = true <-> In caret (list_ascii_of_string s).
Proof.
  induction s as [| c s IH].
  - simpl. split; [discriminate | tauto].
  - change (str_contains "^" (String c s))
      with (String.prefix "^" (String c s) || str_contains "^" s).
    rewrite orb_true_iff, prefix_caret, IH. simpl. split.
    + intros [[s' [= -> _]] | H]; auto.
    + intros [<- | H]; [left; eauto | right; exact H].
Qed.

Lemma str_contains_caret_false (s : string) :
  str_contains "^" s = false <-> ~ In caret (list_ascii_of_string s).
Proof.
  rewrite <- str_contains_caret. destruct (str_contains "^" s); split;
    congruence.
Qed.

(** C10. [check_person_name] raises [TypeError] for every object that is
    neither a [str] nor a [PersonName]; on a [str] or [PersonName] with
    string form [s] it never raises [TypeError], it raises [ValueError]
    exactly when [s] is non-empty and holds no caret, and it returns
    normally for the empty string and for every string holding a
    caret. *)
Theorem check_person_name_raises (person_name : PyObject) :
  ((forall s, person_name <> PyStr s /\ person_name <> PyPersonName s) ->
   is_TypeError (check_person_name person_name)) /\
  (forall s, person_name = PyStr s \/ person_name = PyPersonName s ->
     ~ is_TypeError (check_person_name person_name) /\
     (is_ValueError (check_person_name person_name) <->
      s <> EmptyString /\ ~ In caret (list_ascii_of_string s)) /\
     (s = EmptyString \/ In caret (list_ascii_of_string s) ->
      check_person_name person_name = inr tt)).
Proof.
  split.
  - intros Hty. unfold check_person_name.
    destruct person_name as [s | s | | z | b | b]; simpl;
      try (eexists; reflexivity);
      destruct (Hty s) as [H1 H2]; congruence.
  - intros s Hs.
    assert (Hcheck : check_person_name person_name =
                     if negb (str_contains "^" s) &&
                        negb (String.eqb s EmptyString)
                     then inl (ValueError (single_component_msg s))
                     else inr tt)
      by (destruct Hs as [-> | ->]; reflexivity).
    rewrite Hcheck. clear Hcheck Hs.
    destruct (str_contains "^" s) eqn:Hc; simpl.
    + apply str_contains_caret in Hc.
      split; [intros [msg Hm]; discriminate |].
      split; [| reflexivity].
      split; [intros [msg Hm]; discriminate | intros [_ Hn]; contradiction].
    + apply str_contains_caret_false in Hc.
      destruct (String.eqb_spec s EmptyString) as [-> | Hne]; simpl.
      * split; [intros [msg Hm]; discriminate |].
        split; [| reflexivity].
        split; [intros [msg Hm]; discriminate | intros [Hn _]; congruence].
      * split; [intros [msg Hm]; discriminate |].
        split.
        -- split; [auto | intros _; eexists; reflexivity].
        -- intros [-> | Hin]; [congruence | contradiction].
Qed.

(** The theorem at the name of the docstring, with and without the
    disambiguating trailing caret, and at an integer. *)
Lemma check_person_name_raises_witness :
  is_ValueError (check_person_name (PyStr "Bono")) /\
  check_person_name (PyStr "Bono^") = inr tt /\
  check_person_name (PyStr EmptyString) = inr tt /\
  is_TypeError (check_person_name (PyInt 7)).
Proof.
  split; [| split; [| split]].
  - apply (proj1 (proj2 (proj2
      (check_person_name_raises (PyStr "Bono")) "Bono" (or_introl eq_refl)))).
    split; [discriminate |].
    simpl. intros [H | [H | [H | [H | []]]]]; discriminate.
  - apply (proj2 (proj2 (proj2
      (check_person_name_raises (PyStr "Bono^")) "Bono^"
      (or_introl eq_refl)))).
    right. simpl. tauto.
  - apply (proj2 (proj2 (proj2
      (check_person_name_raises (PyStr EmptyString)) EmptyString
      (or_introl eq_refl)))).
    left. reflexivity.
  - apply (proj1 (check_person_name_raises (PyInt 7))).
    intros s. split; discriminate.
Defined.

End PersonNames.

(** ** Classification of measurement groups *)

Section Classification.
Import sr templates spec.

Lemma count_items_cons (p : ContentItem -> bool) (x : ContentItem)
    (cs : list ContentItem) :
  count_items p (x :: cs) = b2n (p x) + count_items p cs.
Proof. unfold count_items. simpl. now destruct (p x). Qed.

Lemma count_roi_step_spec (a b c d e f : nat) (item : ContentItem) :
  count_roi_step (a, b, c, d, e, f) item =
  (a + b2n (is_image_region item), b + b2n (is_image_region_3d item),
   c + b2n (is_volume_surface item), d + b2n (is_referenced_segment item),
   e + b2n (is_referenced_segmentation_frame item),
   f + b2n (is_region_in_space item)).
Proof.
  unfold count_roi_step, is_image_region, is_image_region_3d,
    is_volume_surface, is_referenced_segment,
    is_referenced_segmentation_frame, is_region_in_space, named.
  destruct (code_eqb (name item) codes.ImageRegion),
    (code_eqb (name item) codes.VolumeSurface),
    (code_eqb (name item) codes.ReferencedSegment),
    (code_eqb (name item) codes.ReferencedSegmentationFrame),
    (code_eqb (name item) codes._REGION_IN_SPACE),
    (vt_eqb (value_type item) SCOORD),
    (vt_eqb (value_type item) SCOORD3D),
    (vt_eqb (value_type item) IMAGE),
    (vt_eqb (value_type item) COMPOSITE);
    simpl; repeat f_equal; lia.
Qed.

Lemma count_roi_fold (cs : list ContentItem) :
  forall a b c d e f,
    fold_left count_roi_step cs (a, b, c, d, e, f) =
    (a + count_items is_image_region cs,
     b + count_items is_image_region_3d cs,
     c + count_items is_volume_surface cs,
     d + count_items is_referenced_segment cs,
     e + count_items is_referenced_segmentation_frame cs,
     f + count_items is_region_in_space cs).
Proof.
  induction cs as [| x cs IH]; intros a b c d e f.
  - unfold count_items. simpl. now rewrite !Nat.add_0_r.
  - cbn [fold_left]. rewrite count_roi_step_spec, IH.
    rewrite !count_items_cons. now rewrite !Nat.add_assoc.
Qed.

(** What [_count_roi_items] returns on a measurement group that has
    child content. *)
Lemma _count_roi_items_spec (g : ContentItem) (cs : list ContentItem) :
  is_measurement_group g ->
  ContentSequence g = Some cs ->
  _count_roi_items g =
  inr (count_items is_image_region cs, count_items is_image_region_3d cs,
       count_items is_volume_surface cs,
       count_items is_referenced_segment cs,
       count_items is_referenced_segmentation_frame cs,
       count_items is_region_in_space cs).
Proof.
  intros [Hvt Hname] Hcs. unfold _count_roi_items, get_ContentSequence.
  rewrite Hvt, Hname, Hcs. simpl. now rewrite count_roi_fold.
Qed.

Lemma _count_roi_items_no_content (g : ContentItem) :
  is_measurement_group g ->
  ContentSequence g = None ->
  _count_roi_items g = inl (AttributeError "ContentSequence").
Proof.
  intros [Hvt Hname] Hcs. unfold _count_roi_items, get_ContentSequence.
  now rewrite Hvt, Hname, Hcs.
Qed.

(** C3. A measurement group with exactly one 2D image-region item and
    no other ROI reference item (no 3D image region, volume surface,
    referenced segment, referenced segmentation frame or region in
    space) is classified as planar and not as volumetric, whatever
    other items it contains. *)
Theorem single_image_region_is_planar (g : ContentItem)
    (cs : list ContentItem) :
  is_measurement_group g ->
  ContentSequence g = Some cs ->
  count_items is_image_region cs = 1 ->
  count_items is_image_region_3d cs = 0 ->
  count_items is_volume_surface cs = 0 ->
  count_items is_referenced_segment cs = 0 ->
  count_items is_referenced_segmentation_frame cs = 0 ->
  count_items is_region_in_space cs = 0 ->
  _contains_planar_rois g = inr true /\
  _contains_volumetric_rois g = inr false.
Proof.
  intros Hg Hcs H1 H2 H3 H4 H5 H6.
  unfold _contains_planar_rois, _contains_volumetric_rois.
  rewrite (_count_roi_items_spec g cs Hg Hcs). simpl.
  rewrite H1, H2, H3, H4, H5, H6. split; reflexivity.
Qed.

(** C4. On a measurement group, [_contains_volumetric_rois] returns
    true exactly when (there is more than one 2D image-region item, or
    at least one referenced-segment item, or at least one
    volume-surface item, or at least one region-in-space item) and
    there is no referenced-segmentation-frame item and no 3D
    image-region item, the counts being taken over the child items by
    concept name and value type; and it returns a boolean whenever the
    group has child content. *)
Theorem _contains_volumetric_rois_iff (g : ContentItem) :
  is_measurement_group g ->
  (_contains_volumetric_rois g = inr true <->
   (1 < count_items is_image_region (children g) \/
    1 <= count_items is_referenced_segment (children g) \/
    1 <= count_items is_volume_surface (children g) \/
    1 <= count_items is_region_in_space (children g)) /\
   count_items is_referenced_segmentation_frame (children g) = 0 /\
   count_items is_image_region_3d (children g) = 0) /\
  (has_ContentSequence g = true ->
   exists b, _contains_volumetric_rois g = inr b).
Proof.
  intros Hg. unfold children, has_ContentSequence.
  destruct (ContentSequence g) as [cs |] eqn:Hcs.
  - unfold _contains_volumetric_rois.
    rewrite (_count_roi_items_spec g cs Hg Hcs). simpl.
    set (a := count_items is_image_region cs).
    set (b := count_items is_image_region_3d cs).
    set (c := count_items is_volume_surface cs).
    set (d := count_items is_referenced_segment cs).
    set (e := count_items is_referenced_segmentation_frame cs).
    set (f := count_items is_region_in_space cs).
    split.
    + destruct (1 <? a) eqn:Ha, (0 <? d) eqn:Hd, (0 <? c) eqn:Hc,
        (0 <? f) eqn:Hf, (e =? 0) eqn:He, (b =? 0) eqn:Hb; simpl;
        repeat match goal with
          | H : (_ <? _) = true |- _ => apply Nat.ltb_lt in H
          | H : (_ <? _) = false |- _ => apply Nat.ltb_ge in H
          | H : (_ =? _) = true |- _ => apply Nat.eqb_eq in H
          | H : (_ =? _) = false |- _ => apply Nat.eqb_neq in H
          end;
        (split; [intros Heq; try discriminate; lia
                | intros Hc'; try reflexivity; exfalso; lia]).
    + intros _.
      destruct (((1 <? a) || (0 <? d) || (0 <? c) || (0 <? f)) &&
                ((e =? 0) && (b =? 0))); eauto.
  - unfold _contains_volumetric_rois.
    rewrite (_count_roi_items_no_content g Hg Hcs). simpl.
    unfold count_items. simpl. split; [| discriminate].
    split; [discriminate | intros [[H | [H | [H | H]]] _]; lia].
Qed.

Lemma single_image_region_is_planar_witness :
  _contains_planar_rois examples.planar_group = inr true /\
  _contains_volumetric_rois examples.planar_group = inr false.
Proof.
  apply (single_image_region_is_planar examples.planar_group
           (examples.tracking ++
            [examples.finding; examples.region GT_POLYLINE]));
    try reflexivity.
  split; reflexivity.
Defined.

Lemma _contains_volumetric_rois_iff_witness :
  _contains_volumetric_rois examples.volumetric_group = inr true.
Proof.
  apply (proj1 (_contains_volumetric_rois_iff examples.volumetric_group
                  (conj eq_refl eq_refl))).
  vm_compute. split; [left; lia | split; reflexivity].
Defined.

End Classification.

(** ** The ROI reference of a measurement group *)

Section RoiReference.
Import sr templates spec.

Lemma code_eqb_refl (a : CodedConcept) : code_eqb a a = true.
Proof. unfold code_eqb. now rewrite !String.eqb_refl. Qed.

Lemma code_eqb_true (a b : CodedConcept) :
  code_eqb a b = true <->
  code_value a = code_value b /\ scheme_designator a = scheme_designator b.
Proof.
  unfold code_eqb. now rewrite andb_true_iff, !String.eqb_eq.
Qed.

Lemma code_eqb_sym (a b : CodedConcept) : code_eqb a b = code_eqb b a.
Proof.
  unfold code_eqb.
  now rewrite (String.eqb_sym (code_value a)),
    (String.eqb_sym (scheme_designator a)).
Qed.

(** Concepts equal by (scheme, value) compare alike with any third. *)
Lemma code_eqb_compat (a b c : CodedConcept) :
  code_eqb a b = true -> code_eqb a c = code_eqb b c.
Proof.
  intros H. apply code_eqb_true in H as [Hv Hs].
  unfold code_eqb. now rewrite Hv, Hs.
Qed.

Lemma code_in_compat (a b : CodedConcept) (l : list CodedConcept) :
  code_eqb a b = true -> code_in a l = code_in b l.
Proof.
  intros H. unfold code_in. induction l as [| c l IH]; simpl; [easy |].
  now rewrite (code_eqb_compat a b c H), IH.
Qed.

Lemma dict_get_compat {V : Type} (d : list (CodedConcept * V))
    (a b : CodedConcept) :
  code_eqb a b = true -> dict_get d a = dict_get d b.
Proof.
  intros H. induction d as [| [k v] d IH]; simpl; [easy |].
  now rewrite (code_eqb_compat a b k H), IH.
Qed.

Lemma code_in_true (a : CodedConcept) (l : list CodedConcept) :
  code_in a l = true -> exists c, In c l /\ code_eqb a c = true.
Proof. unfold code_in. intros H. now apply existsb_exists in H. Qed.

Variable allowed : list CodedConcept.
Hypothesis allowed_are_reference_types : Forall is_reference_type allowed.

(** The dictionary lookup of the loop cannot fail on an allowed name. *)
Lemma allowed_lookup (item : ContentItem) :
  code_in (name item) allowed = true ->
  dict_get ref_type_value_type_map (name item) =
  inr (expected_value_types (name item)).
Proof.
  intros H. apply code_in_true in H as (c & Hin & Heq).
  destruct (proj1 (List.Forall_forall _ _) allowed_are_reference_types
              c Hin) as [vts Hvts].
  unfold expected_value_types.
  now rewrite (dict_get_compat _ _ _ Heq), Hvts.
Qed.

(** The three ways in which one pass of the loop can go. *)
Lemma loop_skip (item : ContentItem) (rest : list ContentItem)
    (rt : option CodedConcept) (acc : list ContentItem) :
  roi_reference_match allowed item = false ->
  roi_reference_loop allowed (item :: rest) rt acc =
  roi_reference_loop allowed rest rt acc.
Proof.
  unfold roi_reference_match. intros H. cbn [roi_reference_loop].
  destruct (rel_eqb (relationship_type item) (Some CONTAINS)); [| easy].
  destruct (code_in (name item) allowed) eqn:Hin; [| easy].
  rewrite (allowed_lookup item Hin). simpl in *. now rewrite H.
Qed.

Lemma loop_first (item : ContentItem) (rest : list ContentItem)
    (acc : list ContentItem) :
  roi_reference_match allowed item = true ->
  roi_reference_loop allowed (item :: rest) None acc =
  roi_reference_loop allowed rest (Some (name item)) (acc ++ [item]).
Proof.
  unfold roi_reference_match. intros H.
  apply andb_true_iff in H as [H Hvt]. apply andb_true_iff in H as [Hr Hin].
  cbn [roi_reference_loop].
  rewrite Hr, Hin, (allowed_lookup item Hin). simpl. now rewrite Hvt.
Qed.

Lemma loop_next (item : ContentItem) (rest : list ContentItem)
    (rt : CodedConcept) (acc : list ContentItem) :
  roi_reference_match allowed item = true ->
  roi_reference_loop allowed (item :: rest) (Some rt) acc =
  if negb (code_eqb (name item) rt) then
    inl (RuntimeError msg_different_reference_types)
  else if negb (code_in rt [codes.ImageRegion; codes.VolumeSurface]) then
    inl (RuntimeError (msg_multiple_reference_items rt))
  else roi_reference_loop allowed rest (Some rt) (acc ++ [item]).
Proof.
  unfold roi_reference_match. intros H.
  apply andb_true_iff in H as [H Hvt]. apply andb_true_iff in H as [Hr Hin].
  cbn [roi_reference_loop].
  rewrite Hr, Hin, (allowed_lookup item Hin). simpl. now rewrite Hvt.
Qed.

(** The loop only sees the matching children. *)
Lemma loop_filter (cs : list ContentItem) :
  forall rt acc,
    roi_reference_loop allowed cs rt acc =
    roi_reference_loop allowed
      (List.filter (roi_reference_match allowed) cs) rt acc.
Proof.
  induction cs as [| item cs IH]; intros rt acc; [reflexivity |].
  cbn [List.filter].
  destruct (roi_reference_match allowed item) eqn:Hm.
  - destruct rt as [rt |].
    + rewrite !(loop_next _ _ _ _ Hm).
      destruct (negb (code_eqb (name item) rt)); [reflexivity |].
      destruct (negb (code_in rt [codes.ImageRegion; codes.VolumeSurface]));
        [reflexivity | apply IH].
    + rewrite !(loop_first _ _ _ Hm). apply IH.
  - rewrite (loop_skip _ _ _ _ Hm). apply IH.
Qed.

(** Once a reference type is fixed, the loop over matching items either
    collects all of them or stops with a [RuntimeError], as [rest_ok]
    tells. *)
Lemma loop_rest (M : list ContentItem) :
  Forall (fun a => roi_reference_match allowed a = true) M ->
  forall rt acc,
    (rest_ok rt M = true ->
     roi_reference_loop allowed M (Some rt) acc = inr (Some rt, acc ++ M)) /\
    (rest_ok rt M = false ->
     is_RuntimeError (roi_reference_loop allowed M (Some rt) acc)).
Proof.
  induction 1 as [| a M Ha HM IH]; intros rt acc.
  - split; [intros _; simpl; now rewrite app_nil_r | discriminate].
  - rewrite (loop_next _ _ _ _ Ha). unfold rest_ok.
    cbn [forallb].
    destruct (code_eqb (name a) rt) eqn:Hname; cbn [negb andb].
    2:{ split; [discriminate | intros _; eexists; reflexivity]. }
    destruct (code_in rt [codes.ImageRegion; codes.VolumeSurface]) eqn:Hmult;
      cbn [negb andb].
    2:{ rewrite andb_false_r.
        split; [discriminate | intros _; eexists; reflexivity]. }
    rewrite andb_true_r.
    destruct (IH rt (acc ++ [a])) as [IHok IHbad].
    unfold rest_ok in IHok, IHbad.
    assert (Hsame : forallb (fun a0 => code_eqb (name a0) rt) M &&
                    match M with
                    | [] => true
                    | _ :: _ =>
                        code_in rt [codes.ImageRegion; codes.VolumeSurface]
                    end = forallb (fun a0 => code_eqb (name a0) rt) M).
    { destruct M; [now rewrite andb_true_r |].
      now rewrite Hmult, andb_true_r. }
    rewrite Hsame in IHok, IHbad. split.
    + intros Hok. rewrite (IHok Hok). now rewrite <- app_assoc.
    + intros Hbad. exact (IHbad Hbad).
Qed.

Lemma filter_all_match (cs : list ContentItem) :
  Forall (fun a => roi_reference_match allowed a = true)
    (List.filter (roi_reference_match allowed) cs).
Proof.
  apply List.Forall_forall. intros a Ha. now apply filter_In in Ha.
Qed.

(** What [_get_roi_reference_items] computes, in terms of the matching
    children. *)
Lemma _get_roi_reference_items_cases (g : ContentItem)
    (cs : list ContentItem) :
  ContentSequence g = Some cs ->
  match List.filter (roi_reference_match allowed) cs with
  | [] =>
      _get_roi_reference_items g allowed =
      inl (RuntimeError msg_no_reference_item)
  | a :: M =>
      (rest_ok (name a) M = true ->
       _get_roi_reference_items g allowed = inr (Some (name a), a :: M)) /\
      (rest_ok (name a) M = false ->
       is_RuntimeError (_get_roi_reference_items g allowed))
  end.
Proof.
  intros Hcs. unfold _get_roi_reference_items, get_ContentSequence.
  rewrite Hcs. cbn [bind ret].
  rewrite loop_filter.
  pose proof (filter_all_match cs) as Hall.
  destruct (List.filter (roi_reference_match allowed) cs) as [| a M].
  - reflexivity.
  - inversion Hall as [| ? ? Ha HM]; subst.
    rewrite (loop_first _ _ _ Ha). simpl app.
    destruct (loop_rest M HM (name a) [a]) as [Hok Hbad]. split.
    + intros H. rewrite (Hok H). reflexivity.
    + intros H. destruct (Hbad H) as [msg Hmsg]. rewrite Hmsg.
      eexists; reflexivity.
Qed.

End RoiReference.

Section RoiReferenceSpec.
Import sr templates spec.

Lemma rest_ok_same (x : ContentItem) (M : list ContentItem) :
  rest_ok (name x) M = true ->
  forall a, In a (x :: M) -> code_eqb (name a) (name x) = true.
Proof.
  unfold rest_ok. intros H a [<- | Ha]; [apply code_eqb_refl |].
  apply andb_true_iff in H as [H _].
  rewrite forallb_forall in H. now apply H.
Qed.

Lemma count_items_le_length (p : ContentItem -> bool)
    (l : list ContentItem) :
  count_items p l <= length l.
Proof.
  unfold count_items. induction l as [| x l IH]; simpl; [lia |].
  destruct (p x); simpl; lia.
Qed.

(** C5. [_get_roi_reference_items] looks only at the direct children of
    the group that are related by CONTAINS, named by an allowed
    reference-type concept and of a value type expected for that
    concept.  With [M] the list of these children, in document order:
    it raises if [M] is empty; it raises if two items of [M] have
    different concept names; it raises if an item of [M] whose concept
    is neither Image Region nor Volume Surface shares its concept name
    with another item of [M]; and otherwise it returns the concept name
    of the first item together with the whole of [M]. *)
Theorem _get_roi_reference_items_spec (g : ContentItem)
    (allowed : list CodedConcept) (cs : list ContentItem) :
  Forall is_reference_type allowed ->
  ContentSequence g = Some cs ->
  let M := List.filter (roi_reference_match allowed) cs in
  (M = [] ->
   _get_roi_reference_items g allowed =
   inl (RuntimeError msg_no_reference_item)) /\
  ((exists a b, In a M /\ In b M /\ code_eqb (name a) (name b) = false) ->
   is_RuntimeError (_get_roi_reference_items g allowed)) /\
  ((exists a, In a M /\
      code_in (name a) [codes.ImageRegion; codes.VolumeSurface] = false /\
      1 < count_items (fun b => code_eqb (name b) (name a)) M) ->
   is_RuntimeError (_get_roi_reference_items g allowed)) /\
  (forall a M', M = a :: M' ->
     (forall b, In b M' -> code_eqb (name b) (name a) = true) ->
     (M' = [] \/
      code_in (name a) [codes.ImageRegion; codes.VolumeSurface] = true) ->
     _get_roi_reference_items g allowed = inr (Some (name a), M)).
Proof.
  intros Hallowed Hcs M.
  pose proof (_get_roi_reference_items_cases allowed Hallowed g cs Hcs)
    as Hcases.
  fold M in Hcases.
  destruct M as [| x M'] eqn:HM.
  - split; [intros _; exact Hcases |].
    split; [intros (a & b & [] & _) |].
    split; [intros (a & [] & _) | intros a M'' [=]].
  - destruct Hcases as [Hok Hbad].
    split; [discriminate |]. split; [| split].
    + intros (a & b & Ha & Hb & Hab).
      apply Hbad. destruct (rest_ok (name x) M') eqn:Hrest; [| reflexivity].
      pose proof (rest_ok_same x M' Hrest a Ha) as Hax.
      pose proof (rest_ok_same x M' Hrest b Hb) as Hbx.
      rewrite (code_eqb_compat _ _ (name b) Hax) in Hab.
      rewrite code_eqb_sym in Hab. congruence.
    + intros (a & Ha & Hmult & Hcount).
      apply Hbad. destruct (rest_ok (name x) M') eqn:Hrest; [| reflexivity].
      pose proof (rest_ok_same x M' Hrest a Ha) as Hax.
      unfold rest_ok in Hrest. apply andb_true_iff in Hrest as [_ Hrest].
      destruct M' as [| y M''].
      * pose proof (count_items_le_length
                      (fun b => code_eqb (name b) (name a)) [x]) as Hle.
        simpl in Hle. lia.
      * rewrite <- (code_in_compat _ _ _ Hax) in Hrest. congruence.
    + intros a M'' [= <- <-] Hsame Hmult.
      apply Hok. unfold rest_ok. apply andb_true_iff. split.
      * apply forallb_forall. exact Hsame.
      * destruct M' as [| y M'']; [reflexivity |].
        destruct Hmult as [Hnil | Hmult]; [discriminate | exact Hmult].
Qed.

(** The theorem at a group with one 2D image region, read with the
    reference types allowed in a planar group. *)
Lemma _get_roi_reference_items_spec_witness :
  _get_roi_reference_items examples.planar_group
    Planar_allowed_roi_reference_types =
  inr (Some codes.ImageRegion, [examples.region GT_POLYLINE]).
Proof.
  refine (proj2 (proj2 (proj2
    (_get_roi_reference_items_spec examples.planar_group
       Planar_allowed_roi_reference_types
       (examples.tracking ++ [examples.finding; examples.region GT_POLYLINE])
       _ eq_refl)))
    (examples.region GT_POLYLINE) [] eq_refl _ (or_introl eq_refl)).
  - repeat constructor; eexists; reflexivity.
  - intros b [].
Defined.

End RoiReferenceSpec.

(** ** Accessors of measurements and measurement groups *)

Section Accessors.
Import sr templates spec.

(** Without recursion, the search returns the matching children of an
    item that has child content, and raises on an item that has
    none. *)
Lemma find_content_items_flat (node : ContentItem)
    (n : option CodedConcept) (v : option ValueTypeValues)
    (r : option RelationshipTypeValues) :
  find_content_items node n v r false =
  if has_ContentSequence node
  then inr (List.filter (item_matches n v r) (children node))
  else inl (AttributeError "ContentSequence").
Proof.
  unfold find_content_items, children, has_ContentSequence.
  destruct node as [nm rel p [cs |]]; cbn; [| reflexivity].
  induction cs as [| c cs IH]; cbn; [reflexivity |].
  rewrite andb_false_r. cbn. rewrite IH. cbn.
  now destruct (item_matches n v r c).
Qed.

Lemma item_matches_named (n : CodedConcept) (vt : ValueTypeValues)
    (c : ContentItem) :
  item_matches (Some n) (Some vt) None c = named n vt c.
Proof. unfold item_matches, named. now rewrite andb_true_r. Qed.

Lemma find_named (node : ContentItem) (n : CodedConcept)
    (vt : ValueTypeValues) :
  find_content_items node (Some n) (Some vt) None false =
  if has_ContentSequence node
  then inr (List.filter (named n vt) (children node))
  else inl (AttributeError "ContentSequence").
Proof.
  rewrite find_content_items_flat.
  destruct (has_ContentSequence node); [| reflexivity].
  f_equal. apply filter_ext. intros c. apply item_matches_named.
Qed.

Lemma filter_none (p : ContentItem -> bool) (cs : list ContentItem) :
  (forall c, In c cs -> p c = false) -> List.filter p cs = [].
Proof.
  induction cs as [| x cs IH]; intros H; simpl; [reflexivity |].
  rewrite (H x (or_introl eq_refl)). apply IH. intros c Hc. apply H.
  now right.
Qed.

Lemma filter_first (p : ContentItem -> bool) (pre post : list ContentItem)
    (c : ContentItem) :
  (forall x, In x pre -> p x = false) -> p c = true ->
  List.filter p (pre ++ c :: post) = c :: List.filter p post.
Proof.
  intros Hpre Hc. rewrite List.filter_app, (filter_none p pre Hpre). simpl.
  now rewrite Hc.
Qed.

Lemma named_value_type (n : CodedConcept) (vt : ValueTypeValues)
    (c : ContentItem) :
  named n vt c = true -> value_type c = vt.
Proof.
  unfold named, vt_eqb. intros H. apply andb_true_iff in H as [_ H].
  now apply bool_decide_eq_true in H.
Qed.

Lemma code_item (c : ContentItem) :
  value_type c = CODE -> exists v, payload c = PCode v.
Proof. unfold value_type. destruct (payload c); try discriminate; eauto. Qed.
Lemma text_item (c : ContentItem) :
  value_type c = TEXT -> exists v, payload c = PText v.
Proof. unfold value_type. destruct (payload c); try discriminate; eauto. Qed.
Lemma uidref_item (c : ContentItem) :
  value_type c = UIDREF -> exists v, payload c = PUidRef v.
Proof. unfold value_type. destruct (payload c); try discriminate; eauto. Qed.

Lemma has_no_ContentSequence_children (root : ContentItem) :
  has_ContentSequence root = false -> children root = [].
Proof.
  unfold has_ContentSequence, children.
  now destruct (ContentSequence root).
Qed.

Lemma children_have_ContentSequence (root : ContentItem) :
  children root <> [] -> has_ContentSequence root = true.
Proof.
  intros H. destruct (has_ContentSequence root) eqn:Hhas; [reflexivity |].
  now apply has_no_ContentSequence_children in Hhas.
Qed.

(** The accessors of [Measurement] that read a coded value. *)
Lemma Measurement_code_accessor (n : CodedConcept)
    (accessor : ContentSeq -> result (option CodedConcept)) :
  (forall root,
     accessor [root] =
     if negb (has_ContentSequence root) then inr None
     else
       do matches <-
         find_content_items root (Some n) (Some CODE) None false;
       Measurement.first_code_value matches) ->
  reads_first accessor n CODE code_of.
Proof.
  intros Hacc root. unfold reads_first_at. rewrite Hacc, find_named.
  destruct (has_ContentSequence root) eqn:Hhas; cbn [negb bind].
  - split.
    + intros Hnone. now rewrite (filter_none _ _ Hnone).
    + intros pre c post Hch Hpre Hc.
      destruct (code_item c (named_value_type _ _ _ Hc)) as [v Hv].
      exists v. split; [now rewrite Hv |].
      rewrite Hch, (filter_first _ _ _ _ Hpre Hc).
      unfold Measurement.first_code_value, code_item_value. simpl.
      now rewrite Hv.
  - split; [reflexivity |].
    intros pre c post Hch. apply has_no_ContentSequence_children in Hhas.
    rewrite Hhas in Hch. now destruct pre.
Qed.

(** The accessors of a measurement group, which also log, and search
    without testing for child content first. *)
Lemma group_accessor {V : Type} (n : CodedConcept) (vt : ValueTypeValues)
    (value_of : Payload -> option V) (item_value : ContentItem -> result V)
    (what : string)
    (accessor : ContentSeq ->
                result (_MeasurementsAndQualitativeEvaluations.logged
                          (option V))) :
  (forall c v, value_of (payload c) = Some v -> item_value c = inr v) ->
  (forall c, value_type c = vt -> exists v, value_of (payload c) = Some v) ->
  (forall root,
     accessor [root] =
     do matches <- find_content_items root (Some n) (Some vt) None false;
     let log :=
       _MeasurementsAndQualitativeEvaluations.warn_if_many matches what in
     if 0 <? length matches then
       do m <- item0 matches; do v <- item_value m; ret (Some v, log)
     else ret (None, log)) ->
  reads_first_of_content (fun self => value_read (accessor self)) n vt
    value_of.
Proof.
  intros Hval Hvt Hacc root. unfold value_read, reads_first_at.
  rewrite Hacc, find_named. split; intros Hhas; rewrite Hhas;
    [| reflexivity].
  cbn [bind]. cbv zeta. split.
  - intros Hnone. now rewrite (filter_none _ _ Hnone).
  - intros pre c post Hch Hpre Hc.
    destruct (Hvt c (named_value_type _ _ _ Hc)) as [v Hv].
    exists v. split; [exact Hv |].
    rewrite Hch, (filter_first _ _ _ _ Hpre Hc). simpl.
    now rewrite (Hval c v Hv).
Qed.

(** On a measurement, and on a measurement group that has child
    content, the accessors of the singular fields ([derivation],
    [method]; [method], [tracking_identifier], [tracking_uid],
    [finding_category], [finding_type]) return [None] when no child
    item matches and the value of the first matching child, in
    document order, when one or more match; the list-valued accessors
    ([finding_sites], [referenced_images]) return the empty list when
    no child matches.  On a measurement group without child content
    the accessors of the group raise [AttributeError]. *)
Lemma accessors_read_first_child :
  reads_first Measurement.derivation codes.Derivation CODE code_of /\
  reads_first Measurement.method codes.MeasurementMethod CODE code_of /\
  reads_first_of_content
    (fun self => value_read (_MeasurementsAndQualitativeEvaluations.method self))
    codes.MeasurementMethod CODE code_of /\
  reads_first_of_content
    (fun self =>
       value_read
         (_MeasurementsAndQualitativeEvaluations.tracking_identifier self))
    codes.TrackingIdentifier TEXT text_of /\
  reads_first_of_content
    (fun self =>
       value_read (_MeasurementsAndQualitativeEvaluations.tracking_uid self))
    codes.TrackingUniqueIdentifier UIDREF uid_of /\
  reads_first_of_content
    (fun self =>
       value_read
         (_MeasurementsAndQualitativeEvaluations.finding_category self))
    codes.FindingCategory CODE code_of /\
  reads_first_of_content
    (fun self =>
       value_read (_MeasurementsAndQualitativeEvaluations.finding_type self))
    codes.Finding CODE code_of /\
  reads_all Measurement.finding_sites codes.FindingSite CODE /\
  reads_all Measurement.referenced_images codes.SourceOfMeasurement IMAGE /\
  reads_all_of_content _MeasurementsAndQualitativeEvaluations.finding_sites
    codes.FindingSite CODE.
Proof.
  assert (Hcode : forall c v, code_of (payload c) = Some v ->
                              code_item_value c = inr v).
  { intros c v. unfold code_item_value.
    destruct (payload c); unfold ret, raise; simpl; congruence. }
  assert (Htext : forall c v, text_of (payload c) = Some v ->
                              text_item_value c = inr v).
  { intros c v. unfold text_item_value.
    destruct (payload c); unfold ret, raise; simpl; congruence. }
  assert (Huid : forall c v, uid_of (payload c) = Some v ->
                             uidref_item_value c = inr v).
  { intros c v. unfold uidref_item_value.
    destruct (payload c); unfold ret, raise; simpl; congruence. }
  assert (Hc : forall c, value_type c = CODE ->
                         exists v, code_of (payload c) = Some v).
  { intros c H. destruct (code_item c H) as [v ->]. now exists v. }
  assert (Ht : forall c, value_type c = TEXT ->
                         exists v, text_of (payload c) = Some v).
  { intros c H. destruct (text_item c H) as [v ->]. now exists v. }
  assert (Hu : forall c, value_type c = UIDREF ->
                         exists v, uid_of (payload c) = Some v).
  { intros c H. destruct (uidref_item c H) as [v ->]. now exists v. }
  split; [now apply Measurement_code_accessor |].
  split; [now apply Measurement_code_accessor |].
  split; [now apply (group_accessor _ _ _ code_item_value
                       "Measurement Method") |].
  split; [now apply (group_accessor _ _ _ text_item_value
                       "Tracking Identifier") |].
  split; [now apply (group_accessor _ _ _ uidref_item_value
                       "Tracking Unique Identifier") |].
  split; [now apply (group_accessor _ _ _ code_item_value
                       "Finding category") |].
  split; [now apply (group_accessor _ _ _ code_item_value "Finding") |].
  split; [| split].
  - intros root Hnone. unfold Measurement.finding_sites.
    cbn [item0 bind ret]. rewrite find_named.
    destruct (has_ContentSequence root); cbn [negb bind]; [| reflexivity].
    now rewrite (filter_none _ _ Hnone).
  - intros root Hnone. unfold Measurement.referenced_images.
    cbn [item0 bind ret]. rewrite find_named.
    destruct (has_ContentSequence root); cbn [negb bind]; [| reflexivity].
    now rewrite (filter_none _ _ Hnone).
  - intros root.
    unfold _MeasurementsAndQualitativeEvaluations.finding_sites.
    cbn [item0 bind ret]. rewrite find_named.
    split; intros Hhas; rewrite Hhas; [| reflexivity].
    intros Hnone. cbn [bind]. now rewrite (filter_none _ _ Hnone).
Qed.

(** The lemma at a group with two findings: [finding_type] reads the
    first. *)
Lemma accessors_read_first_child_example :
  value_read
    (_MeasurementsAndQualitativeEvaluations.finding_type
       [examples.two_findings]) = inr (Some examples.nodule).
Proof. reflexivity. Qed.

(** C7, at a measurement group without child content.  The sequence
    holding a "Measurement Group" container that has no
    [ContentSequence] is accepted by [from_sequence]; on the group read
    from it, every accessor of the group raises [AttributeError], for
    the [ContentSequence] that the search iterates over, where the
    claim has [None] or the empty list returned.  The accessors of a
    measurement test for the attribute first: on a measurement without
    child content they return [None] and the empty list. *)
Theorem group_accessors_raise_without_content :
  let self := [examples.childless_group] in
  let measurement := [examples.childless_measurement] in
  _MeasurementsAndQualitativeEvaluations.from_sequence self = inr self /\
  _MeasurementsAndQualitativeEvaluations.method self =
  inl (AttributeError "ContentSequence") /\
  _MeasurementsAndQualitativeEvaluations.tracking_identifier self =
  inl (AttributeError "ContentSequence") /\
  _MeasurementsAndQualitativeEvaluations.tracking_uid self =
  inl (AttributeError "ContentSequence") /\
  _MeasurementsAndQualitativeEvaluations.finding_category self =
  inl (AttributeError "ContentSequence") /\
  _MeasurementsAndQualitativeEvaluations.finding_type self =
  inl (AttributeError "ContentSequence") /\
  _MeasurementsAndQualitativeEvaluations.finding_sites self =
  inl (AttributeError "ContentSequence") /\
  Measurement.from_sequence measurement = inr measurement /\
  Measurement.method measurement = inr None /\
  Measurement.derivation measurement = inr None /\
  Measurement.finding_sites measurement = inr [] /\
  Measurement.referenced_images measurement = inr [].
Proof. repeat split. Qed.

End Accessors.

(** ** Round trip through the dataset format *)

Section RoundTrip.
Import sr templates spec wire.

Lemma parse_ValueType (v : ValueTypeValues) :
  parse_enum ValueType_string all_value_types (ValueType_string v) = inr v.
Proof. now destruct v. Qed.

Lemma parse_RelationshipType (r : RelationshipTypeValues) :
  parse_enum RelationshipType_string all_relationship_types
    (RelationshipType_string r) = inr r.
Proof. now destruct r. Qed.

Lemma parse_GraphicType (g : GraphicTypeValues) :
  parse_enum GraphicType_string all_graphic_types (GraphicType_string g) =
  inr g.
Proof. now destruct g. Qed.

Lemma parse_GraphicType3D (g : GraphicTypeValues3D) :
  parse_enum GraphicType3D_string all_graphic_types_3d
    (GraphicType3D_string g) = inr g.
Proof. now destruct g. Qed.

Lemma code_round_trip (c : CodedConcept) :
  code_from_dataset (code_to_dataset c) = inr c.
Proof. now destruct c. Qed.

(** Parsing the serialized form of an item gives the item back. *)
Theorem from_dataset_to_dataset (i : ContentItem) :
  from_dataset (to_dataset i) = inr i.
Proof.
  induction i as [n r p ocs IH] using ContentItem_children_ind.
  assert (Hchildren :
    forall cs, Forall (fun c => from_dataset (to_dataset c) = inr c) cs ->
      (fix go (ds : list Dataset) : result (list ContentItem) :=
         match ds with
         | [] => ret []
         | d' :: ds' =>
             do c <- from_dataset d'; do cs0 <- go ds'; ret (c :: cs0)
         end)
        ((fix go (l : list ContentItem) : list Dataset :=
            match l with
            | [] => []
            | c :: l' => to_dataset c :: go l'
            end) cs) = inr cs).
  { induction 1 as [| c cs Hc Hcs IHcs]; [reflexivity |].
    rewrite Hc. cbn [bind]. rewrite IHcs. reflexivity. }
  destruct n as [cv sd cm].
  destruct p as [v | v | v u q | v | v | c u fr sg | c u | tid | g data
                 | g data u | v];
    try destruct v as [vv vs vm]; try destruct u as [uv us um];
    try destruct q as [[qv qs qm] |]; try destruct tid as [tid |];
    destruct r as [r |]; destruct ocs as [cs |];
    repeat (cbn -[parse_enum ValueType_string RelationshipType_string
                  GraphicType_string GraphicType3D_string];
            rewrite ?parse_ValueType, ?parse_RelationshipType,
              ?parse_GraphicType, ?parse_GraphicType3D,
              ?(Hchildren cs IH));
    reflexivity.
Qed.

(** Parsing a serialized sequence gives the same items in the same
    order. *)
Corollary from_sequence_to_sequence (s : list ContentItem) :
  from_sequence (to_sequence s) = inr s.
Proof.
  induction s as [| i s IH]; [reflexivity |].
  cbn [to_sequence map from_sequence].
  rewrite from_dataset_to_dataset. cbn [bind].
  unfold to_sequence in IH. now rewrite IH.
Qed.

End RoundTrip.

(** ** Construction of measurement groups *)

Section Constructors.
Import sr templates spec.

Local Abbreviation MQ := _MeasurementsAndQualitativeEvaluations.kw.args.
Local Abbreviation MQ_init := _MeasurementsAndQualitativeEvaluations.init.
Local Abbreviation msg_ti :=
  _MeasurementsAndQualitativeEvaluations.msg_tracking_identifier.
Local Abbreviation ROI_init := _ROIMeasurementsAndQualitativeEvaluations.init.
Local Abbreviation Planar_init :=
  PlanarROIMeasurementsAndQualitativeEvaluations.init.
Local Abbreviation Volumetric_init :=
  VolumetricROIMeasurementsAndQualitativeEvaluations.init.

(** A tracking identifier has one item without the human-readable
    identifier and two with it. *)
Lemma TrackingIdentifier_length (fresh_uid : string)
    (uid identifier : option string) :
  length (TrackingIdentifier fresh_uid uid identifier) =
  match identifier with Some _ => 2 | None => 1 end.
Proof. now destruct identifier. Qed.

(** The shared constructor fails exactly on a tracking identifier of
    length 1, and otherwise returns one container item. *)
Lemma MQ_init_cases (a : MQ) :
  (length (_MeasurementsAndQualitativeEvaluations.kw.tracking_identifier a)
   = 1 /\ MQ_init a = inl (ValueError msg_ti)) \/
  (length (_MeasurementsAndQualitativeEvaluations.kw.tracking_identifier a)
   <> 1 /\ exists g, MQ_init a = inr [g]).
Proof.
  unfold _MeasurementsAndQualitativeEvaluations.init.
  destruct (length
              (_MeasurementsAndQualitativeEvaluations.kw.tracking_identifier
                 a) =? 1) eqn:Hlen.
  - left. apply Nat.eqb_eq in Hlen. now split.
  - right. apply Nat.eqb_neq in Hlen. split; [exact Hlen |].
    eexists. reflexivity.
Qed.

(** With two items or more in the tracking identifier the group item
    that the shared constructor returns has child content. *)
Lemma MQ_init_content (a : MQ) :
  2 <= length
         (_MeasurementsAndQualitativeEvaluations.kw.tracking_identifier a) ->
  exists g, MQ_init a = inr [g] /\ has_ContentSequence g = true.
Proof.
  intros Hlen. unfold _MeasurementsAndQualitativeEvaluations.init.
  destruct (length
              (_MeasurementsAndQualitativeEvaluations.kw.tracking_identifier
                 a) =? 1) eqn:H1; [apply Nat.eqb_eq in H1; lia |].
  cbn [app].
  match goal with
  | |- context [if 0 <? length ?c then _ else _] =>
      assert (Hc : (0 <? length c) = true)
  end.
  { apply Nat.ltb_lt.
    repeat match goal with
      | |- context [match ?x with Some _ => _ | None => _ end] => destruct x
      end;
      rewrite ?length_app; lia. }
  rewrite Hc. eexists. split; reflexivity.
Qed.

Lemma sum_bools_3 (x y z : bool) :
  sum_bools [x; y; z] = b2n x + b2n y + b2n z.
Proof. now destruct x, y, z. Qed.

Lemma sum_bools_2 (x y : bool) : sum_bools [x; y] = b2n x + b2n y.
Proof. now destruct x, y. Qed.

Lemma b2n_is_not_None {A : Type} (x : option A) :
  b2n (is_not_None x) = supplied x.
Proof. now destruct x. Qed.

(** The coordinates that a measurement refers to are the SCOORD
    children of its item, followed by the SCOORD3D children. *)
Lemma referenced_coordinates_children (i0 : ContentItem) (rest : ContentSeq) :
  Measurement.referenced_coordinates (i0 :: rest) =
  inr (List.filter (item_matches None (Some SCOORD) None) (children i0) ++
       List.filter (item_matches None (Some SCOORD3D) None) (children i0)).
Proof.
  unfold Measurement.referenced_coordinates. cbn [item0 bind ret].
  rewrite !find_content_items_flat.
  destruct (has_ContentSequence i0) eqn:Hhas; cbn [negb bind];
    [reflexivity |].
  now rewrite (has_no_ContentSequence_children i0 Hhas).
Qed.

Lemma check_measurements_errors (class_name : string)
    (measurements : list ContentSeq) (e : exn) :
  _ROIMeasurementsAndQualitativeEvaluations.check_measurements class_name
    measurements = inl e ->
  e = ValueError
        (_ROIMeasurementsAndQualitativeEvaluations.msg_referenced_coordinates
           class_name) \/
  e = IndexError.
Proof.
  induction measurements as [| m ms IH]; simpl; [discriminate |].
  destruct m as [| i0 m]; [intros [= <-]; now right |].
  rewrite referenced_coordinates_children. cbn [bind].
  match goal with
  | |- context [if ?c then _ else _] => destruct c
  end; [intros [= <-]; now left | exact IH].
Qed.

Lemma extend_ContentSequence_ok (g : ContentItem) (items : ContentSeq) :
  has_ContentSequence g = true ->
  exists g', extend_ContentSequence g items = inr g' /\
             has_ContentSequence g' = true /\
             payload g' = payload g.
Proof.
  unfold extend_ContentSequence, get_ContentSequence, has_ContentSequence.
  destruct (ContentSequence g); [| discriminate]. intros _.
  eexists. split; [reflexivity |]. split; reflexivity.
Qed.

Lemma late_roi_error_not_exclusivity (class_name : string) (e : exn) :
  late_roi_error class_name e ->
  ~ is_exclusivity_error (@inl exn ContentSeq e) /\
  ~ is_tracking_identifier_error (@inl exn ContentSeq e).
Proof.
  unfold is_exclusivity_error, is_tracking_identifier_error.
  intros []; (split; [intros [H | [H | [H | H]]] | intros H]);
    cbv in H; discriminate.
Qed.

(** The ROI constructor, case by case on the number of references. *)
Lemma ROI_init_cases (class_name : string)
    (a : _ROIMeasurementsAndQualitativeEvaluations.kw.args) (g : ContentItem) :
  MQ_init (_ROIMeasurementsAndQualitativeEvaluations.kw.base a) = inr [g] ->
  (roi_references_supplied a = 0 ->
   ROI_init class_name a =
   inl (ValueError
          _ROIMeasurementsAndQualitativeEvaluations.msg_no_reference)) /\
  (2 <= roi_references_supplied a ->
   ROI_init class_name a =
   inl (ValueError
          _ROIMeasurementsAndQualitativeEvaluations.msg_many_references)) /\
  (roi_references_supplied a = 1 ->
   (exists g', ROI_init class_name a = inr [g'] /\ payload g' = payload g) \/
   (exists e, ROI_init class_name a = inl e /\ late_roi_error class_name e)).
Proof.
  intros Hbase. unfold roi_references_supplied.
  unfold _ROIMeasurementsAndQualitativeEvaluations.init.
  rewrite Hbase. cbn [bind item0 ret]. rewrite sum_bools_3.
  rewrite !b2n_is_not_None.
  set (n := supplied _ + supplied _ + supplied _).
  split; [intros ->; reflexivity |].
  split.
  { intros Hn. destruct (n =? 0) eqn:H0; [apply Nat.eqb_eq in H0; lia |].
    destruct (1 <? n) eqn:H1; [reflexivity | apply Nat.ltb_ge in H1; lia]. }
  intros ->. cbn [Nat.eqb Nat.ltb Nat.leb].
  (* the optional geometric purpose *)
  assert (Hgp :
    forall (r : result ContentItem),
      (r = inr g \/ r = extend_ContentSequence g
         [CodeContentItem (mkCode "130400" "DCM" "Geometric purpose of region")
            (match _ROIMeasurementsAndQualitativeEvaluations.kw.geometric_purpose
                     a with Some p => p | None => codes.Finding end)
            CONTAINS]) ->
      (exists g1, r = inr g1 /\ payload g1 = payload g) \/
      r = inl (AttributeError "ContentSequence")).
  { intros r [-> | ->]; [left; eauto |].
    unfold extend_ContentSequence, get_ContentSequence.
    destruct (ContentSequence g); simpl; [left; eauto | now right]. }
  match goal with
  | |- context [bind ?m _] =>
      destruct (Hgp m) as [(g1 & -> & Hp1) | ->]
  end.
  { destruct (_ROIMeasurementsAndQualitativeEvaluations.kw.geometric_purpose
                a); [now right | now left]. }
  2:{ right. eexists. split; [reflexivity | constructor]. }
  cbn [bind].
  (* the reference itself *)
  assert (Hext : forall items,
            (exists g2, extend_ContentSequence g1 items = inr g2 /\
                        payload g2 = payload g) \/
            extend_ContentSequence g1 items =
            inl (AttributeError "ContentSequence")).
  { intros items. unfold extend_ContentSequence, get_ContentSequence.
    destruct (ContentSequence g1); simpl; [left; eauto | now right]. }
  match goal with
  | |- context [bind ?m _] =>
      assert (Hm : (exists g2, m = inr g2 /\ payload g2 = payload g) \/
                   (exists e, m = inl e /\ late_roi_error class_name e))
  end.
  { destruct (_ROIMeasurementsAndQualitativeEvaluations.kw.referenced_regions
                a) as [regions |].
    - destruct (length (regions_items regions) =? 0).
      + right. eexists. split; [reflexivity | constructor].
      + destruct (Hext (regions_items regions)) as [H | H];
          [now left | right; eexists; split; [exact H | constructor]].
    - destruct
        (_ROIMeasurementsAndQualitativeEvaluations.kw.referenced_volume_surface
           a) as [surface |].
      + destruct (Hext surface) as [H | H];
          [now left | right; eexists; split; [exact H | constructor]].
      + destruct
          (_ROIMeasurementsAndQualitativeEvaluations.kw.referenced_segment a)
          as [segment |].
        * destruct (Hext segment) as [H | H];
            [now left | right; eexists; split; [exact H | constructor]].
        * left. eauto. }
  destruct Hm as [(g2 & -> & Hp2) | (e & -> & He)].
  2:{ right. eexists. split; [reflexivity | exact He]. }
  cbn [bind].
  (* the closing loop over the measurements *)
  destruct (_MeasurementsAndQualitativeEvaluations.kw.measurements
              (_ROIMeasurementsAndQualitativeEvaluations.kw.base a))
    as [ms |]; cbn [bind ret].
  - destruct (_ROIMeasurementsAndQualitativeEvaluations.check_measurements
                class_name ms) as [e | []] eqn:Hms; cbn [bind].
    + right. eexists. split; [reflexivity |].
      destruct (check_measurements_errors _ _ _ Hms) as [-> | ->];
        constructor.
    + left. eauto.
  - left. eauto.
Qed.


Lemma MQ_init_payload (a : MQ) (g : ContentItem) :
  MQ_init a = inr [g] -> payload g = PContainer (Some "1501").
Proof.
  unfold _MeasurementsAndQualitativeEvaluations.init.
  destruct (length _ =? 1); [discriminate |].
  cbn [app]. unfold ret. intros [= <-].
  now destruct (0 <? length _).
Qed.

(** The ROI constructor and the number of references. *)
Lemma ROI_init_exclusivity (class_name : string)
    (a : _ROIMeasurementsAndQualitativeEvaluations.kw.args) :
  (roi_references_supplied a = 0 -> is_ValueError (ROI_init class_name a)) /\
  (2 <= roi_references_supplied a ->
   is_ValueError (ROI_init class_name a)) /\
  (roi_references_supplied a = 1 ->
   ~ is_exclusivity_error (ROI_init class_name a)) /\
  (roi_references_supplied a = 1 -> plain_roi_arguments a ->
   exists g, ROI_init class_name a = inr [g] /\
             payload g = PContainer (Some "1501")).
Proof.
  destruct (MQ_init_cases
              (_ROIMeasurementsAndQualitativeEvaluations.kw.base a))
    as [[Hlen Hbase] | [Hlen [g Hbase]]].
  - assert (Hinit : ROI_init class_name a = inl (ValueError msg_ti)).
    { unfold _ROIMeasurementsAndQualitativeEvaluations.init.
      now rewrite Hbase. }
    rewrite Hinit.
    split; [intros _; eexists; reflexivity |].
    split; [intros _; eexists; reflexivity |].
    split.
    + intros _ [H | [H | [H | H]]]; cbv in H; discriminate.
    + intros _ [Hti _]. lia.
  - destruct (ROI_init_cases class_name a g Hbase) as (H0 & H2 & H1).
    split; [intros H; rewrite (H0 H); eexists; reflexivity |].
    split; [intros H; rewrite (H2 H); eexists; reflexivity |].
    split.
    + intros H. destruct (H1 H) as [(g' & -> & _) | (e & -> & He)].
      * intros [Hx | [Hx | [Hx | Hx]]]; discriminate.
      * now apply (late_roi_error_not_exclusivity class_name e).
    + intros H (Hti & Hms & Hregions).
      destruct (MQ_init_content _ Hti) as (g0 & Hg0 & Hhas).
      rewrite Hbase in Hg0. injection Hg0 as <-.
      pose proof (MQ_init_payload _ _ Hbase) as Hpayload.
      destruct (H1 H) as [(g' & -> & Hp) | (e & He & Hlate)].
      { exists g'. split; [reflexivity | congruence]. }
      exfalso. revert He.
      unfold _ROIMeasurementsAndQualitativeEvaluations.init.
      rewrite Hbase. cbn [bind item0 ret]. rewrite sum_bools_3.
      rewrite !b2n_is_not_None. unfold roi_references_supplied in H.
      rewrite H. cbn [Nat.eqb Nat.ltb Nat.leb]. rewrite Hms.
      assert (Hgp : exists g1,
        match _ROIMeasurementsAndQualitativeEvaluations.kw.geometric_purpose a
        with
        | Some geometric_purpose =>
            extend_ContentSequence g
              [CodeContentItem
                 (mkCode "130400" "DCM" "Geometric purpose of region")
                 geometric_purpose CONTAINS]
        | None => ret g
        end = inr g1 /\ has_ContentSequence g1 = true).
      { destruct
          (_ROIMeasurementsAndQualitativeEvaluations.kw.geometric_purpose a).
        - destruct (extend_ContentSequence_ok g
                      [CodeContentItem
                         (mkCode "130400" "DCM" "Geometric purpose of region")
                         c CONTAINS] Hhas) as (g1 & Hg1 & Hh1 & _).
          eauto.
        - eauto. }
      destruct Hgp as (g1 & -> & Hh1). cbn [bind].
      destruct (_ROIMeasurementsAndQualitativeEvaluations.kw.referenced_regions
                  a) as [regions |].
      * specialize (Hregions regions eq_refl).
        destruct (regions_items regions) as [| r rs] eqn:Hr; [easy |].
        cbn [length Nat.eqb].
        destruct (extend_ContentSequence_ok g1 (r :: rs) Hh1)
          as (g2 & -> & _). discriminate.
      * destruct
          (_ROIMeasurementsAndQualitativeEvaluations.kw.referenced_volume_surface
             a) as [surface |].
        -- destruct (extend_ContentSequence_ok g1 surface Hh1)
             as (g2 & -> & _). discriminate.
        -- destruct
             (_ROIMeasurementsAndQualitativeEvaluations.kw.referenced_segment
                a) as [segment |].
           ++ destruct (extend_ContentSequence_ok g1 segment Hh1)
                as (g2 & -> & _). discriminate.
           ++ discriminate.
Qed.


Lemma retag_not_error (tid : string) (r : result ContentSeq) :
  (~ is_exclusivity_error r -> ~ is_exclusivity_error (retag tid r)) /\
  (~ is_tracking_identifier_error r ->
   ~ is_tracking_identifier_error (retag tid r)).
Proof.
  destruct r as [e | [| g self]]; [now split | |].
  - split; intros _; [intros [H | [H | [H | H]]] | intros H];
      discriminate.
  - unfold retag, set_template_id. cbn [bind item0 ret].
    destruct (payload g) as [| | | | | | | [t |] | | |];
      (split; intros _; [intros [H | [H | [H | H]]] | intros H];
       discriminate).
Qed.

Lemma retag_ok (tid : string) (g : ContentItem) :
  payload g = PContainer (Some "1501") ->
  exists g', retag tid (inr [g]) = inr [g'].
Proof.
  intros Hp. unfold retag, set_template_id. cbn [bind item0 ret].
  rewrite Hp. eexists. reflexivity.
Qed.

Lemma Planar_init_unfold
    (a : PlanarROIMeasurementsAndQualitativeEvaluations.kw.args) :
  Planar_init a =
  if planar_references_supplied a =? 0 then
    inl (ValueError
           PlanarROIMeasurementsAndQualitativeEvaluations.msg_no_reference)
  else if 1 <? planar_references_supplied a then
    inl (ValueError
           PlanarROIMeasurementsAndQualitativeEvaluations.msg_many_references)
  else
    retag "1410"
      (ROI_init "PlanarROIMeasurementsAndQualitativeEvaluations"
         (planar_to_roi a)).
Proof.
  unfold PlanarROIMeasurementsAndQualitativeEvaluations.init.
  rewrite sum_bools_2, !b2n_is_not_None. reflexivity.
Qed.

Lemma Volumetric_init_unfold
    (a : VolumetricROIMeasurementsAndQualitativeEvaluations.kw.args) :
  Volumetric_init a =
  retag "1411"
    (ROI_init "VolumetricROIMeasurementsAndQualitativeEvaluations"
       (volumetric_to_roi a)).
Proof. reflexivity. Qed.

Lemma planar_to_roi_supplied
    (a : PlanarROIMeasurementsAndQualitativeEvaluations.kw.args) :
  roi_references_supplied (planar_to_roi a) = planar_references_supplied a.
Proof.
  unfold roi_references_supplied, planar_references_supplied, planar_to_roi.
  simpl.
  destruct (PlanarROIMeasurementsAndQualitativeEvaluations.kw.referenced_region
              a) as [[r | r] |],
    (PlanarROIMeasurementsAndQualitativeEvaluations.kw.referenced_segment a);
    reflexivity.
Qed.

Lemma volumetric_to_roi_supplied
    (a : VolumetricROIMeasurementsAndQualitativeEvaluations.kw.args) :
  roi_references_supplied (volumetric_to_roi a) =
  volumetric_references_supplied a.
Proof.
  unfold roi_references_supplied, volumetric_references_supplied,
    volumetric_to_roi. simpl.
  destruct
    (VolumetricROIMeasurementsAndQualitativeEvaluations.kw.referenced_regions
       a); reflexivity.
Qed.

Lemma is_ValueError_retag (tid : string) (r : result ContentSeq) :
  is_ValueError r -> is_ValueError (retag tid r).
Proof. intros [msg ->]. eexists. reflexivity. Qed.

(** C1. For each of the three constructors of ROI measurement groups:
    with none of the reference arguments supplied the constructor
    raises [ValueError]; with two or more it raises [ValueError]; with
    exactly one it raises no exclusivity error, and it returns the
    group when nothing else is wrong with the arguments (the tracking
    identifier has both items, there are no measurements and no empty
    list of regions).  The reference arguments are
    [referenced_regions], [referenced_volume_surface] and
    [referenced_segment] for the shared base and the volumetric group,
    [referenced_region] and [referenced_segment] for the planar
    group. *)
Theorem roi_reference_exclusivity (class_name : string)
    (a : _ROIMeasurementsAndQualitativeEvaluations.kw.args)
    (p : PlanarROIMeasurementsAndQualitativeEvaluations.kw.args)
    (v : VolumetricROIMeasurementsAndQualitativeEvaluations.kw.args) :
  ((roi_references_supplied a = 0 ->
    is_ValueError (ROI_init class_name a)) /\
   (2 <= roi_references_supplied a ->
    is_ValueError (ROI_init class_name a)) /\
   (roi_references_supplied a = 1 ->
    ~ is_exclusivity_error (ROI_init class_name a)) /\
   (roi_references_supplied a = 1 -> plain_roi_arguments a ->
    returns (ROI_init class_name a))) /\
  ((planar_references_supplied p = 0 -> is_ValueError (Planar_init p)) /\
   (2 <= planar_references_supplied p -> is_ValueError (Planar_init p)) /\
   (planar_references_supplied p = 1 ->
    ~ is_exclusivity_error (Planar_init p)) /\
   (planar_references_supplied p = 1 ->
    plain_roi_arguments (planar_to_roi p) -> returns (Planar_init p))) /\
  ((volumetric_references_supplied v = 0 ->
    is_ValueError (Volumetric_init v)) /\
   (2 <= volumetric_references_supplied v ->
    is_ValueError (Volumetric_init v)) /\
   (volumetric_references_supplied v = 1 ->
    ~ is_exclusivity_error (Volumetric_init v)) /\
   (volumetric_references_supplied v = 1 ->
    plain_roi_arguments (volumetric_to_roi v) ->
    returns (Volumetric_init v))).
Proof.
  split; [| split].
  - destruct (ROI_init_exclusivity class_name a) as (H0 & H2 & H1 & Hok).
    repeat (split; [assumption |]).
    intros H Hplain. destruct (Hok H Hplain) as (g & -> & _).
    eexists; reflexivity.
  - rewrite Planar_init_unfold.
    destruct (ROI_init_exclusivity
                "PlanarROIMeasurementsAndQualitativeEvaluations"
                (planar_to_roi p)) as (_ & _ & H1 & Hok).
    rewrite planar_to_roi_supplied in H1, Hok.
    split; [intros ->; eexists; reflexivity |].
    split.
    { intros H.
      destruct (planar_references_supplied p =? 0);
        [eexists; reflexivity |].
      destruct (1 <? planar_references_supplied p) eqn:Hlt;
        [eexists; reflexivity | apply Nat.ltb_ge in Hlt; lia]. }
    split.
    + intros H. rewrite H. cbn [Nat.eqb Nat.ltb Nat.leb].
      now apply retag_not_error, H1.
    + intros H Hplain. rewrite H. cbn [Nat.eqb Nat.ltb Nat.leb].
      destruct (Hok H Hplain) as (g & -> & Hp).
      destruct (retag_ok "1410" g Hp) as [g' ->]. eexists; reflexivity.
  - rewrite Volumetric_init_unfold.
    destruct (ROI_init_exclusivity
                "VolumetricROIMeasurementsAndQualitativeEvaluations"
                (volumetric_to_roi v)) as (H0 & H2 & H1 & Hok).
    rewrite volumetric_to_roi_supplied in H0, H2, H1, Hok.
    split; [intros H; now apply is_ValueError_retag, H0 |].
    split; [intros H; now apply is_ValueError_retag, H2 |].
    split.
    + intros H. now apply retag_not_error, H1.
    + intros H Hplain. destruct (Hok H Hplain) as (g & -> & Hp).
      destruct (retag_ok "1411" g Hp) as [g' ->]. eexists; reflexivity.
Qed.


(** The theorem at a base, a planar and a volumetric construction with
    one reference each. *)
Lemma roi_reference_exclusivity_witness :
  returns (ROI_init "ROI" examples.roi_args) /\
  returns (Planar_init examples.planar_args) /\
  returns (Volumetric_init examples.volumetric_args).
Proof.
  pose proof (roi_reference_exclusivity "ROI" examples.roi_args
                examples.planar_args examples.volumetric_args)
    as (Hroi & Hplanar & Hvolumetric).
  assert (Hplain : forall a,
            _ROIMeasurementsAndQualitativeEvaluations.kw.base a =
            examples.base_args ->
            (forall r,
               _ROIMeasurementsAndQualitativeEvaluations.kw.referenced_regions
                 a = Some r -> regions_items r <> []) ->
            plain_roi_arguments a).
  { intros a Hbase Hregions. unfold plain_roi_arguments. rewrite Hbase.
    split; [simpl; lia | split; [reflexivity | exact Hregions]]. }
  split; [| split].
  - apply (proj2 (proj2 (proj2 Hroi))); [reflexivity |].
    apply Hplain; [reflexivity |]. intros r [= <-]. discriminate.
  - apply (proj2 (proj2 (proj2 Hplanar))); [reflexivity |].
    apply Hplain; [reflexivity |]. intros r [= <-]. discriminate.
  - apply (proj2 (proj2 (proj2 Hvolumetric))); [reflexivity |].
    apply Hplain; [reflexivity |]. intros r [=].
Defined.


Lemma ROI_init_base_error (class_name : string)
    (a : _ROIMeasurementsAndQualitativeEvaluations.kw.args) (e : exn) :
  MQ_init (_ROIMeasurementsAndQualitativeEvaluations.kw.base a) = inl e ->
  ROI_init class_name a = inl e.
Proof.
  intros H. unfold _ROIMeasurementsAndQualitativeEvaluations.init.
  now rewrite H.
Qed.

(** The ROI constructor raises the tracking-identifier error only when
    the shared constructor does. *)
Lemma ROI_init_no_tracking_error (class_name : string)
    (a : _ROIMeasurementsAndQualitativeEvaluations.kw.args) :
  length (_MeasurementsAndQualitativeEvaluations.kw.tracking_identifier
            (_ROIMeasurementsAndQualitativeEvaluations.kw.base a)) <> 1 ->
  ~ is_tracking_identifier_error (ROI_init class_name a).
Proof.
  intros Hlen.
  destruct (MQ_init_cases
              (_ROIMeasurementsAndQualitativeEvaluations.kw.base a))
    as [[Hl _] | [_ [g Hbase]]]; [contradiction |].
  destruct (ROI_init_cases class_name a g Hbase) as (H0 & H2 & H1).
  assert (Hn : roi_references_supplied a = 0 \/
               roi_references_supplied a = 1 \/
               2 <= roi_references_supplied a) by lia.
  destruct Hn as [Hn | [Hn | Hn]].
  - rewrite (H0 Hn). intros H. cbv in H. discriminate.
  - destruct (H1 Hn) as [(g' & -> & _) | (e & -> & He)].
    + discriminate.
    + now apply (late_roi_error_not_exclusivity class_name e).
  - rewrite (H2 Hn). intros H. cbv in H. discriminate.
Qed.

(** C9. A [TrackingIdentifier] built without the human-readable
    identifier holds the single UIDREF item, and every measurement-group
    constructor handed it raises [ValueError]: the shared base, the
    plain group and the shared ROI base with the message of the
    length check, the planar and volumetric groups as well.  A
    [TrackingIdentifier] built with the identifier holds two items; the
    shared base and the plain group accept it and return the group, and
    no ROI constructor raises the error of the length check on it. *)
Theorem tracking_identifier_needs_identifier
    (fresh_uid : string) (uid : option string) (identifier : string)
    (a : MQ) (source_images : option (list ContentItem))
    (class_name : string)
    (r : _ROIMeasurementsAndQualitativeEvaluations.kw.args)
    (p : PlanarROIMeasurementsAndQualitativeEvaluations.kw.args)
    (v : VolumetricROIMeasurementsAndQualitativeEvaluations.kw.args) :
  let ti1 := TrackingIdentifier fresh_uid uid None in
  let ti2 := TrackingIdentifier fresh_uid uid (Some identifier) in
  (length ti1 = 1 /\
   MQ_init (with_tracking_identifier a ti1) = inl (ValueError msg_ti) /\
   MeasurementsAndQualitativeEvaluations.init
     (with_tracking_identifier a ti1) source_images =
   inl (ValueError msg_ti) /\
   ROI_init class_name
     (roi_with_base r
        (with_tracking_identifier
           (_ROIMeasurementsAndQualitativeEvaluations.kw.base r) ti1)) =
   inl (ValueError msg_ti) /\
   is_ValueError
     (Planar_init
        (planar_with_base p
           (with_tracking_identifier
              (PlanarROIMeasurementsAndQualitativeEvaluations.kw.base p)
              ti1))) /\
   Volumetric_init
     (volumetric_with_base v
        (with_tracking_identifier
           (VolumetricROIMeasurementsAndQualitativeEvaluations.kw.base v)
           ti1)) =
   inl (ValueError msg_ti)) /\
  (length ti2 = 2 /\
   returns (MQ_init (with_tracking_identifier a ti2)) /\
   returns (MeasurementsAndQualitativeEvaluations.init
              (with_tracking_identifier a ti2) source_images) /\
   ~ is_tracking_identifier_error
       (ROI_init class_name
          (roi_with_base r
             (with_tracking_identifier
                (_ROIMeasurementsAndQualitativeEvaluations.kw.base r) ti2)))
   /\
   ~ is_tracking_identifier_error
       (Planar_init
          (planar_with_base p
             (with_tracking_identifier
                (PlanarROIMeasurementsAndQualitativeEvaluations.kw.base p)
                ti2))) /\
   ~ is_tracking_identifier_error
       (Volumetric_init
          (volumetric_with_base v
             (with_tracking_identifier
                (VolumetricROIMeasurementsAndQualitativeEvaluations.kw.base v)
                ti2)))).
Proof.
  intros ti1 ti2.
  assert (H1 : forall b, MQ_init (with_tracking_identifier b ti1) =
                         inl (ValueError msg_ti)) by reflexivity.
  assert (Hlen2 : forall b,
            length
              (_MeasurementsAndQualitativeEvaluations.kw.tracking_identifier
                 (with_tracking_identifier b ti2)) = 2) by reflexivity.
  split.
  - split; [reflexivity |]. split; [apply H1 |].
    split.
    { unfold MeasurementsAndQualitativeEvaluations.init. now rewrite H1. }
    split; [apply ROI_init_base_error, H1 |].
    split.
    + rewrite Planar_init_unfold.
      destruct (planar_references_supplied _ =? 0); [eexists; reflexivity |].
      destruct (1 <? planar_references_supplied _); [eexists; reflexivity |].
      rewrite (ROI_init_base_error _ _ (ValueError msg_ti)).
      * eexists; reflexivity.
      * apply H1.
    + rewrite Volumetric_init_unfold.
      rewrite (ROI_init_base_error _ _ (ValueError msg_ti));
        [reflexivity | apply H1].
  - split; [reflexivity |].
    destruct (MQ_init_content (with_tracking_identifier a ti2))
      as (g & Hg & Hhas); [rewrite Hlen2; lia |].
    split; [eexists; exact Hg |].
    split.
    { unfold MeasurementsAndQualitativeEvaluations.init.
      rewrite Hg. cbn [bind item0 ret].
      destruct source_images as [images |]; [| eexists; reflexivity].
      destruct (extend_ContentSequence_ok g images Hhas) as (g' & -> & _).
      eexists; reflexivity. }
    split; [| split].
    + apply ROI_init_no_tracking_error. cbn. lia.
    + rewrite Planar_init_unfold.
      destruct (planar_references_supplied _ =? 0);
        [intros H; cbv in H; discriminate |].
      destruct (1 <? planar_references_supplied _);
        [intros H; cbv in H; discriminate |].
      apply retag_not_error, ROI_init_no_tracking_error. cbn. lia.
    + rewrite Volumetric_init_unfold.
      apply retag_not_error, ROI_init_no_tracking_error. cbn. lia.
Qed.

(** C8. [TrackingIdentifier(uid="1.2.3", identifier="lesion-1")] is a
    sequence of exactly two items: a TEXT item named Tracking Identifier
    with value "lesion-1", then a UIDREF item named Tracking Unique
    Identifier with value "1.2.3"; serializing the sequence and parsing
    it back gives the same two items. *)
Theorem TrackingIdentifier_scenario (fresh_uid : string) :
  let ti := TrackingIdentifier fresh_uid (Some "1.2.3") (Some "lesion-1") in
  ti = [ mkItem codes.TrackingIdentifier (Some HAS_OBS_CONTEXT)
           (PText "lesion-1") None;
         mkItem codes.TrackingUniqueIdentifier (Some HAS_OBS_CONTEXT)
           (PUidRef "1.2.3") None ] /\
  length ti = 2 /\
  map value_type ti = [TEXT; UIDREF] /\
  wire.from_sequence (wire.to_sequence ti) = inr ti.
Proof. repeat split. Qed.

End Constructors.

(** ** Queries on a measurement report *)

Section Getters.
Import sr templates spec.
Import MeasurementReport.

Lemma all_app (m : list bool) (b : bool) : all (m ++ [b]) = all m && b.
Proof.
  unfold all. rewrite forallb_app. simpl. now rewrite andb_true_r.
Qed.

Lemma all_opt {A : Type} (m : list bool) (o : option A) (passes : A -> bool) :
  all match o with Some x => m ++ [passes x] | None => m end =
  all m && opt_passes o passes.
Proof. destruct o; simpl; [apply all_app | now rewrite andb_true_r]. Qed.

(** The test that closes the body of the loops is [all(matches)]. *)
Lemma empty_or_all (m : list bool) : (length m =? 0) || all m = all m.
Proof. now destruct m. Qed.

(** One supplied filter appends the outcome of its test to [matches]. *)
Lemma filter_step {A : Type} (m m' : list bool) (o : option A)
    (test : A -> result bool) :
  match o with
  | Some x => do b <- test x; ret (m ++ [b])
  | None => ret m
  end = inr m' ->
  all m' = all m && opt_passes o (fun x => holds (test x)).
Proof.
  destruct o as [x |]; cbn [opt_passes].
  - intros H. apply bind_inr in H as (b & Hb & [= <-]).
    rewrite Hb. apply all_app.
  - intros [= <-]. now rewrite andb_true_r.
Qed.

(** The three filters that the getters share. *)
Lemma shared_filters_step (g : ContentItem)
    (ft fs : option CodedConcept) (tu : option string)
    (k : list bool -> result (list bool)) (m : list bool) :
  (do matches <-
     match ft with
     | Some finding_type =>
         do matches_finding <-
           _contains_code_items g codes.Finding (Some finding_type)
             (Some CONTAINS);
         ret ([] ++ [matches_finding])
     | None => ret []
     end;
   do matches <-
     match fs with
     | Some finding_site =>
         do matches_finding_sites <-
           _contains_code_items g codes.FindingSite (Some finding_site)
             (Some HAS_CONCEPT_MOD);
         ret (matches ++ [matches_finding_sites])
     | None => ret matches
     end;
   do matches <-
     match tu with
     | Some tracking_uid =>
         do matches_tracking_uid <-
           _contains_uidref_items g codes.TrackingUniqueIdentifier
             (Some tracking_uid) (Some HAS_OBS_CONTEXT);
         ret (matches ++ [matches_tracking_uid])
     | None => ret matches
     end;
   k matches) = inr m ->
  exists m0,
    k m0 = inr m /\
    all m0 =
    opt_passes ft (passes_finding_type g) &&
    opt_passes fs (passes_finding_site g) &&
    opt_passes tu (passes_tracking_uid g).
Proof.
  intros H.
  apply bind_inr in H as (m1 & H1 & H).
  apply bind_inr in H as (m2 & H2 & H).
  apply bind_inr in H as (m3 & H3 & H).
  exists m3. split; [exact H |].
  rewrite (filter_step _ _ tu
             (fun tracking_uid =>
                _contains_uidref_items g codes.TrackingUniqueIdentifier
                  (Some tracking_uid) (Some HAS_OBS_CONTEXT)) H3).
  rewrite (filter_step _ _ fs
             (fun finding_site =>
                _contains_code_items g codes.FindingSite (Some finding_site)
                  (Some HAS_CONCEPT_MOD)) H2).
  rewrite (filter_step _ _ ft
             (fun finding_type =>
                _contains_code_items g codes.Finding (Some finding_type)
                  (Some CONTAINS)) H1).
  reflexivity.
Qed.

(** A test on contained images that sets [matches_uids]. *)
Lemma contains_step (c : bool) (test : result bool) (mu mu' : bool) :
  (if c then
     do contains <- test;
     if contains then ret true else ret mu
   else ret mu) = inr mu' ->
  mu' = mu || (c && holds test).
Proof.
  destruct c; cbn [andb].
  - intros H. apply bind_inr in H as (b & -> & H). cbn [holds].
    destruct b; injection H as <-; [now rewrite orb_true_r |].
    now rewrite orb_false_r.
  - intros [= <-]. now rewrite orb_false_r.
Qed.

(** The test on the reference carried by the reference item itself. *)
Lemma direct_step (c : bool) (item : ContentItem)
    (cls inst : option string) (mu' : bool) :
  (if c then
     do sop_seq <- ReferencedSOPSequence0 item;
     let matches_instance_uid := is_None_or_eq inst (snd sop_seq) in
     let matches_class_uid := is_None_or_eq cls (fst sop_seq) in
     if matches_class_uid && matches_instance_uid then ret true
     else ret false
   else ret false) = inr mu' ->
  mu' =
  c && match ReferencedSOPSequence0 item with
       | inr (c', u) => is_None_or_eq cls c' && is_None_or_eq inst u
       | inl _ => false
       end.
Proof.
  destruct c; cbn [andb]; [| now intros [= <-]].
  intros H. apply bind_inr in H as ([c' u] & -> & H). cbn [fst snd] in H.
  cbv zeta in H.
  now destruct (is_None_or_eq cls c' && is_None_or_eq inst u);
    injection H as <-.
Qed.

Lemma image_group_matches_all (f : image_kw.args) (g : ContentItem)
    (m : list bool) :
  image_group_matches f g = inr m -> all m = image_passes f g.
Proof.
  destruct f as [tu ft fs inst cls].
  unfold image_group_matches, image_passes, sop_uids_supplied.
  cbn [image_kw.tracking_uid image_kw.finding_type image_kw.finding_site
       image_kw.referenced_sop_instance_uid
       image_kw.referenced_sop_class_uid].
  cbv zeta. intros H.
  apply shared_filters_step in H as (m0 & H & Hm0).
  rewrite <- Hm0.
  destruct (is_not_None inst || is_not_None cls).
  - apply bind_inr in H as (b & Hb & [= <-]). rewrite Hb. apply all_app.
  - injection H as <-. now rewrite andb_true_r.
Qed.

(** The measurement groups found in a report are "Measurement Group"
    containers. *)
Lemma _find_measurement_groups_groups (self : ContentSeq)
    (groups : list ContentItem) :
  _find_measurement_groups self = inr groups ->
  Forall is_measurement_group groups.
Proof.
  unfold _find_measurement_groups. destruct self as [| root rest];
    [discriminate |]. cbn [bind item0 ret]. intros H.
  apply bind_inr in H as (ims & _ & H).
  destruct ims as [| im ims]; cbn [length Nat.eqb bind item0 ret] in H;
    [injection H as <-; constructor |].
  rewrite find_named in H.
  destruct (has_ContentSequence im); [| discriminate].
  injection H as <-. apply List.Forall_forall.
  intros g Hg. apply filter_In in Hg as [_ Hg].
  unfold named in Hg. apply andb_true_iff in Hg as [Hn Hv].
  split; [| exact Hn]. unfold vt_eqb in Hv.
  now apply bool_decide_eq_true in Hv.
Qed.

Lemma measurement_groups_found (self : ContentSeq)
    (groups : list ContentItem) :
  _find_measurement_groups self = inr groups ->
  measurement_groups self = groups.
Proof. unfold measurement_groups. now intros ->. Qed.

(** The measurement groups of a report are found without error when
    the root item and its "Imaging Measurements" containers have child
    content. *)
Lemma _find_measurement_groups_returns (root : ContentItem)
    (rest : ContentSeq) :
  has_ContentSequence root = true ->
  (forall im, In im (children root) ->
     named codes.ImagingMeasurements CONTAINER im = true ->
     has_ContentSequence im = true) ->
  _find_measurement_groups (root :: rest) =
  inr (measurement_groups (root :: rest)).
Proof.
  intros Hroot Hims.
  assert (H : exists groups,
            _find_measurement_groups (root :: rest) = inr groups).
  { unfold _find_measurement_groups. cbn [bind item0 ret].
    rewrite find_named, Hroot. cbn [bind].
    destruct (List.filter _ (children root)) as [| im ims] eqn:Hfilter;
      cbn [length Nat.eqb bind item0 ret]; [eexists; reflexivity |].
    assert (Him : In im (List.filter
                           (named codes.ImagingMeasurements CONTAINER)
                           (children root)))
      by (rewrite Hfilter; now left).
    apply filter_In in Him as [Hin Hnamed].
    rewrite find_named, (Hims im Hin Hnamed). eexists; reflexivity. }
  destruct H as [groups H]. now rewrite (measurement_groups_found _ _ H).
Qed.

Lemma from_sequence_group (g : ContentItem) :
  is_measurement_group g ->
  _MeasurementsAndQualitativeEvaluations.from_sequence [g] = inr (view g).
Proof.
  intros [Hv Hn]. unfold _MeasurementsAndQualitativeEvaluations.from_sequence.
  cbn [length Nat.ltb Nat.leb bind item0 ret]. now rewrite Hv, Hn.
Qed.

(** A measurement group that has child content is classified without
    error. *)
Lemma _contains_rois_return (g : ContentItem) :
  is_measurement_group g -> has_ContentSequence g = true ->
  exists b1 b2, _contains_planar_rois g = inr b1 /\
                _contains_volumetric_rois g = inr b2.
Proof.
  intros Hg Hhas.
  unfold has_ContentSequence in Hhas.
  destruct (ContentSequence g) as [cs |] eqn:Hcs; [| discriminate].
  unfold _contains_planar_rois, _contains_volumetric_rois.
  rewrite (_count_roi_items_spec g cs Hg Hcs). cbn [bind].
  do 2 match goal with
    | |- context [if ?c then ret true else ret false] => destruct c
    end; eauto.
Qed.

(** The loop of the image getter keeps the groups that are of the
    requested kind and pass the filters, in order. *)
Lemma image_loop_spec (f : image_kw.args) (groups : list ContentItem) :
  Forall is_measurement_group groups ->
  forall sequences,
    image_loop f groups = inr sequences ->
    sequences =
    map view
      (List.filter (fun g => is_image_group g && image_passes f g) groups).
Proof.
  induction 1 as [| g groups Hg Hgroups IH]; intros sequences Hloop.
  - now injection Hloop as <-.
  - cbn [image_loop] in Hloop. cbn [List.filter].
    unfold is_image_group at 1.
    destruct (image_candidate g) as [e | b]; [discriminate |].
    cbn [bind] in Hloop. destruct b; cbn [negb andb] in Hloop |- *.
    2:{ now apply IH. }
    apply bind_inr in Hloop as (m & Hm & Hloop).
    rewrite (from_sequence_group g Hg) in Hloop. cbn [bind] in Hloop.
    rewrite <- (image_group_matches_all f g m Hm).
    destruct m as [| b m]; cbn [length Nat.eqb] in Hloop.
    + apply bind_inr in Hloop as (rest & Hrest & [= <-]).
      cbn [all forallb map]. now rewrite (IH rest Hrest).
    + destruct (all (b :: m)).
      * apply bind_inr in Hloop as (rest & Hrest & [= <-]).
        cbn [map]. now rewrite (IH rest Hrest).
      * now apply IH.
Qed.

(** The list [matches] built for a group of the planar getter holds
    one entry for each supplied filter: [all(matches)] is the
    conjunction of the supplied filter predicates. *)
Lemma planar_group_matches_all (f : planar_kw.args) (g : ContentItem)
    (m : list bool) :
  planar_group_matches f g = inr m -> all m = planar_passes f g.
Proof.
  destruct f as [tu ft fs rt gt inst cls].
  unfold planar_group_matches, planar_passes, passes_reference_type,
    passes_graphic_type, passes_referenced_sop_uids, on_planar_reference,
    sop_uids_supplied.
  cbn [planar_kw.tracking_uid planar_kw.finding_type planar_kw.finding_site
       planar_kw.reference_type planar_kw.graphic_type
       planar_kw.referenced_sop_instance_uid
       planar_kw.referenced_sop_class_uid].
  cbv zeta. intros H.
  apply shared_filters_step in H as (m0 & H & Hm0).
  rewrite <- Hm0. clear Hm0.
  destruct (is_not_None rt || is_not_None gt || is_not_None cls ||
            is_not_None inst) eqn:Hsupplied.
  2:{ destruct rt, gt, cls, inst; try discriminate.
      injection H as <-. cbn. now rewrite !andb_true_r. }
  destruct (_get_planar_roi_reference_item g) as [e | [found item]];
    [discriminate |].
  cbn [bind] in H.
  set (m1 := match rt with
             | Some reference_type => m0 ++ [_]
             | None => m0
             end) in H.
  assert (Hm1 : all m1 =
                all m0 && opt_passes rt (fun r => found_eq_code found r)).
  { unfold m1. apply all_opt. }
  clearbody m1.
  set (m2 := match gt with
             | Some (inl graphic_type) => _
             | Some (inr graphic_type) => _
             | None => m1
             end) in H.
  assert (Hm2 : all m2 =
                all m1 &&
                opt_passes gt
                  (fun graphic_type =>
                     match graphic_type, payload item with
                     | inl gt2, PScoord found_gt _ =>
                         bool_decide (found_gt = gt2)
                     | inr gt3, PScoord3D found_gt _ _ =>
                         bool_decide (found_gt = gt3)
                     | _, _ => false
                     end)).
  { unfold m2. destruct gt as [[gt2 | gt3] |]; cbn [opt_passes];
      [destruct (payload item); now rewrite all_app
      | destruct (payload item); now rewrite all_app
      | now rewrite andb_true_r]. }
  clearbody m2.
  destruct (is_not_None inst || is_not_None cls) eqn:Huids.
  2:{ injection H as <-. rewrite Hm2, Hm1. now rewrite andb_true_r. }
  apply bind_inr in H as (mu0 & Hmu0 & H).
  apply bind_inr in H as (mu1 & Hmu1 & H).
  apply bind_inr in H as (mu2 & Hmu2 & [= <-]).
  rewrite all_app, Hm2, Hm1. f_equal.
  apply direct_step in Hmu0.
  apply contains_step in Hmu2.
  assert (Hmu1' : mu1 = mu0 ||
                  (found_eq_code found codes.ImageRegion &&
                   vt_eqb (value_type item) SCOORD &&
                   holds (_contains_image_items item None cls inst
                            (Some SELECTED_FROM)))).
  { destruct (found_eq_code found codes.ImageRegion); cbn [andb];
      [| injection Hmu1 as <-; now rewrite orb_false_r].
    now apply contains_step in Hmu1. }
  now rewrite Hmu2, Hmu1', Hmu0.
Qed.

(** The loop of the planar getter keeps the groups that are of the
    requested kind and pass the filters, in order. *)
Lemma planar_loop_spec (f : planar_kw.args) (groups : list ContentItem) :
  Forall is_measurement_group groups ->
  forall sequences,
    planar_loop f groups = inr sequences ->
    sequences =
    map view
      (List.filter (fun g => is_planar_group g && planar_passes f g) groups).
Proof.
  induction 1 as [| g groups Hg Hgroups IH]; intros sequences Hloop.
  - now injection Hloop as <-.
  - cbn [planar_loop] in Hloop. cbn [List.filter].
    unfold is_planar_group at 1.
    destruct (planar_candidate g) as [e | b]; [discriminate |].
    cbn [bind] in Hloop. destruct b; cbn [negb andb] in Hloop |- *.
    2:{ now apply IH. }
    apply bind_inr in Hloop as (m & Hm & Hloop).
    rewrite empty_or_all, (planar_group_matches_all f g m Hm) in Hloop.
    destruct (planar_passes f g); [| now apply IH].
    unfold PlanarROIMeasurementsAndQualitativeEvaluations.from_sequence
      in Hloop.
    rewrite (from_sequence_group g Hg) in Hloop. cbn [bind] in Hloop.
    apply bind_inr in Hloop as (rest & Hrest & [= <-]).
    cbn [map]. now rewrite (IH rest Hrest).
Qed.

Lemma Planar_allowed_are_reference_types :
  Forall is_reference_type Planar_allowed_roi_reference_types.
Proof. repeat constructor; eexists; reflexivity. Qed.

(** The reference item of a planar group is a matching child, and the
    reference type found is its concept name. *)
Lemma planar_reference_item_match (g : ContentItem)
    (found : option CodedConcept) (item : ContentItem) :
  _get_planar_roi_reference_item g = inr (found, item) ->
  found = Some (name item) /\
  roi_reference_match Planar_allowed_roi_reference_types item = true.
Proof.
  unfold _get_planar_roi_reference_item. intros H.
  apply bind_inr in H as ([rt items] & Hitems & H).
  assert (Hcs : exists cs, ContentSequence g = Some cs).
  { unfold _get_roi_reference_items, get_ContentSequence in Hitems.
    destruct (ContentSequence g); [eauto | discriminate]. }
  destruct Hcs as [cs Hcs].
  pose proof (_get_roi_reference_items_cases _
                Planar_allowed_are_reference_types g cs Hcs) as Hcases.
  pose proof (filter_all_match Planar_allowed_roi_reference_types cs) as Hall.
  destruct (List.filter _ cs) as [| a M]; [congruence |].
  destruct Hcases as [Hok Hbad].
  destruct (rest_ok (name a) M) eqn:Hrest.
  - rewrite (Hok eq_refl) in Hitems. injection Hitems as <- <-.
    destruct M as [| b M]; [| discriminate].
    cbn in H. injection H as <- <-.
    split; [reflexivity |]. now inversion Hall.
  - destruct (Hbad eq_refl) as [msg Hmsg]. congruence.
Qed.

Lemma planar_passes_no_filters (g : ContentItem) :
  planar_passes no_planar_filters g = true.
Proof. reflexivity. Qed.

Lemma image_passes_no_filters (g : ContentItem) :
  image_passes no_image_filters g = true.
Proof. reflexivity. Qed.

Lemma measurement_groups_groups (self : ContentSeq) :
  Forall is_measurement_group (measurement_groups self).
Proof.
  unfold measurement_groups.
  destruct (_find_measurement_groups self) as [e | groups] eqn:H;
    [constructor | now apply (_find_measurement_groups_groups self)].
Qed.

(** What the planar and the image getter return, when they return. *)
Lemma get_planar_roi_measurement_groups_returned (self : ContentSeq)
    (f : planar_kw.args) (sequences : list ContentSeq) :
  get_planar_roi_measurement_groups self f = inr sequences ->
  sequences =
  map view
    (List.filter (fun g => is_planar_group g && planar_passes f g)
       (measurement_groups self)).
Proof.
  intros H. unfold get_planar_roi_measurement_groups in H.
  apply bind_inr in H as (_ & _ & H).
  apply bind_inr in H as (groups & Hgroups & H).
  rewrite (measurement_groups_found _ _ Hgroups).
  now apply (planar_loop_spec f groups
               (_find_measurement_groups_groups self groups Hgroups)).
Qed.

Lemma get_image_measurement_groups_returned (self : ContentSeq)
    (f : image_kw.args) (sequences : list ContentSeq) :
  get_image_measurement_groups self f = inr sequences ->
  sequences =
  map view
    (List.filter (fun g => is_image_group g && image_passes f g)
       (measurement_groups self)).
Proof.
  intros H. unfold get_image_measurement_groups in H.
  apply bind_inr in H as (groups & Hgroups & H).
  rewrite (measurement_groups_found _ _ Hgroups).
  now apply (image_loop_spec f groups
               (_find_measurement_groups_groups self groups Hgroups)).
Qed.

(** A group of the requested kind is among the views of the filtered
    groups exactly when it passes the filter. *)
Lemma view_in_filtered (kind passes : ContentItem -> bool)
    (groups : list ContentItem) (g : ContentItem) :
  In g groups -> kind g = true ->
  (In (view g) (map view (List.filter (fun x => kind x && passes x) groups))
   <-> passes g = true).
Proof.
  intros Hin Hkind. rewrite in_map_iff. split.
  - intros (x & [= ->] & Hx). apply filter_In in Hx as [_ Hx].
    now apply andb_true_iff in Hx as [_ Hx].
  - intros Hpasses. exists g. split; [reflexivity |].
    apply filter_In. split; [exact Hin |]. now rewrite Hkind, Hpasses.
Qed.

(** C2, as amended.  Whenever [get_planar_roi_measurement_groups] or
    [get_image_measurement_groups] returns rather than raises, a
    measurement group of the requested kind is returned if and only if
    it passes every supplied filter predicate, an absent filter being
    passed by every group; with no filter supplied every group of the
    requested kind is returned.  The sequences returned are the views
    of these groups, in document order. *)
Theorem getters_filter_by_conjunction :
  (forall self f sequences g,
     get_planar_roi_measurement_groups self f = inr sequences ->
     In g (measurement_groups self) -> is_planar_group g = true ->
     (In (view g) sequences <-> planar_passes f g = true)) /\
  (forall self f sequences g,
     get_image_measurement_groups self f = inr sequences ->
     In g (measurement_groups self) -> is_image_group g = true ->
     (In (view g) sequences <-> image_passes f g = true)) /\
  (forall self sequences g,
     get_planar_roi_measurement_groups self no_planar_filters =
     inr sequences ->
     In g (measurement_groups self) -> is_planar_group g = true ->
     In (view g) sequences) /\
  (forall self sequences g,
     get_image_measurement_groups self no_image_filters = inr sequences ->
     In g (measurement_groups self) -> is_image_group g = true ->
     In (view g) sequences) /\
  (forall self f sequences,
     get_planar_roi_measurement_groups self f = inr sequences ->
     sequences =
     map view
       (List.filter (fun g => is_planar_group g && planar_passes f g)
          (measurement_groups self))) /\
  (forall self f sequences,
     get_image_measurement_groups self f = inr sequences ->
     sequences =
     map view
       (List.filter (fun g => is_image_group g && image_passes f g)
          (measurement_groups self))).
Proof.
  split; [| split; [| split; [| split; [| split]]]].
  - intros self f sequences g H Hin Hkind.
    rewrite (get_planar_roi_measurement_groups_returned _ _ _ H).
    now apply view_in_filtered.
  - intros self f sequences g H Hin Hkind.
    rewrite (get_image_measurement_groups_returned _ _ _ H).
    now apply view_in_filtered.
  - intros self sequences g H Hin Hkind.
    rewrite (get_planar_roi_measurement_groups_returned _ _ _ H).
    now apply view_in_filtered.
  - intros self sequences g H Hin Hkind.
    rewrite (get_image_measurement_groups_returned _ _ _ H).
    now apply view_in_filtered.
  - apply get_planar_roi_measurement_groups_returned.
  - apply get_image_measurement_groups_returned.
Qed.

(** The theorem at a report with three planar groups, filtered by
    finding type and tracking UID: the getter returns, and of the
    three groups only the first, which matches both, is returned. *)
Lemma getters_filter_by_conjunction_witness :
  get_planar_roi_measurement_groups examples.planar_report
    examples.finding_and_uid = inr [view examples.planar_1] /\
  (In (view examples.planar_1) [view examples.planar_1] <->
   planar_passes examples.finding_and_uid examples.planar_1 = true) /\
  (In (view examples.planar_2) [view examples.planar_1] <->
   planar_passes examples.finding_and_uid examples.planar_2 = true) /\
  (In (view examples.planar_3) [view examples.planar_1] <->
   planar_passes examples.finding_and_uid examples.planar_3 = true).
Proof.
  split; [reflexivity |].
  split; [| split];
    apply (proj1 getters_filter_by_conjunction examples.planar_report
             examples.finding_and_uid [view examples.planar_1]);
    try reflexivity; vm_compute; auto 10.
Defined.

(** C2, counterexample.  A report holds a well-formed planar group
    with one 2D image region, followed by a group tagged as planar that
    holds no ROI reference item.  Called with the filter
    [reference_type=ImageRegion], the planar getter raises the
    [RuntimeError] of [_get_roi_reference_items] at the second group:
    the first group passes the only supplied filter and is not
    returned. *)
Lemma planar_getter_raises_counterexample :
  ~ planar_getter_returns_exactly examples.unreferenced_report
      examples.image_region_filter.
Proof.
  intros H.
  specialize (H examples.planar_1 (or_introl eq_refl) eq_refl).
  destruct (proj2 H eq_refl) as (sequences & Hret & _).
  discriminate Hret.
Qed.

(** The argument guards have the same effect: on a report with one
    planar group whose image region has graphic type MULTIPOINT, the
    filter [graphic_type=MULTIPOINT] is rejected with [ValueError]
    although the group passes it. *)
Lemma planar_getter_guard_example :
  get_planar_roi_measurement_groups examples.multipoint_report
    examples.multipoint_filter =
  inl (ValueError
         ("Graphic type " ++ dq ++ "MULTIPOINT" ++ dq ++
          " is not valid for image " ++
          "regions within a planar ROI measurements group.")%string) /\
  is_planar_group examples.multipoint_group = true /\
  planar_passes examples.multipoint_filter examples.multipoint_group = true.
Proof. repeat split. Qed.

End Getters.

(** ** Observer and subject contexts of a measurement report *)

Section Contexts.
Import sr templates spec.
Import MeasurementReport.

(** The slice taken for the last marker, at one-based position
    [index], stops before the final item of the root content: it is
    what follows the marker with the last item removed. *)
Lemma context_slice_last (seq : list ContentItem) (index : Z) :
  (0 <= index)%Z ->
  context_slice seq index [] = removelast (skipn (Z.to_nat index) seq).
Proof.
  intros Hindex. unfold context_slice, next_index_of, py_slice, slice_bound.
  destruct (index <? 0)%Z eqn:Hneg; [apply Z.ltb_lt in Hneg; lia |].
  cbn [Z.ltb Z.compare].
  replace (Z.to_nat (Z.max 0 (-1 + Z.of_nat (length seq))))
    with (length seq - 1) by lia.
  destruct (Nat.le_gt_cases (length seq) (Z.to_nat index)) as [Hle | Hgt].
  - rewrite Nat.min_r by lia.
    rewrite !skipn_all2 by lia. now rewrite firstn_nil.
  - rewrite Nat.min_l by lia.
    rewrite removelast_firstn_len, length_skipn. f_equal. lia.
Qed.

(** Between two markers the slice runs from the item after the first
    marker up to and including the second marker. *)
Lemma context_slice_between (seq : list ContentItem) (index next_index : Z)
    (item : ContentItem) (rest : list (Z * ContentItem)) :
  (0 <= index <= next_index)%Z ->
  (next_index <= Z.of_nat (length seq))%Z ->
  context_slice seq index ((next_index, item) :: rest) =
  firstn (Z.to_nat next_index - Z.to_nat index) (skipn (Z.to_nat index) seq).
Proof.
  intros Hindex Hnext.
  unfold context_slice, next_index_of, py_slice, slice_bound.
  destruct (index <? 0)%Z eqn:H1; [apply Z.ltb_lt in H1; lia |].
  destruct (next_index <? 0)%Z eqn:H2; [apply Z.ltb_lt in H2; lia |].
  now rewrite !Nat.min_l by lia.
Qed.

(** C6, at a report whose root content is an Observer Type marker
    followed by the Person Observer Name item.  The marker is found at
    position 1 and is the last marker; the slice taken for it is empty,
    so that the final item of the root content, the name of the
    observer, is not part of it, and [get_observer_contexts] raises
    [TypeError] for want of the name.  The slice that runs to the end of
    the root content holds the name item and parses. *)
Theorem get_observer_contexts_last_slice :
  let seq := [examples.observer_type_person; examples.person_observer_name] in
  marker_matches codes.ObserverType seq =
  [(1%Z, examples.observer_type_person)] /\
  context_slice seq 1 [] = [] /\
  skipn 1 seq = [examples.person_observer_name] /\
  get_observer_contexts examples.observer_report None =
  inl (TypeError
         ("PersonObserverIdentifyingAttributes.__init__() missing 1 " ++
          "required positional argument: 'name'")%string)
  /\
  PersonObserverIdentifyingAttributes.from_sequence (skipn 1 seq) =
  inr (<["name" := IVStr "Doe^John"]> ∅).
Proof. repeat split. Qed.

(** The same at a root content made of a Subject Class marker followed
    by the Subject ID item: [get_subject_contexts] takes its slices in
    the same way. *)
Lemma get_subject_contexts_last_slice :
  let seq := [examples.subject_class_fetus; examples.fetus_subject_id] in
  context_slice seq 1 [] = [] /\
  get_subject_contexts examples.subject_report None =
  inl (TypeError
         ("SubjectContextFetus.__init__() missing 1 required " ++
          "positional argument: 'subject_id'")%string) /\
  SubjectContextFetus.from_sequence (skipn 1 seq) =
  inr (<["subject_id" := IVStr "fetus-1"]> ∅).
Proof. repeat split. Qed.

End Contexts.

(** * Further properties *)

(** ** Classification of measurement groups: errors and overlap *)

Section ClassificationEdges.
Import sr templates spec.

(** The three ways in which [_count_roi_items] can go. *)
Lemma _count_roi_items_cases (g : ContentItem) :
  (is_measurement_group g /\
   exists cs, ContentSequence g = Some cs /\
     _count_roi_items g =
     inr (count_items is_image_region cs, count_items is_image_region_3d cs,
          count_items is_volume_surface cs,
          count_items is_referenced_segment cs,
          count_items is_referenced_segmentation_frame cs,
          count_items is_region_in_space cs)) \/
  (is_measurement_group g /\ ContentSequence g = None /\
   _count_roi_items g = inl (AttributeError "ContentSequence")) \/
  (~ is_measurement_group g /\ is_ValueError (_count_roi_items g)).
Proof.
  destruct (vt_eqb (value_type g) CONTAINER) eqn:Hvt.
  - destruct (code_eqb (name g) codes.MeasurementGroup) eqn:Hn.
    + assert (Hg : is_measurement_group g).
      { split; [| exact Hn]. unfold vt_eqb in Hvt.
        now apply bool_decide_eq_true in Hvt. }
      destruct (ContentSequence g) as [cs |] eqn:Hcs.
      * left. split; [exact Hg |]. exists cs. split; [reflexivity |].
        now apply _count_roi_items_spec.
      * right; left. repeat split; try apply Hg.
        now apply _count_roi_items_no_content.
    + right; right. split.
      * intros [_ H]. congruence.
      * unfold _count_roi_items. rewrite Hvt, Hn. simpl. eexists; reflexivity.
  - right; right. split.
    + intros [H _]. unfold vt_eqb in Hvt.
      apply bool_decide_eq_false in Hvt. contradiction.
    + unfold _count_roi_items. rewrite Hvt. simpl. eexists; reflexivity.
Qed.

Lemma classification_cases (g : ContentItem) :
  (is_measurement_group g /\ has_ContentSequence g = true /\
   exists b1 b2, _contains_planar_rois g = inr b1 /\
                 _contains_volumetric_rois g = inr b2) \/
  (is_measurement_group g /\ has_ContentSequence g = false /\
   _contains_planar_rois g = inl (AttributeError "ContentSequence") /\
   _contains_volumetric_rois g = inl (AttributeError "ContentSequence")) \/
  (~ is_measurement_group g /\
   exists m1 m2, _contains_planar_rois g = inl (ValueError m1) /\
                 _contains_volumetric_rois g = inl (ValueError m2)).
Proof.
  unfold _contains_planar_rois, _contains_volumetric_rois,
    has_ContentSequence.
  destruct (_count_roi_items_cases g)
    as [(Hg & cs & Hcs & ->) | [(Hg & Hcs & ->) | (Hg & msg & ->)]];
    rewrite ?Hcs; cbn [bind].
  - left. repeat split; try apply Hg.
    do 2 match goal with
      | |- context [if ?c then ret true else ret false] => destruct c
      end; eauto.
  - right; left. repeat split; apply Hg.
  - right; right. split; [exact Hg | eauto].
Qed.

(** X1. [_contains_planar_rois] and [_contains_volumetric_rois] return
    a boolean exactly on the "Measurement Group" containers that have
    child content.  They raise [ValueError] exactly on the items that
    are not "Measurement Group" containers, and [AttributeError] (for
    the missing [ContentSequence]) exactly on the measurement groups
    without child content. *)
Theorem classification_error_behaviour (g : ContentItem) :
  (returns (_contains_planar_rois g) <->
   is_measurement_group g /\ has_ContentSequence g = true) /\
  (returns (_contains_volumetric_rois g) <->
   is_measurement_group g /\ has_ContentSequence g = true) /\
  (is_ValueError (_contains_planar_rois g) <-> ~ is_measurement_group g) /\
  (is_ValueError (_contains_volumetric_rois g) <-> ~ is_measurement_group g) /\
  (is_measurement_group g /\ has_ContentSequence g = false <->
   _contains_planar_rois g = inl (AttributeError "ContentSequence") /\
   _contains_volumetric_rois g = inl (AttributeError "ContentSequence")).
Proof.
  unfold returns, is_ValueError.
  destruct (classification_cases g)
    as [(Hg & Hhas & b1 & b2 & -> & ->)
       | [(Hg & Hhas & -> & ->) | (Hg & m1 & m2 & -> & ->)]].
  - repeat apply conj; try (intros [? ?]; congruence);
      try (intros; contradiction); intros; eauto.
  - repeat apply conj; try (intros [? ?]; congruence);
      try (intros; contradiction); intros; eauto.
  - repeat apply conj; try (intros [? ?]; congruence);
      try (intros [? ?]; contradiction); intros; eauto.
Qed.

Lemma if_ret_true (c : bool) :
  (if c then ret true else ret false : result bool) = inr true <-> c = true.
Proof. destruct c; split; intros H; try reflexivity; discriminate. Qed.

(** X2. On a measurement group, [_contains_planar_rois] returns true
    exactly when (the 2D and 3D image-region items together number
    one, or there is at least one referenced-segmentation-frame item,
    or there is exactly one region-in-space item) and there is neither
    a volume-surface item nor a referenced-segment item, the counts
    being taken over the child items by concept name and value type. *)
Theorem _contains_planar_rois_iff (g : ContentItem) :
  is_measurement_group g ->
  (_contains_planar_rois g = inr true <->
   (count_items is_image_region (children g) +
    count_items is_image_region_3d (children g) = 1 \/
    1 <= count_items is_referenced_segmentation_frame (children g) \/
    count_items is_region_in_space (children g) = 1) /\
   count_items is_volume_surface (children g) = 0 /\
   count_items is_referenced_segment (children g) = 0).
Proof.
  intros Hg. unfold children.
  destruct (ContentSequence g) as [cs |] eqn:Hcs.
  - unfold _contains_planar_rois.
    rewrite (_count_roi_items_spec g cs Hg Hcs). cbn [bind].
    rewrite if_ret_true, !andb_true_iff, !orb_true_iff, !Nat.ltb_lt,
      !Nat.eqb_eq. lia.
  - unfold _contains_planar_rois.
    rewrite (_count_roi_items_no_content g Hg Hcs). simpl.
    unfold count_items. simpl.
    split; [discriminate | intros [[H | [H | H]] _]; lia].
Qed.

Lemma _contains_planar_rois_iff_witness :
  _contains_planar_rois examples.planar_group = inr true.
Proof.
  apply (proj2 (_contains_planar_rois_iff examples.planar_group
                  (conj eq_refl eq_refl))).
  vm_compute. split; [left; reflexivity | split; reflexivity].
Defined.

(** X3. A measurement group is classified both as planar and as
    volumetric exactly when it has no 3D image region, volume surface,
    referenced segment or referenced segmentation frame, and either
    exactly one region-in-space item, or exactly one 2D image region
    together with at least one region-in-space item.  In particular
    the two classifications exclude each other on every group without
    a region-in-space item. *)
Theorem planar_and_volumetric_overlap (g : ContentItem) :
  is_measurement_group g ->
  (_contains_planar_rois g = inr true /\
   _contains_volumetric_rois g = inr true <->
   (count_items is_region_in_space (children g) = 1 \/
    (count_items is_image_region (children g) = 1 /\
     1 <= count_items is_region_in_space (children g))) /\
   count_items is_image_region_3d (children g) = 0 /\
   count_items is_volume_surface (children g) = 0 /\
   count_items is_referenced_segment (children g) = 0 /\
   count_items is_referenced_segmentation_frame (children g) = 0) /\
  (count_items is_region_in_space (children g) = 0 ->
   ~ (_contains_planar_rois g = inr true /\
      _contains_volumetric_rois g = inr true)).
Proof.
  intros Hg. unfold children.
  destruct (ContentSequence g) as [cs |] eqn:Hcs.
  - unfold _contains_planar_rois, _contains_volumetric_rois.
    rewrite (_count_roi_items_spec g cs Hg Hcs). cbn [bind].
    rewrite !if_ret_true, !andb_true_iff, !orb_true_iff, !Nat.ltb_lt,
      !Nat.eqb_eq. lia.
  - unfold _contains_planar_rois.
    rewrite (_count_roi_items_no_content g Hg Hcs). simpl.
    unfold count_items. simpl.
    split; [| intros _ [H _]; discriminate].
    split; [intros [H _]; discriminate | intros [[H | [H _]] _]; lia].
Qed.

Lemma planar_and_volumetric_overlap_witness :
  _contains_planar_rois vocabulary.region_in_space_group = inr true /\
  _contains_volumetric_rois vocabulary.region_in_space_group = inr true.
Proof.
  apply (proj2 (proj1 (planar_and_volumetric_overlap
                         vocabulary.region_in_space_group
                         (conj eq_refl eq_refl)))).
  vm_compute. repeat split. left; reflexivity.
Defined.

End ClassificationEdges.

(** ** The ROI reference of planar and volumetric groups *)

Section RoiReferenceOfGroups.
Import sr templates spec.

(** X4. On a group with child content, [_get_planar_roi_reference_item]
    returns exactly when one child, and only one, is an ROI reference
    (related by CONTAINS, named by a reference type allowed in a planar
    group, of a value type expected for it): it then returns that
    child together with its concept name.  With no such child, or with
    more than one, it raises [RuntimeError]. *)
Theorem _get_planar_roi_reference_item_spec (g : ContentItem)
    (cs : list ContentItem) :
  ContentSequence g = Some cs ->
  let M :=
    List.filter (roi_reference_match Planar_allowed_roi_reference_types) cs in
  (forall item,
     M = [item] ->
     _get_planar_roi_reference_item g = inr (Some (name item), item)) /\
  (length M <> 1 -> is_RuntimeError (_get_planar_roi_reference_item g)).
Proof.
  intros Hcs M.
  pose proof (_get_roi_reference_items_cases _
                Planar_allowed_are_reference_types g cs Hcs) as Hcases.
  fold M in Hcases. unfold _get_planar_roi_reference_item.
  destruct M as [| a [| b M']].
  - split; [discriminate |]. intros _. rewrite Hcases.
    eexists; reflexivity.
  - destruct Hcases as [Hok _]. split.
    + intros item [= <-]. now rewrite (Hok eq_refl).
    + intros H. now contradiction H.
  - split; [discriminate |]. intros _. destruct Hcases as [Hok Hbad].
    destruct (rest_ok (name a) (b :: M')) eqn:Hrest.
    + rewrite (Hok eq_refl). eexists; reflexivity.
    + destruct (Hbad eq_refl) as [msg ->]. eexists; reflexivity.
Qed.

Lemma _get_planar_roi_reference_item_spec_witness :
  _get_planar_roi_reference_item examples.planar_1 =
  inr (Some codes.ImageRegion, examples.region GT_POLYLINE).
Proof.
  exact (proj1 (_get_planar_roi_reference_item_spec examples.planar_1 _
                  eq_refl) (examples.region GT_POLYLINE) eq_refl).
Defined.

Lemma reference_type_inner_code_in (allowed : list CodedConcept)
    (item : ContentItem) :
  match reference_type_inner allowed item with
  | Some c => In c allowed /\ code_eqb (name item) c = true
  | None => code_in (name item) allowed = false
  end.
Proof.
  induction allowed as [| a allowed IH]; simpl; [reflexivity |].
  destruct (code_eqb (name item) a) eqn:Ha; simpl.
  - split; [now left | exact Ha].
  - destruct (reference_type_inner allowed item).
    + destruct IH. split; [now right | assumption].
    + exact IH.
Qed.

(** The loop of [reference_type] stops at the first child whose name
    is allowed. *)
Lemma reference_type_loop_first (allowed : list CodedConcept)
    (pre post : list ContentItem) (item : ContentItem) :
  (forall x, In x pre -> code_in (name x) allowed = false) ->
  code_in (name item) allowed = true ->
  exists c, reference_type_loop allowed (pre ++ item :: post) = inr c /\
            In c allowed /\ code_eqb (name item) c = true.
Proof.
  intros Hpre Hitem. induction pre as [| x pre IH]; simpl.
  - pose proof (reference_type_inner_code_in allowed item) as H.
    destruct (reference_type_inner allowed item) as [c |]; [| congruence].
    exists c. now split.
  - pose proof (reference_type_inner_code_in allowed x) as H.
    destruct (reference_type_inner allowed x) as [c |].
    + destruct H as [Hin Heq].
      assert (code_in (name x) allowed = true).
      { unfold code_in. apply existsb_exists. eauto. }
      rewrite (Hpre x (or_introl eq_refl)) in H. discriminate.
    + apply IH. intros y Hy. apply Hpre. now right.
Qed.

Lemma reference_type_loop_none (allowed : list CodedConcept)
    (cs : list ContentItem) :
  (forall x, In x cs -> code_in (name x) allowed = false) ->
  is_RuntimeError (reference_type_loop allowed cs).
Proof.
  induction cs as [| x cs IH]; intros H; simpl.
  - eexists; reflexivity.
  - pose proof (reference_type_inner_code_in allowed x) as Hx.
    destruct (reference_type_inner allowed x) as [c |].
    + destruct Hx as [Hin Heq].
      assert (code_in (name x) allowed = true).
      { unfold code_in. apply existsb_exists. eauto. }
      rewrite (H x (or_introl eq_refl)) in H0. discriminate.
    + apply IH. intros y Hy. apply H. now right.
Qed.

(** X5. The [reference_type] property of a planar and of a volumetric
    group goes by concept names alone: it returns the allowed concept
    that names the first child with an allowed name, whatever the
    value type and the relationship type of that child, and raises
    [RuntimeError] when no child has an allowed name. *)
Theorem reference_type_by_name (g : ContentItem) (cs : list ContentItem) :
  ContentSequence g = Some cs ->
  (forall pre item post,
     cs = pre ++ item :: post ->
     (forall x, In x pre ->
        code_in (name x) Planar_allowed_roi_reference_types = false) ->
     code_in (name item) Planar_allowed_roi_reference_types = true ->
     exists c,
       PlanarROIMeasurementsAndQualitativeEvaluations.reference_type [g] =
       inr c /\
       In c Planar_allowed_roi_reference_types /\
       code_eqb (name item) c = true) /\
  (forall pre item post,
     cs = pre ++ item :: post ->
     (forall x, In x pre ->
        code_in (name x) Volumetric_allowed_roi_reference_types = false) ->
     code_in (name item) Volumetric_allowed_roi_reference_types = true ->
     exists c,
       VolumetricROIMeasurementsAndQualitativeEvaluations.reference_type [g] =
       inr c /\
       In c Volumetric_allowed_roi_reference_types /\
       code_eqb (name item) c = true) /\
  ((forall x, In x cs ->
      code_in (name x) Planar_allowed_roi_reference_types = false) ->
   is_RuntimeError
     (PlanarROIMeasurementsAndQualitativeEvaluations.reference_type [g])) /\
  ((forall x, In x cs ->
      code_in (name x) Volumetric_allowed_roi_reference_types = false) ->
   is_RuntimeError
     (VolumetricROIMeasurementsAndQualitativeEvaluations.reference_type [g])).
Proof.
  intros Hcs.
  unfold PlanarROIMeasurementsAndQualitativeEvaluations.reference_type,
    VolumetricROIMeasurementsAndQualitativeEvaluations.reference_type,
    get_ContentSequence.
  cbn [item0 bind ret]. rewrite Hcs. cbn [bind ret].
  repeat apply conj.
  - intros pre item post -> Hpre Hitem.
    now apply reference_type_loop_first.
  - intros pre item post -> Hpre Hitem.
    now apply reference_type_loop_first.
  - apply reference_type_loop_none.
  - apply reference_type_loop_none.
Qed.

Lemma reference_type_by_name_witness :
  exists c,
    PlanarROIMeasurementsAndQualitativeEvaluations.reference_type
      [vocabulary.misnamed_group] = inr c /\
    In c Planar_allowed_roi_reference_types /\
    code_eqb codes.ReferencedSegmentationFrame c = true.
Proof.
  apply (proj1 (reference_type_by_name vocabulary.misnamed_group _ eq_refl)
           []
           (TextContentItem codes.ReferencedSegmentationFrame "frame 1"
              CONTAINS)
           [examples.region GT_POLYLINE] eq_refl).
  - intros x [].
  - reflexivity.
Defined.

Lemma filter_singleton (p : ContentItem -> bool) (cs : list ContentItem)
    (item : ContentItem) :
  List.filter p cs = [item] ->
  exists pre post,
    cs = pre ++ item :: post /\
    (forall x, In x pre -> p x = false) /\ p item = true.
Proof.
  induction cs as [| x cs IH]; simpl; [discriminate |].
  destruct (p x) eqn:Hx.
  - intros [= -> Hrest]. exists [], cs. repeat split; [intros y [] | exact Hx].
  - intros H. destruct (IH H) as (pre & post & -> & Hpre & Hitem).
    exists (x :: pre), post. repeat split; [| exact Hitem].
    intros y [<- | Hy]; [exact Hx | now apply Hpre].
Qed.

(** X6. When every child of a group that bears a name allowed in a
    planar group is an ROI reference (related by CONTAINS, of a value
    type expected for its name), the [reference_type] property agrees
    with the reference type that [_get_planar_roi_reference_item]
    finds, as the getters use it. *)
Theorem reference_type_agrees (g : ContentItem)
    (found : option CodedConcept) (item : ContentItem) :
  (forall x, In x (children g) ->
     code_in (name x) Planar_allowed_roi_reference_types = true ->
     roi_reference_match Planar_allowed_roi_reference_types x = true) ->
  _get_planar_roi_reference_item g = inr (found, item) ->
  exists c,
    PlanarROIMeasurementsAndQualitativeEvaluations.reference_type [g] =
    inr c /\
    MeasurementReport.found_eq_code found c = true.
Proof.
  intros Hall H.
  destruct (planar_reference_item_match g found item H) as [Hfound Hitem].
  unfold _get_planar_roi_reference_item in H.
  apply bind_inr in H as ([rt items] & Hitems & H).
  assert (Hcs : exists cs, ContentSequence g = Some cs).
  { unfold _get_roi_reference_items, get_ContentSequence in Hitems.
    destruct (ContentSequence g); [eauto | discriminate]. }
  destruct Hcs as [cs Hcs].
  pose proof (_get_roi_reference_items_cases _
                Planar_allowed_are_reference_types g cs Hcs) as Hcases.
  destruct (List.filter _ cs) as [| a M] eqn:HM; [congruence |].
  destruct Hcases as [Hok Hbad].
  destruct (rest_ok (name a) M) eqn:Hrest;
    [| destruct (Hbad eq_refl) as [msg Hmsg]; congruence].
  rewrite (Hok eq_refl) in Hitems. injection Hitems as <- <-.
  destruct M as [| b M]; [| discriminate].
  cbn in H. injection H as _ ->. subst found.
  destruct (filter_singleton _ _ _ HM) as (pre & post & -> & Hpre & _).
  unfold children in Hall. rewrite Hcs in Hall.
  destruct (reference_type_loop_first Planar_allowed_roi_reference_types
              pre post item) as (c & Hc & _ & Heq).
  - intros x Hx.
    destruct (code_in (name x) Planar_allowed_roi_reference_types) eqn:Hn;
      [| reflexivity].
    rewrite <- (Hpre x Hx). symmetry. apply Hall; [| exact Hn].
    apply in_or_app. now left.
  - unfold roi_reference_match in Hitem.
    apply andb_true_iff in Hitem as [Hitem _].
    now apply andb_true_iff in Hitem as [_ Hitem].
  - exists c. split; [| exact Heq].
    unfold PlanarROIMeasurementsAndQualitativeEvaluations.reference_type,
      get_ContentSequence.
    cbn [item0 bind ret]. rewrite Hcs. exact Hc.
Qed.

Lemma reference_type_agrees_witness :
  exists c,
    PlanarROIMeasurementsAndQualitativeEvaluations.reference_type
      [examples.planar_1] = inr c /\
    MeasurementReport.found_eq_code (Some codes.ImageRegion) c = true.
Proof.
  apply (reference_type_agrees examples.planar_1 (Some codes.ImageRegion)
           (examples.region GT_POLYLINE)); [| reflexivity].
  intros x [<- | [<- | [<- | []]]]; vm_compute; congruence.
Defined.

End RoiReferenceOfGroups.

(** ** Tests on the children of an item *)

Section ChildrenTests.
Import sr templates spec vocabulary.

Lemma any_item_exists (test : ContentItem -> bool) (l : list ContentItem) :
  any_item test l = true <-> exists c, In c l /\ test c = true.
Proof.
  induction l as [| x l IH]; simpl.
  - split; [discriminate | intros (c & [] & _)].
  - destruct (test x) eqn:Hx.
    + split; [intros _; eauto | reflexivity].
    + rewrite IH. split.
      * intros (c & Hc & Ht). eauto.
      * intros (c & [<- | Hc] & Ht); [congruence | eauto].
Qed.

Lemma item_matches_iff (n : option CodedConcept)
    (v : option ValueTypeValues) (r : option RelationshipTypeValues)
    (c : ContentItem) :
  item_matches n v r c = true <->
  agrees code_eqb n (name c) /\
  (forall x, v = Some x -> value_type c = x) /\ related r c.
Proof.
  unfold item_matches, agrees, related, vt_eqb, rel_eqb.
  rewrite !andb_true_iff.
  destruct n as [n |], v as [v |], r as [r |];
    rewrite ?bool_decide_eq_true; split;
    try (intros [[H1 H2] H3]; repeat split; intros x Hx;
         try injection Hx as <-; congruence);
    try (intros (H1 & H2 & H3); repeat split; auto).
Qed.

Lemma found_child (parent : ContentItem) (n : option CodedConcept)
    (v : option ValueTypeValues) (r : option RelationshipTypeValues)
    (test : ContentItem -> bool) :
  (do matched_items <- find_content_items parent n v r false;
   ret (any_item test matched_items)) = inr true <->
  exists c, In c (children parent) /\
            agrees code_eqb n (name c) /\
            (forall x, v = Some x -> value_type c = x) /\ related r c /\
            test c = true.
Proof.
  rewrite find_content_items_flat.
  destruct (has_ContentSequence parent) eqn:Hhas; cbn [bind ret].
  - split.
    + intros [= H]. apply any_item_exists in H as (c & Hc & Ht).
      apply filter_In in Hc as [Hin Hm].
      apply item_matches_iff in Hm as (H1 & H2 & H3). eauto 10.
    + intros (c & Hin & H1 & H2 & H3 & Ht). f_equal.
      apply any_item_exists. exists c. split; [| exact Ht].
      apply filter_In. split; [exact Hin |]. now apply item_matches_iff.
  - rewrite (has_no_ContentSequence_children parent Hhas).
    split; [discriminate | intros (c & [] & _)].
Qed.

(** The outcome of a test on the children found by a search of the
    direct children. *)
Lemma search_outcome (parent : ContentItem) (n : option CodedConcept)
    (v : option ValueTypeValues) (r : option RelationshipTypeValues)
    (test : ContentItem -> bool) :
  (do matched_items <- find_content_items parent n v r false;
   ret (any_item test matched_items)) =
  if has_ContentSequence parent
  then inr (any_item test
              (List.filter (item_matches n v r) (children parent)))
  else inl (AttributeError "ContentSequence").
Proof.
  rewrite find_content_items_flat.
  now destruct (has_ContentSequence parent).
Qed.

(** X7. [_contains_code_items], [_contains_text_items] and
    [_contains_uidref_items] return [True] exactly when some direct
    child of the parent has the given concept name, the value type of
    the helper, the relationship type if one is supplied, and the
    value if one is supplied: a coded value compared by code value and
    scheme, a text or a UID compared as a string.  Descendants further
    down are not looked at.  On a parent that has a [ContentSequence]
    they return, [True] or [False]; on a parent without one they raise
    [AttributeError]. *)
Theorem _contains_value_items_iff (parent : ContentItem)
    (n : CodedConcept) (r : option RelationshipTypeValues) :
  (forall value,
     _contains_code_items parent n value r = inr true <->
     exists c v, In c (children parent) /\ code_eqb (name c) n = true /\
                 payload c = PCode v /\ related r c /\
                 agrees code_eqb value v) /\
  (forall value,
     _contains_text_items parent n value r = inr true <->
     exists c v, In c (children parent) /\ code_eqb (name c) n = true /\
                 payload c = PText v /\ related r c /\
                 agrees String.eqb value v) /\
  (forall value,
     _contains_uidref_items parent n value r = inr true <->
     exists c v, In c (children parent) /\ code_eqb (name c) n = true /\
                 payload c = PUidRef v /\ related r c /\
                 agrees String.eqb value v) /\
  (has_ContentSequence parent = true ->
   (forall value, returns (_contains_code_items parent n value r)) /\
   (forall value, returns (_contains_text_items parent n value r)) /\
   (forall value, returns (_contains_uidref_items parent n value r))) /\
  (has_ContentSequence parent = false ->
   (forall value,
      _contains_code_items parent n value r =
      inl (AttributeError "ContentSequence")) /\
   (forall value,
      _contains_text_items parent n value r =
      inl (AttributeError "ContentSequence")) /\
   (forall value,
      _contains_uidref_items parent n value r =
      inl (AttributeError "ContentSequence"))).
Proof.
  unfold _contains_code_items, _contains_text_items, _contains_uidref_items.
  split; [| split; [| split; [| split]]].
  1-3: intros value; rewrite found_child; split.
  - intros (c & Hin & Hn & Hv & Hr & Ht).
    destruct (code_item c (Hv _ eq_refl)) as [v Hp]. exists c, v.
    repeat split; auto. intros x ->. now rewrite Hp in Ht.
  - intros (c & v & Hin & Hn & Hp & Hr & Hval). exists c.
    repeat split; auto.
    + now intros x [= <-].
    + intros x [= <-]. unfold value_type. now rewrite Hp.
    + rewrite Hp. destruct value; [now apply Hval | reflexivity].
  - intros (c & Hin & Hn & Hv & Hr & Ht).
    destruct (text_item c (Hv _ eq_refl)) as [v Hp]. exists c, v.
    repeat split; auto. intros x ->. now rewrite Hp in Ht.
  - intros (c & v & Hin & Hn & Hp & Hr & Hval). exists c.
    repeat split; auto.
    + now intros x [= <-].
    + intros x [= <-]. unfold value_type. now rewrite Hp.
    + rewrite Hp. destruct value; [now apply Hval | reflexivity].
  - intros (c & Hin & Hn & Hv & Hr & Ht).
    destruct (uidref_item c (Hv _ eq_refl)) as [v Hp]. exists c, v.
    repeat split; auto. intros x ->. now rewrite Hp in Ht.
  - intros (c & v & Hin & Hn & Hp & Hr & Hval). exists c.
    repeat split; auto.
    + now intros x [= <-].
    + intros x [= <-]. unfold value_type. now rewrite Hp.
    + rewrite Hp. destruct value; [now apply Hval | reflexivity].
  - intros Hhas. split; [| split]; intros value;
      rewrite search_outcome, Hhas; eexists; reflexivity.
  - intros Hhas. split; [| split]; intros value;
      now rewrite search_outcome, Hhas.
Qed.

(** X8. [_contains_image_items] returns [True] exactly when some
    direct child of the parent is an IMAGE item that has the concept
    name and the relationship type, where supplied, and whose
    reference carries the SOP class UID and the SOP instance UID,
    where supplied: the two UIDs are matched on one and the same item.
    On a parent that has a [ContentSequence] it returns, [True] or
    [False]; on a parent without one it raises [AttributeError]. *)
Theorem _contains_image_items_iff (parent : ContentItem)
    (n : option CodedConcept)
    (referenced_sop_class_uid referenced_sop_instance_uid : option string)
    (r : option RelationshipTypeValues) :
  (_contains_image_items parent n referenced_sop_class_uid
     referenced_sop_instance_uid r = inr true <->
   exists c class_uid instance_uid frames segments,
     In c (children parent) /\
     payload c = PImage class_uid instance_uid frames segments /\
     agrees code_eqb n (name c) /\ related r c /\
     agrees String.eqb referenced_sop_class_uid class_uid /\
     agrees String.eqb referenced_sop_instance_uid instance_uid) /\
  (has_ContentSequence parent = true ->
   returns (_contains_image_items parent n referenced_sop_class_uid
              referenced_sop_instance_uid r)) /\
  (has_ContentSequence parent = false ->
   _contains_image_items parent n referenced_sop_class_uid
     referenced_sop_instance_uid r =
   inl (AttributeError "ContentSequence")).
Proof.
  unfold _contains_image_items.
  split; [| split;
            [intros Hhas; rewrite search_outcome, Hhas; eexists; reflexivity
            | intros Hhas; now rewrite search_outcome, Hhas]].
  rewrite found_child. split.
  - intros (c & Hin & Hn & Hv & Hr & Ht). unfold image_item_passes in Ht.
    destruct (payload c) as [| | | | | cu iu fr sg | | | | |] eqn:Hp;
      try discriminate.
    apply andb_true_iff in Ht as [Hc Hi].
    exists c, cu, iu, fr, sg. repeat split; auto.
    + intros x ->. exact Hc.
    + intros x ->. exact Hi.
  - intros (c & cu & iu & fr & sg & Hin & Hp & Hn & Hr & Hc & Hi).
    exists c. repeat split; auto.
    + intros x [= <-]. unfold value_type. now rewrite Hp.
    + unfold image_item_passes. rewrite Hp. apply andb_true_iff. split.
      * destruct referenced_sop_class_uid; [now apply Hc | reflexivity].
      * destruct referenced_sop_instance_uid; [now apply Hi | reflexivity].
Qed.

End ChildrenTests.

(** ** Identifying attributes of observers and subjects *)

Section IdentifyingAttributes.
Import sr templates spec vocabulary.

(** X9. A person observer built by the constructor reads back, through
    [from_sequence] and through the accessors: [from_sequence] applied
    to its items is the call of the constructor with the same
    arguments (the name and every supplied optional attribute, and
    nothing else), and the accessors return the name and each optional
    attribute, or [None] where none was given, without a warning. *)
Theorem person_observer_round_trip (name : string)
    (login_name organization_name : option string)
    (role_in_organization role_in_procedure : option CodedConcept) :
  let self :=
    PersonObserverIdentifyingAttributes.init name login_name
      organization_name role_in_organization role_in_procedure in
  PersonObserverIdentifyingAttributes.from_sequence self =
  inr (person_kwargs name login_name organization_name
         role_in_organization role_in_procedure) /\
  PersonObserverIdentifyingAttributes.name self = inr (IVStr name) /\
  PersonObserverIdentifyingAttributes.login_name self =
  inr (str_arg login_name, []) /\
  PersonObserverIdentifyingAttributes.organization_name self =
  inr (str_arg organization_name, []) /\
  PersonObserverIdentifyingAttributes.role_in_organization self =
  inr (code_arg role_in_organization, []) /\
  PersonObserverIdentifyingAttributes.role_in_procedure self =
  inr (code_arg role_in_procedure, []).
Proof.
  destruct login_name, organization_name, role_in_organization,
    role_in_procedure; repeat split.
Qed.

(** X10. A device observer read back from the items that the
    constructor built keeps the UID and every supplied optional
    attribute but the role in the procedure: [from_sequence] has no
    keyword for the "Device Role in Procedure" item, so that the role
    given to the constructor is absent from the observer read back. *)
Theorem device_observer_round_trip (uid : string)
    (name manufacturer_name model_name serial_number physical_location
       : option string)
    (role_in_procedure : option CodedConcept) :
  DeviceObserverIdentifyingAttributes.from_sequence
    (DeviceObserverIdentifyingAttributes.init uid name manufacturer_name
       model_name serial_number physical_location role_in_procedure) =
  inr (device_observer_kwargs uid name manufacturer_name model_name
         serial_number physical_location) /\
  device_observer_kwargs uid name manufacturer_name model_name
    serial_number physical_location !! "role_in_procedure" = None.
Proof.
  destruct name, manufacturer_name, model_name, serial_number,
    physical_location, role_in_procedure; split; reflexivity.
Qed.

(** X11. The subject contexts of a fetus, of a specimen and of a device
    read back from the items that their constructors built are the
    calls of the constructors with the same arguments. *)
Theorem subject_context_round_trip :
  (forall subject_id,
     SubjectContextFetus.from_sequence (SubjectContextFetus.init subject_id) =
     inr (fetus_kwargs subject_id)) /\
  (forall uid identifier container_identifier specimen_type,
     SubjectContextSpecimen.from_sequence
       (SubjectContextSpecimen.init uid identifier container_identifier
          specimen_type) =
     inr (specimen_kwargs uid identifier container_identifier
            specimen_type)) /\
  (forall name uid manufacturer_name model_name serial_number
          physical_location,
     SubjectContextDevice.from_sequence
       (SubjectContextDevice.init name uid manufacturer_name model_name
          serial_number physical_location) =
     inr (device_subject_kwargs name uid manufacturer_name model_name
            serial_number physical_location)).
Proof.
  repeat apply conj.
  - reflexivity.
  - intros uid [] [] []; reflexivity.
  - intros name [] [] [] [] []; reflexivity.
Qed.

(** *** The loops of [from_sequence] *)

Lemma collect_item_lookup (attr_codes : list (string * CodedConcept))
    (item : ContentItem) :
  forall kw kw',
    collect_item attr_codes item kw = inr kw' ->
    forall param,
      kw' !! param =
      if binds attr_codes param item then
        match item_value item with inr v => Some v | inl _ => None end
      else kw !! param.
Proof.
  induction attr_codes as [| [p n] attr IH]; intros kw kw' H param.
  - injection H as <-. reflexivity.
  - cbn [collect_item] in H. cbn [binds existsb fst snd].
    destruct (code_eqb (name item) n) eqn:Hn.
    + destruct (item_value item) as [e | v] eqn:Hv; [discriminate |].
      cbn [bind] in H. rewrite (IH _ _ H param). fold (binds attr param item).
      destruct (binds attr param item);
        [now rewrite orb_true_r |].
      rewrite orb_false_r, andb_true_r.
      destruct (String.eqb p param) eqn:Hp.
      * apply String.eqb_eq in Hp as ->. apply lookup_insert_eq.
      * apply String.eqb_neq in Hp. now apply lookup_insert_ne.
    + rewrite andb_false_r. cbn [orb]. now apply IH.
Qed.

Lemma collect_item_returns (attr_codes : list (string * CodedConcept))
    (item : ContentItem) :
  (code_in (name item) (map snd attr_codes) = true ->
   returns (item_value item)) ->
  forall kw, returns (collect_item attr_codes item kw).
Proof.
  induction attr_codes as [| [p n] attr IH]; intros Hv kw.
  - eexists; reflexivity.
  - cbn [collect_item]. cbn [map snd code_in existsb] in Hv.
    unfold code_in in Hv, IH. cbn [existsb] in Hv.
    destruct (code_eqb (name item) n) eqn:Hn.
    + destruct (Hv eq_refl) as [v Hval]. rewrite Hval. cbn [bind].
      apply IH. intros _. now exists v.
    + apply IH. exact Hv.
Qed.

Lemma collect_kwargs_app (attr_codes : list (string * CodedConcept))
    (l1 l2 : list ContentItem) :
  forall kw,
    collect_kwargs attr_codes (l1 ++ l2) kw =
    bind (collect_kwargs attr_codes l1 kw) (collect_kwargs attr_codes l2).
Proof.
  induction l1 as [| x l1 IH]; intros kw; [reflexivity |].
  cbn [app collect_kwargs].
  destruct (collect_item attr_codes x kw); [reflexivity | apply IH].
Qed.

Lemma collect_kwargs_unbound (attr_codes : list (string * CodedConcept))
    (param : string) (seq : list ContentItem) :
  (forall x, In x seq -> binds attr_codes param x = false) ->
  forall kw kw',
    collect_kwargs attr_codes seq kw = inr kw' ->
    kw' !! param = kw !! param.
Proof.
  induction seq as [| x seq IH]; intros Hseq kw kw' H.
  - now injection H as <-.
  - cbn [collect_kwargs] in H.
    apply bind_inr in H as (kw1 & H1 & H).
    rewrite (IH (fun y Hy => Hseq y (or_intror Hy)) _ _ H).
    rewrite (collect_item_lookup _ _ _ _ H1 param).
    now rewrite (Hseq x (or_introl eq_refl)).
Qed.

Lemma collect_kwargs_last (attr_codes : list (string * CodedConcept))
    (param : string) (pre post : list ContentItem) (item : ContentItem) :
  binds attr_codes param item = true ->
  (forall x, In x post -> binds attr_codes param x = false) ->
  forall kw kw',
    collect_kwargs attr_codes (pre ++ item :: post) kw = inr kw' ->
    exists v, item_value item = inr v /\ kw' !! param = Some v.
Proof.
  intros Hitem Hpost kw kw' H. rewrite collect_kwargs_app in H.
  apply bind_inr in H as (kw1 & _ & H). cbn [collect_kwargs] in H.
  apply bind_inr in H as (kw2 & H2 & H).
  rewrite (collect_kwargs_unbound _ _ _ Hpost _ _ H).
  rewrite (collect_item_lookup _ _ _ _ H2 param), Hitem.
  assert (Hv : returns (item_value item)).
  { clear - Hitem H2. revert kw1 H2.
    induction attr_codes as [| [p n] attr IH]; [discriminate |].
    intros kw1 H2. cbn [collect_item] in H2.
    cbn [binds existsb fst snd] in Hitem.
    destruct (code_eqb (name item) n).
    - destruct (item_value item); [discriminate | eexists; reflexivity].
    - rewrite andb_false_r in Hitem. now apply (IH Hitem kw1). }
  destruct Hv as [v Hv]. rewrite Hv. eauto.
Qed.

Lemma collect_kwargs_returns (attr_codes : list (string * CodedConcept))
    (seq : list ContentItem) :
  (forall x, In x seq -> code_in (name x) (map snd attr_codes) = true ->
     returns (item_value x)) ->
  forall kw, returns (collect_kwargs attr_codes seq kw).
Proof.
  induction seq as [| x seq IH]; intros Hseq kw.
  - eexists; reflexivity.
  - cbn [collect_kwargs].
    destruct (collect_item_returns attr_codes x
                (Hseq x (or_introl eq_refl)) kw) as [kw1 ->].
    cbn [bind]. apply IH. intros y Hy. apply Hseq. now right.
Qed.

(** With parameter names that differ from one another, a parameter is
    bound at the items that bear its concept name. *)
Lemma binds_name (attr_codes : list (string * CodedConcept))
    (param : string) (n : CodedConcept) (item : ContentItem) :
  NoDup (map fst attr_codes) ->
  In (param, n) attr_codes ->
  binds attr_codes param item = code_eqb (name item) n.
Proof.
  induction attr_codes as [| [p m] attr IH]; intros Hnd Hin; [easy |].
  cbn [binds existsb fst snd]. cbn [map fst] in Hnd.
  apply NoDup_cons in Hnd as [Hp Hnd].
  destruct Hin as [[= -> ->] | Hin].
  - rewrite String.eqb_refl. cbn [andb].
    destruct (code_eqb (name item) n); [reflexivity |]. cbn [orb].
    apply not_true_is_false. intros H. apply existsb_exists in H
      as ([q k] & Hq & Hqk). cbn [fst snd] in Hqk.
    apply andb_true_iff in Hqk as [Hqk _]. apply String.eqb_eq in Hqk.
    subst q. apply Hp. apply list_elem_of_In.
    now apply (in_map fst) in Hq.
  - assert (String.eqb p param = false) as ->.
    { apply String.eqb_neq. intros ->. apply Hp. apply list_elem_of_In.
      now apply (in_map fst) in Hin. }
    cbn [andb orb]. now apply IH.
Qed.

Lemma call_with_kwargs_inr (class_name : string) (required : list string)
    (kw kw' : kwargs) :
  call_with_kwargs class_name required kw = inr kw' -> kw' = kw.
Proof.
  induction required as [| p required IH]; cbn [call_with_kwargs].
  - now intros [= <-].
  - destruct (kw !! p); [exact IH | discriminate].
Qed.

Lemma keeps_last_gen (attr_codes : list (string * CodedConcept))
    (class_name : string) (required : list string) :
  NoDup (map fst attr_codes) ->
  keeps_last
    (fun sequence =>
       do kw <- collect_kwargs attr_codes sequence ∅;
       call_with_kwargs class_name required kw)
    attr_codes.
Proof.
  intros Hnd seq kw H param n Hin.
  apply bind_inr in H as (kw1 & H1 & H).
  apply call_with_kwargs_inr in H as ->. split.
  - intros Hnone.
    rewrite (collect_kwargs_unbound attr_codes param seq) with (kw := ∅)
      by (try exact H1; intros x Hx;
          rewrite (binds_name _ _ _ _ Hnd Hin); now apply Hnone).
    apply lookup_empty.
  - intros pre item post -> Hitem Hpost.
    apply (collect_kwargs_last attr_codes param pre post item) with (kw := ∅).
    + now rewrite (binds_name _ _ _ _ Hnd Hin).
    + intros x Hx. rewrite (binds_name _ _ _ _ Hnd Hin). now apply Hpost.
    + exact H1.
Qed.

(** X12. Where several items of the sequence bear the concept name of
    one keyword argument, [from_sequence] keeps the value of the last
    of them, for the person and device observers and for the three
    subject contexts; an argument that no item bears is left out. *)
Theorem from_sequence_keeps_last :
  keeps_last PersonObserverIdentifyingAttributes.from_sequence
    PersonObserverIdentifyingAttributes.attr_codes /\
  keeps_last DeviceObserverIdentifyingAttributes.from_sequence
    DeviceObserverIdentifyingAttributes.attr_codes /\
  keeps_last SubjectContextFetus.from_sequence
    SubjectContextFetus.attr_codes /\
  keeps_last SubjectContextSpecimen.from_sequence
    SubjectContextSpecimen.attr_codes /\
  keeps_last SubjectContextDevice.from_sequence
    SubjectContextDevice.attr_codes.
Proof.
  repeat apply conj; apply keeps_last_gen;
    apply (bool_decide_unpack _); vm_compute; exact I.
Qed.

Lemma from_sequence_keeps_last_witness :
  exists v,
    item_value (login_item "john") = inr v /\
    person_kwargs "Doe^John" (Some "john") None None None !! "login_name" =
    Some v.
Proof.
  apply (proj2 (proj1 from_sequence_keeps_last two_logins
                  (person_kwargs "Doe^John" (Some "john") None None None)
                  eq_refl "login_name" codes.PersonObserverLoginName
                  (or_intror (or_introl eq_refl)))
           [examples.person_observer_name; login_item "jdoe"]
           (login_item "john") [] eq_refl eq_refl).
  intros x [].
Defined.

Lemma last_occurrence (p : ContentItem -> bool) (seq : list ContentItem) :
  (exists x, In x seq /\ p x = true) ->
  exists pre item post,
    seq = pre ++ item :: post /\ p item = true /\
    (forall y, In y post -> p y = false).
Proof.
  induction seq as [| x seq IH]; intros (y & Hy & Hp); [destruct Hy |].
  destruct (existsb p seq) eqn:Hrest.
  - apply existsb_exists in Hrest.
    destruct (IH Hrest) as (pre & item & post & -> & Hitem & Hpost).
    now exists (x :: pre), item, post.
  - assert (Hnone : forall z, In z seq -> p z = false).
    { intros z Hz. apply not_true_is_false. intros Hpz.
      assert (existsb p seq = true) by (apply existsb_exists; eauto).
      congruence. }
    destruct Hy as [<- | Hy]; [| rewrite (Hnone y Hy) in Hp; discriminate].
    now exists [], x, seq.
Qed.

Lemma requires_gen (attr_codes : list (string * CodedConcept))
    (class_name param : string) (required : CodedConcept) :
  NoDup (map fst attr_codes) ->
  In (param, required) attr_codes ->
  requires
    (fun sequence =>
       do kw <- collect_kwargs attr_codes sequence ∅;
       call_with_kwargs class_name [param] kw)
    attr_codes required.
Proof.
  intros Hnd Hin seq.
  assert (Hnone : forall kw,
            collect_kwargs attr_codes seq ∅ = inr kw ->
            (forall x, In x seq -> code_eqb (name x) required = false) ->
            kw !! param = None).
  { intros kw Hkw H.
    rewrite (collect_kwargs_unbound attr_codes param seq) with (kw := ∅)
      by (try exact Hkw; intros x Hx;
          rewrite (binds_name _ _ _ _ Hnd Hin); now apply H).
    apply lookup_empty. }
  split.
  - intros [kw' H]. apply bind_inr in H as (kw & Hkw & H).
    destruct (existsb (fun x => code_eqb (name x) required) seq) eqn:Hex.
    + apply existsb_exists in Hex. exact Hex.
    + cbn [call_with_kwargs] in H. rewrite (Hnone kw Hkw) in H;
        [discriminate |].
      intros x Hx. apply not_true_is_false. intros Hn.
      assert (existsb (fun x => code_eqb (name x) required) seq = true)
        by (apply existsb_exists; eauto).
      congruence.
  - intros Hvalues H.
    destruct (collect_kwargs_returns attr_codes seq Hvalues ∅) as [kw Hkw].
    rewrite Hkw. cbn [bind call_with_kwargs].
    rewrite (Hnone kw Hkw H). eexists; reflexivity.
Qed.

(** X13. The [from_sequence] of a person observer returns only on a
    sequence that holds an item named "Person Observer Name", that of
    a device observer only with a "Device Observer UID", that of a
    fetus only with a "Subject ID", that of a specimen only with a
    "Specimen UID", and that of a device subject only with a "Device
    Subject Name".  On a sequence without the item, whose items with
    the name of a keyword argument have a value, the call of the
    constructor fails with [TypeError] for want of its required
    argument. *)
Theorem from_sequence_requires :
  requires PersonObserverIdentifyingAttributes.from_sequence
    PersonObserverIdentifyingAttributes.attr_codes
    codes.PersonObserverName /\
  requires DeviceObserverIdentifyingAttributes.from_sequence
    DeviceObserverIdentifyingAttributes.attr_codes
    codes.DeviceObserverUID /\
  requires SubjectContextFetus.from_sequence
    SubjectContextFetus.attr_codes codes.SubjectID /\
  requires SubjectContextSpecimen.from_sequence
    SubjectContextSpecimen.attr_codes codes.SpecimenUID /\
  requires SubjectContextDevice.from_sequence
    SubjectContextDevice.attr_codes codes.DeviceSubjectName.
Proof.
  repeat apply conj;
    (eapply requires_gen;
     [apply (bool_decide_unpack _); vm_compute; exact I
     | cbn; eauto 10]).
Qed.

Lemma from_sequence_requires_witness :
  is_TypeError
    (PersonObserverIdentifyingAttributes.from_sequence [login_item "jdoe"])
  /\
  exists x, In x two_logins /\
            code_eqb (name x) codes.PersonObserverName = true.
Proof.
  split.
  - apply (proj2 (proj1 from_sequence_requires [login_item "jdoe"])).
    + intros x [<- | []] _. now exists (IVStr "jdoe").
    + intros x [<- | []]. reflexivity.
  - apply (proj1 (proj1 from_sequence_requires two_logins)).
    eexists. reflexivity.
Defined.

(** *** Accessors of the optional attributes *)

Lemma read_attribute_first (n : CodedConcept) (warning : string) :
  reads_first_named (fun self => read_attribute self n warning) n.
Proof.
  intros self. unfold read_attribute. split.
  - intros Hnone. now rewrite (filter_none _ _ Hnone).
  - intros pre item post v -> Hpre Hitem Hv.
    rewrite (filter_first _ _ _ _ Hpre Hitem).
    cbn [length Nat.ltb Nat.leb item0 bind ret]. rewrite Hv. cbn [bind ret].
    eexists. split; [reflexivity |].
    destruct (List.filter (fun x => code_eqb (name x) n) post)
      as [| y ys] eqn:Hpost; cbn [length Nat.leb].
    + split; [| reflexivity]. intros _ x Hx.
      apply not_true_is_false. intros Hn.
      assert (In x (List.filter (fun x => code_eqb (name x) n) post))
        by (apply filter_In; now split).
      rewrite Hpost in H. destruct H.
    + split; [discriminate |]. intros Hnone.
      rewrite (filter_none _ _ Hnone) in Hpost. discriminate.
Qed.

(** X14. The accessors of the optional attributes of the observer and
    subject templates read the first item of the template that bears
    the concept name of the attribute, where [from_sequence] keeps the
    last: they return [None] without such an item and the value of the
    first one otherwise, and log their warning exactly when a further
    item bears the name. *)
Theorem attribute_accessors_read_first :
  reads_first_named PersonObserverIdentifyingAttributes.login_name
    codes.PersonObserverLoginName /\
  reads_first_named PersonObserverIdentifyingAttributes.organization_name
    codes.PersonObserverOrganizationName /\
  reads_first_named PersonObserverIdentifyingAttributes.role_in_organization
    codes.PersonObserverRoleInTheOrganization /\
  reads_first_named PersonObserverIdentifyingAttributes.role_in_procedure
    codes.PersonObserverRoleInThisProcedure /\
  reads_first_named DeviceObserverIdentifyingAttributes.name
    codes.DeviceObserverName /\
  reads_first_named DeviceObserverIdentifyingAttributes.manufacturer_name
    codes.DeviceObserverManufacturer /\
  reads_first_named DeviceObserverIdentifyingAttributes.model_name
    codes.DeviceObserverModelName /\
  reads_first_named DeviceObserverIdentifyingAttributes.serial_number
    codes.DeviceObserverSerialNumber /\
  reads_first_named DeviceObserverIdentifyingAttributes.physical_location
    codes.DeviceObserverPhysicalLocationDuringObservation /\
  reads_first_named SubjectContextSpecimen.specimen_identifier
    codes.SpecimenIdentifier /\
  reads_first_named SubjectContextSpecimen.container_identifier
    codes.SpecimenContainerIdentifier /\
  reads_first_named SubjectContextSpecimen.specimen_type
    codes.SpecimenType /\
  reads_first_named SubjectContextDevice.device_uid
    codes.DeviceSubjectUID /\
  reads_first_named SubjectContextDevice.device_manufacturer_name
    codes.DeviceSubjectManufacturer /\
  reads_first_named SubjectContextDevice.device_model_name
    codes.DeviceSubjectModelName /\
  reads_first_named SubjectContextDevice.device_serial_number
    codes.DeviceSubjectSerialNumber /\
  reads_first_named SubjectContextDevice.device_physical_location
    codes.DeviceSubjectPhysicalLocationDuringObservation.
Proof. repeat apply conj; apply read_attribute_first. Qed.

Lemma attribute_accessors_read_first_witness :
  exists log,
    PersonObserverIdentifyingAttributes.login_name two_logins =
    inr (Some (IVStr "jdoe"), log) /\
    (log = [] <->
     forall x, In x [login_item "john"] ->
       code_eqb (sr.name x) codes.PersonObserverLoginName = false).
Proof.
  apply (proj2 (proj1 attribute_accessors_read_first two_logins)
           [examples.person_observer_name] (login_item "jdoe")
           [login_item "john"] (IVStr "jdoe") eq_refl).
  - intros x [<- | []]. reflexivity.
  - reflexivity.
  - reflexivity.
Defined.

End IdentifyingAttributes.

(** ** Observer and subject contexts *)

Section ContextTemplates.
Import sr templates spec vocabulary.

Lemma code_eqb_distinct (a b c : CodedConcept) :
  code_eqb a b = true -> code_eqb b c = false -> code_eqb a c = false.
Proof. intros Hab Hbc. now rewrite (code_eqb_compat a b c Hab). Qed.

Lemma ObserverContext_init_cases (observer_type : CodedConcept)
    (a : ObserverAttributes) :
  (observer_kind_matches observer_type a <->
   ObserverContext.init observer_type a =
   inr (CodeContentItem (mkCode "121005" "DCM" "Observer Type")
          observer_type HAS_OBS_CONTEXT :: observer_attributes_items a)) /\
  (returns (ObserverContext.init observer_type a) <->
   observer_kind_matches observer_type a) /\
  (is_ValueError (ObserverContext.init observer_type a) <->
   code_eqb observer_type codes.Person = false /\
   code_eqb observer_type codes.Device = false) /\
  (is_TypeError (ObserverContext.init observer_type a) <->
   (code_eqb observer_type codes.Person = true \/
    code_eqb observer_type codes.Device = true) /\
   ~ observer_kind_matches observer_type a).
Proof.
  unfold ObserverContext.init, observer_kind_matches, returns,
    is_ValueError, is_TypeError.
  destruct (code_eqb observer_type codes.Person) eqn:Hp.
  - assert (Hd : code_eqb observer_type codes.Device = false)
      by (now apply (code_eqb_distinct _ _ _ Hp)).
    rewrite Hd. destruct a; cbn [bind ret raise app
      observer_attributes_items];
      repeat apply conj; intros; eauto;
      try discriminate; try tauto;
      try (match goal with H : exists _, _ |- _ => destruct H end;
           discriminate);
      try (intuition congruence).
  - destruct (code_eqb observer_type codes.Device) eqn:Hd;
      destruct a; cbn [bind ret raise app observer_attributes_items];
      repeat apply conj; intros; eauto;
      try discriminate; try tauto;
      try (match goal with H : exists _, _ |- _ => destruct H end;
           discriminate);
      try (intuition congruence).
Qed.

Lemma code_value_of (a b : CodedConcept) :
  code_eqb a b = true ->
  a = mkCode (code_value b) (scheme_designator b) (meaning a).
Proof.
  intros H. apply code_eqb_true in H as [Hv Hs]. destruct a; simpl in *.
  now subst.
Qed.

(** X15. An observer context built by the constructors reads back:
    [observer_type] is the observer type given, and
    [observer_identifying_attributes], which hands the whole context
    to the [from_sequence] of the class named by the type, recovers the
    arguments of the person observer, and those of the device observer
    but for the role in the procedure. *)
Theorem observer_context_round_trip :
  (forall observer_type name login_name organization_name
          role_in_organization role_in_procedure,
     code_eqb observer_type codes.Person = true ->
     exists self,
       ObserverContext.init observer_type
         (PersonAttributes
            (PersonObserverIdentifyingAttributes.init name login_name
               organization_name role_in_organization role_in_procedure)) =
       inr self /\
       ObserverContext.observer_type self = inr (IVCode observer_type) /\
       ObserverContext.observer_identifying_attributes self =
       inr (mkContext (IVCode observer_type) PersonObserver
              (person_kwargs name login_name organization_name
                 role_in_organization role_in_procedure))) /\
  (forall observer_type uid name manufacturer_name model_name serial_number
          physical_location role_in_procedure,
     code_eqb observer_type codes.Device = true ->
     exists self,
       ObserverContext.init observer_type
         (DeviceAttributes
            (DeviceObserverIdentifyingAttributes.init uid name
               manufacturer_name model_name serial_number physical_location
               role_in_procedure)) = inr self /\
       ObserverContext.observer_type self = inr (IVCode observer_type) /\
       ObserverContext.observer_identifying_attributes self =
       inr (mkContext (IVCode observer_type) DeviceObserver
              (device_observer_kwargs uid name manufacturer_name model_name
                 serial_number physical_location))).
Proof.
  split.
  - intros ot name l o ro rp Hot.
    rewrite (code_value_of _ _ Hot). eexists. split; [reflexivity |].
    destruct l, o, ro, rp; split; reflexivity.
  - intros ot uid n m mo sn loc rp Hot.
    rewrite (code_value_of _ _ Hot). eexists. split; [reflexivity |].
    destruct n, m, mo, sn, loc, rp; split; reflexivity.
Qed.

Lemma observer_context_round_trip_witness :
  exists self,
    ObserverContext.init codes.Person
      (PersonAttributes
         (PersonObserverIdentifyingAttributes.init "Doe^John" None None
            None None)) = inr self /\
    ObserverContext.observer_type self = inr (IVCode codes.Person) /\
    ObserverContext.observer_identifying_attributes self =
    inr (mkContext (IVCode codes.Person) PersonObserver
           (person_kwargs "Doe^John" None None None None)).
Proof.
  apply (proj1 observer_context_round_trip codes.Person "Doe^John" None None
           None None).
  reflexivity.
Defined.

Lemma SubjectContext_init_cases (subject_class : CodedConcept)
    (c : SubjectSpecificContext) :
  (subject_kind_matches subject_class c <->
   SubjectContext.init subject_class c =
   inr (CodeContentItem (mkCode "121024" "DCM" "Subject Class")
          subject_class HAS_OBS_CONTEXT ::
        subject_specific_context_items c)) /\
  (returns (SubjectContext.init subject_class c) <->
   subject_kind_matches subject_class c) /\
  (is_TypeError (SubjectContext.init subject_class c) <->
   ~ subject_kind_matches subject_class c).
Proof.
  unfold SubjectContext.init, subject_kind_matches, returns, is_TypeError.
  destruct c;
    match goal with
    | |- context [code_eqb subject_class ?k] =>
        destruct (code_eqb subject_class k)
    end;
    cbn [negb bind ret raise app subject_specific_context_items];
    repeat apply conj; intros; eauto;
    try discriminate; try tauto;
    try (match goal with H : exists _, _ |- _ => destruct H end;
         discriminate);
    try (intuition congruence).
Qed.

(** X16. The constructors of the observer and of the subject context
    accept their arguments exactly when the type given is that of the
    attributes given.  [ObserverContext] returns exactly when the
    observer type is Person and the identifying attributes are those
    of a person, or the type is Device and the attributes those of a
    device; it raises [ValueError] exactly when the type is neither
    Person nor Device, and [TypeError] when the attributes are of the
    other class.  [SubjectContext] returns exactly when the subject
    class is that of the class-specific context (Specimen, Fetus or
    Device) and raises [TypeError] otherwise, and no other exception.
    A context that is returned is the item of the type followed by the
    items of the attributes. *)
Theorem context_constructors_spec :
  (forall observer_type a,
     (observer_kind_matches observer_type a <->
      ObserverContext.init observer_type a =
      inr (CodeContentItem (mkCode "121005" "DCM" "Observer Type")
             observer_type HAS_OBS_CONTEXT ::
           observer_attributes_items a)) /\
     (returns (ObserverContext.init observer_type a) <->
      observer_kind_matches observer_type a) /\
     (is_ValueError (ObserverContext.init observer_type a) <->
      code_eqb observer_type codes.Person = false /\
      code_eqb observer_type codes.Device = false) /\
     (is_TypeError (ObserverContext.init observer_type a) <->
      (code_eqb observer_type codes.Person = true \/
       code_eqb observer_type codes.Device = true) /\
      ~ observer_kind_matches observer_type a)) /\
  (forall subject_class c,
     (subject_kind_matches subject_class c <->
      SubjectContext.init subject_class c =
      inr (CodeContentItem (mkCode "121024" "DCM" "Subject Class")
             subject_class HAS_OBS_CONTEXT ::
           subject_specific_context_items c)) /\
     (returns (SubjectContext.init subject_class c) <->
      subject_kind_matches subject_class c) /\
     (is_TypeError (SubjectContext.init subject_class c) <->
      ~ subject_kind_matches subject_class c)).
Proof.
  split.
  - exact ObserverContext_init_cases.
  - exact SubjectContext_init_cases.
Qed.

(** X17. A subject context built by the constructors reads back:
    [subject_class] is the class given, and
    [subject_class_specific_context] recovers the arguments of the
    specimen, of the fetus and of the device. *)
Theorem subject_context_read_back :
  (forall subject_class uid identifier container_identifier specimen_type,
     code_eqb subject_class codes.Specimen = true ->
     exists self,
       SubjectContext.init subject_class
         (SpecimenContext
            (SubjectContextSpecimen.init uid identifier container_identifier
               specimen_type)) = inr self /\
       SubjectContext.subject_class self = inr (IVCode subject_class) /\
       SubjectContext.subject_class_specific_context self =
       inr (mkContext (IVCode subject_class) SpecimenSubject
              (specimen_kwargs uid identifier container_identifier
                 specimen_type))) /\
  (forall subject_class subject_id,
     code_eqb subject_class codes.Fetus = true ->
     exists self,
       SubjectContext.init subject_class
         (FetusContext (SubjectContextFetus.init subject_id)) = inr self /\
       SubjectContext.subject_class self = inr (IVCode subject_class) /\
       SubjectContext.subject_class_specific_context self =
       inr (mkContext (IVCode subject_class) FetusSubject
              (fetus_kwargs subject_id))) /\
  (forall subject_class name uid manufacturer_name model_name serial_number
          physical_location,
     code_eqb subject_class codes.Device = true ->
     exists self,
       SubjectContext.init subject_class
         (DeviceContext
            (SubjectContextDevice.init name uid manufacturer_name model_name
               serial_number physical_location)) = inr self /\
       SubjectContext.subject_class self = inr (IVCode subject_class) /\
       SubjectContext.subject_class_specific_context self =
       inr (mkContext (IVCode subject_class) DeviceSubject
              (device_subject_kwargs name uid manufacturer_name model_name
                 serial_number physical_location))).
Proof.
  repeat apply conj.
  - intros sc uid i ci st Hsc.
    rewrite (code_value_of _ _ Hsc). eexists. split; [reflexivity |].
    destruct i, ci, st; split; reflexivity.
  - intros sc sid Hsc.
    rewrite (code_value_of _ _ Hsc). eexists. split; [reflexivity |].
    split; reflexivity.
  - intros sc n uid m mo sn loc Hsc.
    rewrite (code_value_of _ _ Hsc). eexists. split; [reflexivity |].
    destruct uid, m, mo, sn, loc; split; reflexivity.
Qed.

Lemma subject_context_read_back_witness :
  exists self,
    SubjectContext.init codes.Fetus
      (FetusContext (SubjectContextFetus.init "fetus-1")) = inr self /\
    SubjectContext.subject_class self = inr (IVCode codes.Fetus) /\
    SubjectContext.subject_class_specific_context self =
    inr (mkContext (IVCode codes.Fetus) FetusSubject
           (fetus_kwargs "fetus-1")).
Proof.
  apply (proj1 (proj2 subject_context_read_back) codes.Fetus "fetus-1").
  reflexivity.
Defined.

End ContextTemplates.

(** ** Observer and subject contexts of a report: the type filter *)

Section ContextFilter.
Import sr templates spec vocabulary.
Import MeasurementReport.

Lemma observer_loop_filter (seq : list ContentItem) (t : CodedConcept)
    (matches : list (Z * ContentItem)) :
  forall all,
    observer_loop seq None matches = inr all ->
    observer_loop seq (Some t) matches = inr (of_type t all).
Proof.
  induction matches as [| [index item] rest IH]; intros all H.
  - injection H as <-. reflexivity.
  - cbn [observer_loop] in H |- *.
    destruct (item_value item) as [e | v]; [discriminate |].
    cbn [bind] in H |- *.
    match type of H with
    | bind ?c _ = _ => destruct c as [e | context] eqn:Hc; [discriminate |]
    end.
    cbn [bind] in H.
    apply bind_inr in H as (contexts & Hrest & [= <-]).
    assert (Htype : context_type context = v).
    { destruct (value_eq_code v codes.Device).
      - apply bind_inr in Hc as (a & _ & [= <-]). reflexivity.
      - destruct (value_eq_code v codes.Person); [| discriminate].
        apply bind_inr in Hc as (a & _ & [= <-]). reflexivity. }
    unfold of_type. cbn [List.filter]. rewrite Htype.
    destruct (value_eq_code v t); cbn [negb].
    + cbn [bind]. rewrite (IH _ Hrest). reflexivity.
    + now apply IH.
Qed.

Lemma subject_loop_filter (seq : list ContentItem) (t : CodedConcept)
    (matches : list (Z * ContentItem)) :
  forall all,
    subject_loop seq None matches = inr all ->
    subject_loop seq (Some t) matches = inr (of_type t all).
Proof.
  induction matches as [| [index item] rest IH]; intros all H.
  - injection H as <-. reflexivity.
  - cbn [subject_loop] in H |- *.
    destruct (item_value item) as [e | v]; [discriminate |].
    cbn [bind] in H |- *.
    match type of H with
    | bind ?c _ = _ => destruct c as [e | context] eqn:Hc; [discriminate |]
    end.
    cbn [bind] in H.
    apply bind_inr in H as (contexts & Hrest & [= <-]).
    assert (Htype : context_type context = v).
    { destruct (value_eq_code v codes.Specimen).
      - apply bind_inr in Hc as (a & _ & [= <-]). reflexivity.
      - destruct (value_eq_code v codes.Fetus).
        + apply bind_inr in Hc as (a & _ & [= <-]). reflexivity.
        + destruct (value_eq_code v codes.Device); [| discriminate].
          apply bind_inr in Hc as (a & _ & [= <-]). reflexivity. }
    unfold of_type. cbn [List.filter]. rewrite Htype.
    destruct (value_eq_code v t); cbn [negb].
    + cbn [bind]. rewrite (IH _ Hrest). reflexivity.
    + now apply IH.
Qed.

(** X18. Whenever [get_observer_contexts] (or [get_subject_contexts])
    returns without a filter, it returns with the filter on the
    observer type (or subject class) as well, and what it returns then
    are the contexts of that type among those returned without the
    filter, in the same order. *)
Theorem contexts_filter_by_type (self : ContentSeq) (t : CodedConcept) :
  (forall all,
     get_observer_contexts self None = inr all ->
     get_observer_contexts self (Some t) = inr (of_type t all)) /\
  (forall all,
     get_subject_contexts self None = inr all ->
     get_subject_contexts self (Some t) = inr (of_type t all)).
Proof.
  unfold get_observer_contexts, get_subject_contexts. split; intros all H.
  - destruct (item0 self) as [e | root]; [discriminate |].
    cbn [bind] in H |- *.
    destruct (get_ContentSequence root) as [e | seq]; [discriminate |].
    cbn [bind] in H |- *. now apply observer_loop_filter.
  - destruct (item0 self) as [e | root]; [discriminate |].
    cbn [bind] in H |- *.
    destruct (get_ContentSequence root) as [e | seq]; [discriminate |].
    cbn [bind] in H |- *. now apply subject_loop_filter.
Qed.

Lemma contexts_filter_by_type_witness :
  get_observer_contexts observed_report (Some codes.Device) = inr [] /\
  get_observer_contexts observed_report (Some codes.Person) =
  inr [mkContext (IVCode codes.Person) PersonObserver
         (person_kwargs "Doe^John" None None None None)].
Proof.
  split.
  - apply (proj1 (contexts_filter_by_type observed_report codes.Device)
             [mkContext (IVCode codes.Person) PersonObserver
                (person_kwargs "Doe^John" None None None None)]).
    reflexivity.
  - apply (proj1 (contexts_filter_by_type observed_report codes.Person)
             [mkContext (IVCode codes.Person) PersonObserver
                (person_kwargs "Doe^John" None None None None)]).
    reflexivity.
Defined.

End ContextFilter.

(** ** TID 300 Measurement: construction and parsing *)

Section Measurements.
Import sr templates spec vocabulary.

(** X19. [Measurement.from_sequence] accepts exactly the sequences of
    one NUM item.  It returns the item with its name, numeric payload
    and children, and with the relationship type CONTAINS whatever the
    relationship type of the item given.  It raises [IndexError] on the
    empty sequence, [ValueError] on a sequence of two items or more
    and [TypeError] on one item that is not a NUM item. *)
Theorem Measurement_from_sequence_spec (sequence : list ContentItem) :
  (forall item,
     sequence = [item] -> value_type item = NUM ->
     Measurement.from_sequence sequence = inr [as_measurement item]) /\
  (sequence = [] -> Measurement.from_sequence sequence = inl IndexError) /\
  (1 < length sequence -> is_ValueError (Measurement.from_sequence sequence))
  /\
  (forall item,
     sequence = [item] -> value_type item <> NUM ->
     is_TypeError (Measurement.from_sequence sequence)).
Proof.
  unfold Measurement.from_sequence. repeat apply conj.
  - intros [n r p ocs] -> Hvt. unfold value_type in Hvt. cbn in Hvt |- *.
    destruct p; try discriminate. destruct ocs; reflexivity.
  - intros ->. reflexivity.
  - intros Hlen. apply Nat.ltb_lt in Hlen. rewrite Hlen.
    eexists; reflexivity.
  - intros [n r p ocs] -> Hvt. unfold value_type in Hvt. cbn in Hvt |- *.
    destruct p; try (eexists; reflexivity). now contradiction Hvt.
Qed.

Lemma Measurement_from_sequence_spec_witness :
  Measurement.from_sequence
    [mkItem (mkCode "410668003" "SCT" "Length") (Some HAS_PROPERTIES)
       (PNum "12.5" (mkCode "mm" "UCUM" "millimeter") None) None] =
  inr [mkItem (mkCode "410668003" "SCT" "Length") (Some CONTAINS)
         (PNum "12.5" (mkCode "mm" "UCUM" "millimeter") None) None].
Proof.
  apply (proj1 (Measurement_from_sequence_spec
                  [mkItem (mkCode "410668003" "SCT" "Length")
                     (Some HAS_PROPERTIES)
                     (PNum "12.5" (mkCode "mm" "UCUM" "millimeter") None)
                     None])
           (mkItem (mkCode "410668003" "SCT" "Length") (Some HAS_PROPERTIES)
              (PNum "12.5" (mkCode "mm" "UCUM" "millimeter") None) None));
    reflexivity.
Defined.

Lemma Measurement_init_item (a : Measurement.kw.args) :
  exists ocs,
    Measurement.init a =
    [mkItem (Measurement.kw.name a) (Some CONTAINS)
       (PNum (Measurement.kw.value a) (Measurement.kw.unit a)
          (Measurement.kw.qualifier a)) ocs].
Proof.
  unfold Measurement.init. cbn [app].
  match goal with
  | |- context [if ?c then _ else _] => destruct c
  end; eexists; reflexivity.
Qed.

(** X20. Parsing a measurement is idempotent, and a measurement built
    by the constructor parses to itself: whatever [from_sequence]
    returns, it returns again when applied to it, and
    [from_sequence] applied to the items of [Measurement(...)] returns
    them unchanged. *)
Theorem Measurement_from_sequence_round_trip :
  (forall sequence measurement,
     Measurement.from_sequence sequence = inr measurement ->
     Measurement.from_sequence measurement = inr measurement) /\
  (forall a : Measurement.kw.args,
     Measurement.from_sequence (Measurement.init a) =
     inr (Measurement.init a)).
Proof.
  split.
  - intros sequence measurement H. unfold Measurement.from_sequence in H.
    destruct sequence as [| [n r p ocs] [| y l]]; try discriminate.
    cbn in H. destruct p; try discriminate.
    destruct ocs; injection H as <-; reflexivity.
  - intros a. destruct (Measurement_init_item a) as [ocs ->].
    destruct ocs; reflexivity.
Qed.

Lemma Measurement_from_sequence_round_trip_witness :
  Measurement.from_sequence (length_measurement None) =
  inr (length_measurement None).
Proof.
  apply (proj1 Measurement_from_sequence_round_trip
           (length_measurement None)).
  reflexivity.
Defined.

Lemma TrackingIdentifier_not_code (s : ContentSeq) (n : CodedConcept) :
  is_tracking_identifier s ->
  forall x, In x s -> named n CODE x = false.
Proof.
  intros (f & u & i & ->) x Hx. unfold TrackingIdentifier in Hx.
  unfold named. destruct i; cbn in Hx;
    repeat (destruct Hx as [<- | Hx]; [now rewrite andb_false_r |]);
    destruct Hx.
Qed.

(** X21. A measurement built by the constructor reads back: [name],
    [value], [unit] and [qualifier] are the arguments given, and
    [method] and [derivation] return the method and the derivation
    that were supplied, the tracking identifier, if any, being one
    built by [TrackingIdentifier]. *)
Theorem Measurement_reads_back (a : Measurement.kw.args) :
  tracked (Measurement.kw.tracking_identifier a) ->
  Measurement.name (Measurement.init a) = inr (Measurement.kw.name a) /\
  Measurement.value (Measurement.init a) = inr (Measurement.kw.value a) /\
  Measurement.unit (Measurement.init a) = inr (Measurement.kw.unit a) /\
  Measurement.qualifier (Measurement.init a) =
  inr (Measurement.kw.qualifier a) /\
  (forall m, Measurement.kw.method a = Some m ->
     Measurement.method (Measurement.init a) = inr (Some m)) /\
  (forall d, Measurement.kw.derivation a = Some d ->
     Measurement.derivation (Measurement.init a) = inr (Some d)).
Proof.
  intros Hti.
  assert (Hhead :
    forall n, forall x,
      In x match Measurement.kw.tracking_identifier a with
           | Some t => t
           | None => []
           end -> named n CODE x = false).
  { intros n x Hx.
    destruct (Measurement.kw.tracking_identifier a) as [t |] eqn:Ht;
      [| destruct Hx].
    now apply (TrackingIdentifier_not_code t n (Hti t eq_refl)). }
  repeat apply conj.
  - destruct (Measurement_init_item a) as [ocs ->]. reflexivity.
  - destruct (Measurement_init_item a) as [ocs ->]. reflexivity.
  - destruct (Measurement_init_item a) as [ocs ->]. reflexivity.
  - destruct (Measurement_init_item a) as [ocs ->]. reflexivity.
  - intros m Hm. unfold Measurement.init, Measurement.method.
    rewrite Hm. cbn [app item0 bind ret].
    set (ti := match Measurement.kw.tracking_identifier a with
               | Some t => t | None => [] end) in *.
    match goal with
    | |- context [if 0 <? length ?c then _ else _] =>
        assert (Hc : exists post,
                  c = ti ++
                      CodeContentItem
                        (mkCode "370129005" "SCT" "Measurement Method") m
                        HAS_CONCEPT_MOD :: post)
    end.
    { subst ti.
      destruct (Measurement.kw.tracking_identifier a);
        repeat match goal with
          | |- context [match ?x with Some _ => _ | None => _ end] =>
              destruct x
          end;
        cbn [app]; rewrite <- ?app_assoc; cbn [app]; eexists; reflexivity. }
    destruct Hc as [post ->].
    assert (Hlen : (0 <? length (ti ++ CodeContentItem
              (mkCode "370129005" "SCT" "Measurement Method") m
              HAS_CONCEPT_MOD :: post)) = true).
    { apply Nat.ltb_lt. rewrite length_app. simpl. lia. }
    rewrite Hlen.
    cbn [app item0 bind ret has_ContentSequence set_ContentSequence
         ContentSequence negb].
    rewrite find_named. unfold children.
    cbn [ContentSequence set_ContentSequence].
    rewrite filter_first; [reflexivity | apply Hhead | reflexivity].
  - intros d Hd. unfold Measurement.init, Measurement.derivation.
    rewrite Hd. cbn [app item0 bind ret].
    set (ti := match Measurement.kw.tracking_identifier a with
               | Some t => t | None => [] end) in *.
    set (mt := match Measurement.kw.method a with
               | Some m =>
                   [CodeContentItem
                      (mkCode "370129005" "SCT" "Measurement Method") m
                      HAS_CONCEPT_MOD]
               | None => [] end).
    match goal with
    | |- context [if 0 <? length ?c then _ else _] =>
        assert (Hc : exists post,
                  c = ti ++ mt ++
                      CodeContentItem
                        (mkCode "121401" "DCM" "Derivation") d
                        HAS_CONCEPT_MOD :: post)
    end.
    { subst ti mt.
      destruct (Measurement.kw.tracking_identifier a);
        repeat match goal with
          | |- context [match ?x with Some _ => _ | None => _ end] =>
              destruct x
          end;
        cbn [app]; rewrite <- ?app_assoc; cbn [app]; eexists; reflexivity. }
    destruct Hc as [post ->]. rewrite app_assoc.
    assert (Hlen : (0 <? length ((ti ++ mt) ++ CodeContentItem
              (mkCode "121401" "DCM" "Derivation") d
              HAS_CONCEPT_MOD :: post)) = true).
    { apply Nat.ltb_lt. rewrite length_app. simpl. lia. }
    rewrite Hlen.
    cbn [app item0 bind ret has_ContentSequence set_ContentSequence
         ContentSequence negb].
    rewrite find_named. unfold children.
    cbn [ContentSequence set_ContentSequence].
    rewrite (filter_first _ (ti ++ mt)); [reflexivity | | reflexivity].
    intros x Hx. apply in_app_or in Hx as [Hx | Hx].
    + now apply Hhead.
    + subst mt. destruct (Measurement.kw.method a); [| destruct Hx].
      destruct Hx as [<- | []]. reflexivity.
Qed.

Lemma Measurement_reads_back_witness :
  Measurement.method
    (length_measurement (Some (mkCode "733985002" "SCT" "Reported"))) =
  inr (Some (mkCode "733985002" "SCT" "Reported")).
Proof.
  refine (proj1 (proj2 (proj2 (proj2 (proj2
            (Measurement_reads_back
               (Measurement.kw.mk_args _ _ _ _ _ _ _ _ _ _ _ _ _) _)))))
            _ eq_refl).
  intros s [= <-]. now exists "2.25.1", (Some "1.2.3"), (Some "lesion-1").
Defined.

End Measurements.

(** ** Measurement groups: what the constructors build *)

Section Groups.
Import sr templates spec vocabulary.

Local Abbreviation MQ := _MeasurementsAndQualitativeEvaluations.kw.args.
Local Abbreviation MQ_init := _MeasurementsAndQualitativeEvaluations.init.

Lemma app_opt_items {A : Type} (c : list ContentItem) (o : option A)
    (f : A -> list ContentItem) :
  match o with Some x => c ++ f x | None => c end = c ++ opt_items o f.
Proof. destruct o; simpl; [reflexivity | now rewrite app_nil_r]. Qed.

(** The children of the group that the shared constructor builds. *)
Lemma MQ_init_children (a : MQ) (self : ContentSeq) :
  MQ_init a = inr self ->
  exists g,
    self = [g] /\ is_measurement_group g /\
    template_id g = Some "1501" /\
    children g =
    group_head a ++ group_context a ++ group_measurements a ++
    group_evaluations a.
Proof.
  unfold _MeasurementsAndQualitativeEvaluations.init.
  destruct (length _ =? 1); [discriminate |].
  cbn [app].
  rewrite (app_opt_items _ (_MeasurementsAndQualitativeEvaluations.kw.session a)
             (fun session =>
                [TextContentItem codes.ActivitySession session
                   HAS_OBS_CONTEXT])).
  rewrite (app_opt_items _
             (_MeasurementsAndQualitativeEvaluations.kw.finding_category a)
             (fun c => [CodeContentItem codes.FindingCategory c CONTAINS])).
  rewrite (app_opt_items _
             (_MeasurementsAndQualitativeEvaluations.kw.finding_type a)
             (fun c => [CodeContentItem codes.Finding c CONTAINS])).
  rewrite (app_opt_items _
             (_MeasurementsAndQualitativeEvaluations.kw.method a)
             (fun c => [CodeContentItem codes.MeasurementMethod c CONTAINS])).
  rewrite (app_opt_items _
             (_MeasurementsAndQualitativeEvaluations.kw.finding_sites a)
             (fun l => l)).
  rewrite (app_opt_items _
             (_MeasurementsAndQualitativeEvaluations.kw.algorithm_id a)
             (fun l => l)).
  rewrite (app_opt_items _
             (_MeasurementsAndQualitativeEvaluations.kw.time_point_context a)
             (fun l => l)).
  rewrite (app_opt_items _
             (_MeasurementsAndQualitativeEvaluations.kw.referenced_real_world_value_map a)
             (fun m => [m])).
  rewrite (app_opt_items _
             (_MeasurementsAndQualitativeEvaluations.kw.measurements a)
             (fun l => concat l)).
  rewrite (app_opt_items _
             (_MeasurementsAndQualitativeEvaluations.kw.qualitative_evaluations a)
             (fun l => concat l)).
  fold (group_measurements a) (group_evaluations a).
  set (content := _ ++ group_evaluations a).
  assert (Hcontent : content =
            group_head a ++ group_context a ++ group_measurements a ++
            group_evaluations a).
  { subst content. unfold group_head, group_context.
    now rewrite <- !app_assoc. }
  intros [= <-]. eexists. split; [reflexivity |].
  rewrite <- Hcontent.
  destruct (0 <? length content) eqn:Hlen.
  - repeat split.
  - repeat split. unfold children. cbn.
    destruct content; [reflexivity | discriminate].
Qed.

(** The accessors read the head of the children. *)
Lemma head_reads_back (g : ContentItem) (a : MQ) (fresh_uid : string)
    (uid : option string) (identifier : string) (tail : list ContentItem) :
  _MeasurementsAndQualitativeEvaluations.kw.tracking_identifier a =
  TrackingIdentifier fresh_uid uid (Some identifier) ->
  children g = group_head a ++ tail ->
  group_reads_back [g] a
    match uid with Some u => u | None => fresh_uid end identifier.
Proof.
  destruct a as [ti rwvm tpc ft m alg fs ss ms qes fc].
  unfold group_head, group_reads_back.
  cbn [_MeasurementsAndQualitativeEvaluations.kw.tracking_identifier
       _MeasurementsAndQualitativeEvaluations.kw.session
       _MeasurementsAndQualitativeEvaluations.kw.finding_category
       _MeasurementsAndQualitativeEvaluations.kw.finding_type
       _MeasurementsAndQualitativeEvaluations.kw.method].
  intros -> Hchildren.
  unfold _MeasurementsAndQualitativeEvaluations.tracking_identifier,
    _MeasurementsAndQualitativeEvaluations.tracking_uid,
    _MeasurementsAndQualitativeEvaluations.finding_category,
    _MeasurementsAndQualitativeEvaluations.finding_type,
    _MeasurementsAndQualitativeEvaluations.method, value_read.
  assert (Hhas : has_ContentSequence g = true).
  { destruct (has_ContentSequence g) eqn:Hhas; [reflexivity |].
    rewrite (has_no_ContentSequence_children g Hhas) in Hchildren.
    unfold TrackingIdentifier in Hchildren. discriminate Hchildren. }
  cbn [item0 bind ret]. rewrite !find_named, Hhas, Hchildren.
  repeat apply conj.
  - reflexivity.
  - reflexivity.
  - intros c [= ->]. destruct ss; reflexivity.
  - intros t [= ->]. destruct ss, fc; reflexivity.
  - intros c [= ->]. destruct ss, fc, ft; reflexivity.
Qed.

Lemma extend_ContentSequence_children (g g' : ContentItem)
    (items : ContentSeq) :
  extend_ContentSequence g items = inr g' ->
  children g' = children g ++ items /\ name g' = name g /\
  payload g' = payload g.
Proof.
  unfold extend_ContentSequence, get_ContentSequence, children.
  destruct (ContentSequence g); [| discriminate].
  intros [= <-]. repeat split.
Qed.

(** The group that the ROI constructor returns holds the children of
    the group of the shared constructor, followed by the items of the
    geometric purpose and of the ROI reference. *)
Lemma ROI_init_children (class_name : string)
    (r : _ROIMeasurementsAndQualitativeEvaluations.kw.args)
    (self : ContentSeq) :
  _ROIMeasurementsAndQualitativeEvaluations.init class_name r = inr self ->
  exists g g0 tail,
    self = [g] /\
    MQ_init (_ROIMeasurementsAndQualitativeEvaluations.kw.base r) = inr [g0] /\
    children g = children g0 ++ tail /\ name g = name g0 /\
    payload g = payload g0.
Proof.
  unfold _ROIMeasurementsAndQualitativeEvaluations.init. intros H.
  apply bind_inr in H as (self0 & Hbase & H).
  destruct (MQ_init_children _ _ Hbase) as (g0 & -> & _).
  cbn [item0 bind ret] in H.
  destruct (sum_bools _ =? 0); [discriminate |].
  destruct (1 <? sum_bools _); [discriminate |].
  apply bind_inr in H as (g1 & H1 & H).
  apply bind_inr in H as (g2 & H2 & H).
  apply bind_inr in H as (u & _ & [= <-]).
  assert (E1 : exists t1, children g1 = children g0 ++ t1 /\
                          name g1 = name g0 /\ payload g1 = payload g0).
  { destruct (_ROIMeasurementsAndQualitativeEvaluations.kw.geometric_purpose
                r).
    - apply extend_ContentSequence_children in H1. eauto.
    - injection H1 as <-. exists []. now rewrite app_nil_r. }
  destruct E1 as (t1 & Hc1 & Hn1 & Hp1).
  assert (E2 : exists t2, children g2 = children g1 ++ t2 /\
                          name g2 = name g1 /\ payload g2 = payload g1).
  { destruct (_ROIMeasurementsAndQualitativeEvaluations.kw.referenced_regions
                r) as [regions |].
    - destruct (length (regions_items regions) =? 0); [discriminate |].
      apply extend_ContentSequence_children in H2. eauto.
    - destruct
        (_ROIMeasurementsAndQualitativeEvaluations.kw.referenced_volume_surface
           r).
      + apply extend_ContentSequence_children in H2. eauto.
      + destruct
          (_ROIMeasurementsAndQualitativeEvaluations.kw.referenced_segment r).
        * apply extend_ContentSequence_children in H2. eauto.
        * injection H2 as <-. exists []. now rewrite app_nil_r. }
  destruct E2 as (t2 & Hc2 & Hn2 & Hp2).
  exists g2, g0, (t1 ++ t2).
  split; [reflexivity |]. split; [exact Hbase |].
  split; [now rewrite Hc2, Hc1, <- app_assoc | split; congruence].
Qed.

Lemma retag_children (tid : string) (r : result ContentSeq)
    (self : ContentSeq) :
  retag tid r = inr self ->
  exists g g0,
    self = [g] /\ r = inr (g0 :: tl (match r with inr l => l | _ => [] end))
    /\ children g = children g0 /\ name g = name g0 /\
    value_type g = value_type g0 /\ template_id g = Some tid.
Proof.
  unfold retag. intros H.
  apply bind_inr in H as (self0 & -> & H).
  apply bind_inr in H as (g0 & Hg0 & H).
  apply bind_inr in H as (g & Hg & [= <-]).
  destruct self0 as [| x rest]; [discriminate |]. injection Hg0 as ->.
  exists g, g0. split; [reflexivity |]. split; [reflexivity |].
  unfold set_template_id in Hg.
  destruct (payload g0) as [| | | | | | | [t |] | | |] eqn:Hp;
    try discriminate.
  injection Hg as <-. unfold children, value_type, template_id. cbn.
  rewrite Hp. repeat split.
Qed.

(** X22. A measurement group built by any of the constructors (the
    shared one, that of an image group, the ROI base, the planar and
    the volumetric one) from a tracking identifier with an identifier
    reads back through the accessors of the group:
    [tracking_identifier] and [tracking_uid] return the identifier and
    the UID of the tracking identifier, and [finding_category],
    [finding_type] and [method] return the finding category, the
    finding type and the method that were supplied, whatever the other
    arguments are. *)
Theorem constructed_groups_read_back (a : MQ) (fresh_uid : string)
    (uid : option string) (identifier : string) :
  _MeasurementsAndQualitativeEvaluations.kw.tracking_identifier a =
  TrackingIdentifier fresh_uid uid (Some identifier) ->
  let u := match uid with Some u => u | None => fresh_uid end in
  (forall self,
     MQ_init a = inr self -> group_reads_back self a u identifier) /\
  (forall source_images self,
     MeasurementsAndQualitativeEvaluations.init a source_images = inr self ->
     group_reads_back self a u identifier) /\
  (forall class_name r self,
     _ROIMeasurementsAndQualitativeEvaluations.kw.base r = a ->
     _ROIMeasurementsAndQualitativeEvaluations.init class_name r = inr self ->
     group_reads_back self a u identifier) /\
  (forall p self,
     PlanarROIMeasurementsAndQualitativeEvaluations.kw.base p = a ->
     PlanarROIMeasurementsAndQualitativeEvaluations.init p = inr self ->
     group_reads_back self a u identifier) /\
  (forall v self,
     VolumetricROIMeasurementsAndQualitativeEvaluations.kw.base v = a ->
     VolumetricROIMeasurementsAndQualitativeEvaluations.init v = inr self ->
     group_reads_back self a u identifier).
Proof.
  intros Hti u.
  assert (Hroi : forall class_name r self,
            _ROIMeasurementsAndQualitativeEvaluations.kw.base r = a ->
            _ROIMeasurementsAndQualitativeEvaluations.init class_name r
            = inr self ->
            exists g tail, self = [g] /\ children g = group_head a ++ tail).
  { intros cn r self <- H.
    destruct (ROI_init_children _ _ _ H)
      as (g & g0 & tail & -> & Hbase & Hc & _).
    destruct (MQ_init_children _ _ Hbase) as (g0' & [= <-] & _ & _ & Hc0).
    exists g. eexists. split; [reflexivity |].
    rewrite Hc, Hc0, <- app_assoc. reflexivity. }
  repeat apply conj.
  - intros self H.
    destruct (MQ_init_children _ _ H) as (g & -> & _ & _ & Hc).
    now apply (head_reads_back g a fresh_uid uid identifier _ Hti Hc).
  - intros si self H. unfold MeasurementsAndQualitativeEvaluations.init in H.
    apply bind_inr in H as (self0 & Hbase & H).
    destruct (MQ_init_children _ _ Hbase) as (g0 & -> & _ & _ & Hc).
    cbn [item0 bind ret] in H. destruct si as [imgs |].
    + apply bind_inr in H as (g & Hg & [= <-]).
      apply extend_ContentSequence_children in Hg as (Hg & _).
      eapply (head_reads_back g a fresh_uid uid identifier); [exact Hti |].
      rewrite Hg, Hc, <- app_assoc. reflexivity.
    + injection H as <-.
      now apply (head_reads_back g0 a fresh_uid uid identifier _ Hti Hc).
  - intros cn r self Hr H.
    destruct (Hroi cn r self Hr H) as (g & tail & -> & Hc).
    now apply (head_reads_back g a fresh_uid uid identifier _ Hti Hc).
  - intros p self Hp H. rewrite Planar_init_unfold in H.
    destruct (planar_references_supplied p =? 0); [discriminate |].
    destruct (1 <? planar_references_supplied p); [discriminate |].
    destruct (retag_children _ _ _ H) as (g & g0 & -> & Hr & Hc & _).
    destruct (Hroi _ (planar_to_roi p) _ Hp Hr) as (g' & tail & [= <- _] & Hc').
    apply (head_reads_back g a fresh_uid uid identifier tail Hti).
    now rewrite Hc.
  - intros v self Hv H. rewrite Volumetric_init_unfold in H.
    destruct (retag_children _ _ _ H) as (g & g0 & -> & Hr & Hc & _).
    destruct (Hroi _ (volumetric_to_roi v) _ Hv Hr)
      as (g' & tail & [= <- _] & Hc').
    apply (head_reads_back g a fresh_uid uid identifier tail Hti).
    now rewrite Hc.
Qed.

Lemma constructed_groups_read_back_witness :
  group_reads_back
    (returned
       (PlanarROIMeasurementsAndQualitativeEvaluations.init
          examples.planar_args))
    examples.base_args "1.2.3" "lesion-1".
Proof.
  apply (proj1 (proj2 (proj2 (proj2
           (constructed_groups_read_back examples.base_args "2.25.1"
              (Some "1.2.3") "lesion-1" eq_refl))))
           examples.planar_args); [reflexivity |].
  vm_compute. reflexivity.
Defined.

End Groups.

(** ** Measurement groups: measurements and qualitative evaluations *)

Section GroupContents.
Import sr templates spec vocabulary.

Local Abbreviation MQ := _MeasurementsAndQualitativeEvaluations.kw.args.
Local Abbreviation MQ_init := _MeasurementsAndQualitativeEvaluations.init.
Local Abbreviation ROI_init := _ROIMeasurementsAndQualitativeEvaluations.init.

Lemma located_has_coordinates (measurement : ContentSeq) :
  carries_coordinates measurement ->
  exists c cs, Measurement.referenced_coordinates measurement = inr (c :: cs).
Proof.
  intros (i0 & rest & c & -> & Hin & Hc).
  rewrite referenced_coordinates_children.
  assert (Hne : List.filter (item_matches None (Some SCOORD) None)
                  (children i0) ++
                List.filter (item_matches None (Some SCOORD3D) None)
                  (children i0) <> []).
  { intros Hnil. apply app_eq_nil in Hnil as [H1 H2].
    destruct Hc as [Hc | Hc].
    - assert (In c (List.filter (item_matches None (Some SCOORD) None)
                      (children i0))).
      { apply filter_In. split; [exact Hin |].
        unfold item_matches, vt_eqb. rewrite Hc. reflexivity. }
      rewrite H1 in H. destruct H.
    - assert (In c (List.filter (item_matches None (Some SCOORD3D) None)
                      (children i0))).
      { apply filter_In. split; [exact Hin |].
        unfold item_matches, vt_eqb. rewrite Hc. reflexivity. }
      rewrite H2 in H. destruct H. }
  destruct (_ ++ _) as [| x xs]; [now contradiction Hne | eauto].
Qed.

Lemma check_measurements_located (class_name : string)
    (measurements : list ContentSeq) :
  Forall (fun m => m <> []) measurements ->
  (exists m, In m measurements /\ carries_coordinates m) ->
  _ROIMeasurementsAndQualitativeEvaluations.check_measurements class_name
    measurements =
  inl (ValueError
         (_ROIMeasurementsAndQualitativeEvaluations.msg_referenced_coordinates
            class_name)).
Proof.
  induction 1 as [| m ms Hm Hms IH]; intros (x & Hx & Hloc); [destruct Hx |].
  cbn [_ROIMeasurementsAndQualitativeEvaluations.check_measurements].
  destruct Hx as [<- | Hx].
  - destruct (located_has_coordinates m Hloc) as (c & cs & ->). reflexivity.
  - destruct m as [| i0 rest]; [now contradiction Hm |].
    rewrite referenced_coordinates_children. cbn [bind].
    match goal with
    | |- context [if ?c then _ else _] => destruct c
    end; [reflexivity | apply IH; eauto].
Qed.

Lemma located_group_has_content (a : MQ) (g : ContentItem) :
  has_located_measurement a ->
  MQ_init a = inr [g] -> has_ContentSequence g = true.
Proof.
  intros (ms & m & Hms & _ & Hin & (i0 & rest & c & -> & _)) H.
  destruct (MQ_init_children _ _ H) as (g' & [= <-] & _ & _ & Hc).
  unfold has_ContentSequence, children in *.
  destruct (ContentSequence g); [reflexivity |].
  unfold group_measurements in Hc. rewrite Hms in Hc. cbn [opt_items] in Hc.
  assert (Hi0 : In i0 (concat ms)).
  { apply in_concat. exists (i0 :: rest). split; [exact Hin | now left]. }
  assert (In i0 (group_head a ++ group_context a ++ concat ms ++
                 group_evaluations a)).
  { apply in_or_app; right. apply in_or_app; right.
    apply in_or_app; now left. }
  rewrite <- Hc in H0. destruct H0.
Qed.

Lemma ROI_init_located (class_name : string)
    (r : _ROIMeasurementsAndQualitativeEvaluations.kw.args) :
  has_located_measurement
    (_ROIMeasurementsAndQualitativeEvaluations.kw.base r) ->
  is_ValueError (ROI_init class_name r).
Proof.
  intros Hloc. pose proof Hloc as (ms & m & Hms & Hne & Hin & Hm).
  unfold _ROIMeasurementsAndQualitativeEvaluations.init.
  destruct (MQ_init_cases
              (_ROIMeasurementsAndQualitativeEvaluations.kw.base r))
    as [[_ ->] | [_ [g Hg]]]; [eexists; reflexivity |].
  rewrite Hg. cbn [bind item0 ret].
  pose proof (located_group_has_content _ g Hloc Hg) as Hhas.
  destruct (sum_bools _ =? 0); [eexists; reflexivity |].
  destruct (1 <? sum_bools _); [eexists; reflexivity |].
  assert (E1 : exists g1,
            match
              _ROIMeasurementsAndQualitativeEvaluations.kw.geometric_purpose r
            with
            | Some geometric_purpose =>
                extend_ContentSequence g
                  [CodeContentItem
                     (mkCode "130400" "DCM" "Geometric purpose of region")
                     geometric_purpose CONTAINS]
            | None => ret g
            end = inr g1 /\ has_ContentSequence g1 = true).
  { destruct (_ROIMeasurementsAndQualitativeEvaluations.kw.geometric_purpose
                r).
    - destruct (extend_ContentSequence_ok g
                  [CodeContentItem
                     (mkCode "130400" "DCM" "Geometric purpose of region")
                     c CONTAINS] Hhas) as (g1 & -> & H1 & _). eauto.
    - eauto. }
  destruct E1 as (g1 & -> & Hhas1). cbn [bind].
  rewrite Hms.
  rewrite (check_measurements_located class_name ms Hne)
    by (exists m; now split).
  destruct (_ROIMeasurementsAndQualitativeEvaluations.kw.referenced_regions r)
    as [regions |].
  - destruct (length (regions_items regions) =? 0);
      [eexists; reflexivity |].
    destruct (extend_ContentSequence_ok g1 (regions_items regions) Hhas1)
      as (g2 & -> & _). eexists; reflexivity.
  - destruct
      (_ROIMeasurementsAndQualitativeEvaluations.kw.referenced_volume_surface
         r) as [vs |].
    + destruct (extend_ContentSequence_ok g1 vs Hhas1) as (g2 & -> & _).
      eexists; reflexivity.
    + destruct
        (_ROIMeasurementsAndQualitativeEvaluations.kw.referenced_segment r)
        as [sg |].
      * destruct (extend_ContentSequence_ok g1 sg Hhas1) as (g2 & -> & _).
        eexists; reflexivity.
      * eexists; reflexivity.
Qed.

(** X23. The constructors of ROI measurement groups (the ROI base, the
    planar and the volumetric one) raise [ValueError] whenever one of
    the measurements they are given carries referenced coordinates (an
    SCOORD or SCOORD3D item among the children of its NUM item),
    whatever the other arguments are; a measurement built by
    [Measurement(...)] with referenced coordinates is one. *)
Theorem located_measurements_are_rejected :
  (forall class_name r,
     has_located_measurement
       (_ROIMeasurementsAndQualitativeEvaluations.kw.base r) ->
     is_ValueError (ROI_init class_name r)) /\
  (forall p,
     has_located_measurement
       (PlanarROIMeasurementsAndQualitativeEvaluations.kw.base p) ->
     is_ValueError (PlanarROIMeasurementsAndQualitativeEvaluations.init p)) /\
  (forall v,
     has_located_measurement
       (VolumetricROIMeasurementsAndQualitativeEvaluations.kw.base v) ->
     is_ValueError
       (VolumetricROIMeasurementsAndQualitativeEvaluations.init v)) /\
  (forall a c cs,
     Measurement.kw.referenced_coordinates a = Some (c :: cs) ->
     is_coordinates c ->
     carries_coordinates (Measurement.init a)).
Proof.
  repeat apply conj.
  - apply ROI_init_located.
  - intros p Hloc. rewrite Planar_init_unfold.
    destruct (planar_references_supplied p =? 0); [eexists; reflexivity |].
    destruct (1 <? planar_references_supplied p); [eexists; reflexivity |].
    apply is_ValueError_retag. now apply ROI_init_located.
  - intros v Hloc. rewrite Volumetric_init_unfold.
    apply is_ValueError_retag. now apply ROI_init_located.
  - intros a c cs Ha Hc. unfold carries_coordinates, Measurement.init.
    rewrite Ha. cbn [app].
    match goal with
    | |- context [if 0 <? length ?l then _ else _] =>
        assert (Hin : In c l)
    end.
    { repeat match goal with
        | |- context [match ?x with Some _ => _ | None => _ end] =>
            destruct x
        end; repeat (apply in_or_app; first [now right; left | left]);
        try (apply in_or_app; right; now left); now left. }
    match goal with
    | |- context [if 0 <? length ?l then _ else _] =>
        destruct l as [| x l'] eqn:Hl; [destruct Hin |]
    end.
    cbn [length Nat.ltb Nat.leb]. eexists. exists []. exists c.
    split; [reflexivity |]. split; [| exact Hc]. exact Hin.
Qed.

Lemma located_measurements_are_rejected_witness :
  is_ValueError
    (PlanarROIMeasurementsAndQualitativeEvaluations.init
       (PlanarROIMeasurementsAndQualitativeEvaluations.kw.mk_args
          located_args (Some (inl (examples.region GT_POLYLINE))) None None)).
Proof.
  apply (proj1 (proj2 located_measurements_are_rejected)).
  exists [located_measurement], located_measurement.
  split; [reflexivity |]. split; [repeat constructor; discriminate |].
  split; [now left |].
  eexists. exists []. eexists. split; [reflexivity |].
  split; [now left | now left].
Defined.

Lemma comprehension_map {A B : Type} (f : A -> result B) (g : A -> B)
    (l : list A) :
  (forall x, In x l -> f x = inr (g x)) ->
  comprehension f l = inr (map g l).
Proof.
  induction l as [| x l IH]; intros H; [reflexivity |].
  cbn [comprehension map]. rewrite (H x (or_introl eq_refl)). cbn [bind].
  rewrite IH by (intros y Hy; apply H; now right). reflexivity.
Qed.

Lemma get_measurements_children (g : ContentItem) (rest : ContentSeq)
    (name_f : option CodedConcept) :
  _MeasurementsAndQualitativeEvaluations.get_measurements (g :: rest) name_f =
  if has_ContentSequence g
  then inr (map (fun c => [as_measurement c])
              (List.filter (item_matches name_f (Some NUM) None)
                 (children g)))
  else inl (AttributeError "ContentSequence").
Proof.
  unfold _MeasurementsAndQualitativeEvaluations.get_measurements.
  cbn [item0 bind ret].
  assert (Hm : match name_f with
               | Some n => find_content_items g (Some n) (Some NUM) None false
               | None => find_content_items g None (Some NUM) None false
               end =
               if has_ContentSequence g
               then inr (List.filter (item_matches name_f (Some NUM) None)
                           (children g))
               else inl (AttributeError "ContentSequence")).
  { destruct name_f; apply find_content_items_flat. }
  rewrite Hm. destruct (has_ContentSequence g); [| reflexivity].
  cbn [bind]. apply comprehension_map. intros c Hc.
  apply filter_In in Hc as [_ Hc].
  apply item_matches_iff in Hc as (_ & Hv & _).
  specialize (Hv NUM eq_refl). destruct c as [n r p ocs].
  unfold value_type in Hv. cbn in Hv.
  unfold Measurement.from_sequence. cbn.
  destruct p; try discriminate. destruct ocs; reflexivity.
Qed.

Lemma get_qualitative_evaluations_children (g : ContentItem)
    (rest : ContentSeq) (name_f : option CodedConcept) :
  _MeasurementsAndQualitativeEvaluations.get_qualitative_evaluations
    (g :: rest) name_f =
  if has_ContentSequence g
  then inr (map as_evaluation
              (List.filter (is_evaluation name_f) (children g)))
  else inl (AttributeError "ContentSequence").
Proof.
  unfold _MeasurementsAndQualitativeEvaluations.get_qualitative_evaluations.
  cbn [item0 bind ret].
  assert (Hm : match name_f with
               | Some n => find_content_items g (Some n) (Some CODE) None false
               | None => find_content_items g None (Some CODE) None false
               end =
               if has_ContentSequence g
               then inr (List.filter (item_matches name_f (Some CODE) None)
                           (children g))
               else inl (AttributeError "ContentSequence")).
  { destruct name_f; apply find_content_items_flat. }
  rewrite Hm. destruct (has_ContentSequence g); [| reflexivity].
  cbn [bind].
  assert (Hf : forall l,
            List.filter
              (fun item =>
                 negb (code_in (name item)
                         [codes.Finding; codes.FindingSite;
                          codes.MeasurementMethod]))
              (List.filter (item_matches name_f (Some CODE) None) l) =
            List.filter (is_evaluation name_f) l).
  { induction l as [| x l IH]; [reflexivity |]. cbn [List.filter].
    unfold is_evaluation at 1.
    destruct (item_matches name_f (Some CODE) None x); cbn [List.filter andb];
      [| exact IH].
    destruct (negb _); [now rewrite IH | exact IH]. }
  rewrite Hf. apply comprehension_map. intros c Hc.
  apply filter_In in Hc as [_ Hc]. unfold is_evaluation in Hc.
  apply andb_true_iff in Hc as [Hc _].
  apply item_matches_iff in Hc as (_ & Hv & _).
  specialize (Hv CODE eq_refl). destruct c as [n r p ocs].
  unfold value_type in Hv. cbn in Hv.
  unfold QualitativeEvaluation.from_sequence,
    QualitativeEvaluation.CodeContentItem_from_dataset, as_evaluation.
  cbn. destruct p; try discriminate. reflexivity.
Qed.

(** X24. On a group whose first item has a [ContentSequence],
    [get_measurements] returns one measurement for each direct child
    of value type NUM (with the given name, if one is given), in
    document order: the child with its payload and children, related
    by CONTAINS.  [get_qualitative_evaluations] returns one evaluation
    for each direct child of value type CODE (with the given name, if
    one is given) that is named neither Finding, nor Finding Site, nor
    Measurement Method: the name and the coded value of the child,
    without its children.  On a group whose first item has no
    [ContentSequence] both raise [AttributeError], from the search of
    its children, which neither guards. *)
Theorem group_contents (g : ContentItem) (rest : ContentSeq)
    (name_f : option CodedConcept) :
  _MeasurementsAndQualitativeEvaluations.get_measurements (g :: rest) name_f
  = (if has_ContentSequence g
     then inr (map (fun c => [as_measurement c])
                 (List.filter (item_matches name_f (Some NUM) None)
                    (children g)))
     else inl (AttributeError "ContentSequence")) /\
  _MeasurementsAndQualitativeEvaluations.get_qualitative_evaluations
    (g :: rest) name_f
  = (if has_ContentSequence g
     then inr (map as_evaluation
                 (List.filter (is_evaluation name_f) (children g)))
     else inl (AttributeError "ContentSequence")).
Proof.
  split.
  - exact (get_measurements_children g rest name_f).
  - exact (get_qualitative_evaluations_children g rest name_f).
Qed.

(** X25. The finding category of a group is returned among its
    qualitative evaluations: on a group built by the shared
    constructor with a finding category,
    [get_qualitative_evaluations] returns the evaluation named "Finding
    category" with the category for value, whereas no evaluation that
    it returns is named Finding, Finding Site or Measurement
    Method. *)
Theorem finding_category_is_an_evaluation (a : MQ) (self : ContentSeq)
    (category : CodedConcept) :
  MQ_init a = inr self ->
  _MeasurementsAndQualitativeEvaluations.kw.finding_category a
  = Some category ->
  exists evaluations,
    _MeasurementsAndQualitativeEvaluations.get_qualitative_evaluations self
      None = inr evaluations /\
    In (QualitativeEvaluation.init codes.FindingCategory category)
      evaluations /\
    (forall evaluation item,
       In evaluation evaluations -> In item evaluation ->
       code_in (name item)
         [codes.Finding; codes.FindingSite; codes.MeasurementMethod]
       = false).
Proof.
  intros H Hfc.
  destruct (MQ_init_children _ _ H) as (g & -> & _ & _ & Hc).
  assert (Hin : In (CodeContentItem codes.FindingCategory category CONTAINS)
                  (children g)).
  { rewrite Hc. apply in_or_app; left. unfold group_head. rewrite Hfc.
    apply in_or_app; right. apply in_or_app; right.
    apply in_or_app; left. now left. }
  rewrite get_qualitative_evaluations_children,
    (children_have_ContentSequence g)
    by (intros Hnil; rewrite Hnil in Hin; destruct Hin).
  clear Hin. eexists.
  split; [reflexivity |]. split.
  - apply in_map_iff.
    exists (CodeContentItem codes.FindingCategory category CONTAINS).
    split; [reflexivity |]. apply filter_In. split; [| reflexivity].
    rewrite Hc. apply in_or_app; left. unfold group_head. rewrite Hfc.
    apply in_or_app; right. apply in_or_app; right.
    apply in_or_app; left. now left.
  - intros e item He Hitem. apply in_map_iff in He as (c & <- & Hcin).
    apply filter_In in Hcin as [_ Hcin]. unfold is_evaluation in Hcin.
    apply andb_true_iff in Hcin as [_ Hcin]. apply negb_true_iff in Hcin.
    unfold as_evaluation in Hitem.
    destruct (payload c); try (now destruct Hitem).
    destruct Hitem as [<- | []]. exact Hcin.
Qed.

Lemma finding_category_is_an_evaluation_witness :
  exists evaluations,
    _MeasurementsAndQualitativeEvaluations.get_qualitative_evaluations
      (returned (MQ_init full_args)) None = inr evaluations /\
    In (QualitativeEvaluation.init codes.FindingCategory
          (mkCode "49755003" "SCT" "Morphologically abnormal structure"))
      evaluations /\
    (forall evaluation item,
       In evaluation evaluations -> In item evaluation ->
       code_in (name item)
         [codes.Finding; codes.FindingSite; codes.MeasurementMethod]
       = false).
Proof.
  apply (finding_category_is_an_evaluation full_args); [| reflexivity].
  vm_compute. reflexivity.
Defined.

Lemma filter_all (p : ContentItem -> bool) (l : list ContentItem) :
  (forall x, In x l -> p x = true) -> List.filter p l = l.
Proof.
  induction l as [| x l IH]; intros H; [reflexivity |]. cbn [List.filter].
  rewrite (H x (or_introl eq_refl)), IH; [reflexivity |].
  intros y Hy. apply H. now right.
Qed.

Lemma not_num (c : ContentItem) (n : option CodedConcept) :
  value_type c <> NUM -> item_matches n (Some NUM) None c = false.
Proof.
  intros H. unfold item_matches, vt_eqb.
  rewrite (bool_decide_eq_false_2 _ H). cbn.
  now rewrite andb_false_r.
Qed.

(** X26. The measurements given to the constructor of a group are
    those that [get_measurements] returns, in the same order: for a
    group built by the shared constructor from a tracking identifier
    built by [TrackingIdentifier], measurements built by
    [Measurement], and otherwise items none of which is a NUM item
    (finding sites, algorithm identification, time point context,
    real world value map and qualitative evaluations). *)
Theorem get_measurements_round_trip (a : MQ) (self : ContentSeq)
    (measurements : list ContentSeq) :
  MQ_init a = inr self ->
  is_tracking_identifier
    (_MeasurementsAndQualitativeEvaluations.kw.tracking_identifier a) ->
  _MeasurementsAndQualitativeEvaluations.kw.measurements a
  = Some measurements ->
  Forall (fun m => exists am, m = Measurement.init am) measurements ->
  Forall (fun c => value_type c <> NUM)
    (group_context a ++ group_evaluations a) ->
  _MeasurementsAndQualitativeEvaluations.get_measurements self None =
  inr measurements.
Proof.
  intros H (f & u & i & Hti) Hms Hall Hother.
  destruct (MQ_init_children _ _ H) as (g & -> & _ & _ & Hc).
  rewrite get_measurements_children, (children_have_ContentSequence g), Hc
    by (rewrite Hc; unfold group_head; rewrite Hti;
        unfold TrackingIdentifier; destruct i; discriminate).
  f_equal. rewrite !List.filter_app.
  assert (Hhead : List.filter (item_matches None (Some NUM) None)
                    (group_head a) = []).
  { apply filter_none. intros x Hx. apply not_num. unfold group_head in Hx.
    rewrite Hti in Hx. unfold TrackingIdentifier in Hx.
    destruct i, (_MeasurementsAndQualitativeEvaluations.kw.session a),
      (_MeasurementsAndQualitativeEvaluations.kw.finding_category a),
      (_MeasurementsAndQualitativeEvaluations.kw.finding_type a),
      (_MeasurementsAndQualitativeEvaluations.kw.method a);
      cbn in Hx;
      repeat (destruct Hx as [<- | Hx]; [discriminate |]); destruct Hx. }
  assert (Hctx : List.filter (item_matches None (Some NUM) None)
                   (group_context a) = []).
  { apply filter_none. intros x Hx. apply not_num.
    apply (proj1 (List.Forall_forall _ _) Hother). apply in_or_app.
    now left. }
  assert (Hev : List.filter (item_matches None (Some NUM) None)
                  (group_evaluations a) = []).
  { apply filter_none. intros x Hx. apply not_num.
    apply (proj1 (List.Forall_forall _ _) Hother). apply in_or_app.
    now right. }
  rewrite Hhead, Hctx, Hev, app_nil_r. cbn [app].
  unfold group_measurements. rewrite Hms. cbn [opt_items].
  clear - Hall. induction Hall as [| m ms [am ->] _ IH]; [reflexivity |].
  cbn [concat]. destruct (Measurement_init_item am) as [ocs ->].
  cbn [app List.filter]. unfold item_matches at 1.
  cbn [value_type payload andb].
  change (vt_eqb NUM NUM) with true. cbn [andb map].
  rewrite IH. reflexivity.
Qed.

Lemma get_measurements_round_trip_witness :
  _MeasurementsAndQualitativeEvaluations.get_measurements
    (returned (MQ_init full_args)) None =
  inr [length_measurement None].
Proof.
  apply (get_measurements_round_trip full_args).
  - vm_compute. reflexivity.
  - now exists "2.25.1", (Some "1.2.3"), (Some "lesion-1").
  - reflexivity.
  - repeat constructor. eexists. reflexivity.
  - repeat constructor; discriminate.
Defined.

End GroupContents.

(** ** The getter of volumetric ROI measurement groups *)

Section VolumetricGetter.
Import sr templates spec vocabulary.
Import MeasurementReport.

(** The loop over the reference items of an Image Region: the flag
    it returns is the one it is given, or [True] when one of the SCOORD
    items contains a matching source image. *)
Lemma image_regions_loop_spec (cls inst : option string)
    (items : list ContentItem) :
  forall mu mu',
    image_regions_loop cls inst items mu = inr mu' ->
    mu' =
    mu || existsb
            (fun ref_item =>
               vt_eqb (value_type ref_item) SCOORD &&
               holds (_contains_image_items ref_item None cls inst
                        (Some SELECTED_FROM)))
            items.
Proof.
  induction items as [| x items IH]; intros mu mu' H;
    cbn [image_regions_loop existsb] in *.
  - injection H as <-. now rewrite orb_false_r.
  - destruct (vt_eqb (value_type x) SCOORD); cbn [andb orb].
    + apply bind_inr in H as (b & -> & H). cbn [holds].
      apply IH in H. rewrite H. now destruct b, mu.
    + now apply IH in H.
Qed.

(** The list [matches] built for a group of the volumetric getter
    holds one entry for each supplied filter. *)
Lemma volumetric_group_matches_all (f : volumetric_kw.args)
    (g : ContentItem) (m : list bool) :
  volumetric_group_matches f g = inr m -> all m = volumetric_passes f g.
Proof.
  destruct f as [tu ft fs rt gt inst cls].
  unfold volumetric_group_matches, volumetric_passes,
    volumetric_passes_reference_type, volumetric_passes_graphic_type,
    volumetric_passes_referenced_sop_uids, on_volumetric_reference,
    sop_uids_supplied.
  cbn [volumetric_kw.tracking_uid volumetric_kw.finding_type
       volumetric_kw.finding_site volumetric_kw.reference_type
       volumetric_kw.graphic_type volumetric_kw.referenced_sop_instance_uid
       volumetric_kw.referenced_sop_class_uid].
  cbv zeta. intros H.
  apply shared_filters_step in H as (m0 & H & Hm0).
  rewrite <- Hm0. clear Hm0.
  destruct (is_not_None rt || is_not_None gt || is_not_None cls ||
            is_not_None inst) eqn:Hsupplied.
  2:{ destruct rt, gt, cls, inst; try discriminate.
      injection H as <-. cbn. now rewrite !andb_true_r. }
  destruct (_get_volumetric_roi_reference_items g)
    as [e | [found [| item items]]]; [discriminate | discriminate |].
  cbn [bind item0 ret] in H |- *.
  set (m1 := match rt with
             | Some reference_type => m0 ++ [_]
             | None => m0
             end) in H.
  assert (Hm1 : all m1 =
                all m0 && opt_passes rt (fun r => found_eq_code found r)).
  { unfold m1. apply all_opt. }
  clearbody m1.
  set (m2 := match gt with
             | Some (inl graphic_type) => _
             | Some (inr graphic_type) => _
             | None => m1
             end) in H.
  assert (Hm2 : all m2 =
                all m1 &&
                opt_passes gt
                  (fun graphic_type =>
                     match graphic_type, payload item with
                     | inl gt2, PScoord found_gt _ =>
                         bool_decide (found_gt = gt2)
                     | inr gt3, PScoord3D found_gt _ _ =>
                         bool_decide (found_gt = gt3)
                     | _, _ => false
                     end)).
  { unfold m2. destruct gt as [[gt2 | gt3] |]; cbn [opt_passes];
      [destruct (payload item); now rewrite all_app
      | destruct (payload item); now rewrite all_app
      | now rewrite andb_true_r]. }
  clearbody m2.
  destruct (is_not_None inst || is_not_None cls) eqn:Huids.
  2:{ injection H as <-. rewrite Hm2, Hm1. now rewrite andb_true_r. }
  apply bind_inr in H as (mu0 & Hmu0 & H).
  apply bind_inr in H as (mu1 & Hmu1 & H).
  apply bind_inr in H as (mu2 & Hmu2 & [= <-]).
  rewrite all_app, Hm2, Hm1. f_equal.
  apply direct_step in Hmu0.
  apply contains_step in Hmu2.
  assert (Hmu1' : mu1 = mu0 ||
                  (found_eq_code found codes.ImageRegion &&
                   existsb
                     (fun ref_item =>
                        vt_eqb (value_type ref_item) SCOORD &&
                        holds (_contains_image_items ref_item None cls inst
                                 (Some SELECTED_FROM)))
                     (item :: items))).
  { destruct (found_eq_code found codes.ImageRegion); cbn [andb];
      [| injection Hmu1 as <-; now rewrite orb_false_r].
    now apply image_regions_loop_spec in Hmu1. }
  now rewrite Hmu2, Hmu1', Hmu0.
Qed.

(** On a group with child content the test of the kind returns. *)
Lemma volumetric_candidate_returns (g : ContentItem) :
  is_measurement_group g -> has_ContentSequence g = true ->
  volumetric_candidate g = inr (is_volumetric_group g).
Proof.
  intros Hg Hhas. unfold is_volumetric_group, volumetric_candidate.
  destruct (template_id g) eqn:Htid; [reflexivity |].
  destruct (_contains_rois_return g Hg Hhas) as (b1 & b2 & _ & ->).
  reflexivity.
Qed.

(** Without a filter on the ROI reference, the tests of a group with
    child content return: they search its direct children only. *)
Lemma volumetric_group_matches_basic (f : volumetric_kw.args)
    (g : ContentItem) :
  volumetric_reference_filters_supplied f = false ->
  has_ContentSequence g = true ->
  exists m, volumetric_group_matches f g = inr m.
Proof.
  destruct f as [tu ft fs rt gt inst cls].
  unfold volumetric_reference_filters_supplied, volumetric_group_matches.
  cbn [volumetric_kw.tracking_uid volumetric_kw.finding_type
       volumetric_kw.finding_site volumetric_kw.reference_type
       volumetric_kw.graphic_type volumetric_kw.referenced_sop_instance_uid
       volumetric_kw.referenced_sop_class_uid].
  intros -> Hhas.
  unfold _contains_code_items, _contains_uidref_items.
  destruct ft, fs, tu; rewrite ?find_content_items_flat, ?Hhas;
    cbn [bind ret]; eexists; reflexivity.
Qed.

Lemma volumetric_check_arguments_basic (f : volumetric_kw.args) :
  volumetric_reference_filters_supplied f = false ->
  volumetric_check_arguments f = inr tt.
Proof.
  destruct f as [tu ft fs rt gt inst cls].
  unfold volumetric_reference_filters_supplied, volumetric_check_arguments.
  simpl. destruct rt, gt; try discriminate. reflexivity.
Qed.

(** The loop of the volumetric getter keeps the groups that are of the
    requested kind and pass the filters, in order. *)
Lemma volumetric_loop_spec (f : volumetric_kw.args)
    (groups : list ContentItem) :
  Forall is_measurement_group groups ->
  forall sequences,
    volumetric_loop f groups = inr sequences ->
    sequences =
    map view
      (List.filter (fun g => is_volumetric_group g && volumetric_passes f g)
         groups).
Proof.
  induction 1 as [| g groups Hg Hgroups IH]; intros sequences Hloop.
  - now injection Hloop as <-.
  - cbn [volumetric_loop] in Hloop. cbn [List.filter].
    unfold is_volumetric_group at 1.
    destruct (volumetric_candidate g) as [e | b]; [discriminate |].
    cbn [bind] in Hloop. destruct b; cbn [negb andb] in Hloop |- *.
    2:{ now apply IH. }
    apply bind_inr in Hloop as (m & Hm & Hloop).
    rewrite empty_or_all, (volumetric_group_matches_all f g m Hm) in Hloop.
    destruct (volumetric_passes f g); [| now apply IH].
    unfold VolumetricROIMeasurementsAndQualitativeEvaluations.from_sequence
      in Hloop.
    rewrite (from_sequence_group g Hg) in Hloop. cbn [bind] in Hloop.
    apply bind_inr in Hloop as (rest & Hrest & [= <-]).
    cbn [map]. now rewrite (IH rest Hrest).
Qed.

(** Without a filter on the ROI reference, the loop returns on groups
    that all have child content. *)
Lemma volumetric_loop_returns (f : volumetric_kw.args)
    (groups : list ContentItem) :
  volumetric_reference_filters_supplied f = false ->
  Forall is_measurement_group groups ->
  Forall (fun g => has_ContentSequence g = true) groups ->
  returns (volumetric_loop f groups).
Proof.
  intros Hbasic. induction 1 as [| g groups Hg Hgroups IH];
    intros Hall; [eexists; reflexivity |].
  inversion Hall as [| ? ? Hhas Hrest]; subst.
  destruct (IH Hrest) as [sequences Hsequences].
  cbn [volumetric_loop].
  rewrite (volumetric_candidate_returns g Hg Hhas). cbn [bind].
  destruct (is_volumetric_group g); cbn [negb]; [| eauto].
  destruct (volumetric_group_matches_basic f g Hbasic Hhas) as [m ->].
  cbn [bind]. destruct ((length m =? 0) || all m); [| eauto].
  unfold VolumetricROIMeasurementsAndQualitativeEvaluations.from_sequence.
  rewrite (from_sequence_group g Hg), Hsequences.
  eexists; reflexivity.
Qed.

(** X27. Whenever [get_volumetric_roi_measurement_groups] returns, the
    sequences returned are exactly the measurement groups of the
    volumetric kind (tagged 1411, or classified as volumetric when
    untagged) that pass every supplied filter, in document order, an
    absent filter being passed by every group.  It returns when none
    of the filters on the ROI reference (reference type, graphic type,
    referenced SOP UIDs) is supplied, on a report whose root item, the
    "Imaging Measurements" containers among its children and the
    measurement groups all have a [ContentSequence]: the searches of
    the direct children, which raise [AttributeError] on an item
    without one, are the only calls that can then fail. *)
Theorem volumetric_getter_filters_by_conjunction (self : ContentSeq)
    (f : volumetric_kw.args) :
  (forall sequences,
     get_volumetric_roi_measurement_groups self f = inr sequences ->
     sequences =
     map view
       (List.filter (fun g => is_volumetric_group g && volumetric_passes f g)
          (measurement_groups self))) /\
  (forall root rest,
     self = root :: rest ->
     has_ContentSequence root = true ->
     (forall im,
        In im (children root) ->
        named codes.ImagingMeasurements CONTAINER im = true ->
        has_ContentSequence im = true) ->
     Forall (fun g => has_ContentSequence g = true)
       (measurement_groups self) ->
     volumetric_reference_filters_supplied f = false ->
     get_volumetric_roi_measurement_groups self f =
     inr (map view
            (List.filter
               (fun g => is_volumetric_group g && volumetric_passes f g)
               (measurement_groups self)))).
Proof.
  unfold get_volumetric_roi_measurement_groups. split.
  - intros sequences H.
    apply bind_inr in H as (u & _ & H).
    apply bind_inr in H as (groups & Hgroups & H).
    unfold measurement_groups. rewrite Hgroups.
    apply (volumetric_loop_spec f groups
             (_find_measurement_groups_groups self groups Hgroups)).
    exact H.
  - intros root rest -> Hroot Hims Hall Hbasic.
    rewrite (volumetric_check_arguments_basic f Hbasic). cbn [bind].
    rewrite (_find_measurement_groups_returns root rest Hroot Hims).
    cbn [bind].
    destruct (volumetric_loop_returns f _ Hbasic
                (measurement_groups_groups (root :: rest)) Hall)
      as [sequences Hsequences].
    rewrite Hsequences. f_equal.
    apply (volumetric_loop_spec f _
             (measurement_groups_groups (root :: rest))).
    exact Hsequences.
Qed.

Lemma volumetric_getter_filters_by_conjunction_witness :
  get_volumetric_roi_measurement_groups mixed_report neoplasm_filter =
  inr [view volumetric_1].
Proof.
  eapply (proj2 (volumetric_getter_filters_by_conjunction mixed_report
                   neoplasm_filter)).
  - reflexivity.
  - reflexivity.
  - intros im Him _. vm_compute in Him.
    destruct Him as [<- | []]. reflexivity.
  - vm_compute. repeat constructor.
  - reflexivity.
Defined.

End VolumetricGetter.

(** ** Reports built by the constructor *)

Section ConstructedReports.
Import sr templates spec vocabulary.
Import MeasurementReport.

Variable Image : Type.
Variable ImageLibrary : list Image -> result ContentSeq.

Lemma fold_left_append {A B : Type} (f : B -> list A) (l : list B) :
  forall acc,
    fold_left (fun acc x => acc ++ f x) l acc = acc ++ concat (map f l).
Proof.
  induction l as [| x l IH]; intros acc; cbn [fold_left map concat].
  - now rewrite app_nil_r.
  - now rewrite IH, app_assoc.
Qed.

Lemma concat_map_view (gs : list ContentItem) : concat (map view gs) = gs.
Proof.
  induction gs as [| g gs IH]; [reflexivity |].
  cbn [map concat view app]. now rewrite IH.
Qed.

(** The root content of a report: the language items, the observation
    context, the procedures reported, the image library and the
    "Imaging Measurements" container of the groups, in this order. *)
Lemma MeasurementReport_init_content (observation_context : ContentSeq)
    (procedure_reported : CodedConcept + list CodedConcept)
    (measurements : ContentSeq) (imaging_measurements : list ContentSeq)
    (title : option CodedConcept) (language : option ContentSeq)
    (referenced_images : option (list Image)) (library : ContentSeq) :
  library_items ImageLibrary referenced_images = inr library ->
  init Image ImageLibrary observation_context procedure_reported
    (Some (measurements :: imaging_measurements)) title language
    referenced_images =
  inr [report_root title
         (language_items language ++ observation_context ++
          procedure_items procedure_reported ++ library ++
          [imaging_measurements_container
             (concat (measurements :: imaging_measurements))])].
Proof.
  intros Hlib. unfold init, report_root, imaging_measurements_container,
    procedure_items, language_items.
  cbv zeta. cbn [app].
  rewrite (fold_left_append
             (fun procedure =>
                [CodeContentItem codes.ProcedureReported procedure
                   HAS_CONCEPT_MOD])).
  rewrite (fold_left_append (fun measurements : ContentSeq => measurements)).
  rewrite map_id. cbn [app].
  assert (Hflat : forall l : list CodedConcept,
            concat (map (fun procedure =>
                           [CodeContentItem codes.ProcedureReported procedure
                              HAS_CONCEPT_MOD]) l) =
            map (fun procedure =>
                   CodeContentItem codes.ProcedureReported procedure
                     HAS_CONCEPT_MOD) l).
  { induction l as [| x l IH]; [reflexivity |].
    cbn [map concat app]. now rewrite IH. }
  rewrite Hflat.
  unfold library_items in Hlib.
  destruct referenced_images as [[| image images] |].
  - injection Hlib as <-. cbn [bind ret length Nat.eqb].
    now rewrite <- !app_assoc.
  - rewrite Hlib. cbn [bind ret length Nat.eqb].
    now rewrite <- !app_assoc.
  - injection Hlib as <-. cbn [bind ret length Nat.eqb].
    now rewrite <- !app_assoc.
Qed.

(** X28. The constructor of a report requires measurement groups:
    once the image library of the referenced images is built, it raises
    [TypeError] when [imaging_measurements] is [None] and [ValueError]
    when it is an empty list, and fails in no other way; when the image
    library raises, the constructor raises its exception. *)
Theorem MeasurementReport_init_requires_measurements
    (observation_context : ContentSeq)
    (procedure_reported : CodedConcept + list CodedConcept)
    (imaging_measurements : option (list ContentSeq))
    (title : option CodedConcept) (language : option ContentSeq)
    (referenced_images : option (list Image)) :
  let report :=
    init Image ImageLibrary observation_context procedure_reported
      imaging_measurements title language referenced_images in
  match library_items ImageLibrary referenced_images with
  | inl e => report = inl e
  | inr _ =>
      match imaging_measurements with
      | None => is_TypeError report
      | Some [] => is_ValueError report
      | Some (_ :: _) => returns report
      end
  end.
Proof.
  cbv zeta.
  destruct (library_items ImageLibrary referenced_images) as [e | library]
    eqn:Hlib.
  - unfold library_items in Hlib.
    destruct referenced_images as [[| image images] |]; try discriminate.
    unfold init. cbv zeta. rewrite Hlib. reflexivity.
  - destruct imaging_measurements as [[| measurements rest] |].
    + unfold library_items in Hlib. unfold init. cbv zeta.
      destruct referenced_images as [[| image images] |];
        [| rewrite Hlib |]; eexists; reflexivity.
    + rewrite (MeasurementReport_init_content _ _ _ _ _ _ _ _ Hlib).
      eexists; reflexivity.
    + unfold library_items in Hlib. unfold init. cbv zeta.
      destruct referenced_images as [[| image images] |];
        [| rewrite Hlib |]; eexists; reflexivity.
Qed.

Lemma named_imaging_measurements_container (gs : list ContentItem) :
  named codes.ImagingMeasurements CONTAINER
    (imaging_measurements_container gs) = true.
Proof. reflexivity. Qed.

Lemma filter_groups (gs : list ContentItem) :
  Forall is_measurement_group gs ->
  List.filter (named codes.MeasurementGroup CONTAINER) gs = gs.
Proof.
  induction 1 as [| g gs [Hv Hn] _ IH]; [reflexivity |].
  cbn [List.filter]. unfold named at 1. rewrite Hn, Hv. cbn. now rewrite IH.
Qed.

(** X29. A report built by the constructor reads back: it is accepted
    by [from_sequence], and the measurement groups that
    [_find_measurement_groups] finds in it are the groups given to the
    constructor, in their order, provided that none of the language
    items, of the items of the observation context and of the image
    library is itself an "Imaging Measurements" container. *)
Theorem constructed_report_reads_back (observation_context : ContentSeq)
    (procedure_reported : CodedConcept + list CodedConcept)
    (g : ContentItem) (gs : list ContentItem)
    (title : option CodedConcept) (language : option ContentSeq)
    (referenced_images : option (list Image)) (library : ContentSeq) :
  library_items ImageLibrary referenced_images = inr library ->
  Forall is_measurement_group (g :: gs) ->
  (forall i,
     In i (language_items language ++ observation_context ++ library) ->
     is_imaging_measurements i = false) ->
  exists report,
    init Image ImageLibrary observation_context procedure_reported
      (Some (map view (g :: gs))) title language referenced_images =
    inr report /\
    from_sequence report = inr report /\
    _find_measurement_groups report = inr (g :: gs).
Proof.
  intros Hlib Hgroups Hothers. eexists. split; [| split].
  - cbn [map]. apply (MeasurementReport_init_content _ _ _ _ _ _ _ _ Hlib).
  - reflexivity.
  - unfold _find_measurement_groups. cbn [item0 bind ret].
    rewrite find_named. unfold report_root, children, has_ContentSequence.
    cbn [set_ContentSequence ContainerContentItem ContentSequence bind].
    assert (Hfirst :
      List.filter (named codes.ImagingMeasurements CONTAINER)
        (language_items language ++ observation_context ++
         procedure_items procedure_reported ++ library ++
         [imaging_measurements_container
            (concat (view g :: map view gs))]) =
      [imaging_measurements_container (concat (view g :: map view gs))]).
    { rewrite !app_assoc.
      rewrite filter_first; [reflexivity | | reflexivity].
      intros x Hx. rewrite <- !app_assoc in Hx.
      apply in_app_iff in Hx as [Hx | Hx];
        [apply Hothers; apply in_app_iff; now left |].
      apply in_app_iff in Hx as [Hx | Hx];
        [apply Hothers; apply in_app_iff; right; apply in_app_iff;
         now left |].
      apply in_app_iff in Hx as [Hx | Hx];
        [| apply Hothers; apply in_app_iff; right; apply in_app_iff;
           now right].
      unfold procedure_items in Hx. apply in_map_iff in Hx as (p & <- & _).
      reflexivity. }
    rewrite Hfirst. cbn [length Nat.eqb item0 bind ret].
    rewrite find_named.
    unfold imaging_measurements_container, children, has_ContentSequence.
    cbn [set_ContentSequence ContainerContentItem ContentSequence].
    change (view g :: map view gs) with (map view (g :: gs)).
    rewrite concat_map_view. now rewrite (filter_groups _ Hgroups).
Qed.

Lemma marker_matches_single (marker : CodedConcept) (item : ContentItem)
    (pre post : list ContentItem) :
  (forall x, In x pre -> code_eqb (name x) marker = false) ->
  code_eqb (name item) marker = true ->
  (forall x, In x post -> code_eqb (name x) marker = false) ->
  marker_matches marker (pre ++ item :: post) =
  [((Z.of_nat (length pre) + 1)%Z, item)].
Proof.
  unfold marker_matches. generalize 1%Z as k.
  assert (Hnone : forall l k,
            (forall x, In x l -> code_eqb (name x) marker = false) ->
            List.filter (fun m : Z * ContentItem =>
                           code_eqb (name (snd m)) marker)
              (enumerate k l) = []).
  { induction l as [| x l IH]; intros k Hl; [reflexivity |].
    cbn [enumerate List.filter snd].
    rewrite (Hl x (or_introl eq_refl)). apply IH.
    intros y Hy. apply Hl. now right. }
  induction pre as [| x pre IH]; intros k Hpre Hitem Hpost.
  - cbn [app enumerate List.filter snd length]. rewrite Hitem.
    rewrite (Hnone _ _ Hpost). f_equal; f_equal; lia.
  - cbn [app enumerate List.filter snd length].
    rewrite (Hpre x (or_introl eq_refl)).
    rewrite (IH (k + 1)%Z (fun y Hy => Hpre y (or_intror Hy)) Hitem Hpost).
    f_equal; f_equal; lia.
Qed.

Lemma collect_kwargs_passed_over (attr_codes : list (string * CodedConcept))
    (seq : list ContentItem) :
  (forall x, In x seq -> code_in (name x) (map snd attr_codes) = false) ->
  forall kw, collect_kwargs attr_codes seq kw = inr kw.
Proof.
  assert (Hitem : forall x,
            code_in (name x) (map snd attr_codes) = false ->
            forall kw, collect_item attr_codes x kw = inr kw).
  { intros x. induction attr_codes as [| [p n] attr IH]; intros Hx kw;
      [reflexivity |].
    unfold code_in in Hx, IH. cbn [map snd existsb] in Hx.
    apply orb_false_iff in Hx as [Hn Hx].
    cbn [collect_item]. rewrite Hn. now apply IH. }
  induction seq as [| x seq IH]; intros Hseq kw; [reflexivity |].
  cbn [collect_kwargs]. rewrite (Hitem x (Hseq x (or_introl eq_refl))).
  cbn [bind]. apply IH. intros y Hy. apply Hseq. now right.
Qed.

Lemma passed_over_spec (attr_codes : list (string * CodedConcept))
    (marker : CodedConcept) (i : ContentItem) :
  passed_over attr_codes marker i = true ->
  code_eqb (name i) marker = false /\
  code_in (name i) (map snd attr_codes) = false.
Proof.
  unfold passed_over. intros H. apply andb_true_iff in H as [H1 H2].
  now rewrite negb_true_iff in H1, H2.
Qed.

(** X30. The observer of a report built by the constructors reads
    back: on the report of an observation context made of a person
    observer and, possibly, a subject context, [get_observer_contexts]
    returns one observer context, of type Person, whose attributes are
    those given to the constructor of
    [PersonObserverIdentifyingAttributes].  The slice taken for the
    last marker stops before the final item of the root content, which
    in a constructed report is the "Imaging Measurements" container.
    The language items and the items of the subject context are to
    bear none of the concept names of the observer template. *)
Theorem constructed_report_observer_reads_back
    (name : string) (login_name organization_name : option string)
    (role_in_organization role_in_procedure : option CodedConcept)
    (subject_context : option ContentSeq)
    (procedure_reported : CodedConcept + list CodedConcept)
    (g : ContentSeq) (gs : list ContentSeq)
    (title : option CodedConcept) (language : option ContentSeq) :
  (forall i,
     In i (language_items language ++
           opt_items subject_context (fun items => items)) ->
     passed_over_by_observer i = true) ->
  exists observer report,
    ObserverContext.init codes.Person
      (PersonAttributes
         (PersonObserverIdentifyingAttributes.init name login_name
            organization_name role_in_organization role_in_procedure)) =
    inr observer /\
    init Image ImageLibrary
      (ObservationContext.init (Some observer) None subject_context)
      procedure_reported (Some (g :: gs)) title language None =
    inr report /\
    get_observer_contexts report None =
    inr [mkContext (IVCode codes.Person) PersonObserver
           (person_kwargs name login_name organization_name
              role_in_organization role_in_procedure)].
Proof.
  intros Hothers.
  set (person := PersonObserverIdentifyingAttributes.init name login_name
                   organization_name role_in_organization role_in_procedure).
  set (marker := CodeContentItem (mkCode "121005" "DCM" "Observer Type")
                   codes.Person HAS_OBS_CONTEXT).
  exists (marker :: person). eexists. split; [reflexivity |].
  split;
    [apply (MeasurementReport_init_content _ _ _ _ _ _ None []);
     reflexivity |].
  unfold get_observer_contexts, report_root.
  cbn [item0 bind ret get_ContentSequence set_ContentSequence
       ContainerContentItem ContentSequence].
  set (container := imaging_measurements_container _).
  set (subject := opt_items subject_context (fun items => items)) in *.
  set (tail := person ++ subject ++ procedure_items procedure_reported).
  match goal with
  | |- observer_loop ?content _ _ = _ =>
      assert (Hcontent :
        content = language_items language ++ marker :: (tail ++ [container]))
  end.
  { unfold ObservationContext.init, tail, subject, opt_items.
    destruct subject_context; cbn [app];
      rewrite <- ?app_assoc; reflexivity. }
  rewrite Hcontent. clear Hcontent.
  assert (Hperson : forall x, In x person ->
            passed_over [] codes.ObserverType x = true).
  { unfold person, PersonObserverIdentifyingAttributes.init.
    destruct login_name, organization_name, role_in_organization,
      role_in_procedure; cbn [app];
      intros x Hx; repeat (destruct Hx as [<- | Hx]; [reflexivity |]);
      destruct Hx. }
  assert (Hprocedures : forall x,
            In x (procedure_items procedure_reported) ->
            passed_over_by_observer x = true).
  { intros x Hx. unfold procedure_items in Hx.
    apply in_map_iff in Hx as (p & <- & _). reflexivity. }
  rewrite marker_matches_single; [| | reflexivity |].
  2:{ intros x Hx.
      apply (passed_over_spec _ _ _
               (Hothers x (proj2 (in_app_iff _ _ _) (or_introl Hx)))). }
  2:{ intros x Hx. apply in_app_iff in Hx as [Hx | [<- | []]];
        [| reflexivity].
      unfold tail in Hx.
      apply in_app_iff in Hx as [Hx | Hx];
        [apply (passed_over_spec _ _ _ (Hperson x Hx)) |].
      apply in_app_iff in Hx as [Hx | Hx];
        [apply (passed_over_spec _ _ _
                  (Hothers x (proj2 (in_app_iff _ _ _) (or_intror Hx))))
        | apply (passed_over_spec _ _ _ (Hprocedures x Hx))]. }
  cbn [observer_loop]. change (item_value marker) with
    (inr (IVCode codes.Person) : result ItemValue).
  cbn [bind ret].
  change (value_eq_code (IVCode codes.Person) codes.Device) with false.
  change (value_eq_code (IVCode codes.Person) codes.Person) with true.
  cbv iota.
  rewrite context_slice_last by lia.
  replace (Z.to_nat (Z.of_nat (length (language_items language)) + 1))
    with (1 + length (language_items language)) by lia.
  rewrite <- skipn_skipn, skipn_app, skipn_all, Nat.sub_diag.
  cbn [skipn app]. change (skipn 0 (tail ++ [container]))
    with (tail ++ [container]). rewrite removelast_last.
  unfold PersonObserverIdentifyingAttributes.from_sequence, tail.
  rewrite collect_kwargs_app.
  assert (Hround : collect_kwargs PersonObserverIdentifyingAttributes.attr_codes
                     person ∅ =
                   inr (person_kwargs name login_name organization_name
                          role_in_organization role_in_procedure)).
  { unfold person. destruct login_name, organization_name,
      role_in_organization, role_in_procedure; reflexivity. }
  rewrite Hround. cbn [bind].
  rewrite collect_kwargs_passed_over.
  2:{ intros x Hx. apply in_app_iff in Hx as [Hx | Hx].
      - apply (passed_over_spec _ _ _
                 (Hothers x (proj2 (in_app_iff _ _ _) (or_intror Hx)))).
      - apply (passed_over_spec _ _ _ (Hprocedures x Hx)). }
  cbn [bind].
  assert (Hname : person_kwargs name login_name organization_name
                    role_in_organization role_in_procedure !! "name" =
                  Some (IVStr name)).
  { destruct login_name, organization_name, role_in_organization,
      role_in_procedure; reflexivity. }
  cbn [call_with_kwargs]. rewrite Hname. reflexivity.
Qed.

End ConstructedReports.

Section ConstructedReportsExamples.
Import sr templates spec vocabulary.
Import MeasurementReport.

Lemma constructed_report_reads_back_witness :
  exists report,
    init unit no_library
      [examples.observer_type_person; examples.person_observer_name]
      (inl chest_ct) (Some (map view [examples.planar_1; examples.planar_2]))
      None None None = inr report /\
    from_sequence report = inr report /\
    _find_measurement_groups report =
    inr [examples.planar_1; examples.planar_2].
Proof.
  apply (constructed_report_reads_back unit no_library
           [examples.observer_type_person; examples.person_observer_name]
           (inl chest_ct) examples.planar_1 [examples.planar_2] None None
           None []).
  - reflexivity.
  - repeat constructor.
  - intros i [<- | [<- | [<- | []]]]; reflexivity.
Defined.

Lemma constructed_report_observer_reads_back_witness :
  exists observer report,
    ObserverContext.init codes.Person
      (PersonAttributes
         (PersonObserverIdentifyingAttributes.init "Doe^John" (Some "jdoe")
            None None None)) = inr observer /\
    init unit no_library
      (ObservationContext.init (Some observer) None (Some fetus_context))
      (inl chest_ct) (Some [view examples.planar_1]) None None None =
    inr report /\
    get_observer_contexts report None =
    inr [mkContext (IVCode codes.Person) PersonObserver
           (person_kwargs "Doe^John" (Some "jdoe") None None None)].
Proof.
  apply (constructed_report_observer_reads_back unit no_library "Doe^John"
           (Some "jdoe") None None None (Some fetus_context) (inl chest_ct)
           (view examples.planar_1) [] None None).
  intros i [<- | [<- | [<- | []]]]; reflexivity.
Defined.

End ConstructedReportsExamples.
